(** * nfqueue-mnl: netfilter queue over libmnl

    A shallow embedding of [nfqueue-mnl.h]: the command encoder
    ([nfqueue_put_header], [nfqueue_send_command], [nfqueue_set_params],
    [nfqueue_send_verdict_connmark]), the attribute callbacks, the packet
    assembler ([read_ip_addr], [read_addr_tuple], [nfqueue_parse]) and the
    iteration loop ([nfqueue_next]).

    Integers are [Z] with the C conversions written out; memory is
    [list byte]; the libmnl primitives the header calls are embedded after
    libmnl's own sources ([nlmsg.c], [attr.c]); the numeric constants are
    those of the Linux UAPI headers the file includes. *)

From Stdlib.Strings Require Import String Byte.
From Stdlib Require Import ZArith List Bool Lia.
Import ListNotations.
Local Open Scope Z_scope.

(** ** Bytes and fixed-width integers *)

Definition byte_to_Z (b : byte) : Z := Z.of_N (Byte.to_N b).

Definition byte_of_Z (z : Z) : byte :=
  match Byte.of_N (Z.to_N (z mod 256)) with
  | Some b => b
  | None => x00
  end.

(** Conversions to the C integer types (modular, two's complement). *)
Definition to_u16 (z : Z) : Z := z mod 2 ^ 16.
Definition to_u32 (z : Z) : Z := z mod 2 ^ 32.
Definition to_u64 (z : Z) : Z := z mod 2 ^ 64.
Definition to_size_t (z : Z) : Z := z mod 2 ^ 64.
Definition to_int (z : Z) : Z := (z + 2 ^ 31) mod 2 ^ 32 - 2 ^ 31.
Definition to_i64 (z : Z) : Z := (z + 2 ^ 63) mod 2 ^ 64 - 2 ^ 63.

(** Little- and big-endian images of an integer in [n] bytes. *)
Fixpoint le_encode (n : nat) (z : Z) : list byte :=
  match n with
  | O => []
  | S k => byte_of_Z z :: le_encode k (z / 256)
  end.

Fixpoint le_decode (bs : list byte) : Z :=
  match bs with
  | [] => 0
  | b :: r => byte_to_Z b + 256 * le_decode r
  end.

Definition be_encode (n : nat) (z : Z) : list byte := rev (le_encode n z).
Definition be_decode (bs : list byte) : Z := le_decode (rev bs).

Inductive endianness := LittleEndian | BigEndian.

(** Memory writes: [store off bs mem] is [mem] with [bs] copied at byte offset
    [off].  A write past the end first fills the gap with zero bytes; the code
    never does that. *)
Definition store (off : nat) (bs mem : list byte) : list byte :=
  firstn off mem ++ repeat x00 (off - length mem) ++ bs
    ++ skipn (off + length bs) mem.

Definition slice (off len : nat) (mem : list byte) : list byte :=
  firstn len (skipn off mem).

(** ** libmnl alignment *)

(** [MNL_ALIGN(len) = (len + MNL_ALIGNTO - 1) & ~(MNL_ALIGNTO - 1)], at the
    width [w] of the operand's C type. *)
Definition MNL_ALIGNTO : Z := 4.
Definition MNL_ALIGN_w (w : Z) (len : Z) : Z :=
  Z.land ((len + MNL_ALIGNTO - 1) mod 2 ^ w) (Z.lnot (MNL_ALIGNTO - 1)).
Definition MNL_ALIGN (len : Z) : Z :=
  Z.land (len + MNL_ALIGNTO - 1) (Z.lnot (MNL_ALIGNTO - 1)).

Definition sizeof_nlmsghdr : Z := 16.
Definition sizeof_nfgenmsg : Z := 4.
Definition sizeof_nlattr : Z := 4.
Definition MNL_NLMSG_HDRLEN : Z := MNL_ALIGN sizeof_nlmsghdr.
Definition MNL_ATTR_HDRLEN : Z := MNL_ALIGN sizeof_nlattr.

(** ** Constants of the included headers

    Enumerators of [linux/netlink.h], [linux/netfilter/nfnetlink.h],
    [linux/netfilter/nfnetlink_queue.h], [linux/netfilter/nfnetlink_conntrack.h],
    [libmnl/libmnl.h], [errno.h], [syslog.h] and [sys/socket.h].  They are
    kernel ABI; the [*_MAX] bounds, which grow with the kernel version, are
    parameters of the development below. *)

Definition NLM_F_REQUEST : Z := 0x01.
Definition NLM_F_DUMP_INTR : Z := 0x10.
Definition NLMSG_MIN_TYPE : Z := 0x10.
Definition NLA_F_NESTED : Z := 0x8000.
Definition NLA_F_NET_BYTEORDER : Z := 0x4000.
Definition NLA_TYPE_MASK : Z := Z.lnot (Z.lor NLA_F_NESTED NLA_F_NET_BYTEORDER).

Definition NFNL_SUBSYS_QUEUE : Z := 3.
Definition NFNETLINK_V0 : Z := 0.
Definition AF_UNSPEC : Z := 0.
Definition AF_INET : Z := 2.
Definition AF_INET6 : Z := 10.

Definition NFQNL_MSG_PACKET : Z := 0.
Definition NFQNL_MSG_VERDICT : Z := 1.
Definition NFQNL_MSG_CONFIG : Z := 2.
Definition NFQNL_CFG_CMD_BIND : Z := 1.
Definition NFQNL_COPY_PACKET : Z := 2.
Definition NFQA_CFG_F_CONNTRACK : Z := 2.
Definition NF_DROP : Z := 0.
Definition NF_ACCEPT : Z := 1.

Definition NFQA_CFG_CMD : Z := 1.
Definition NFQA_CFG_PARAMS : Z := 2.
Definition NFQA_CFG_QUEUE_MAXLEN : Z := 3.
Definition NFQA_CFG_MASK : Z := 4.
Definition NFQA_CFG_FLAGS : Z := 5.

Definition NFQA_PACKET_HDR : Z := 1.
Definition NFQA_VERDICT_HDR : Z := 2.
Definition NFQA_MARK : Z := 3.
Definition NFQA_TIMESTAMP : Z := 4.
Definition NFQA_IFINDEX_INDEV : Z := 5.
Definition NFQA_IFINDEX_OUTDEV : Z := 6.
Definition NFQA_IFINDEX_PHYSINDEV : Z := 7.
Definition NFQA_IFINDEX_PHYSOUTDEV : Z := 8.
Definition NFQA_HWADDR : Z := 9.
Definition NFQA_PAYLOAD : Z := 10.
Definition NFQA_CT : Z := 11.
Definition NFQA_CT_INFO : Z := 12.
Definition NFQA_CAP_LEN : Z := 13.
Definition NFQA_SKB_INFO : Z := 14.
Definition NFQA_EXP : Z := 15.
Definition NFQA_UID : Z := 16.
Definition NFQA_GID : Z := 17.
Definition NFQA_SECCTX : Z := 18.

Definition CTA_TUPLE_ORIG : Z := 1.
Definition CTA_TUPLE_REPLY : Z := 2.
Definition CTA_STATUS : Z := 3.
Definition CTA_TIMEOUT : Z := 7.
Definition CTA_MARK : Z := 8.
Definition CTA_COUNTERS_ORIG : Z := 9.
Definition CTA_COUNTERS_REPLY : Z := 10.
Definition CTA_ID : Z := 12.
Definition CTA_SECMARK : Z := 17.

Definition CTA_TUPLE_IP : Z := 1.
Definition CTA_TUPLE_PROTO : Z := 2.

Definition CTA_IP_V4_SRC : Z := 1.
Definition CTA_IP_V4_DST : Z := 2.
Definition CTA_IP_V6_SRC : Z := 3.
Definition CTA_IP_V6_DST : Z := 4.

Definition CTA_PROTO_NUM : Z := 1.
Definition CTA_PROTO_SRC_PORT : Z := 2.
Definition CTA_PROTO_DST_PORT : Z := 3.
Definition CTA_PROTO_ICMP_ID : Z := 4.
Definition CTA_PROTO_ICMP_TYPE : Z := 5.
Definition CTA_PROTO_ICMP_CODE : Z := 6.

Definition MNL_CB_ERROR : Z := -1.
Definition MNL_CB_STOP : Z := 0.
Definition MNL_CB_OK : Z := 1.

Definition MNL_TYPE_UNSPEC : Z := 0.
Definition MNL_TYPE_U8 : Z := 1.
Definition MNL_TYPE_U16 : Z := 2.
Definition MNL_TYPE_U32 : Z := 3.
Definition MNL_TYPE_U64 : Z := 4.
Definition MNL_TYPE_STRING : Z := 5.
Definition MNL_TYPE_FLAG : Z := 6.
Definition MNL_TYPE_MSECS : Z := 7.
Definition MNL_TYPE_NESTED : Z := 8.
Definition MNL_TYPE_NESTED_COMPAT : Z := 9.
Definition MNL_TYPE_NUL_STRING : Z := 10.
Definition MNL_TYPE_BINARY : Z := 11.
Definition MNL_TYPE_MAX : Z := 12.

Definition EINVAL : Z := 22.
Definition ERANGE : Z := 34.
Definition EOPNOTSUPP : Z := 95.
Definition ENOBUFS : Z := 105.

Definition LOG_CRIT : Z := 2.
Definition LOG_ERR : Z := 3.
Definition LOG_WARNING : Z := 4.
Definition LOG_DEBUG : Z := 7.

(** Sizes of the packed wire structures. *)
Definition sizeof_nfqnl_msg_packet_hdr : Z := 7.
Definition sizeof_nfqnl_msg_packet_hw : Z := 12.
Definition sizeof_nfqnl_msg_packet_timestamp : Z := 16.
Definition sizeof_nfqnl_msg_config_cmd : Z := 4.
Definition sizeof_nfqnl_msg_config_params : Z := 5.
Definition sizeof_nfqnl_msg_verdict_hdr : Z := 8.
Definition sizeof_in6_addr : Z := 16.

(** ** Enums and object definitions *)

(** ip_version *)
Definition IPV4 : Z := 4.
Definition IPV6 : Z := 6.

(** I/O result *)
Definition IO_ERROR : Z := -1.
Definition IO_NOTREADY : Z := 0.
Definition IO_READY : Z := 1.

Definition BUF_TOO_SHORT : Z := -42.

(** [struct timeval] and [struct timespec] (the C field names of the latter are
    [tv_sec] and [tv_nsec]). *)
Record timeval := { tv_sec : Z; tv_usec : Z }.
Record timespec := { ts_sec : Z; ts_nsec : Z }.

(** [ip_address_t] is a packed 16-byte union; it is kept as its memory image. *)
Definition ip_address_t := list byte.
Definition ip_zero : ip_address_t := repeat x00 16.

Record ip_tuple := {
  ip_version : Z;
  src : ip_address_t;
  dst : ip_address_t;
  src_port : Z;
  dst_port : Z
}.

(** [struct nf_packet].  [payload] is the address of the heap block holding the
    copy of the payload, [0] for [NULL]. *)
Record nf_packet := {
  queue_num : Z;
  packet_id : Z;
  hw_protocol : Z;
  payload_len : Z;
  payload : Z;
  has_timestamp : bool;
  timestamp : timeval;
  wall_time : timespec;
  mono_time : timespec;
  has_conntrack : bool;
  has_connmark : bool;
  conn_id : Z;
  conn_mark : Z;
  conn_state : Z;
  conn_status : Z;
  orig : ip_tuple;
  reply : ip_tuple
}.

(** [struct nf_queue]: [nl_socket] is the socket pointer, [0] for [NULL]. *)
Record nf_queue := { q_queue_num : Z; nl_socket : Z }.

(** [struct nf_buffer]: [data] is the content of the receive region ([None] for
    a [NULL] pointer), [nlh] the byte offset of the cursor from [data], [len]
    the signed count of bytes left. *)
Record nf_buffer := {
  data : option (list byte);
  nlh : Z;
  len : Z
}.

(** ** The environment

    What the code reads and writes outside its arguments: the two clocks, the
    heap blocks obtained from [malloc], the [static bool done] of the two
    [LOG_ONCE] sites, the diagnostics handed to [LOG] (priority and format
    string), [errno], and the datagrams handed to [mnl_socket_sendto]. *)
Record world := {
  clock_realtime : timespec;
  clock_monotonic_raw : timespec;
  heap : list (Z * list byte);
  next_block : positive;
  warned_timestamp : bool;
  warned_conntrack : bool;
  log : list (Z * string);
  errno : Z;
  sent : list (list byte)
}.

Definition set_errno (e : Z) (w : world) : world :=
  {| clock_realtime := clock_realtime w;
     clock_monotonic_raw := clock_monotonic_raw w;
     heap := heap w; next_block := next_block w;
     warned_timestamp := warned_timestamp w;
     warned_conntrack := warned_conntrack w;
     log := log w; errno := e; sent := sent w |}.

Definition push_sent (m : list byte) (w : world) : world :=
  {| clock_realtime := clock_realtime w;
     clock_monotonic_raw := clock_monotonic_raw w;
     heap := heap w; next_block := next_block w;
     warned_timestamp := warned_timestamp w;
     warned_conntrack := warned_conntrack w;
     log := log w; errno := errno w; sent := sent w ++ [m] |}.

(** [LOG(priority, fmt, ...)]: the diagnostics sink receives the entry. *)
Definition LOG (priority : Z) (fmt : string) (w : world) : world :=
  {| clock_realtime := clock_realtime w;
     clock_monotonic_raw := clock_monotonic_raw w;
     heap := heap w; next_block := next_block w;
     warned_timestamp := warned_timestamp w;
     warned_conntrack := warned_conntrack w;
     log := log w ++ [(priority, fmt)]; errno := errno w; sent := sent w |}.

Definition LOG_SYSERR (fmt : string) (w : world) : world :=
  LOG LOG_ERR (fmt ++ ": %s")%string w.

Definition DEBUG (fmt : string) (w : world) : world := LOG LOG_DEBUG fmt w.

(** The two [LOG_ONCE] sites of [nfqueue_parse]. *)
Definition LOG_ONCE_timestamp (priority : Z) (fmt : string) (w : world) :=
  if warned_timestamp w then w
  else
    let w1 := LOG priority fmt w in
    {| clock_realtime := clock_realtime w1;
       clock_monotonic_raw := clock_monotonic_raw w1;
       heap := heap w1; next_block := next_block w1;
       warned_timestamp := true;
       warned_conntrack := warned_conntrack w1;
       log := log w1; errno := errno w1; sent := sent w1 |}.

Definition LOG_ONCE_conntrack (priority : Z) (fmt : string) (w : world) :=
  if warned_conntrack w then w
  else
    let w1 := LOG priority fmt w in
    {| clock_realtime := clock_realtime w1;
       clock_monotonic_raw := clock_monotonic_raw w1;
       heap := heap w1; next_block := next_block w1;
       warned_timestamp := warned_timestamp w1;
       warned_conntrack := true;
       log := log w1; errno := errno w1; sent := sent w1 |}.

(** [malloc(n)] followed by [memmove(p, bytes, n)]: a fresh, non-null block
    holding [bytes].  Allocation is taken to succeed, so the [ASSERT] that
    follows each [malloc] in the source holds. *)
Definition malloc_copy (bytes : list byte) (w : world) : Z * world :=
  let p := Z.pos (next_block w) in
  (p,
   {| clock_realtime := clock_realtime w;
      clock_monotonic_raw := clock_monotonic_raw w;
      heap := (p, bytes) :: heap w; next_block := Pos.succ (next_block w);
      warned_timestamp := warned_timestamp w;
      warned_conntrack := warned_conntrack w;
      log := log w; errno := errno w; sent := sent w |}).

(** *** Field assignments

    [set_f v p] is [p] after [p->f = v]. *)

Definition set_ip_version (v : Z) (p : ip_tuple) : ip_tuple :=
  {| ip_version := v; src := src p; dst := dst p; src_port := src_port p;
     dst_port := dst_port p |}.

Definition set_src (v : ip_address_t) (p : ip_tuple) : ip_tuple :=
  {| ip_version := ip_version p; src := v; dst := dst p;
     src_port := src_port p; dst_port := dst_port p |}.

Definition set_dst (v : ip_address_t) (p : ip_tuple) : ip_tuple :=
  {| ip_version := ip_version p; src := src p; dst := v;
     src_port := src_port p; dst_port := dst_port p |}.

Definition set_src_port (v : Z) (p : ip_tuple) : ip_tuple :=
  {| ip_version := ip_version p; src := src p; dst := dst p; src_port := v;
     dst_port := dst_port p |}.

Definition set_dst_port (v : Z) (p : ip_tuple) : ip_tuple :=
  {| ip_version := ip_version p; src := src p; dst := dst p;
     src_port := src_port p; dst_port := v |}.

Definition set_queue_num (v : Z) (p : nf_packet) : nf_packet :=
  {| queue_num := v; packet_id := packet_id p; hw_protocol := hw_protocol p;
     payload_len := payload_len p; payload := payload p;
     has_timestamp := has_timestamp p; timestamp := timestamp p;
     wall_time := wall_time p; mono_time := mono_time p;
     has_conntrack := has_conntrack p; has_connmark := has_connmark p;
     conn_id := conn_id p; conn_mark := conn_mark p;
     conn_state := conn_state p; conn_status := conn_status p;
     orig := orig p; reply := reply p |}.

Definition set_packet_id (v : Z) (p : nf_packet) : nf_packet :=
  {| queue_num := queue_num p; packet_id := v; hw_protocol := hw_protocol p;
     payload_len := payload_len p; payload := payload p;
     has_timestamp := has_timestamp p; timestamp := timestamp p;
     wall_time := wall_time p; mono_time := mono_time p;
     has_conntrack := has_conntrack p; has_connmark := has_connmark p;
     conn_id := conn_id p; conn_mark := conn_mark p;
     conn_state := conn_state p; conn_status := conn_status p;
     orig := orig p; reply := reply p |}.

Definition set_hw_protocol (v : Z) (p : nf_packet) : nf_packet :=
  {| queue_num := queue_num p; packet_id := packet_id p; hw_protocol := v;
     payload_len := payload_len p; payload := payload p;
     has_timestamp := has_timestamp p; timestamp := timestamp p;
     wall_time := wall_time p; mono_time := mono_time p;
     has_conntrack := has_conntrack p; has_connmark := has_connmark p;
     conn_id := conn_id p; conn_mark := conn_mark p;
     conn_state := conn_state p; conn_status := conn_status p;
     orig := orig p; reply := reply p |}.

Definition set_payload_len (v : Z) (p : nf_packet) : nf_packet :=
  {| queue_num := queue_num p; packet_id := packet_id p;
     hw_protocol := hw_protocol p; payload_len := v; payload := payload p;
     has_timestamp := has_timestamp p; timestamp := timestamp p;
     wall_time := wall_time p; mono_time := mono_time p;
     has_conntrack := has_conntrack p; has_connmark := has_connmark p;
     conn_id := conn_id p; conn_mark := conn_mark p;
     conn_state := conn_state p; conn_status := conn_status p;
     orig := orig p; reply := reply p |}.

Definition set_payload (v : Z) (p : nf_packet) : nf_packet :=
  {| queue_num := queue_num p; packet_id := packet_id p;
     hw_protocol := hw_protocol p; payload_len := payload_len p;
     payload := v; has_timestamp := has_timestamp p;
     timestamp := timestamp p; wall_time := wall_time p;
     mono_time := mono_time p; has_conntrack := has_conntrack p;
     has_connmark := has_connmark p; conn_id := conn_id p;
     conn_mark := conn_mark p; conn_state := conn_state p;
     conn_status := conn_status p; orig := orig p; reply := reply p |}.

Definition set_has_timestamp (v : bool) (p : nf_packet) : nf_packet :=
  {| queue_num := queue_num p; packet_id := packet_id p;
     hw_protocol := hw_protocol p; payload_len := payload_len p;
     payload := payload p; has_timestamp := v; timestamp := timestamp p;
     wall_time := wall_time p; mono_time := mono_time p;
     has_conntrack := has_conntrack p; has_connmark := has_connmark p;
     conn_id := conn_id p; conn_mark := conn_mark p;
     conn_state := conn_state p; conn_status := conn_status p;
     orig := orig p; reply := reply p |}.

Definition set_timestamp (v : timeval) (p : nf_packet) : nf_packet :=
  {| queue_num := queue_num p; packet_id := packet_id p;
     hw_protocol := hw_protocol p; payload_len := payload_len p;
     payload := payload p; has_timestamp := has_timestamp p; timestamp := v;
     wall_time := wall_time p; mono_time := mono_time p;
     has_conntrack := has_conntrack p; has_connmark := has_connmark p;
     conn_id := conn_id p; conn_mark := conn_mark p;
     conn_state := conn_state p; conn_status := conn_status p;
     orig := orig p; reply := reply p |}.

Definition set_wall_time (v : timespec) (p : nf_packet) : nf_packet :=
  {| queue_num := queue_num p; packet_id := packet_id p;
     hw_protocol := hw_protocol p; payload_len := payload_len p;
     payload := payload p; has_timestamp := has_timestamp p;
     timestamp := timestamp p; wall_time := v; mono_time := mono_time p;
     has_conntrack := has_conntrack p; has_connmark := has_connmark p;
     conn_id := conn_id p; conn_mark := conn_mark p;
     conn_state := conn_state p; conn_status := conn_status p;
     orig := orig p; reply := reply p |}.

Definition set_mono_time (v : timespec) (p : nf_packet) : nf_packet :=
  {| queue_num := queue_num p; packet_id := packet_id p;
     hw_protocol := hw_protocol p; payload_len := payload_len p;
     payload := payload p; has_timestamp := has_timestamp p;
     timestamp := timestamp p; wall_time := wall_time p; mono_time := v;
     has_conntrack := has_conntrack p; has_connmark := has_connmark p;
     conn_id := conn_id p; conn_mark := conn_mark p;
     conn_state := conn_state p; conn_status := conn_status p;
     orig := orig p; reply := reply p |}.

Definition set_has_conntrack (v : bool) (p : nf_packet) : nf_packet :=
  {| queue_num := queue_num p; packet_id := packet_id p;
     hw_protocol := hw_protocol p; payload_len := payload_len p;
     payload := payload p; has_timestamp := has_timestamp p;
     timestamp := timestamp p; wall_time := wall_time p;
     mono_time := mono_time p; has_conntrack := v;
     has_connmark := has_connmark p; conn_id := conn_id p;
     conn_mark := conn_mark p; conn_state := conn_state p;
     conn_status := conn_status p; orig := orig p; reply := reply p |}.

Definition set_has_connmark (v : bool) (p : nf_packet) : nf_packet :=
  {| queue_num := queue_num p; packet_id := packet_id p;
     hw_protocol := hw_protocol p; payload_len := payload_len p;
     payload := payload p; has_timestamp := has_timestamp p;
     timestamp := timestamp p; wall_time := wall_time p;
     mono_time := mono_time p; has_conntrack := has_conntrack p;
     has_connmark := v; conn_id := conn_id p; conn_mark := conn_mark p;
     conn_state := conn_state p; conn_status := conn_status p;
     orig := orig p; reply := reply p |}.

Definition set_conn_id (v : Z) (p : nf_packet) : nf_packet :=
  {| queue_num := queue_num p; packet_id := packet_id p;
     hw_protocol := hw_protocol p; payload_len := payload_len p;
     payload := payload p; has_timestamp := has_timestamp p;
     timestamp := timestamp p; wall_time := wall_time p;
     mono_time := mono_time p; has_conntrack := has_conntrack p;
     has_connmark := has_connmark p; conn_id := v; conn_mark := conn_mark p;
     conn_state := conn_state p; conn_status := conn_status p;
     orig := orig p; reply := reply p |}.

Definition set_conn_mark (v : Z) (p : nf_packet) : nf_packet :=
  {| queue_num := queue_num p; packet_id := packet_id p;
     hw_protocol := hw_protocol p; payload_len := payload_len p;
     payload := payload p; has_timestamp := has_timestamp p;
     timestamp := timestamp p; wall_time := wall_time p;
     mono_time := mono_time p; has_conntrack := has_conntrack p;
     has_connmark := has_connmark p; conn_id := conn_id p; conn_mark := v;
     conn_state := conn_state p; conn_status := conn_status p;
     orig := orig p; reply := reply p |}.

Definition set_conn_state (v : Z) (p : nf_packet) : nf_packet :=
  {| queue_num := queue_num p; packet_id := packet_id p;
     hw_protocol := hw_protocol p; payload_len := payload_len p;
     payload := payload p; has_timestamp := has_timestamp p;
     timestamp := timestamp p; wall_time := wall_time p;
     mono_time := mono_time p; has_conntrack := has_conntrack p;
     has_connmark := has_connmark p; conn_id := conn_id p;
     conn_mark := conn_mark p; conn_state := v; conn_status := conn_status p;
     orig := orig p; reply := reply p |}.

Definition set_conn_status (v : Z) (p : nf_packet) : nf_packet :=
  {| queue_num := queue_num p; packet_id := packet_id p;
     hw_protocol := hw_protocol p; payload_len := payload_len p;
     payload := payload p; has_timestamp := has_timestamp p;
     timestamp := timestamp p; wall_time := wall_time p;
     mono_time := mono_time p; has_conntrack := has_conntrack p;
     has_connmark := has_connmark p; conn_id := conn_id p;
     conn_mark := conn_mark p; conn_state := conn_state p; conn_status := v;
     orig := orig p; reply := reply p |}.

Definition set_orig (v : ip_tuple) (p : nf_packet) : nf_packet :=
  {| queue_num := queue_num p; packet_id := packet_id p;
     hw_protocol := hw_protocol p; payload_len := payload_len p;
     payload := payload p; has_timestamp := has_timestamp p;
     timestamp := timestamp p; wall_time := wall_time p;
     mono_time := mono_time p; has_conntrack := has_conntrack p;
     has_connmark := has_connmark p; conn_id := conn_id p;
     conn_mark := conn_mark p; conn_state := conn_state p;
     conn_status := conn_status p; orig := v; reply := reply p |}.

Definition set_reply (v : ip_tuple) (p : nf_packet) : nf_packet :=
  {| queue_num := queue_num p; packet_id := packet_id p;
     hw_protocol := hw_protocol p; payload_len := payload_len p;
     payload := payload p; has_timestamp := has_timestamp p;
     timestamp := timestamp p; wall_time := wall_time p;
     mono_time := mono_time p; has_conntrack := has_conntrack p;
     has_connmark := has_connmark p; conn_id := conn_id p;
     conn_mark := conn_mark p; conn_state := conn_state p;
     conn_status := conn_status p; orig := orig p; reply := v |}.

(** [memset(p, 0, sizeof *p)] *)
Definition ip_tuple_zero : ip_tuple :=
  {| ip_version := 0; src := ip_zero; dst := ip_zero; src_port := 0;
     dst_port := 0 |}.

Definition nf_packet_zero : nf_packet :=
  {| queue_num := 0; packet_id := 0; hw_protocol := 0; payload_len := 0;
     payload := 0; has_timestamp := false;
     timestamp := {| tv_sec := 0; tv_usec := 0 |};
     wall_time := {| ts_sec := 0; ts_nsec := 0 |};
     mono_time := {| ts_sec := 0; ts_nsec := 0 |};
     has_conntrack := false; has_connmark := false; conn_id := 0;
     conn_mark := 0; conn_state := 0; conn_status := 0;
     orig := ip_tuple_zero; reply := ip_tuple_zero |}.

(** How a call ends: it returns, or an [ASSERT] fails and [DIE()] ends the
    process. *)
Inductive outcome (A : Type) :=
| Returns (a : A)
| Dies (w : world).
Arguments Returns {A} a.
Arguments Dies {A} w.

Definition ASSERT_failed (w : world) : world :=
  LOG LOG_CRIT "Assert failed: %s [%s:%s:%d]" w.

(** The buffer as [nfqueue_receive] leaves it: [n] bytes received at the
    start of the region [d], cursor at the start. *)
Definition received (d : list byte) (n : Z) : nf_buffer :=
  {| data := Some d; nlh := 0; len := n |}.


(** ** Sample messages

    Messages as a little-endian host receives them from the kernel. *)

(** A packet event on queue 5: packet id 42, a timestamp attribute that is
    all zero, five bytes of payload. *)
Definition msg_event : list byte :=
  [x40; x00; x00; x00; x00; x03; x00; x00; x00; x00; x00; x00; x00; x00; x00;
   x00; x02; x00; x00; x05; x0b; x00; x01; x00; x00; x00; x00; x2a; x08; x00;
   x01; x00; x14; x00; x04; x00; x00; x00; x00; x00; x00; x00; x00; x00; x00;
   x00; x00; x00; x00; x00; x00; x00; x09; x00; x0a; x00; x45; x00; x00; x14;
   xaa; x00; x00; x00].

(** A packet event with packet id 43, a timestamp of 1 s 2 us, three bytes of
    payload and a conntrack state. *)
Definition msg_event2 : list byte :=
  [x44; x00; x00; x00; x00; x03; x00; x00; x00; x00; x00; x00; x00; x00; x00;
   x00; x02; x00; x00; x05; x0b; x00; x01; x00; x00; x00; x00; x2b; x08; x00;
   x01; x00; x14; x00; x04; x00; x00; x00; x00; x00; x00; x00; x00; x01; x00;
   x00; x00; x00; x00; x00; x00; x02; x07; x00; x0a; x00; x60; x01; x02; x00;
   x08; x00; x0c; x00; x00; x00; x00; x02].

(** A packet event whose tracking context has an original tuple with an IPv4
    source and an IPv6 destination. *)
Definition msg_mixed : list byte :=
  [x50; x00; x00; x00; x00; x03; x00; x00; x00; x00; x00; x00; x00; x00; x00;
   x00; x02; x00; x00; x05; x0b; x00; x01; x00; x00; x00; x00; x2c; x08; x00;
   x01; x00; x08; x00; x0a; x00; x45; x00; x00; x14; x28; x00; x0b; x80; x24;
   x00; x01; x80; x20; x00; x01; x80; x08; x00; x01; x00; xc0; xa8; x00; x01;
   x14; x00; x04; x00; x20; x01; x0d; xb8; x00; x00; x00; x00; x00; x00; x00;
   x00; x00; x00; x00; x01].

(** A packet event with a payload and no packet metaheader. *)
Definition msg_no_hdr : list byte :=
  [x1c; x00; x00; x00; x00; x03; x00; x00; x00; x00; x00; x00; x00; x00; x00;
   x00; x02; x00; x00; x05; x08; x00; x0a; x00; x45; x00; x00; x14].

(** An NLMSG_ERROR message: error -2 for a verdict request. *)
Definition msg_error : list byte :=
  [x24; x00; x00; x00; x02; x00; x00; x00; x00; x00; x00; x00; x00; x00; x00;
   x00; xfe; xff; xff; xff; x20; x00; x00; x00; x01; x03; x01; x00; x00; x00;
   x00; x00; x00; x00; x00; x00].

(** A packet event with NLM_F_DUMP_INTR set. *)
Definition msg_dump_intr : list byte :=
  [x28; x00; x00; x00; x00; x03; x10; x00; x00; x00; x00; x00; x00; x00; x00;
   x00; x02; x00; x00; x05; x0b; x00; x01; x00; x00; x00; x00; x2d; x08; x00;
   x01; x00; x08; x00; x0a; x00; x45; x00; x00; x14].

(** A packet event whose payload attribute is empty. *)
Definition msg_empty_payload : list byte :=
  [x24; x00; x00; x00; x00; x03; x00; x00; x00; x00; x00; x00; x00; x00; x00;
   x00; x02; x00; x00; x05; x0b; x00; x01; x00; x00; x00; x00; x2e; x08; x00;
   x01; x00; x04; x00; x0a; x00].

(** An environment to run the samples in. *)
Definition world0 : world :=
  {| clock_realtime := {| ts_sec := 1700000000; ts_nsec := 5 |};
     clock_monotonic_raw := {| ts_sec := 1000; ts_nsec := 7 |};
     heap := []; next_block := 1%positive;
     warned_timestamp := false; warned_conntrack := false;
     log := []; errno := 0; sent := [] |}.

(** A socket that accepts every datagram whole. *)
Definition sendto_all (dgram : list byte) (e : Z) : Z * Z :=
  (Z.of_nat (length dgram), e).

(** The original tuple of [msg_mixed]: its IP sub-block has an IPv4 source
    and an IPv6 destination. *)
Definition attr_tuple_mixed : list byte :=
  [x24; x00; x01; x80; x20; x00; x01; x80; x08; x00; x01; x00; xc0; xa8; x00;
   x01; x14; x00; x04; x00; x20; x01; x0d; xb8; x00; x00; x00; x00; x00; x00;
   x00; x00; x00; x00; x00; x01].

(** Receive buffers holding the samples. *)
Definition buf_error_event : nf_buffer :=
  received (msg_error ++ msg_event) 100.
Definition buf_dump_intr : nf_buffer := received msg_dump_intr 40.
Definition buf_no_hdr : nf_buffer := received msg_no_hdr 28.
Definition buf_mixed : nf_buffer := received msg_mixed 80.

(** An open queue, number 5. *)
Definition queue5 : nf_queue := {| q_queue_num := 5; nl_socket := 1 |}.

(** ** Sample answers of the system

    What the calls of the operating system and of libmnl answer in the runs
    on the samples. *)

(** [pselect] finds the descriptor readable. *)
Definition pselect_ready (nfds : Z) (rset : list Z)
  (timeout : option timespec) (e : Z) : Z * Z := (1, e).

(** [pselect] is interrupted by a signal: -1 with [errno = EINTR]. *)
Definition pselect_signal (nfds : Z) (rset : list Z)
  (timeout : option timespec) (e : Z) : Z * Z := (-1, 4).

(** [mnl_socket_recvfrom] delivers [msg_event] followed by [msg_event2]. *)
Definition recvfrom_events (fd bufsiz e : Z) : Z * Z * list byte :=
  (132, e, concat [msg_event; msg_event2]).

(** [calloc] finds memory, [socket] gives descriptor 3, [mnl_socket_bind]
    succeeds and leaves an [AF_NETLINK] address with port id 4242, [close]
    succeeds. *)
Definition calloc_ok (size e : Z) : bool * Z := (true, e).

Definition socket_fd3 (domain type protocol e : Z) : Z * Z := (3, e).

Definition bind_ok (fd groups pid e : Z) : Z * Z * list byte :=
  (0, e, [x10; x00; x00; x00; x92; x10; x00; x00; x00; x00; x00; x00]).

Definition close_ok (fd e : Z) : Z * Z := (0, e).

(** A block from [malloc] that happens to be zero. *)
Definition malloc_zero (n : Z) : list byte := repeat x00 (Z.to_nat n).

(** A live socket object at address 1 with descriptor 3. *)
Definition world_socket : world :=
  {| clock_realtime := {| ts_sec := 1700000000; ts_nsec := 5 |};
     clock_monotonic_raw := {| ts_sec := 1000; ts_nsec := 7 |};
     heap := [(1, [x03; x00; x00; x00; x10; x00; x00; x00; x92; x10; x00;
                   x00; x00; x00; x00; x00])];
     next_block := 2%positive;
     warned_timestamp := false; warned_conntrack := false;
     log := []; errno := 0; sent := [] |}.

(** A tuple attribute with an IPv4 source 192.168.0.1 and destination
    192.168.0.2, protocol 6, source port 8080 and destination port 80; its
    IP block and its protocol block. *)
Definition attr_ip_v4 : list byte :=
  [x14; x00; x01; x80; x08; x00; x01; x00; xc0; xa8; x00; x01; x08; x00; x02;
   x00; xc0; xa8; x00; x02].

Definition attr_proto_ports : list byte :=
  [x1c; x00; x02; x80; x05; x00; x01; x00; x06; x00; x00; x00; x06; x00; x02;
   x00; x1f; x90; x00; x00; x06; x00; x03; x00; x00; x50; x00; x00].

Definition attr_tuple_v4 : list byte :=
  [x34; x00; x01; x80] ++ attr_ip_v4 ++ attr_proto_ports.

(** A packet event whose packet metaheader has four bytes instead of seven,
    and that attribute. *)
Definition msg_short_hdr : list byte :=
  [x1c; x00; x00; x00; x00; x03; x00; x00; x00; x00; x00; x00; x00; x00; x00;
   x00; x02; x00; x00; x05; x08; x00; x01; x00; x00; x00; x00; x2a].

Definition attr_short_hdr : list byte :=
  [x08; x00; x01; x00; x00; x00; x00; x2a].

(** The timestamp attribute of [msg_event2]: 1 s 2 us. *)
Definition attr_timestamp2 : list byte :=
  [x14; x00; x04; x00; x00; x00; x00; x00; x00; x00; x00; x01; x00; x00; x00;
   x00; x00; x00; x00; x02].

Section Nfqueue.

(** Byte order of the host. *)
Variable host : endianness.

(** [MNL_SOCKET_BUFFER_SIZE] of [libmnl.h], the capacity of the send buffer. *)
Variable MNL_SOCKET_BUFFER_SIZE : Z.

(** Upper bounds of the attribute-type ranges in the kernel headers the file
    is compiled against. *)
Variables NFQA_MAX CTA_MAX CTA_TUPLE_MAX CTA_IP_MAX CTA_PROTO_MAX : Z.

(** What [sendto(2)] answers for a datagram: the return value and the value
    of [errno] afterwards, given the datagram and [errno] before the call. *)
Variable socket_sendto : list byte -> Z -> Z * Z.

Definition SEND_BUF_LEN : Z := MNL_SOCKET_BUFFER_SIZE.
Definition RECV_BUF_LEN : Z := MNL_SOCKET_BUFFER_SIZE + 0xFFFF.

(** *** Host byte order *)

Definition host_encode (n : nat) (z : Z) : list byte :=
  match host with
  | LittleEndian => le_encode n z
  | BigEndian => be_encode n z
  end.

Definition host_decode (bs : list byte) : Z :=
  match host with
  | LittleEndian => le_decode bs
  | BigEndian => be_decode bs
  end.

(** [htons], [htonl]: the host integer whose memory image is the big-endian
    image of the argument; [ntohs], [ntohl], [__be64_to_cpu]: the converse. *)
Definition htons (x : Z) : Z := host_decode (be_encode 2 x).
Definition htonl (x : Z) : Z := host_decode (be_encode 4 x).
Definition ntohs (x : Z) : Z := be_decode (host_encode 2 x).
Definition ntohl (x : Z) : Z := be_decode (host_encode 4 x).
Definition __be64_to_cpu (x : Z) : Z := be_decode (host_encode 8 x).

(** An integer of [n] bytes read from memory at byte offset [off]. *)
Definition load (n : nat) (off : nat) (mem : list byte) : Z :=
  host_decode (slice off n mem).

(** *** MNL integer attr functions redefinitions *)

(** A [struct nlattr*] is kept as the bytes it points to, [nla_len] of them:
    [mnl_attr_ok] has bounded the attribute by then, and the callbacks check
    the size of every payload the assembler reads a fixed-width field
    from. *)
Definition nlattr := list byte.

Definition nla_len (attr : nlattr) : Z := load 2 0 attr.
Definition nla_type (attr : nlattr) : Z := load 2 2 attr.

Definition mnl_attr_get_type (attr : nlattr) : Z :=
  Z.land (nla_type attr) NLA_TYPE_MASK.

Definition mnl_attr_get_payload (attr : nlattr) : list byte :=
  skipn (Z.to_nat MNL_ATTR_HDRLEN) attr.

Definition mnl_attr_get_payload_len (attr : nlattr) : Z :=
  to_u16 (nla_len attr - MNL_ATTR_HDRLEN).

Definition fixed_attr_get_u16 (attr : nlattr) : Z :=
  load 2 0 (mnl_attr_get_payload attr).

Definition fixed_attr_get_u32 (attr : nlattr) : Z :=
  load 4 0 (mnl_attr_get_payload attr).

Definition mnl_attr_get_u16 := fixed_attr_get_u16.
Definition mnl_attr_get_u32 := fixed_attr_get_u32.

(** *** Sending Netlink commands

    The libmnl calls ([mnl_nlmsg_put_header], [mnl_nlmsg_put_extra_header],
    [mnl_attr_put], [mnl_attr_put_check], [mnl_attr_put_u32_check],
    [mnl_attr_nest_start], [mnl_attr_nest_start_check], [mnl_attr_nest_end],
    [mnl_socket_sendto]) follow libmnl's [nlmsg.c], [attr.c] and
    [socket.c], with the integer types of their C signatures. *)

(** A message under construction in the send buffer: the fields of its
    [struct nlmsghdr] and the bytes written after the header so far. *)
Record out_msg := {
  nlmsg_len : Z;
  nlmsg_type : Z;
  nlmsg_flags : Z;
  nlmsg_seq : Z;
  nlmsg_pid : Z;
  nlmsg_body : list byte
}.

Definition set_nlmsg_len (l : Z) (m : out_msg) : out_msg :=
  {| nlmsg_len := l; nlmsg_type := nlmsg_type m;
     nlmsg_flags := nlmsg_flags m; nlmsg_seq := nlmsg_seq m;
     nlmsg_pid := nlmsg_pid m; nlmsg_body := nlmsg_body m |}.

Definition set_nlmsg_body (b : list byte) (m : out_msg) : out_msg :=
  {| nlmsg_len := nlmsg_len m; nlmsg_type := nlmsg_type m;
     nlmsg_flags := nlmsg_flags m; nlmsg_seq := nlmsg_seq m;
     nlmsg_pid := nlmsg_pid m; nlmsg_body := b |}.

(** The memory image of the message, header first. *)
Definition out_msg_bytes (m : out_msg) : list byte :=
  host_encode 4 (nlmsg_len m) ++ host_encode 2 (nlmsg_type m)
    ++ host_encode 2 (nlmsg_flags m) ++ host_encode 4 (nlmsg_seq m)
    ++ host_encode 4 (nlmsg_pid m) ++ nlmsg_body m.

(** Offset in [nlmsg_body] of the address [nlh + off]. *)
Definition body_off (off : Z) : nat := Z.to_nat (off - sizeof_nlmsghdr).

(** [mnl_nlmsg_get_payload_tail]: offset of the end of the message. *)
Definition mnl_nlmsg_get_payload_tail (m : out_msg) : Z :=
  MNL_ALIGN_w 32 (nlmsg_len m).

Definition mnl_nlmsg_put_header : out_msg :=
  {| nlmsg_len := MNL_ALIGN sizeof_nlmsghdr; nlmsg_type := 0;
     nlmsg_flags := 0; nlmsg_seq := 0; nlmsg_pid := 0; nlmsg_body := [] |}.

(** Returns the message and the offset of the extra header. *)
Definition mnl_nlmsg_put_extra_header (m : out_msg) (size : Z)
  : out_msg * Z :=
  let ptr := nlmsg_len m in
  let l := MNL_ALIGN_w 64 size in
  let m1 := set_nlmsg_len (to_u32 (nlmsg_len m + l)) m in
  (set_nlmsg_body
     (store (body_off ptr) (repeat x00 (Z.to_nat l)) (nlmsg_body m1)) m1,
   ptr).

Definition mnl_attr_put (m : out_msg) (type : Z) (data_ : list byte)
  : out_msg :=
  let l := Z.of_nat (length data_) in
  let attr := mnl_nlmsg_get_payload_tail m in
  let payload_len_ := to_u16 (MNL_ATTR_HDRLEN + l) in
  let pad := to_int (MNL_ALIGN_w 64 l - l) in
  let b1 := store (body_off (attr + 2)) (host_encode 2 (to_u16 type))
              (nlmsg_body m) in
  let b2 := store (body_off attr) (host_encode 2 payload_len_) b1 in
  let b3 := store (body_off (attr + MNL_ATTR_HDRLEN)) data_ b2 in
  let b4 := if 0 <? pad
            then store (body_off (attr + MNL_ATTR_HDRLEN + l))
                   (repeat x00 (Z.to_nat pad)) b3
            else b3 in
  set_nlmsg_len (to_u32 (nlmsg_len m + MNL_ALIGN payload_len_))
    (set_nlmsg_body b4 m).

Definition mnl_attr_put_check (m : out_msg) (buflen : Z) (type : Z)
  (data_ : list byte) : bool * out_msg :=
  let l := Z.of_nat (length data_) in
  if to_size_t (nlmsg_len m + MNL_ATTR_HDRLEN + MNL_ALIGN_w 64 l) >? buflen
  then (false, m)
  else (true, mnl_attr_put m type data_).

Definition mnl_attr_put_u32_check (m : out_msg) (buflen : Z) (type : Z)
  (v : Z) : bool * out_msg :=
  mnl_attr_put_check m buflen type (host_encode 4 v).

(** [start->nla_len] is written by [mnl_attr_nest_end] only; until then the two
    bytes are what [malloc] left there ([store] shows them as zero). *)
Definition mnl_attr_nest_start (m : out_msg) (type : Z) : out_msg * Z :=
  let start := mnl_nlmsg_get_payload_tail m in
  let b := store (body_off (start + 2))
             (host_encode 2 (to_u16 (Z.lor NLA_F_NESTED type)))
             (nlmsg_body m) in
  (set_nlmsg_len (to_u32 (nlmsg_len m + MNL_ALIGN sizeof_nlattr))
     (set_nlmsg_body b m),
   start).

Definition mnl_attr_nest_start_check (m : out_msg) (buflen : Z) (type : Z)
  : option (out_msg * Z) :=
  if to_size_t (nlmsg_len m + MNL_ATTR_HDRLEN) >? buflen then None
  else Some (mnl_attr_nest_start m type).

Definition mnl_attr_nest_end (m : out_msg) (start : Z) : out_msg :=
  set_nlmsg_body
    (store (body_off start)
       (host_encode 2 (to_u16 (mnl_nlmsg_get_payload_tail m - start)))
       (nlmsg_body m)) m.

(** [mnl_socket_sendto(nl, nlh, nlh->nlmsg_len)]: the first [nlmsg_len]
    bytes of the message go to the socket. *)
Definition mnl_socket_sendto (m : out_msg) (w : world) : Z * world :=
  let dgram := firstn (Z.to_nat (nlmsg_len m)) (out_msg_bytes m) in
  let '(r, e) := socket_sendto dgram (errno w) in
  (r, set_errno e (push_sent dgram w)).

(** helper; [None] is the [NULL] return.  The buffer it allocates is
    released by the caller on every path, so it does not show in [heap]. *)
Definition nfqueue_put_header (queue_num_ msg_type : Z) : option out_msg :=
  if MNL_ALIGN_w 64 sizeof_nlmsghdr >? to_size_t SEND_BUF_LEN then None
  else
    let m := mnl_nlmsg_put_header in
    let m :=
      {| nlmsg_len := nlmsg_len m;
         nlmsg_type := to_u16 (Z.lor (Z.shiftl NFNL_SUBSYS_QUEUE 8) msg_type);
         nlmsg_flags := NLM_F_REQUEST;
         nlmsg_seq := nlmsg_seq m; nlmsg_pid := nlmsg_pid m;
         nlmsg_body := nlmsg_body m |} in
    if to_size_t (nlmsg_len m + MNL_ALIGN_w 64 sizeof_nfgenmsg)
         >? to_size_t SEND_BUF_LEN
    then None
    else
      let '(m, nfg) := mnl_nlmsg_put_extra_header m sizeof_nfgenmsg in
      let b := store (body_off nfg) [byte_of_Z AF_UNSPEC] (nlmsg_body m) in
      let b := store (body_off (nfg + 1)) [byte_of_Z NFNETLINK_V0] b in
      let b := store (body_off (nfg + 2))
                 (host_encode 2 (htons (to_u16 queue_num_))) b in
      Some (set_nlmsg_body b m).

(** The [end:] label shared by the three senders. *)
Definition send_end (ret : Z) (w : world) : Z * world :=
  if ret =? BUF_TOO_SHORT then (ret, set_errno ENOBUFS w) else (ret, w).

(** Return <0 on failure *)
Definition nfqueue_send_command (queue_num_ msg_type attr_type : Z)
  (data_ : list byte) (w : world) : Z * world :=
  let ret := BUF_TOO_SHORT in
  match nfqueue_put_header queue_num_ msg_type with
  | None => (ret, w)
  | Some m =>
    let '(ok, m) :=
      mnl_attr_put_check m (to_size_t SEND_BUF_LEN) (to_u16 attr_type) data_ in
    if negb ok then send_end ret w
    else
      let '(r, w) := mnl_socket_sendto m w in
      send_end (to_int r) w
  end.

(** [struct nfqnl_msg_config_cmd]: command, padding, pf. *)
Definition nfqnl_msg_config_cmd_bytes (command pf : Z) : list byte :=
  [byte_of_Z command; x00] ++ host_encode 2 pf.

Definition nfqueue_bind (queue_num_ : Z) (w : world) : Z * world :=
  nfqueue_send_command queue_num_ NFQNL_MSG_CONFIG NFQA_CFG_CMD
    (nfqnl_msg_config_cmd_bytes NFQNL_CFG_CMD_BIND 0) w.

(** [struct nfqnl_msg_config_params] (packed): copy_range, copy_mode. *)
Definition nfqnl_msg_config_params_bytes (copy_range copy_mode : Z)
  : list byte :=
  host_encode 4 copy_range ++ [byte_of_Z copy_mode].

(** Return <0 on failure.  If maxlen or flags are zero, use defaults *)
Definition nfqueue_set_params (queue_num_ mode range maxlen flags : Z)
  (w : world) : Z * world :=
  let params :=
    nfqnl_msg_config_params_bytes (htonl (to_u32 range)) mode in
  let ret := BUF_TOO_SHORT in
  let buflen := to_size_t SEND_BUF_LEN in
  match nfqueue_put_header queue_num_ NFQNL_MSG_CONFIG with
  | None => (ret, w)
  | Some m =>
    let '(ok, m) := mnl_attr_put_check m buflen NFQA_CFG_PARAMS params in
    if negb ok then send_end ret w
    else
      let '(ok, m) :=
        if 0 <? maxlen
        then mnl_attr_put_u32_check m buflen NFQA_CFG_QUEUE_MAXLEN
               (htonl maxlen)
        else (true, m) in
      if negb ok then send_end ret w
      else
        let '(ok, m) :=
          if negb (flags =? 0)
          then
            let '(ok1, m1) :=
              mnl_attr_put_u32_check m buflen NFQA_CFG_FLAGS (htonl flags) in
            if negb ok1 then (false, m1)
            else mnl_attr_put_u32_check m1 buflen NFQA_CFG_MASK (htonl flags)
          else (true, m) in
        if negb ok then send_end ret w
        else
          let '(r, w) := mnl_socket_sendto m w in
          send_end (to_int r) w
  end.

(** [struct nfqnl_msg_verdict_hdr]: verdict, id. *)
Definition nfqnl_msg_verdict_hdr_bytes (verdict id : Z) : list byte :=
  host_encode 4 verdict ++ host_encode 4 id.

(** Version that does not set a connmark *)
Definition nfqueue_send_verdict (queue_num_ packet_id_ verdict : Z)
  (w : world) : Z * world :=
  nfqueue_send_command queue_num_ NFQNL_MSG_VERDICT NFQA_VERDICT_HDR
    (nfqnl_msg_verdict_hdr_bytes (htonl (to_u32 verdict)) (htonl packet_id_))
    w.

(** Return <0 on failure.  Connmark is set if it is >= 0 *)
Definition nfqueue_send_verdict_connmark
  (queue_num_ packet_id_ verdict connmark : Z) (w : world) : Z * world :=
  let vh :=
    nfqnl_msg_verdict_hdr_bytes (htonl (to_u32 verdict)) (htonl packet_id_) in
  let ret := BUF_TOO_SHORT in
  let buflen := to_size_t SEND_BUF_LEN in
  match nfqueue_put_header queue_num_ NFQNL_MSG_VERDICT with
  | None => (ret, w)
  | Some m =>
    let '(ok, m) := mnl_attr_put_check m buflen NFQA_VERDICT_HDR vh in
    if negb ok then send_end ret w
    else
      let '(ok, m) :=
        if 0 <=? connmark
        then
          match mnl_attr_nest_start_check m buflen NFQA_CT with
          | None => (false, m)
          | Some (m1, nest) =>
            let '(ok1, m2) :=
              mnl_attr_put_u32_check m1 buflen CTA_MARK
                (htonl (to_u32 connmark)) in
            if negb ok1 then (false, m2)
            else (true, mnl_attr_nest_end m2 nest)
          end
        else (true, m) in
      if negb ok then send_end ret w
      else
        let '(r, w) := mnl_socket_sendto m w in
        send_end (to_int r) w
  end.

(** *** libmnl attribute validation and iteration

    After libmnl's [attr.c]: [mnl_attr_type_valid], [mnl_attr_validate],
    [mnl_attr_validate2] and their common [__mnl_attr_validate], [mnl_attr_ok],
    [mnl_attr_next], the [mnl_attr_for_each] loops, [mnl_attr_parse] and
    [mnl_attr_parse_nested]. *)

(** The callbacks fill an array indexed by attribute type, initially all
    [NULL]. *)
Definition table := Z -> option nlattr.
Definition tb_empty : table := fun _ => None.
Definition tb_set (tb : table) (k : Z) (a : nlattr) : table :=
  fun i => if i =? k then Some a else tb i.

(** A libmnl call that can fail yields its return value and [errno]. *)
Definition mnl_attr_type_valid (attr : nlattr) (max e : Z) : Z * Z :=
  if mnl_attr_get_type attr >? max then (-1, EOPNOTSUPP) else (1, e).

Definition mnl_attr_data_type_len (type : Z) : Z :=
  if type =? MNL_TYPE_U8 then 1
  else if type =? MNL_TYPE_U16 then 2
  else if type =? MNL_TYPE_U32 then 4
  else if type =? MNL_TYPE_U64 then 8
  else if type =? MNL_TYPE_MSECS then 8
  else 0.

Definition __mnl_attr_validate (attr : nlattr) (type exp_len e : Z) : Z * Z :=
  let attr_len := mnl_attr_get_payload_len attr in
  let attr_data := mnl_attr_get_payload attr in
  if attr_len <? exp_len then (-1, ERANGE)
  else
    let after_switch :=
      if negb (exp_len =? 0) && (attr_len >? exp_len) then (-1, ERANGE)
      else (0, e) in
    if type =? MNL_TYPE_FLAG then
      if attr_len >? 0 then (-1, ERANGE) else after_switch
    else if type =? MNL_TYPE_NUL_STRING then
      if attr_len =? 0 then (-1, ERANGE)
      else if negb (byte_to_Z (nth (Z.to_nat (attr_len - 1)) attr_data x00)
                      =? 0)
      then (-1, EINVAL)
      else after_switch
    else if type =? MNL_TYPE_STRING then
      if attr_len =? 0 then (-1, ERANGE) else after_switch
    else if type =? MNL_TYPE_NESTED then
      if attr_len =? 0 then after_switch
      else if attr_len <? MNL_ATTR_HDRLEN then (-1, ERANGE)
      else after_switch
    else after_switch.

Definition mnl_attr_validate (attr : nlattr) (type e : Z) : Z * Z :=
  if type >=? MNL_TYPE_MAX then (-1, EINVAL)
  else __mnl_attr_validate attr type (mnl_attr_data_type_len type) e.

Definition mnl_attr_validate2 (attr : nlattr) (type exp_len e : Z) : Z * Z :=
  if type >=? MNL_TYPE_MAX then (-1, EINVAL)
  else __mnl_attr_validate attr type exp_len e.

(** [attr] points at the bytes [rem]; [len_] is what the caller computed as
    left. *)
Definition mnl_attr_ok (rem : list byte) (len_ : Z) : bool :=
  (len_ >=? to_int sizeof_nlattr)
  && (nla_len rem >=? sizeof_nlattr)
  && (to_int (nla_len rem) <=? len_).

Definition mnl_attr_next (rem : list byte) : list byte :=
  skipn (Z.to_nat (MNL_ALIGN (nla_len rem))) rem.

(** The attributes [mnl_attr_for_each] and [mnl_attr_for_each_nested] visit
    in a span of bytes, in order.  Every step consumes at least four bytes,
    so [length span] steps are enough. *)
Fixpoint mnl_attr_for_each_aux (fuel : nat) (rem : list byte) : list nlattr :=
  match fuel with
  | O => []
  | S f =>
    if mnl_attr_ok rem (to_int (Z.of_nat (length rem)))
    then firstn (Z.to_nat (nla_len rem)) rem
           :: mnl_attr_for_each_aux f (mnl_attr_next rem)
    else []
  end.

Definition mnl_attr_for_each (span : list byte) : list nlattr :=
  mnl_attr_for_each_aux (length span) span.

(** A callback takes the attribute, the array and [errno], and returns its
    code with the array and [errno] after it. *)
Definition mnl_attr_cb_t := nlattr -> table * Z -> Z * (table * Z).

(** Body of the loop of [mnl_attr_parse] / [mnl_attr_parse_nested]. *)
Fixpoint mnl_attr_run (cb : mnl_attr_cb_t) (attrs : list nlattr) (ret : Z)
  (st : table * Z) : Z * (table * Z) :=
  match attrs with
  | [] => (ret, st)
  | a :: r =>
    let '(ret1, st1) := cb a st in
    if ret1 <=? MNL_CB_STOP then (ret1, st1)
    else mnl_attr_run cb r ret1 st1
  end.

(** Header fields of a message in the receive region, read where it lies. *)
Definition hdr_nlmsg_len (mem : list byte) : Z := load 4 0 mem.
Definition hdr_nlmsg_type (mem : list byte) : Z := load 2 4 mem.
Definition hdr_nlmsg_flags (mem : list byte) : Z := load 2 6 mem.

(** The bytes between [mnl_nlmsg_get_payload_offset(nlh, offset)] and
    [mnl_nlmsg_get_payload_tail(nlh)] that [mnl_attr_for_each] walks: their
    count, [tail - attr], reaches [mnl_attr_ok] as an [int], so a difference
    of 2^31 or more reads as negative and the walk visits nothing. *)
Definition nlmsg_attr_span (mem : list byte) (offset : Z) : list byte :=
  let start := MNL_NLMSG_HDRLEN + MNL_ALIGN_w 64 offset in
  let tail := MNL_ALIGN_w 32 (hdr_nlmsg_len mem) in
  slice (Z.to_nat start) (Z.to_nat (to_int (tail - start))) mem.

Definition mnl_attr_parse (mem : list byte) (offset : Z) (cb : mnl_attr_cb_t)
  (st : table * Z) : Z * (table * Z) :=
  mnl_attr_run cb (mnl_attr_for_each (nlmsg_attr_span mem offset)) MNL_CB_OK
    st.

Definition mnl_attr_parse_nested (nested : nlattr) (cb : mnl_attr_cb_t)
  (st : table * Z) : Z * (table * Z) :=
  mnl_attr_run cb
    (mnl_attr_for_each
       (firstn (Z.to_nat (mnl_attr_get_payload_len nested))
          (mnl_attr_get_payload nested)))
    MNL_CB_OK st.

(** *** NFQA and CTA attribute callbacks *)

Definition type_in (type : Z) (cases : list Z) : bool :=
  existsb (Z.eqb type) cases.

(** Return MNL_CB_ERROR on failure *)
Definition parse_nfqa_attr_cb : mnl_attr_cb_t := fun attr st =>
  let '(tb, e) := st in
  let type := mnl_attr_get_type attr in
  let '(r0, e) := mnl_attr_type_valid attr (to_u16 NFQA_MAX) e in
  if r0 <? 0 then (MNL_CB_OK, (tb, e))
  else
    let '(r, e) :=
      if type_in type
           [NFQA_MARK; NFQA_IFINDEX_INDEV; NFQA_IFINDEX_OUTDEV;
            NFQA_IFINDEX_PHYSINDEV; NFQA_IFINDEX_PHYSOUTDEV; NFQA_CAP_LEN;
            NFQA_SKB_INFO; NFQA_SECCTX; NFQA_UID; NFQA_GID; NFQA_CT_INFO]
      then mnl_attr_validate attr MNL_TYPE_U32 e
      else if type =? NFQA_TIMESTAMP
      then mnl_attr_validate2 attr MNL_TYPE_UNSPEC
             sizeof_nfqnl_msg_packet_timestamp e
      else if type =? NFQA_HWADDR
      then mnl_attr_validate2 attr MNL_TYPE_UNSPEC
             sizeof_nfqnl_msg_packet_hw e
      else if type =? NFQA_PACKET_HDR
      then mnl_attr_validate2 attr MNL_TYPE_UNSPEC
             sizeof_nfqnl_msg_packet_hdr e
      else (0, e) in
    if r <? 0 then (MNL_CB_ERROR, (tb, e))
    else (MNL_CB_OK, (tb_set tb type attr, e)).

Definition parse_cta_attr_cb : mnl_attr_cb_t := fun attr st =>
  let '(tb, e) := st in
  let type := mnl_attr_get_type attr in
  let '(r0, e) := mnl_attr_type_valid attr (to_u16 CTA_MAX) e in
  if r0 <? 0 then (MNL_CB_OK, (tb, e))
  else
    let '(r, e) :=
      if type_in type
           [CTA_TUPLE_ORIG; CTA_TUPLE_REPLY; CTA_COUNTERS_ORIG;
            CTA_COUNTERS_REPLY]
      then mnl_attr_validate attr MNL_TYPE_NESTED e
      else if type_in type
                [CTA_STATUS; CTA_TIMEOUT; CTA_MARK; CTA_SECMARK; CTA_ID]
      then mnl_attr_validate attr MNL_TYPE_U32 e
      else (0, e) in
    if r <? 0 then (MNL_CB_ERROR, (tb, e))
    else (MNL_CB_OK, (tb_set tb type attr, e)).

Definition parse_tuple_cb : mnl_attr_cb_t := fun attr st =>
  let '(tb, e) := st in
  let type := mnl_attr_get_type attr in
  let '(r0, e) := mnl_attr_type_valid attr (to_u16 CTA_TUPLE_MAX) e in
  if r0 <? 0 then (MNL_CB_OK, (tb, e))
  else
    let '(r, e) :=
      if type =? CTA_TUPLE_IP
      then mnl_attr_validate attr MNL_TYPE_NESTED e
      else if type =? CTA_TUPLE_PROTO
      then mnl_attr_validate attr MNL_TYPE_NESTED e
      else (0, e) in
    if r <? 0 then (MNL_CB_ERROR, (tb, e))
    else (MNL_CB_OK, (tb_set tb type attr, e)).

Definition parse_ip_cb : mnl_attr_cb_t := fun attr st =>
  let '(tb, e) := st in
  let type := mnl_attr_get_type attr in
  let '(r0, e) := mnl_attr_type_valid attr (to_u16 CTA_IP_MAX) e in
  if r0 <? 0 then (MNL_CB_OK, (tb, e))
  else
    let '(r, e) :=
      if type_in type [CTA_IP_V4_SRC; CTA_IP_V4_DST]
      then mnl_attr_validate attr MNL_TYPE_U32 e
      else if type_in type [CTA_IP_V6_SRC; CTA_IP_V6_DST]
      then mnl_attr_validate2 attr MNL_TYPE_BINARY sizeof_in6_addr e
      else (0, e) in
    if r <? 0 then (MNL_CB_ERROR, (tb, e))
    else (MNL_CB_OK, (tb_set tb type attr, e)).

Definition parse_proto_cb : mnl_attr_cb_t := fun attr st =>
  let '(tb, e) := st in
  let type := mnl_attr_get_type attr in
  let '(r0, e) := mnl_attr_type_valid attr (to_u16 CTA_PROTO_MAX) e in
  if r0 <? 0 then (MNL_CB_OK, (tb, e))
  else
    let '(r, e) :=
      if type_in type
           [CTA_PROTO_NUM; CTA_PROTO_ICMP_TYPE; CTA_PROTO_ICMP_CODE]
      then mnl_attr_validate attr MNL_TYPE_U8 e
      else if type_in type
                [CTA_PROTO_SRC_PORT; CTA_PROTO_DST_PORT; CTA_PROTO_ICMP_ID]
      then mnl_attr_validate attr MNL_TYPE_U16 e
      else (0, e) in
    if r <? 0 then (MNL_CB_ERROR, (tb, e))
    else (MNL_CB_OK, (tb_set tb type attr, e)).

(** *** Parse netfilter data into nf_packet *)

(** helper.  [attr] is [None] for a [NULL] pointer; the result carries
    [*ip_num] and [*ip_version] after the call. *)
Definition read_ip_addr (attr : option nlattr) (af : Z)
  (ip_num : ip_address_t) (ip_version_ : Z) (w : world)
  : bool * ip_address_t * Z * world :=
  match attr with
  | None => (true, ip_num, ip_version_, w)
  | Some a =>
    let addr := mnl_attr_get_payload a in
    let '(ip_num, ip_ver) :=
      if af =? AF_INET then (store 0 (slice 0 4 addr) ip_zero, IPV4)
      else if af =? AF_INET6 then (store 0 (slice 0 16 addr) ip_num, IPV6)
      else (ip_num, 0) in
    if ip_version_ =? 0 then (true, ip_num, ip_ver, w)
    else if negb (ip_version_ =? ip_ver)
    then (false, ip_num, ip_version_,
          LOG LOG_ERR "Packet with mismatched IP versions" w)
    else (true, ip_num, ip_version_, w)
  end.

(** helper.  Return false on failure *)
Definition read_addr_tuple (attr : nlattr) (tuple : ip_tuple) (w : world)
  : bool * ip_tuple * world :=
  let '(ret, (attr2, e)) :=
    mnl_attr_parse_nested attr parse_tuple_cb (tb_empty, errno w) in
  let w := set_errno e w in
  if ret <? 0 then (false, tuple, w)
  else
    let '(ok, tuple, w) :=
      match attr2 CTA_TUPLE_IP with
      | Some ipb =>
        let '(ret, (attr3, e)) :=
          mnl_attr_parse_nested ipb parse_ip_cb (tb_empty, errno w) in
        let w := set_errno e w in
        if ret <? 0 then (false, tuple, w)
        else
          let '(s1, a, v, w) :=
            read_ip_addr (attr3 CTA_IP_V4_SRC) AF_INET (src tuple)
              (ip_version tuple) w in
          let tuple := set_ip_version v (set_src a tuple) in
          let '(s2, a, v, w) :=
            read_ip_addr (attr3 CTA_IP_V4_DST) AF_INET (dst tuple)
              (ip_version tuple) w in
          let tuple := set_ip_version v (set_dst a tuple) in
          let '(s3, a, v, w) :=
            read_ip_addr (attr3 CTA_IP_V6_SRC) AF_INET6 (src tuple)
              (ip_version tuple) w in
          let tuple := set_ip_version v (set_src a tuple) in
          let '(s4, a, v, w) :=
            read_ip_addr (attr3 CTA_IP_V6_DST) AF_INET6 (dst tuple)
              (ip_version tuple) w in
          let tuple := set_ip_version v (set_dst a tuple) in
          let success := true && s1 && s2 && s3 && s4 in
          if negb success then (false, tuple, w) else (true, tuple, w)
      | None => (true, tuple, w)
      end in
    if negb ok then (false, tuple, w)
    else
      match attr2 CTA_TUPLE_PROTO with
      | Some prb =>
        let '(ret, (attr3, e)) :=
          mnl_attr_parse_nested prb parse_proto_cb (tb_empty, errno w) in
        let w := set_errno e w in
        if ret <? 0 then (false, tuple, w)
        else
          let tuple :=
            match attr3 CTA_PROTO_SRC_PORT with
            | Some a => set_src_port (ntohs (mnl_attr_get_u16 a)) tuple
            | None => tuple
            end in
          let tuple :=
            match attr3 CTA_PROTO_DST_PORT with
            | Some a => set_dst_port (ntohs (mnl_attr_get_u16 a)) tuple
            | None => tuple
            end in
          (true, tuple, w)
      | None => (true, tuple, w)
      end.

(** The conntrack step of [nfqueue_parse], entered with [attr[NFQA_CT]]. *)
Definition nfqueue_parse_ct (ct : nlattr) (packet : nf_packet) (w : world)
  : bool * nf_packet * world :=
  let packet := set_has_conntrack true packet in
  let '(ret, (attr1, e)) :=
    mnl_attr_parse_nested ct parse_cta_attr_cb (tb_empty, errno w) in
  let w := set_errno e w in
  if ret <? 0 then (false, packet, LOG_SYSERR "mnl_attr_parse_nested(CT)" w)
  else
    let packet :=
      match attr1 CTA_ID with
      | Some a => set_conn_id (ntohl (mnl_attr_get_u32 a)) packet
      | None => packet
      end in
    let packet :=
      match attr1 CTA_STATUS with
      | Some a => set_conn_status (ntohl (mnl_attr_get_u32 a)) packet
      | None => packet
      end in
    let packet :=
      match attr1 CTA_MARK with
      | Some a =>
        set_conn_mark (ntohl (mnl_attr_get_u32 a))
          (set_has_connmark true packet)
      | None => packet
      end in
    let '(ok, packet, w) :=
      match attr1 CTA_TUPLE_ORIG with
      | Some t =>
        let '(ok, tuple, w) := read_addr_tuple t (orig packet) w in
        if negb ok
        then (false, set_orig tuple packet,
              LOG_SYSERR "read_addr_tuple(orig)" w)
        else (true, set_orig tuple packet, w)
      | None => (true, packet, w)
      end in
    if negb ok then (false, packet, w)
    else
      match attr1 CTA_TUPLE_REPLY with
      | Some t =>
        let '(ok, tuple, w) := read_addr_tuple t (reply packet) w in
        if negb ok
        then (false, set_reply tuple packet,
              LOG_SYSERR "read_addr_tuple(reply)" w)
        else (true, set_reply tuple packet, w)
      | None => (true, packet, w)
      end.

(** [nfqueue_parse] from the point where [mnl_attr_parse] has filled
    [attr]. *)
Definition nfqueue_parse_attrs (mem : list byte) (attr : table)
  (packet : nf_packet) (w : world) : bool * nf_packet * world :=
  match attr NFQA_PACKET_HDR with
  | None => (false, packet, LOG LOG_ERR "Packet metaheader not set" w)
  | Some a_hdr =>
  match attr NFQA_PAYLOAD with
  | None => (false, packet, LOG LOG_ERR "Packet has no payload" w)
  | Some a_payload =>
    (* Queue number *)
    let nfg := Z.to_nat MNL_NLMSG_HDRLEN in
    let packet := set_queue_num (ntohs (load 2 (nfg + 2) mem)) packet in
    (* Data from netlink message header *)
    let ph := mnl_attr_get_payload a_hdr in
    let packet := set_packet_id (ntohl (load 4 0 ph)) packet in
    let packet := set_hw_protocol (ntohs (load 2 4 ph)) packet in
    (* Packet payload *)
    let payload_ := mnl_attr_get_payload a_payload in
    let packet :=
      set_payload_len (mnl_attr_get_payload_len a_payload) packet in
    if payload_len packet =? 0
    then (false, packet, LOG LOG_ERR "Packet payload has zero length" w)
    else
      let '(p, w) :=
        malloc_copy (firstn (Z.to_nat (payload_len packet)) payload_) w in
      let packet := set_payload p packet in
      (* Timestamp *)
      let packet := set_has_timestamp false packet in
      let packet :=
        match attr NFQA_TIMESTAMP with
        | Some a_ts =>
          let ts := mnl_attr_get_payload a_ts in
          let sec := load 8 0 ts in
          let usec := load 8 8 ts in
          if negb (sec =? 0) || negb (usec =? 0)
          then
            set_timestamp
              {| tv_sec := to_i64 (__be64_to_cpu sec);
                 tv_usec := to_i64 (__be64_to_cpu usec) |}
              (set_has_timestamp true packet)
          else packet
        | None => packet
        end in
      let w :=
        if negb (has_timestamp packet)
        then DEBUG "Packet timestamp not set"
               (LOG_ONCE_timestamp LOG_WARNING
                  "Kernel does not support packet timestamps" w)
        else w in
      (* Conntrack data *)
      let '(ok, packet, w) :=
        match attr NFQA_CT with
        | Some ct => nfqueue_parse_ct ct packet w
        | None =>
          (true, set_has_conntrack false packet,
           DEBUG "Conntrack data not passed by kernel"
             (LOG_ONCE_conntrack LOG_WARNING
                "Kernel does not support conntrack" w))
        end in
      if negb ok then (false, packet, w)
      else
        (* Conntrack state *)
        match attr NFQA_CT_INFO with
        | Some a =>
          (true, set_conn_state (ntohl (mnl_attr_get_u32 a)) packet, w)
        | None =>
          (true, packet, DEBUG "Conntrack state not passed by kernel" w)
        end
  end end.

(** Return false on failure.  [mem] is the memory from [nlh] on; the result
    carries [*packet] as the call leaves it. *)
Definition nfqueue_parse (mem : list byte) (w : world)
  : bool * nf_packet * world :=
  let packet := nf_packet_zero in
  let packet := set_mono_time (clock_monotonic_raw w) packet in
  let packet := set_wall_time (clock_realtime w) packet in
  let '(ret, (attr, e)) :=
    mnl_attr_parse mem sizeof_nfgenmsg parse_nfqa_attr_cb
      (tb_empty, errno w) in
  let w := set_errno e w in
  if ret <? 0 then (false, packet, LOG_SYSERR "mnl_attr_parse" w)
  else nfqueue_parse_attrs mem attr packet w.

(** *** Public interface *)

(** Return false on failure *)
Definition nfqueue_verdict (q : nf_queue) (packet_id_ verdict connmark : Z)
  (w : world) : bool * world :=
  let w :=
    DEBUG "Sending verdict for packet %u: verdict: %d, connmark: %ld" w in
  let '(r, w) :=
    nfqueue_send_verdict_connmark (q_queue_num q) packet_id_ verdict
      connmark w in
  if r <? 0 then (false, LOG_SYSERR "nfqueue_send_verdict_connmark" w)
  else (true, DEBUG "Verdict for packet %u sent successfully" w).

Definition mnl_nlmsg_ok (mem : list byte) (len_ : Z) : bool :=
  (len_ >=? to_int sizeof_nlmsghdr)
  && (hdr_nlmsg_len mem >=? sizeof_nlmsghdr)
  && (to_int (hdr_nlmsg_len mem) <=? len_).

(** [mnl_nlmsg_next]: the new cursor and the new [len]. *)
Definition mnl_nlmsg_next (mem : list byte) (cursor len_ : Z) : Z * Z :=
  (cursor + MNL_ALIGN_w 32 (hdr_nlmsg_len mem),
   to_int (len_ - MNL_ALIGN_w 32 (hdr_nlmsg_len mem))).

(** The memory the cursor of a buffer points to. *)
Definition cursor_mem (d : list byte) (buf : nf_buffer) : list byte :=
  skipn (Z.to_nat (nlh buf)) d.

(** The [while] loop of [nfqueue_next]; [fuel] bounds the number of
    iterations, [None] says that they were not enough. *)
Fixpoint nfqueue_next_loop (fuel : nat) (d : list byte) (buf : nf_buffer)
  (packet : nf_packet) (w : world)
  : option (Z * nf_buffer * nf_packet * world) :=
  match fuel with
  | O => None
  | S fuel' =>
    let mem := cursor_mem d buf in
    if mnl_nlmsg_ok mem (len buf) then
      if negb (Z.land (hdr_nlmsg_flags mem) NLM_F_DUMP_INTR =? 0)
      then Some (IO_ERROR, buf, packet,
                 LOG LOG_ERR "Netlink dump interrupted" w)
      else if hdr_nlmsg_type mem >=? NLMSG_MIN_TYPE
      then
        let '(ok, packet, w) := nfqueue_parse mem w in
        if negb ok then Some (IO_ERROR, buf, packet, w)
        else
          let '(cursor, l) := mnl_nlmsg_next mem (nlh buf) (len buf) in
          Some (IO_READY, {| data := data buf; nlh := cursor; len := l |},
                packet, w)
      else nfqueue_next_loop fuel' d buf packet w
    else Some (IO_NOTREADY, buf, packet, w)
  end.

(** Return 1 on success (result in packet), -1 on failure, 0 on no more data *)
Definition nfqueue_next (fuel : nat) (buf : nf_buffer) (packet : nf_packet)
  (w : world) : option (outcome (Z * nf_buffer * nf_packet * world)) :=
  match data buf with
  | None => Some (Dies (ASSERT_failed w))
  | Some d =>
    match nfqueue_next_loop fuel d buf packet w with
    | Some r => Some (Returns r)
    | None => None
    end
  end.

(** *** Vocabulary of the statements *)

(** The top-level attributes of the message at [mem], as [mnl_attr_parse]
    visits them. *)
Definition msg_attrs (mem : list byte) : list nlattr :=
  mnl_attr_for_each (nlmsg_attr_span mem sizeof_nfgenmsg).

(** The attributes nested in [nested]. *)
Definition nested_attrs (nested : nlattr) : list nlattr :=
  mnl_attr_for_each
    (firstn (Z.to_nat (mnl_attr_get_payload_len nested))
       (mnl_attr_get_payload nested)).

Definition has_attr (type : Z) (attrs : list nlattr) : Prop :=
  exists a, In a attrs /\ mnl_attr_get_type a = type.

Definition lacks_attr (type : Z) (attrs : list nlattr) : Prop :=
  forall a, In a attrs -> mnl_attr_get_type a <> type.

(** The cursor of [buf] addresses a complete message with the
    dump-interrupted flag clear. *)
Definition current_msg_ok (d : list byte) (buf : nf_buffer) : Prop :=
  data buf = Some d /\ mnl_nlmsg_ok (cursor_mem d buf) (len buf) = true.

Definition dump_intr (mem : list byte) : bool :=
  negb (Z.land (hdr_nlmsg_flags mem) NLM_F_DUMP_INTR =? 0).

(** The common form of the five callbacks: skip a type above [max], fail
    when the check of the [switch] fails, record the attribute otherwise. *)
Definition cb_form (max : Z) (check : nlattr -> Z -> Z * Z) : mnl_attr_cb_t :=
  fun attr st =>
    let '(tb, e) := st in
    let '(r0, e) := mnl_attr_type_valid attr max e in
    if r0 <? 0 then (MNL_CB_OK, (tb, e))
    else
      let '(r, e) := check attr e in
      if r <? 0 then (MNL_CB_ERROR, (tb, e))
      else (MNL_CB_OK, (tb_set tb (mnl_attr_get_type attr) attr, e)).

Definition check_indep (check : nlattr -> Z -> Z * Z) : Prop :=
  forall a e1 e2, fst (check a e1) = fst (check a e2).

(** What a callback may do to the array. *)
Definition cb_shape (max : Z) (cb : mnl_attr_cb_t) : Prop :=
  forall a tb e,
    (exists e', cb a (tb, e) = (MNL_CB_ERROR, (tb, e')))
    \/ (mnl_attr_get_type a > max
        /\ exists e', cb a (tb, e) = (MNL_CB_OK, (tb, e')))
    \/ (mnl_attr_get_type a <= max
        /\ exists e',
             cb a (tb, e)
             = (MNL_CB_OK, (tb_set tb (mnl_attr_get_type a) a, e'))).

(** The code and the array a callback returns do not depend on [errno]. *)
Definition cb_indep (cb : mnl_attr_cb_t) : Prop :=
  forall a tb e1 e2,
    fst (cb a (tb, e1)) = fst (cb a (tb, e2))
    /\ fst (snd (cb a (tb, e1))) = fst (snd (cb a (tb, e2))).

(** The [switch] of each callback. *)
Definition check_nfqa (attr : nlattr) (e : Z) : Z * Z :=
  let type := mnl_attr_get_type attr in
  if type_in type
       [NFQA_MARK; NFQA_IFINDEX_INDEV; NFQA_IFINDEX_OUTDEV;
        NFQA_IFINDEX_PHYSINDEV; NFQA_IFINDEX_PHYSOUTDEV; NFQA_CAP_LEN;
        NFQA_SKB_INFO; NFQA_SECCTX; NFQA_UID; NFQA_GID; NFQA_CT_INFO]
  then mnl_attr_validate attr MNL_TYPE_U32 e
  else if type =? NFQA_TIMESTAMP
  then mnl_attr_validate2 attr MNL_TYPE_UNSPEC
         sizeof_nfqnl_msg_packet_timestamp e
  else if type =? NFQA_HWADDR
  then mnl_attr_validate2 attr MNL_TYPE_UNSPEC sizeof_nfqnl_msg_packet_hw e
  else if type =? NFQA_PACKET_HDR
  then mnl_attr_validate2 attr MNL_TYPE_UNSPEC sizeof_nfqnl_msg_packet_hdr e
  else (0, e).

Definition check_cta (attr : nlattr) (e : Z) : Z * Z :=
  let type := mnl_attr_get_type attr in
  if type_in type
       [CTA_TUPLE_ORIG; CTA_TUPLE_REPLY; CTA_COUNTERS_ORIG;
        CTA_COUNTERS_REPLY]
  then mnl_attr_validate attr MNL_TYPE_NESTED e
  else if type_in type [CTA_STATUS; CTA_TIMEOUT; CTA_MARK; CTA_SECMARK; CTA_ID]
  then mnl_attr_validate attr MNL_TYPE_U32 e
  else (0, e).

Definition check_tuple (attr : nlattr) (e : Z) : Z * Z :=
  let type := mnl_attr_get_type attr in
  if type =? CTA_TUPLE_IP then mnl_attr_validate attr MNL_TYPE_NESTED e
  else if type =? CTA_TUPLE_PROTO
  then mnl_attr_validate attr MNL_TYPE_NESTED e
  else (0, e).

Definition check_ip (attr : nlattr) (e : Z) : Z * Z :=
  let type := mnl_attr_get_type attr in
  if type_in type [CTA_IP_V4_SRC; CTA_IP_V4_DST]
  then mnl_attr_validate attr MNL_TYPE_U32 e
  else if type_in type [CTA_IP_V6_SRC; CTA_IP_V6_DST]
  then mnl_attr_validate2 attr MNL_TYPE_BINARY sizeof_in6_addr e
  else (0, e).

Definition check_proto (attr : nlattr) (e : Z) : Z * Z :=
  let type := mnl_attr_get_type attr in
  if type_in type [CTA_PROTO_NUM; CTA_PROTO_ICMP_TYPE; CTA_PROTO_ICMP_CODE]
  then mnl_attr_validate attr MNL_TYPE_U8 e
  else if type_in type
            [CTA_PROTO_SRC_PORT; CTA_PROTO_DST_PORT; CTA_PROTO_ICMP_ID]
  then mnl_attr_validate attr MNL_TYPE_U16 e
  else (0, e).

(** The part of the environment that logging and [errno] leave alone. *)
Definition same_store (w w' : world) : Prop :=
  heap w' = heap w /\ next_block w' = next_block w
  /\ clock_realtime w' = clock_realtime w
  /\ clock_monotonic_raw w' = clock_monotonic_raw w
  /\ sent w' = sent w.

(** The fields of a packet that the conntrack step does not assign. *)
Definition same_outside_ct (p p' : nf_packet) : Prop :=
  queue_num p' = queue_num p /\ packet_id p' = packet_id p
  /\ hw_protocol p' = hw_protocol p /\ payload_len p' = payload_len p
  /\ payload p' = payload p /\ has_timestamp p' = has_timestamp p
  /\ timestamp p' = timestamp p /\ wall_time p' = wall_time p
  /\ mono_time p' = mono_time p /\ conn_state p' = conn_state p.

(** The array with entry [k] reset to [NULL]. *)
Definition tb_unset (tb : table) (k : Z) : table :=
  fun i => if i =? k then None else tb i.

(** A timestamp attribute whose [sec] and [usec] are both zero. *)
Definition zero_timestamp (a_ts : nlattr) : Prop :=
  load 8 0 (mnl_attr_get_payload a_ts) = 0
  /\ load 8 8 (mnl_attr_get_payload a_ts) = 0.

(** [buf] after [buf->nlh = mnl_nlmsg_next(buf->nlh, &buf->len)]. *)
Definition advance (d : list byte) (buf : nf_buffer) : nf_buffer :=
  let '(cursor, l) :=
    mnl_nlmsg_next (cursor_mem d buf) (nlh buf) (len buf) in
  {| data := data buf; nlh := cursor; len := l |}.

(** The cursor of [buf] addresses a complete event message: header within
    the received bytes, dump-interrupted flag clear, application type. *)
Definition current_event (d : list byte) (buf : nf_buffer) : Prop :=
  current_msg_ok d buf
  /\ dump_intr (cursor_mem d buf) = false
  /\ hdr_nlmsg_type (cursor_mem d buf) >= NLMSG_MIN_TYPE.

(** An IP sub-block that holds an IPv4 attribute and an IPv6 attribute. *)
Definition ip_block_mixed (ipb : nlattr) : Prop :=
  (has_attr CTA_IP_V4_SRC (nested_attrs ipb)
   \/ has_attr CTA_IP_V4_DST (nested_attrs ipb))
  /\ (has_attr CTA_IP_V6_SRC (nested_attrs ipb)
      \/ has_attr CTA_IP_V6_DST (nested_attrs ipb)).

(** A tuple that has an IP sub-block, every IP sub-block of it being
    mixed. *)
Definition tuple_mixed (t : nlattr) : Prop :=
  has_attr CTA_TUPLE_IP (nested_attrs t)
  /\ forall ipb, In ipb (nested_attrs t) ->
                 mnl_attr_get_type ipb = CTA_TUPLE_IP -> ip_block_mixed ipb.

(** A tracking context with an original or a reply tuple that is mixed. *)
Definition ct_has_mixed_tuple (ct : nlattr) : Prop :=
  exists k, (k = CTA_TUPLE_ORIG \/ k = CTA_TUPLE_REPLY)
            /\ has_attr k (nested_attrs ct)
            /\ forall t, In t (nested_attrs ct) ->
                         mnl_attr_get_type t = k -> tuple_mixed t.

Definition msg_has_mixed_tuple (mem : list byte) : Prop :=
  has_attr NFQA_CT (msg_attrs mem)
  /\ forall ct, In ct (msg_attrs mem) ->
                mnl_attr_get_type ct = NFQA_CT -> ct_has_mixed_tuple ct.

(** A well-formed event message, padded to the netlink alignment and
    accepted by the packet assembler. *)
Definition event_msg (m : list byte) : Prop :=
  sizeof_nlmsghdr <= hdr_nlmsg_len m
  /\ Z.of_nat (length m) = MNL_ALIGN (hdr_nlmsg_len m)
  /\ dump_intr m = false
  /\ hdr_nlmsg_type m >= NLMSG_MIN_TYPE
  /\ forall w, fst (fst (nfqueue_parse m w)) = true.

(** The caller's loop: [n] calls of [nfqueue_next] in a row on the same
    buffer, with the codes and packets they return, the buffer and the
    environment at the end.  [None] when a call does not return. *)
Fixpoint nfqueue_next_calls (fuel n : nat) (buf : nf_buffer)
  (packet : nf_packet) (w : world)
  : option (list (Z * nf_packet) * nf_buffer * world) :=
  match n with
  | O => Some ([], buf, w)
  | S n' =>
    match nfqueue_next fuel buf packet w with
    | Some (Returns (r, buf', packet', w')) =>
      match nfqueue_next_calls fuel n' buf' packet' w' with
      | Some (l, b, w'') => Some ((r, packet') :: l, b, w'')
      | None => None
      end
    | _ => None
    end
  end.

(** The packets assembled from the messages [msgs], one after the other, and
    the environment after the last. *)
Fixpoint assembled (msgs : list (list byte)) (w : world)
  : list nf_packet * world :=
  match msgs with
  | [] => ([], w)
  | m :: r =>
    let '(_, p, w') := nfqueue_parse m w in
    let '(l, w'') := assembled r w' in
    (p :: l, w'')
  end.

(** *** Wire images *)

(** A [struct nlmsghdr] in memory. *)
Definition nlmsghdr_image (len_ type flags seq pid : Z) : list byte :=
  host_encode 4 len_ ++ host_encode 2 type ++ host_encode 2 flags
    ++ host_encode 4 seq ++ host_encode 4 pid.

(** A [struct nfgenmsg] naming queue [q]: family, version, resource id in
    network byte order. *)
Definition nfgenmsg_image (q : Z) : list byte :=
  [byte_of_Z AF_UNSPEC; byte_of_Z NFNETLINK_V0] ++ be_encode 2 q.

(** An attribute: length and type in host byte order, the payload, and
    padding to the netlink alignment. *)
Definition nlattr_image (type : Z) (payload_ : list byte) : list byte :=
  let l := Z.of_nat (length payload_) in
  host_encode 2 (MNL_ATTR_HDRLEN + l) ++ host_encode 2 type ++ payload_
    ++ repeat x00 (Z.to_nat (MNL_ALIGN l - l)).

(** The verdict message for packet [id] on queue [q], with the nested mark
    attribute when [mark] is given: every multi-byte protocol field in
    network byte order. *)
Definition verdict_image (q id verdict : Z) (mark : option (list byte))
  : list byte :=
  let attrs :=
    nlattr_image NFQA_VERDICT_HDR (be_encode 4 verdict ++ be_encode 4 id)
      ++ match mark with
         | None => []
         | Some mk =>
           nlattr_image (Z.lor NLA_F_NESTED NFQA_CT)
             (nlattr_image CTA_MARK mk)
         end in
  nlmsghdr_image
    (MNL_NLMSG_HDRLEN + sizeof_nfgenmsg + Z.of_nat (length attrs))
    (Z.lor (Z.shiftl NFNL_SUBSYS_QUEUE 8) NFQNL_MSG_VERDICT)
    NLM_F_REQUEST 0 0
    ++ nfgenmsg_image q ++ attrs.

(** A message under construction is well laid out: the length field counts
    the header and the bytes written, and is aligned. *)
Definition wf_out (m : out_msg) : Prop :=
  nlmsg_len m = sizeof_nlmsghdr + Z.of_nat (length (nlmsg_body m))
  /\ MNL_ALIGN (nlmsg_len m) = nlmsg_len m.

(** The message [nfqueue_put_header] returns when the two headers fit. *)
Definition header_msg (queue_num_ msg_type : Z) : out_msg :=
  {| nlmsg_len := MNL_NLMSG_HDRLEN + sizeof_nfgenmsg;
     nlmsg_type := to_u16 (Z.lor (Z.shiftl NFNL_SUBSYS_QUEUE 8) msg_type);
     nlmsg_flags := NLM_F_REQUEST; nlmsg_seq := 0; nlmsg_pid := 0;
     nlmsg_body := nfgenmsg_image (to_u16 queue_num_) |}.

(** Bytes the three senders need in the send buffer. *)
Definition command_size (data_ : list byte) : Z :=
  MNL_NLMSG_HDRLEN + sizeof_nfgenmsg
  + (MNL_ATTR_HDRLEN + MNL_ALIGN (Z.of_nat (length data_))).

Definition set_params_size (maxlen flags : Z) : Z :=
  MNL_NLMSG_HDRLEN + sizeof_nfgenmsg
  + (MNL_ATTR_HDRLEN + MNL_ALIGN sizeof_nfqnl_msg_config_params)
  + (if 0 <? maxlen then MNL_ATTR_HDRLEN + 4 else 0)
  + (if flags =? 0 then 0 else 2 * (MNL_ATTR_HDRLEN + 4)).

Definition verdict_size (connmark : Z) : Z :=
  MNL_NLMSG_HDRLEN + sizeof_nfgenmsg
  + (MNL_ATTR_HDRLEN + sizeof_nfqnl_msg_verdict_hdr)
  + (if 0 <=? connmark then MNL_ATTR_HDRLEN + (MNL_ATTR_HDRLEN + 4) else 0).

(** The bytes an attribute pointer stands for: the image without the
    padding. *)
Definition nlattr_head (type : Z) (payload_ : list byte) : nlattr :=
  host_encode 2 (MNL_ATTR_HDRLEN + Z.of_nat (length payload_))
    ++ host_encode 2 type ++ payload_.

(** The datagram [d] carries a tracking-context attribute that nests exactly
    one attribute, a mark with payload [mk]. *)
Definition carries_mark (d : list byte) (mk : list byte) : Prop :=
  exists ct mark_attr,
    In ct (msg_attrs d) /\ mnl_attr_get_type ct = NFQA_CT
    /\ nested_attrs ct = [mark_attr]
    /\ mnl_attr_get_type mark_attr = CTA_MARK
    /\ mnl_attr_get_payload mark_attr = mk.

(** *** Sockets, receiving, opening and closing

    The rest of the header: [recv_timeout], the local [mnl_socket_open2],
    [nfqueue_open], [nfqueue_close] and [nfqueue_receive]. *)

(** More constants of [errno.h], [sys/socket.h], [linux/netlink.h] and
    [libmnl.h]. *)
Definition EINTR : Z := 4.
Definition EAGAIN : Z := 11.
Definition EWOULDBLOCK : Z := EAGAIN.
Definition AF_NETLINK : Z := 16.
Definition SOCK_RAW : Z := 3.
Definition SOCK_NONBLOCK : Z := 2048.
Definition NETLINK_NETFILTER : Z := 12.
Definition MNL_SOCKET_AUTOPID : Z := 0.

(** [struct mnl_socket { int fd; struct sockaddr_nl addr; }] *)
Definition sizeof_mnl_socket : Z := 16.
Definition sizeof_sockaddr_nl : Z := 12.

(** The system and library calls the code makes, as what they answer; a
    return value of C type [int] is read through [to_int].

    - [pselect(nfds, &rset, NULL, NULL, timeout, NULL)] with the read set
      [rset] and the timeout ([None] for a null pointer), given [errno]
      before: the return value and [errno] afterwards;
    - [mnl_socket_recvfrom(nl, buf, bufsiz)] on the descriptor of [nl]: the
      return value, [errno] afterwards and the bytes put at the start of
      [buf];
    - [calloc(1, size)]: whether it finds memory, and [errno] afterwards;
    - [socket(domain, type, protocol)]: the descriptor or -1, and [errno];
    - [mnl_socket_bind(nl, groups, pid)] on the descriptor of [nl]: the return
      value, [errno] and the image of [nl->addr] it leaves;
    - [close(fd)]: the return value and [errno];
    - the content of a block as [malloc] returns it. *)
Variable sys_pselect : Z -> list Z -> option timespec -> Z -> Z * Z.
Variable socket_recvfrom : Z -> Z -> Z -> Z * Z * list byte.
Variable sys_calloc : Z -> Z -> bool * Z.
Variable sys_socket : Z -> Z -> Z -> Z -> Z * Z.
Variable socket_bind : Z -> Z -> Z -> Z -> Z * Z * list byte.
Variable sys_close : Z -> Z -> Z * Z.
Variable uninitialised : Z -> list byte.

(** **** Heap blocks *)

Definition set_heap (h : list (Z * list byte)) (w : world) : world :=
  {| clock_realtime := clock_realtime w;
     clock_monotonic_raw := clock_monotonic_raw w;
     heap := h; next_block := next_block w;
     warned_timestamp := warned_timestamp w;
     warned_conntrack := warned_conntrack w;
     log := log w; errno := errno w; sent := sent w |}.

(** The content of the block at address [p], if [p] is a live block. *)
Fixpoint heap_find (p : Z) (h : list (Z * list byte)) : option (list byte) :=
  match h with
  | [] => None
  | (a, bs) :: r => if a =? p then Some bs else heap_find p r
  end.

(** The heap after [memcpy(p + off, bs, length bs)]. *)
Fixpoint heap_write (p : Z) (off : nat) (bs : list byte)
  (h : list (Z * list byte)) : list (Z * list byte) :=
  match h with
  | [] => []
  | (a, old) :: r =>
    if a =? p then (a, store off bs old) :: r
    else (a, old) :: heap_write p off bs r
  end.

(** The heap after [free(p)]. *)
Fixpoint heap_free (p : Z) (h : list (Z * list byte)) : list (Z * list byte) :=
  match h with
  | [] => []
  | (a, bs) :: r => if a =? p then r else (a, bs) :: heap_free p r
  end.

Definition free (p : Z) (w : world) : world := set_heap (heap_free p (heap w)) w.

(** [mnl_socket_get_fd(nl)] is [nl->fd]; [None] when [nl] is not the address
    of a live block, where the C program has no defined behaviour. *)
Definition mnl_socket_get_fd (nl : Z) (w : world) : option Z :=
  match heap_find nl (heap w) with
  | Some blk => Some (to_int (load 4 0 blk))
  | None => None
  end.

(** **** Helpers and workarounds *)

(** The [struct timespec] that [recv_timeout] fills: [/] and [%] of C
    truncate towards zero. *)
Definition recv_timeout_ts (timeout_ms : Z) : timespec :=
  {| ts_sec := Z.quot timeout_ms 1000;
     ts_nsec := to_i64 (Z.rem timeout_ms 1000 * 1000000) |}.

(** Helper.  Return <0 on failure *)
Definition recv_timeout (fd timeout_ms : Z) (w : world) : Z * world :=
  let ts := recv_timeout_ts timeout_ms in
  let '(retval, e) :=
    sys_pselect (fd + 1) [fd] (if timeout_ms >? 0 then Some ts else None)
      (errno w) in
  let retval := to_int retval in
  let w := set_errno e w in
  if (retval =? -1) && (errno w =? EINTR) then (0, w)  (* signal: no data *)
  else (retval, w).  (* >0 if descriptor is readable *)

(** The local [mnl_socket_open2]: the address of the new socket object, [0]
    for [NULL]. *)
Definition mnl_socket_open2 (bus flags : Z) (w : world) : Z * world :=
  let '(ok, e) := sys_calloc sizeof_mnl_socket (errno w) in
  let w := set_errno e w in
  if negb ok then (0, w)
  else
    let '(nl, w) := malloc_copy (repeat x00 (Z.to_nat sizeof_mnl_socket)) w in
    let '(fd, e) :=
      sys_socket AF_NETLINK (Z.lor SOCK_RAW flags) bus (errno w) in
    let fd := to_int fd in
    let w :=
      set_errno e (set_heap (heap_write nl 0 (host_encode 4 fd) (heap w)) w) in
    if fd =? -1 then (0, free nl w) else (nl, w).

(** [mnl_socket_bind] and [mnl_socket_close] of libmnl, on the socket object
    at [nl]. *)
Definition mnl_socket_bind (nl groups pid : Z) (w : world)
  : option (Z * world) :=
  match mnl_socket_get_fd nl w with
  | None => None
  | Some fd =>
    let '(r, e, addr) := socket_bind fd groups pid (errno w) in
    Some (to_int r,
          set_errno e
            (set_heap
               (heap_write nl 4 (firstn (Z.to_nat sizeof_sockaddr_nl) addr)
                  (heap w)) w))
  end.

Definition mnl_socket_close (nl : Z) (w : world) : option (Z * world) :=
  match mnl_socket_get_fd nl w with
  | None => None
  | Some fd =>
    let '(r, e) := sys_close fd (errno w) in
    Some (to_int r, set_errno e (free nl w))  (* nl_socket is freed here *)
  end.

(** **** Public interface *)

(** Return false on failure.  If queue_len is zero, use default value.  The
    result carries [*q] as the call leaves it; [None] stands for a call
    without defined behaviour. *)
Definition nfqueue_open (queue_num_ queue_len : Z) (w : world)
  : option (bool * nf_queue * world) :=
  let q := {| q_queue_num := queue_num_; nl_socket := 0 |} in
  let w := DEBUG "Initializing nfqueue %d" w in
  let '(nl, w) := mnl_socket_open2 NETLINK_NETFILTER SOCK_NONBLOCK w in
  let q := {| q_queue_num := q_queue_num q; nl_socket := nl |} in
  if nl =? 0 then Some (false, q, LOG_SYSERR "mnl_socket_open" w)
  else
    match mnl_socket_bind nl 0 MNL_SOCKET_AUTOPID w with
    | None => None
    | Some (r, w) =>
      if r <? 0 then Some (false, q, LOG_SYSERR "mnl_socket_bind" w)
      else
        let '(r, w) := nfqueue_bind queue_num_ w in
        if r <? 0 then Some (false, q, LOG_SYSERR "nfqueue_bind" w)
        else
          let w := DEBUG "Configuring nfqueue %d (len=%u)" w in
          let '(r, w) :=
            nfqueue_set_params queue_num_ NFQNL_COPY_PACKET 0xFFFF queue_len
              NFQA_CFG_F_CONNTRACK w in
          if r <? 0 then Some (false, q, LOG_SYSERR "nfqueue_set_params" w)
          else Some (true, q, DEBUG "nfqueue %d initialized" w)
    end.

Definition nfqueue_close (q : nf_queue) (w : world) : option (outcome world) :=
  if nl_socket q =? 0 then Some (Dies (ASSERT_failed w))
  else
    let w := DEBUG "Closing socket for queue %d" w in
    match mnl_socket_close (nl_socket q) w with
    | None => None
    | Some (_, w) => Some (Returns w)
    end.

(** Return 1 on success, -1 on failure, 0 on timeout (if timeout_ms > 0) or
    data not ready.  The result carries [*buf] as the call leaves it. *)
Definition nfqueue_receive (q : nf_queue) (buf : nf_buffer) (timeout_ms : Z)
  (w : world) : option (outcome (Z * nf_buffer * world)) :=
  if nl_socket q =? 0 then Some (Dies (ASSERT_failed w))
  else
    let d :=
      match data buf with
      | None => uninitialised (to_size_t RECV_BUF_LEN)
      | Some d => d
      end in
    let buf := {| data := Some d; nlh := nlh buf; len := len buf |} in
    match mnl_socket_get_fd (nl_socket q) w with
    | None => None
    | Some fd =>
      let '(retval, w) := recv_timeout fd timeout_ms w in
      if retval =? 0 then  (* timeout *)
        Some (Returns (IO_NOTREADY, buf, DEBUG "Netlink socket timeout" w))
      else if retval <? 1 then  (* error *)
        if errno w =? EINTR then Some (Returns (IO_NOTREADY, buf, w))
        else Some (Returns (IO_ERROR, buf, LOG_SYSERR "recv_timeout" w))
      else  (* data is ready *)
        let '(r, e, bytes) :=
          socket_recvfrom fd (to_size_t RECV_BUF_LEN) (errno w) in
        let len_ := to_int r in
        let w := set_errno e w in
        let d := store 0 bytes d in
        let buf := {| data := Some d; nlh := nlh buf; len := len buf |} in
        if len_ <? 0 then
          if (errno w =? EAGAIN) || (errno w =? EWOULDBLOCK)
             || (errno w =? EINTR)
          then  (* no data *)
            Some (Returns (IO_NOTREADY, buf,
                           DEBUG "No data from Netlink socket" w))
          else
            Some (Returns (IO_ERROR, buf,
                           LOG_SYSERR "mnl_socket_recvfrom" w))
        else if len_ =? 0 then  (* EOF *)
          Some (Returns (IO_ERROR, buf,
                         LOG LOG_ERR "Netlink socket closed by peer" w))
        else
          Some (Returns
                  (IO_READY, {| data := Some d; nlh := 0; len := len_ |},
                   DEBUG "Received data from netfilter (length=%d)" w))
    end.

(** *** More vocabulary *)

(** The datagram of a queue command: header, [struct nfgenmsg] naming queue
    [q], and the attribute images [attrs]. *)
Definition nfq_msg_image (q msg_type : Z) (attrs : list byte) : list byte :=
  nlmsghdr_image
    (MNL_NLMSG_HDRLEN + sizeof_nfgenmsg + Z.of_nat (length attrs))
    (to_u16 (Z.lor (Z.shiftl NFNL_SUBSYS_QUEUE 8) msg_type))
    NLM_F_REQUEST 0 0
    ++ nfgenmsg_image q ++ attrs.

(** The message under construction that has queue [q], type [msg_type] and
    the attribute images [attrs] so far. *)
Definition msg_of (q msg_type : Z) (attrs : list byte) : out_msg :=
  {| nlmsg_len := MNL_NLMSG_HDRLEN + sizeof_nfgenmsg + Z.of_nat (length attrs);
     nlmsg_type := to_u16 (Z.lor (Z.shiftl NFNL_SUBSYS_QUEUE 8) msg_type);
     nlmsg_flags := NLM_F_REQUEST; nlmsg_seq := 0; nlmsg_pid := 0;
     nlmsg_body := nfgenmsg_image (to_u16 q) ++ attrs |}.

(** The result of a sender once the message is complete: the answer of the
    socket read as an [int], through the [end:] label. *)
Definition send_result (img : list byte) (w : world) : Z * world :=
  send_end (to_int (fst (socket_sendto img (errno w))))
    (set_errno (snd (socket_sendto img (errno w))) (push_sent img w)).

(** The attributes of a configuration message: copy range and mode, the
    queue length when given, flags and mask when given. *)
Definition set_params_attrs (mode range maxlen flags : Z) : list byte :=
  nlattr_image NFQA_CFG_PARAMS (be_encode 4 range ++ [byte_of_Z mode])
    ++ (if 0 <? maxlen
        then nlattr_image NFQA_CFG_QUEUE_MAXLEN (be_encode 4 maxlen)
        else [])
    ++ (if flags =? 0 then []
        else nlattr_image NFQA_CFG_FLAGS (be_encode 4 flags)
               ++ nlattr_image NFQA_CFG_MASK (be_encode 4 flags)).

(** The two datagrams [nfqueue_open] sends. *)
Definition bind_image (q : Z) : list byte :=
  nfq_msg_image (to_u16 q) NFQNL_MSG_CONFIG
    (nlattr_image NFQA_CFG_CMD [byte_of_Z NFQNL_CFG_CMD_BIND; x00; x00; x00]).

Definition config_image (q queue_len : Z) : list byte :=
  nfq_msg_image (to_u16 q) NFQNL_MSG_CONFIG
    (set_params_attrs NFQNL_COPY_PACKET 0xFFFF queue_len NFQA_CFG_F_CONNTRACK).

(** [q->nl_socket] is the address of a live socket object with descriptor
    [fd]. *)
Definition socket_live (q : nf_queue) (fd : Z) (w : world) : Prop :=
  nl_socket q <> 0 /\ mnl_socket_get_fd (nl_socket q) w = Some fd.

(** A datagram is a complete request: its length field counts its bytes and
    is aligned, and [mnl_nlmsg_ok] accepts it at its full length. *)
Definition complete_request (msg_type : Z) (d : list byte) : Prop :=
  hdr_nlmsg_len d = Z.of_nat (length d)
  /\ MNL_ALIGN (hdr_nlmsg_len d) = hdr_nlmsg_len d
  /\ hdr_nlmsg_type d
     = to_u16 (Z.lor (Z.shiftl NFNL_SUBSYS_QUEUE 8) msg_type)
  /\ hdr_nlmsg_flags d = NLM_F_REQUEST
  /\ mnl_nlmsg_ok d (Z.of_nat (length d)) = true.

(** The payload size the [switch] of [parse_nfqa_attr_cb] demands of an
    attribute type, [None] where it demands none. *)
Definition nfqa_payload_size (type : Z) : option Z :=
  if type_in type
       [NFQA_MARK; NFQA_IFINDEX_INDEV; NFQA_IFINDEX_OUTDEV;
        NFQA_IFINDEX_PHYSINDEV; NFQA_IFINDEX_PHYSOUTDEV; NFQA_CAP_LEN;
        NFQA_SKB_INFO; NFQA_SECCTX; NFQA_UID; NFQA_GID; NFQA_CT_INFO]
  then Some 4
  else if type =? NFQA_TIMESTAMP then Some sizeof_nfqnl_msg_packet_timestamp
  else if type =? NFQA_HWADDR then Some sizeof_nfqnl_msg_packet_hw
  else if type =? NFQA_PACKET_HDR then Some sizeof_nfqnl_msg_packet_hdr
  else None.

(** [a] is the last attribute of type [k] in [attrs]. *)
Definition last_of_type (k : Z) (a : nlattr) (attrs : list nlattr) : Prop :=
  exists pre post,
    attrs = pre ++ a :: post /\ mnl_attr_get_type a = k
    /\ lacks_attr k post.

(** The socket object at [nl] is the first block of the heap, which is [h]
    after it, and holds the descriptor [fd]. *)
Definition socket_on_top (nl fd : Z) (h : list (Z * list byte)) (w : world)
  : Prop :=
  exists rest, heap w = (nl, host_encode 4 fd ++ rest) :: h.

(** The buffer [nfqueue_receive] works on: the region allocated when
    [buf->data] was [NULL]. *)
Definition with_region (buf : nf_buffer) : nf_buffer :=
  {| data := Some match data buf with
                  | None => uninitialised (to_size_t RECV_BUF_LEN)
                  | Some d => d
                  end;
     nlh := nlh buf; len := len buf |}.

(** A check fails with [ERANGE] only. *)
Definition check_range (check : nlattr -> Z -> Z * Z) : Prop :=
  forall a e, (fst (check a e) <? 0) = true -> snd (check a e) = ERANGE.

(** The packet before the walk: zero but for the two clocks. *)
Definition packet_init (w : world) : nf_packet :=
  set_wall_time (clock_realtime w)
    (set_mono_time (clock_monotonic_raw w) nf_packet_zero).


(** The payload size the [switch] of [parse_ip_cb] and of [parse_proto_cb]
    demands of an attribute type. *)
Definition ip_payload_size (type : Z) : option Z :=
  if type_in type [CTA_IP_V4_SRC; CTA_IP_V4_DST] then Some 4
  else if type_in type [CTA_IP_V6_SRC; CTA_IP_V6_DST]
  then Some sizeof_in6_addr
  else None.

Definition proto_payload_size (type : Z) : option Z :=
  if type_in type [CTA_PROTO_NUM; CTA_PROTO_ICMP_TYPE; CTA_PROTO_ICMP_CODE]
  then Some 1
  else if type_in type
            [CTA_PROTO_SRC_PORT; CTA_PROTO_DST_PORT; CTA_PROTO_ICMP_ID]
  then Some 2
  else None.

(** ** Basic facts *)

Lemma byte_to_Z_range (b : byte) : 0 <= byte_to_Z b < 256.
Proof.
  unfold byte_to_Z. pose proof (Byte.to_N_bounded b) as H. lia.
Qed.

Lemma byte_of_to_Z (b : byte) : byte_of_Z (byte_to_Z b) = b.
Proof.
  unfold byte_of_Z, byte_to_Z.
  pose proof (Byte.to_N_bounded b) as H.
  rewrite Z.mod_small by lia.
  rewrite N2Z.id, Byte.of_to_N. reflexivity.
Qed.

Lemma byte_to_of_Z (z : Z) : byte_to_Z (byte_of_Z z) = z mod 256.
Proof.
  unfold byte_of_Z, byte_to_Z.
  pose proof (Z.mod_pos_bound z 256 ltac:(lia)) as Hb.
  destruct (Byte.of_N (Z.to_N (z mod 256))) as [b|] eqn:E.
  - apply Byte.to_of_N in E. rewrite E. lia.
  - apply Byte.of_N_None_iff in E. lia.
Qed.

Lemma byte_of_Z_mod (z : Z) : byte_of_Z (z mod 256) = byte_of_Z z.
Proof.
  unfold byte_of_Z. rewrite Z.mod_mod by lia. reflexivity.
Qed.

Lemma le_encode_length (n : nat) (z : Z) : length (le_encode n z) = n.
Proof.
  revert z; induction n as [|n IH]; intros z; simpl; [|rewrite IH]; reflexivity.
Qed.

Lemma be_encode_length (n : nat) (z : Z) : length (be_encode n z) = n.
Proof.
  unfold be_encode. rewrite length_rev. apply le_encode_length.
Qed.

Lemma le_encode_decode (bs : list byte) :
  le_encode (length bs) (le_decode bs) = bs.
Proof.
  induction bs as [|b r IH]; cbn [le_encode le_decode length];
    [reflexivity|].
  pose proof (byte_to_Z_range b) as Hb.
  f_equal.
  - rewrite <- byte_of_Z_mod.
    replace ((byte_to_Z b + 256 * le_decode r) mod 256) with (byte_to_Z b).
    + apply byte_of_to_Z.
    + rewrite (Z.mul_comm 256), Z.mod_add by lia.
      symmetry; apply Z.mod_small; lia.
  - replace ((byte_to_Z b + 256 * le_decode r) / 256) with (le_decode r);
      [exact IH|].
    rewrite (Z.mul_comm 256), Z.div_add by lia.
    rewrite (Z.div_small (byte_to_Z b)) by lia. lia.
Qed.

Lemma le_decode_encode (n : nat) (z : Z) :
  le_decode (le_encode n z) = z mod 256 ^ Z.of_nat n.
Proof.
  revert z; induction n as [|n IH]; intros z.
  - simpl. rewrite Z.mod_1_r. reflexivity.
  - cbn [le_encode le_decode]. rewrite IH, byte_to_of_Z.
    rewrite Nat2Z.inj_succ, Z.pow_succ_r by lia.
    rewrite Z.rem_mul_r by lia. reflexivity.
Qed.

Lemma le_decode_range (bs : list byte) :
  0 <= le_decode bs < 256 ^ Z.of_nat (length bs).
Proof.
  induction bs as [|b r IH].
  - simpl. lia.
  - cbn [le_decode length]. pose proof (byte_to_Z_range b).
    rewrite Nat2Z.inj_succ, Z.pow_succ_r by lia. lia.
Qed.

Lemma MNL_ALIGN_eq (x : Z) : MNL_ALIGN x = 4 * ((x + 3) / 4).
Proof.
  unfold MNL_ALIGN, MNL_ALIGNTO.
  change (Z.lnot (4 - 1)) with (Z.lnot (Z.ones 2)).
  rewrite <- Z.ldiff_land, Z.ldiff_ones_r by lia.
  rewrite Z.shiftl_mul_pow2, Z.shiftr_div_pow2 by lia.
  change (2 ^ 2) with 4. replace (x + 4 - 1) with (x + 3) by lia. lia.
Qed.

Lemma MNL_ALIGN_w_eq (w x : Z) :
  0 <= x -> x + 3 < 2 ^ w -> MNL_ALIGN_w w x = MNL_ALIGN x.
Proof.
  intros H0 H1. unfold MNL_ALIGN_w, MNL_ALIGN, MNL_ALIGNTO.
  rewrite Z.mod_small by lia. reflexivity.
Qed.

Lemma MNL_ALIGN_bounds (x : Z) : x <= MNL_ALIGN x < x + 4.
Proof.
  rewrite MNL_ALIGN_eq.
  pose proof (Z.div_mod (x + 3) 4 ltac:(lia)).
  pose proof (Z.mod_pos_bound (x + 3) 4 ltac:(lia)). lia.
Qed.

Lemma MNL_ALIGN_mult4 (k : Z) : MNL_ALIGN (4 * k) = 4 * k.
Proof.
  rewrite MNL_ALIGN_eq.
  replace (4 * k + 3) with (3 + k * 4) by lia.
  rewrite Z.div_add by lia. change (3 / 4) with 0. lia.
Qed.


(** ** The attribute walk *)

Lemma to_int_small (z : Z) : - 2 ^ 31 <= z < 2 ^ 31 -> to_int z = z.
Proof.
  intros H. unfold to_int. rewrite Z.mod_small by lia. lia.
Qed.

Lemma to_int_le (z : Z) : 0 <= z -> 0 <= to_int z -> to_int z <= z.
Proof.
  intros Hz Hi. unfold to_int in *.
  pose proof (Z.div_mod (z + 2 ^ 31) (2 ^ 32) ltac:(lia)) as Hdm.
  pose proof (Z.mod_pos_bound (z + 2 ^ 31) (2 ^ 32) ltac:(lia)) as Hb.
  assert (0 <= (z + 2 ^ 31) / 2 ^ 32) by (apply Z.div_pos; lia).
  lia.
Qed.

Lemma cb_form_shape max check : cb_shape max (cb_form max check).
Proof.
  intros a tb e. unfold cb_form, mnl_attr_type_valid.
  destruct (Z.gtb_spec (mnl_attr_get_type a) max) as [Hgt|Hle]; cbn.
  - right; left. split; [lia|]. eexists; reflexivity.
  - destruct (check a e) as [r e']. destruct (r <? 0).
    + left. eexists; reflexivity.
    + right; right. split; [lia|]. eexists; reflexivity.
Qed.

Lemma cb_form_indep max check : check_indep check -> cb_indep (cb_form max check).
Proof.
  intros Hc a tb e1 e2. unfold cb_form, mnl_attr_type_valid.
  destruct (mnl_attr_get_type a >? max); cbn; [split; reflexivity|].
  specialize (Hc a e1 e2).
  destruct (check a e1) as [r1 e1'], (check a e2) as [r2 e2'].
  cbn in Hc. subst r2. destruct (r1 <? 0); split; reflexivity.
Qed.

Lemma __mnl_attr_validate_indep a type exp_len e1 e2 :
  fst (__mnl_attr_validate a type exp_len e1)
  = fst (__mnl_attr_validate a type exp_len e2).
Proof.
  unfold __mnl_attr_validate.
  repeat match goal with
         | |- context [if ?c then _ else _] => destruct c
         end; reflexivity.
Qed.

Lemma mnl_attr_validate_indep a type e1 e2 :
  fst (mnl_attr_validate a type e1) = fst (mnl_attr_validate a type e2).
Proof.
  unfold mnl_attr_validate. destruct (type >=? MNL_TYPE_MAX);
    [reflexivity | apply __mnl_attr_validate_indep].
Qed.

Lemma mnl_attr_validate2_indep a type exp_len e1 e2 :
  fst (mnl_attr_validate2 a type exp_len e1)
  = fst (mnl_attr_validate2 a type exp_len e2).
Proof.
  unfold mnl_attr_validate2. destruct (type >=? MNL_TYPE_MAX);
    [reflexivity | apply __mnl_attr_validate_indep].
Qed.

Ltac check_indep_tac :=
  intros ? ? ?;
  repeat match goal with
         | |- context [if ?c then _ else _] => destruct c
         end;
  first [ reflexivity
        | apply mnl_attr_validate_indep
        | apply mnl_attr_validate2_indep ].

Lemma parse_nfqa_attr_cb_form :
  parse_nfqa_attr_cb = cb_form (to_u16 NFQA_MAX) check_nfqa.
Proof. reflexivity. Qed.

Lemma parse_cta_attr_cb_form :
  parse_cta_attr_cb = cb_form (to_u16 CTA_MAX) check_cta.
Proof. reflexivity. Qed.

Lemma parse_tuple_cb_form :
  parse_tuple_cb = cb_form (to_u16 CTA_TUPLE_MAX) check_tuple.
Proof. reflexivity. Qed.

Lemma parse_ip_cb_form : parse_ip_cb = cb_form (to_u16 CTA_IP_MAX) check_ip.
Proof. reflexivity. Qed.

Lemma parse_proto_cb_form :
  parse_proto_cb = cb_form (to_u16 CTA_PROTO_MAX) check_proto.
Proof. reflexivity. Qed.

Lemma check_nfqa_indep : check_indep check_nfqa.
Proof. unfold check_indep, check_nfqa. check_indep_tac. Qed.

Lemma check_cta_indep : check_indep check_cta.
Proof. unfold check_indep, check_cta. check_indep_tac. Qed.

Lemma check_tuple_indep : check_indep check_tuple.
Proof. unfold check_indep, check_tuple. check_indep_tac. Qed.

Lemma check_ip_indep : check_indep check_ip.
Proof. unfold check_indep, check_ip. check_indep_tac. Qed.

Lemma check_proto_indep : check_indep check_proto.
Proof. unfold check_indep, check_proto. check_indep_tac. Qed.

Lemma mnl_attr_run_indep cb attrs :
  cb_indep cb ->
  forall ret tb e1 e2,
    fst (mnl_attr_run cb attrs ret (tb, e1))
    = fst (mnl_attr_run cb attrs ret (tb, e2))
    /\ fst (snd (mnl_attr_run cb attrs ret (tb, e1)))
       = fst (snd (mnl_attr_run cb attrs ret (tb, e2))).
Proof.
  intros Hcb. induction attrs as [|a r IH]; intros ret tb e1 e2.
  - split; reflexivity.
  - cbn [mnl_attr_run]. destruct (Hcb a tb e1 e2) as [H1 H2].
    destruct (cb a (tb, e1)) as [r1 [t1 e1']].
    destruct (cb a (tb, e2)) as [r2 [t2 e2']].
    cbn in H1, H2. subst r2 t2.
    destruct (r1 <=? MNL_CB_STOP); [split; reflexivity | apply IH].
Qed.

(** An entry of the array after the walk was there before or is an attribute
    of that type met on the way. *)
Lemma mnl_attr_run_lookup max cb attrs :
  cb_shape max cb ->
  forall ret tb0 e r tb e' t a,
    mnl_attr_run cb attrs ret (tb0, e) = (r, (tb, e')) ->
    tb t = Some a ->
    tb0 t = Some a \/ (In a attrs /\ mnl_attr_get_type a = t).
Proof.
  intros Hcb. induction attrs as [|x xs IH];
    intros ret tb0 e r tb e' t a Hrun Ht.
  - cbn in Hrun. inversion Hrun; subst. left; exact Ht.
  - cbn [mnl_attr_run] in Hrun.
    destruct (Hcb x tb0 e) as [[e1 H]|[[_ [e1 H]]|[_ [e1 H]]]];
      rewrite H in Hrun.
    + cbn in Hrun. inversion Hrun; subst. left; exact Ht.
    + cbn in Hrun. destruct (IH _ _ _ _ _ _ _ _ Hrun Ht) as [?|[? ?]];
        [left; assumption | right; split; [right|]; assumption].
    + cbn in Hrun. destruct (IH _ _ _ _ _ _ _ _ Hrun Ht) as [H0|[? ?]].
      * unfold tb_set in H0.
        destruct (Z.eqb_spec t (mnl_attr_get_type x)) as [->|Hne].
        -- inversion H0; subst. right; split; [left|]; reflexivity.
        -- left; exact H0.
      * right; split; [right|]; assumption.
Qed.

(** A walk that did not fail recorded every attribute whose type is in
    range. *)
Lemma mnl_attr_run_recorded max cb attrs :
  cb_shape max cb ->
  forall ret tb0 e r tb e' t,
    mnl_attr_run cb attrs ret (tb0, e) = (r, (tb, e')) ->
    (r <? 0) = false ->
    t <= max ->
    tb0 t <> None \/ has_attr t attrs ->
    tb t <> None.
Proof.
  intros Hcb. induction attrs as [|x xs IH];
    intros ret tb0 e r tb e' t Hrun Hr Ht Hpre.
  - cbn in Hrun. inversion Hrun; subst.
    destruct Hpre as [?|[a [[] _]]]; assumption.
  - cbn [mnl_attr_run] in Hrun.
    destruct (Hcb x tb0 e) as [[e1 H]|[[Hgt [e1 H]]|[Hle [e1 H]]]];
      rewrite H in Hrun.
    + cbn in Hrun. inversion Hrun; subst. discriminate.
    + cbn in Hrun. apply (IH _ _ _ _ _ _ _ Hrun Hr Ht).
      destruct Hpre as [?|[a [[->|Hin] Ha]]].
      * left; assumption.
      * lia.
      * right. exists a. split; assumption.
    + cbn in Hrun. apply (IH _ _ _ _ _ _ _ Hrun Hr Ht).
      unfold tb_set.
      destruct (Z.eqb_spec t (mnl_attr_get_type x)) as [->|Hne].
      * left; discriminate.
      * destruct Hpre as [?|[a [[->|Hin] Ha]]].
        -- left; assumption.
        -- congruence.
        -- right. exists a. split; assumption.
Qed.

(** ** The packet assembler *)

Lemma parse_nfqa_attr_cb_indep : cb_indep parse_nfqa_attr_cb.
Proof. apply cb_form_indep, check_nfqa_indep. Qed.

Lemma parse_cta_attr_cb_indep : cb_indep parse_cta_attr_cb.
Proof. apply cb_form_indep, check_cta_indep. Qed.

Lemma parse_tuple_cb_indep : cb_indep parse_tuple_cb.
Proof. apply cb_form_indep, check_tuple_indep. Qed.

Lemma parse_ip_cb_indep : cb_indep parse_ip_cb.
Proof. apply cb_form_indep, check_ip_indep. Qed.

Lemma parse_proto_cb_indep : cb_indep parse_proto_cb.
Proof. apply cb_form_indep, check_proto_indep. Qed.

Lemma mnl_attr_parse_nested_indep nested cb tb e1 e2 :
  cb_indep cb ->
  fst (mnl_attr_parse_nested nested cb (tb, e1))
  = fst (mnl_attr_parse_nested nested cb (tb, e2))
  /\ fst (snd (mnl_attr_parse_nested nested cb (tb, e1)))
     = fst (snd (mnl_attr_parse_nested nested cb (tb, e2))).
Proof.
  intros Hcb. unfold mnl_attr_parse_nested. apply mnl_attr_run_indep, Hcb.
Qed.

Lemma mnl_attr_parse_indep mem offset cb tb e1 e2 :
  cb_indep cb ->
  fst (mnl_attr_parse mem offset cb (tb, e1))
  = fst (mnl_attr_parse mem offset cb (tb, e2))
  /\ fst (snd (mnl_attr_parse mem offset cb (tb, e1)))
     = fst (snd (mnl_attr_parse mem offset cb (tb, e2))).
Proof.
  intros Hcb. unfold mnl_attr_parse. apply mnl_attr_run_indep, Hcb.
Qed.

(** Two runs of a nested parse from different values of [errno]: same code,
    same array. *)
Ltac same_nested cb_lemma :=
  match goal with
  | |- context [mnl_attr_parse_nested ?n ?cb (?tb, ?e1)] =>
    match goal with
    | |- context [mnl_attr_parse_nested n cb (tb, ?e2)] =>
      lazymatch e2 with
      | e1 => fail
      | _ =>
        let H1 := fresh "Hret" in
        let H2 := fresh "Htb" in
        destruct (mnl_attr_parse_nested_indep n cb tb e1 e2 cb_lemma)
          as [H1 H2];
        destruct (mnl_attr_parse_nested n cb (tb, e1)) as [? [? ?]];
        destruct (mnl_attr_parse_nested n cb (tb, e2)) as [? [? ?]];
        cbn [fst snd] in H1, H2; subst; cbv beta iota
      end
    end
  end.

Lemma read_ip_addr_indep attr af ip_num v w1 w2 :
  fst (read_ip_addr attr af ip_num v w1)
  = fst (read_ip_addr attr af ip_num v w2).
Proof.
  unfold read_ip_addr. destruct attr as [a|]; [|reflexivity].
  repeat match goal with
         | |- context [if ?c then _ else _] => destruct c
         end; reflexivity.
Qed.

Ltac same_read_ip :=
  match goal with
  | |- context [read_ip_addr ?a ?af ?ip ?v ?wa] =>
    match goal with
    | |- context [read_ip_addr a af ip v ?wb] =>
      lazymatch wb with
      | wa => fail
      | _ =>
        let H := fresh "Hip" in
        pose proof (read_ip_addr_indep a af ip v wa wb) as H;
        destruct (read_ip_addr a af ip v wa) as [[[? ?] ?] ?];
        destruct (read_ip_addr a af ip v wb) as [[[? ?] ?] ?];
        cbn [fst snd] in H; inversion H; subst; clear H; cbv beta iota
      end
    end
  end.

(** Whether a tuple parses, and to what, does not depend on the
    environment. *)
Lemma read_addr_tuple_indep attr tuple w1 w2 :
  fst (read_addr_tuple attr tuple w1) = fst (read_addr_tuple attr tuple w2).
Proof.
  unfold read_addr_tuple.
  same_nested parse_tuple_cb_indep.
  match goal with |- context [if ?c then _ else _] => destruct c end;
    [reflexivity|].
  match goal with |- context [match ?t CTA_TUPLE_IP with _ => _ end] =>
    destruct (t CTA_TUPLE_IP) as [ipb|] end.
  - cbn [errno set_errno]. same_nested parse_ip_cb_indep.
    match goal with |- context [if ?c then _ else _] => destruct c end;
      [reflexivity|].
    cbn [ip_version src dst set_ip_version set_src set_dst].
    repeat same_read_ip.
    cbn [ip_version src dst set_ip_version set_src set_dst].
    repeat same_read_ip.
    match goal with |- context [negb ?c] => destruct c end;
      cbn [negb]; cbv beta iota; [|reflexivity].
    match goal with |- context [match ?t CTA_TUPLE_PROTO with _ => _ end] =>
      destruct (t CTA_TUPLE_PROTO) as [prb|] end; [|reflexivity].
    same_nested parse_proto_cb_indep.
    match goal with |- context [if ?c then _ else _] => destruct c end;
      reflexivity.
  - cbn [negb]. cbv beta iota.
    match goal with |- context [match ?t CTA_TUPLE_PROTO with _ => _ end] =>
      destruct (t CTA_TUPLE_PROTO) as [prb|] end; [|reflexivity].
    cbn [errno set_errno]. same_nested parse_proto_cb_indep.
    match goal with |- context [if ?c then _ else _] => destruct c end;
      reflexivity.
Qed.

Ltac break_match :=
  match goal with
  | |- context [match ?x with _ => _ end] => destruct x eqn:?
  end.

Lemma same_store_refl w : same_store w w.
Proof. repeat split. Qed.

Lemma same_store_trans w1 w2 w3 :
  same_store w1 w2 -> same_store w2 w3 -> same_store w1 w3.
Proof.
  unfold same_store. intros (?&?&?&?&?) (?&?&?&?&?).
  repeat split; congruence.
Qed.

Lemma same_store_LOG p f w : same_store w (LOG p f w).
Proof. repeat split. Qed.

Lemma same_store_set_errno e w : same_store w (set_errno e w).
Proof. repeat split. Qed.

Lemma same_store_LOG_ONCE_timestamp p f w :
  same_store w (LOG_ONCE_timestamp p f w).
Proof.
  unfold LOG_ONCE_timestamp. destruct (warned_timestamp w); repeat split.
Qed.

Lemma same_store_LOG_ONCE_conntrack p f w :
  same_store w (LOG_ONCE_conntrack p f w).
Proof.
  unfold LOG_ONCE_conntrack. destruct (warned_conntrack w); repeat split.
Qed.

Lemma read_ip_addr_store attr af ip_num v w :
  same_store w (snd (read_ip_addr attr af ip_num v w)).
Proof.
  unfold read_ip_addr. destruct attr as [a|]; [|apply same_store_refl].
  repeat break_match; cbn [snd]; repeat split.
Qed.

Lemma read_addr_tuple_store attr tuple w :
  same_store w (snd (read_addr_tuple attr tuple w)).
Proof.
  unfold read_addr_tuple.
  destruct (mnl_attr_parse_nested attr parse_tuple_cb (tb_empty, errno w))
    as [ret [attr2 e]].
  destruct (ret <? 0); [repeat split|].
  destruct (attr2 CTA_TUPLE_IP) as [ipb|].
  - destruct (mnl_attr_parse_nested ipb parse_ip_cb
                (tb_empty, errno (set_errno e w))) as [ret3 [attr3 e3]].
    destruct (ret3 <? 0); [repeat split|].
    repeat match goal with
           | |- context [read_ip_addr ?a ?af ?ip ?v ?w0] =>
             let H := fresh "Hs" in
             pose proof (read_ip_addr_store a af ip v w0) as H;
             destruct (read_ip_addr a af ip v w0) as [[[? ?] ?] ?];
             cbn [snd] in H; cbv beta iota
           end.
    assert (Hw : same_store w w3).
    { eapply same_store_trans; [|exact Hs2].
      eapply same_store_trans; [|exact Hs1].
      eapply same_store_trans; [|exact Hs0].
      eapply same_store_trans; [|exact Hs].
      eapply same_store_trans; apply same_store_set_errno. }
    destruct (negb (true && b && b0 && b1 && b2)); cbn [negb]; cbv beta iota;
      [exact Hw|].
    destruct (attr2 CTA_TUPLE_PROTO) as [prb|]; [|exact Hw].
    destruct (mnl_attr_parse_nested prb parse_proto_cb (tb_empty, errno w3))
      as [ret4 [attr4 e4]].
    destruct (ret4 <? 0); cbn [snd];
      (eapply same_store_trans; [exact Hw | apply same_store_set_errno]).
  - cbn [negb]. cbv beta iota.
    destruct (attr2 CTA_TUPLE_PROTO) as [prb|]; [|repeat split].
    destruct (mnl_attr_parse_nested prb parse_proto_cb
                (tb_empty, errno (set_errno e w))) as [ret4 [attr4 e4]].
    destruct (ret4 <? 0); repeat split.
Qed.

Ltac same_read_tuple :=
  match goal with
  | |- context [read_addr_tuple ?a ?t ?wa] =>
    match goal with
    | |- context [read_addr_tuple a t ?wb] =>
      lazymatch wb with
      | wa => fail
      | _ =>
        let H := fresh "Htu" in
        pose proof (read_addr_tuple_indep a t wa wb) as H;
        destruct (read_addr_tuple a t wa) as [[? ?] ?];
        destruct (read_addr_tuple a t wb) as [[? ?] ?];
        cbn [fst snd] in H; inversion H; subst; clear H; cbv beta iota
      end
    end
  end.

Ltac packet_fields :=
  cbn [queue_num packet_id hw_protocol payload_len payload has_timestamp
       timestamp wall_time mono_time has_conntrack has_connmark conn_id
       conn_mark conn_state conn_status orig reply
       set_queue_num set_packet_id set_hw_protocol set_payload_len
       set_payload set_has_timestamp set_timestamp set_wall_time
       set_mono_time set_has_conntrack set_has_connmark set_conn_id
       set_conn_mark set_conn_state set_conn_status set_orig set_reply].

Lemma nfqueue_parse_ct_indep ct p1 p2 w1 w2 :
  orig p1 = orig p2 -> reply p1 = reply p2 ->
  fst (fst (nfqueue_parse_ct ct p1 w1))
  = fst (fst (nfqueue_parse_ct ct p2 w2)).
Proof.
  intros Ho Hr. unfold nfqueue_parse_ct.
  same_nested parse_cta_attr_cb_indep.
  match goal with |- context [if ?c then _ else _] => destruct c end;
    [reflexivity|].
  repeat match goal with
         | |- context [match ?t ?k with Some _ => set_conn_id _ _ | None => _ end] =>
           destruct (t k)
         | |- context [match ?t ?k with Some _ => set_conn_status _ _ | None => _ end] =>
           destruct (t k)
         | |- context [match ?t ?k with Some _ => set_conn_mark _ _ | None => _ end] =>
           destruct (t k)
         end;
  packet_fields; rewrite ?Ho, ?Hr;
  (match goal with |- context [match ?t CTA_TUPLE_ORIG with _ => _ end] =>
     destruct (t CTA_TUPLE_ORIG) end);
  try same_read_tuple;
  repeat match goal with
         | |- context [negb ?c] => destruct c; cbn [negb]; cbv beta iota
         end;
  try reflexivity;
  packet_fields; rewrite ?Ho, ?Hr;
  (match goal with |- context [match ?t CTA_TUPLE_REPLY with _ => _ end] =>
     destruct (t CTA_TUPLE_REPLY) end);
  try same_read_tuple;
  repeat match goal with
         | |- context [negb ?c] => destruct c; cbn [negb]; cbv beta iota
         end;
  reflexivity.
Qed.

Lemma nfqueue_parse_ct_frame ct p w :
  same_outside_ct p (snd (fst (nfqueue_parse_ct ct p w))).
Proof.
  unfold nfqueue_parse_ct.
  destruct (mnl_attr_parse_nested ct parse_cta_attr_cb (tb_empty, errno w))
    as [ret [attr1 e]].
  destruct (ret <? 0); [repeat split|].
  set (pk := match attr1 CTA_MARK with Some _ => _ | None => _ end).
  assert (Hpk : same_outside_ct p pk).
  { subst pk. destruct (attr1 CTA_MARK), (attr1 CTA_STATUS), (attr1 CTA_ID);
      repeat split. }
  clearbody pk. unfold same_outside_ct in *.
  destruct (attr1 CTA_TUPLE_ORIG) as [t|].
  - destruct (read_addr_tuple t (orig pk) (set_errno e w)) as [[ok tu] w1].
    destruct ok; cbn [negb]; cbv beta iota; [|exact Hpk].
    destruct (attr1 CTA_TUPLE_REPLY) as [t'|]; [|exact Hpk].
    destruct (read_addr_tuple t' (reply (set_orig tu pk)) w1)
      as [[ok' tu'] w2].
    destruct ok'; exact Hpk.
  - cbn [negb]; cbv beta iota.
    destruct (attr1 CTA_TUPLE_REPLY) as [t'|]; [|exact Hpk].
    destruct (read_addr_tuple t' (reply pk) (set_errno e w))
      as [[ok' tu'] w2].
    destruct ok'; exact Hpk.
Qed.

Lemma nfqueue_parse_ct_store ct p w :
  same_store w (snd (nfqueue_parse_ct ct p w)).
Proof.
  unfold nfqueue_parse_ct.
  destruct (mnl_attr_parse_nested ct parse_cta_attr_cb (tb_empty, errno w))
    as [ret [attr1 e]].
  destruct (ret <? 0); [repeat split|].
  set (pk := match attr1 CTA_MARK with Some _ => _ | None => _ end).
  clearbody pk.
  assert (H0 : same_store w (set_errno e w)) by apply same_store_set_errno.
  destruct (attr1 CTA_TUPLE_ORIG) as [t|].
  - pose proof (read_addr_tuple_store t (orig pk) (set_errno e w)) as H1.
    destruct (read_addr_tuple t (orig pk) (set_errno e w)) as [[ok tu] w1].
    cbn [snd] in H1.
    assert (H2 : same_store w w1) by exact (same_store_trans _ _ _ H0 H1).
    destruct ok; cbn [negb]; cbv beta iota.
    + destruct (attr1 CTA_TUPLE_REPLY) as [t'|]; [|exact H2].
      pose proof (read_addr_tuple_store t' (reply (set_orig tu pk)) w1) as H3.
      destruct (read_addr_tuple t' (reply (set_orig tu pk)) w1)
        as [[ok' tu'] w2].
      cbn [snd] in H3.
      destruct ok'; cbn [negb snd]; cbv beta iota;
        [exact (same_store_trans _ _ _ H2 H3)|].
      eapply same_store_trans; [exact H2|].
      eapply same_store_trans; [exact H3 | apply same_store_LOG].
    + cbn [snd]. eapply same_store_trans; [exact H2 | apply same_store_LOG].
  - cbn [negb]; cbv beta iota.
    destruct (attr1 CTA_TUPLE_REPLY) as [t'|]; [|exact H0].
    pose proof (read_addr_tuple_store t' (reply pk) (set_errno e w)) as H3.
    destruct (read_addr_tuple t' (reply pk) (set_errno e w))
      as [[ok' tu'] w2].
    cbn [snd] in H3.
    destruct ok'; cbn [negb snd]; cbv beta iota;
      [exact (same_store_trans _ _ _ H0 H3)|].
    eapply same_store_trans; [exact H0|].
    eapply same_store_trans; [exact H3 | apply same_store_LOG].
Qed.

Ltac break_timestamp :=
  match goal with
  | |- context [match ?t NFQA_TIMESTAMP with _ => _ end] =>
    destruct (t NFQA_TIMESTAMP);
    [ match goal with
      | |- context [if ?c then set_timestamp _ _ else _] => destruct c
      end | ]
  end.

(** Whether assembly succeeds does not depend on the environment, nor on
    the packet fields the assembler overwrites. *)
Lemma nfqueue_parse_attrs_indep mem attr p1 p2 w1 w2 :
  orig p1 = orig p2 -> reply p1 = reply p2 ->
  fst (fst (nfqueue_parse_attrs mem attr p1 w1))
  = fst (fst (nfqueue_parse_attrs mem attr p2 w2)).
Proof.
  intros Ho Hr. unfold nfqueue_parse_attrs.
  destruct (attr NFQA_PACKET_HDR) as [a_hdr|]; [|reflexivity].
  destruct (attr NFQA_PAYLOAD) as [a_pl|]; [|reflexivity].
  packet_fields.
  destruct (mnl_attr_get_payload_len a_pl =? 0); [reflexivity|].
  unfold malloc_copy. cbv beta iota.
  destruct (attr NFQA_CT) as [ct|].
  - match goal with
    | |- context [nfqueue_parse_ct ct ?pa ?wa] =>
      match goal with
      | |- context [nfqueue_parse_ct ct ?pb ?wb] =>
        lazymatch pb with
        | pa => fail
        | _ =>
          assert (Hct : fst (fst (nfqueue_parse_ct ct pa wa))
                        = fst (fst (nfqueue_parse_ct ct pb wb)))
            by (apply nfqueue_parse_ct_indep;
                break_timestamp; packet_fields; assumption);
          destruct (nfqueue_parse_ct ct pa wa) as [[oka pka] wka];
          destruct (nfqueue_parse_ct ct pb wb) as [[okb pkb] wkb]
        end
      end
    end.
    cbn [fst] in Hct. subst okb.
    destruct oka; cbn [negb]; cbv beta iota; [|reflexivity].
    destruct (attr NFQA_CT_INFO); reflexivity.
  - cbn [negb]. cbv beta iota. destruct (attr NFQA_CT_INFO); reflexivity.
Qed.

Lemma nfqueue_parse_indep mem w1 w2 :
  fst (fst (nfqueue_parse mem w1)) = fst (fst (nfqueue_parse mem w2)).
Proof.
  unfold nfqueue_parse.
  destruct (mnl_attr_parse_indep mem sizeof_nfgenmsg parse_nfqa_attr_cb
              tb_empty (errno w1) (errno w2) parse_nfqa_attr_cb_indep)
    as [H1 H2].
  destruct (mnl_attr_parse mem sizeof_nfgenmsg parse_nfqa_attr_cb
              (tb_empty, errno w1)) as [r1 [t1 e1]].
  destruct (mnl_attr_parse mem sizeof_nfgenmsg parse_nfqa_attr_cb
              (tb_empty, errno w2)) as [r2 [t2 e2]].
  cbn [fst snd] in H1, H2. subst r2 t2.
  destruct (r1 <? 0); [reflexivity|].
  apply nfqueue_parse_attrs_indep; reflexivity.
Qed.

Lemma nfqueue_parse_attrs_clocks mem attr p w :
  wall_time (snd (fst (nfqueue_parse_attrs mem attr p w))) = wall_time p
  /\ mono_time (snd (fst (nfqueue_parse_attrs mem attr p w))) = mono_time p.
Proof.
  unfold nfqueue_parse_attrs.
  destruct (attr NFQA_PACKET_HDR) as [a_hdr|]; [|split; reflexivity].
  destruct (attr NFQA_PAYLOAD) as [a_pl|]; [|split; reflexivity].
  packet_fields.
  destruct (mnl_attr_get_payload_len a_pl =? 0); [split; reflexivity|].
  unfold malloc_copy. cbv beta iota.
  destruct (attr NFQA_CT) as [ct|].
  - match goal with
    | |- context [nfqueue_parse_ct ct ?pa ?wa] =>
      pose proof (nfqueue_parse_ct_frame ct pa wa) as Hf;
      destruct (nfqueue_parse_ct ct pa wa) as [[ok pk] wk]
    end.
    cbn [fst snd] in Hf.
    destruct Hf as (_&_&_&_&_&_&_&Hwall&Hmono&_).
    assert (wall_time pk = wall_time p /\ mono_time pk = mono_time p) as Hc.
    { rewrite Hwall, Hmono. break_timestamp; packet_fields; split; reflexivity. }
    destruct ok; cbn [negb]; cbv beta iota; [|exact Hc].
    destruct (attr NFQA_CT_INFO); exact Hc.
  - cbn [negb]. cbv beta iota.
    destruct (attr NFQA_CT_INFO); break_timestamp; packet_fields;
      split; reflexivity.
Qed.

(** With both mandatory attributes and a non-empty payload, the assembler
    copies the payload, and nothing after that releases the block or resets
    the two payload fields. *)
Lemma nfqueue_parse_attrs_after_copy mem attr p w a_hdr a_pl :
  attr NFQA_PACKET_HDR = Some a_hdr ->
  attr NFQA_PAYLOAD = Some a_pl ->
  mnl_attr_get_payload_len a_pl <> 0 ->
  let r := nfqueue_parse_attrs mem attr p w in
  payload (snd (fst r)) = Z.pos (next_block w)
  /\ payload_len (snd (fst r)) = mnl_attr_get_payload_len a_pl
  /\ heap (snd r)
     = (Z.pos (next_block w),
        firstn (Z.to_nat (mnl_attr_get_payload_len a_pl))
          (mnl_attr_get_payload a_pl)) :: heap w.
Proof.
  intros Hh Hp Hl. unfold nfqueue_parse_attrs. rewrite Hh, Hp.
  packet_fields.
  destruct (Z.eqb_spec (mnl_attr_get_payload_len a_pl) 0) as [?|_];
    [contradiction|].
  unfold malloc_copy. cbv beta iota.
  destruct (attr NFQA_CT) as [ct|].
  - match goal with
    | |- context [nfqueue_parse_ct ct ?pa ?wa] =>
      pose proof (nfqueue_parse_ct_frame ct pa wa) as Hf;
      pose proof (nfqueue_parse_ct_store ct pa wa) as Hs;
      assert (Hpa : payload pa = Z.pos (next_block w)
                    /\ payload_len pa = mnl_attr_get_payload_len a_pl)
        by (break_timestamp; packet_fields; split; reflexivity);
      assert (Hwa : heap wa
                    = (Z.pos (next_block w),
                       firstn (Z.to_nat (mnl_attr_get_payload_len a_pl))
                         (mnl_attr_get_payload a_pl)) :: heap w)
        by (break_timestamp; packet_fields; cbn [negb]; cbv beta iota;
            unfold DEBUG, LOG_ONCE_timestamp;
            try destruct (warned_timestamp _); reflexivity);
      destruct (nfqueue_parse_ct ct pa wa) as [[ok pk] wk]
    end.
    cbn [fst snd] in Hf, Hs.
    destruct Hf as (_&_&_&Hlen&Hpay&_).
    destruct Hs as (Hheap&_).
    destruct Hpa as [Hpa1 Hpa2].
    assert (payload pk = Z.pos (next_block w)
            /\ payload_len pk = mnl_attr_get_payload_len a_pl
            /\ heap wk
               = (Z.pos (next_block w),
                  firstn (Z.to_nat (mnl_attr_get_payload_len a_pl))
                    (mnl_attr_get_payload a_pl)) :: heap w) as Hc
      by (repeat split; congruence).
    destruct ok; cbn [negb]; cbv beta iota; [|exact Hc].
    destruct (attr NFQA_CT_INFO); exact Hc.
  - cbn [negb]. cbv beta iota.
    destruct (attr NFQA_CT_INFO); break_timestamp; packet_fields;
      cbn [negb fst snd]; cbv beta iota;
      unfold DEBUG, LOG_ONCE_timestamp, LOG_ONCE_conntrack;
      repeat match goal with
             | |- context [if ?c then _ else _] => destruct c
             end;
      repeat split; reflexivity.
Qed.

(** One call of [nfqueue_next] on a complete event message. *)
Lemma nfqueue_next_event fuel d buf packet w :
  current_event d buf ->
  nfqueue_next (S fuel) buf packet w
  = let '(ok, p, w') := nfqueue_parse (cursor_mem d buf) w in
    Some (Returns (if ok then (IO_READY, advance d buf, p, w')
                   else (IO_ERROR, buf, p, w'))).
Proof.
  intros ([Hd Hok] & Hintr & Hty). unfold nfqueue_next. rewrite Hd.
  cbn [nfqueue_next_loop]. rewrite Hok.
  unfold dump_intr in Hintr. rewrite Hintr.
  destruct (Z.geb_spec (hdr_nlmsg_type (cursor_mem d buf)) NLMSG_MIN_TYPE);
    [|lia].
  unfold advance.
  destruct (nfqueue_parse (cursor_mem d buf) w) as [[ok p] w'].
  destruct ok; cbn [negb]; [|reflexivity].
  destruct (mnl_nlmsg_next (cursor_mem d buf) (nlh buf) (len buf)).
  reflexivity.
Qed.

(** ** Address families within a tuple *)

Lemma read_ip_addr_absent af ip_num v w :
  read_ip_addr None af ip_num v w = (true, ip_num, v, w).
Proof. reflexivity. Qed.

(** A present IPv4 attribute: the call succeeds and leaves version 4 when the
    version was unset or 4, fails and leaves the version otherwise. *)
Lemma read_ip_addr_v4 a ip_num v w :
  let '(s, _, v', _) := read_ip_addr (Some a) AF_INET ip_num v w in
  (s = true /\ v' = IPV4 /\ (v = 0 \/ v = IPV4))
  \/ (s = false /\ v' = v /\ v <> 0 /\ v <> IPV4).
Proof.
  unfold read_ip_addr. cbn [AF_INET Z.eqb Pos.eqb].
  destruct (Z.eqb_spec v 0) as [->|H0]; [left; auto|].
  destruct (Z.eqb_spec v IPV4) as [->|H4]; cbn [negb]; [left|right]; auto.
Qed.

Lemma read_ip_addr_v6 a ip_num v w :
  let '(s, _, v', _) := read_ip_addr (Some a) AF_INET6 ip_num v w in
  (s = true /\ v' = IPV6 /\ (v = 0 \/ v = IPV6))
  \/ (s = false /\ v' = v /\ v <> 0 /\ v <> IPV6).
Proof.
  unfold read_ip_addr. cbn [AF_INET AF_INET6 Z.eqb Pos.eqb].
  destruct (Z.eqb_spec v 0) as [->|H0]; [left; auto|].
  destruct (Z.eqb_spec v IPV6) as [->|H6]; cbn [negb]; [left|right]; auto.
Qed.

(** The four reads of [read_addr_tuple] on an array with an IPv4 and an IPv6
    entry: one of them fails. *)
Lemma read_four_mixed (attr3 : table) (tuple : ip_tuple) (w : world) :
  (attr3 CTA_IP_V4_SRC <> None \/ attr3 CTA_IP_V4_DST <> None) ->
  (attr3 CTA_IP_V6_SRC <> None \/ attr3 CTA_IP_V6_DST <> None) ->
  forall s1 a1 v1 w1 s2 a2 v2 w2 s3 a3 v3 w3 s4 a4 v4 w4,
    read_ip_addr (attr3 CTA_IP_V4_SRC) AF_INET (src tuple)
      (ip_version tuple) w = (s1, a1, v1, w1) ->
    read_ip_addr (attr3 CTA_IP_V4_DST) AF_INET
      (dst (set_ip_version v1 (set_src a1 tuple))) v1 w1
    = (s2, a2, v2, w2) ->
    read_ip_addr (attr3 CTA_IP_V6_SRC) AF_INET6
      (src (set_ip_version v2
              (set_dst a2 (set_ip_version v1 (set_src a1 tuple))))) v2 w2
    = (s3, a3, v3, w3) ->
    read_ip_addr (attr3 CTA_IP_V6_DST) AF_INET6
      (dst (set_ip_version v3
              (set_src a3
                 (set_ip_version v2
                    (set_dst a2 (set_ip_version v1 (set_src a1 tuple)))))))
      v3 w3
    = (s4, a4, v4, w4) ->
    true && s1 && s2 && s3 && s4 = false.
Proof.
  intros H4 H6 s1 a1 v1 w1 s2 a2 v2 w2 s3 a3 v3 w3 s4 a4 v4 w4 E1 E2 E3 E4.
  destruct (attr3 CTA_IP_V4_SRC) as [x1|];
    [pose proof (read_ip_addr_v4 x1 (src tuple) (ip_version tuple) w) as P1;
     rewrite E1 in P1
    |rewrite read_ip_addr_absent in E1; inversion E1; subst; clear E1];
  (destruct (attr3 CTA_IP_V4_DST) as [x2|];
    [match type of E2 with
     | read_ip_addr _ _ ?ip ?v ?w0 = _ =>
       pose proof (read_ip_addr_v4 x2 ip v w0) as P2; rewrite E2 in P2
     end
    |rewrite read_ip_addr_absent in E2; inversion E2; subst; clear E2]);
  (destruct (attr3 CTA_IP_V6_SRC) as [x3|];
    [match type of E3 with
     | read_ip_addr _ _ ?ip ?v ?w0 = _ =>
       pose proof (read_ip_addr_v6 x3 ip v w0) as P3; rewrite E3 in P3
     end
    |rewrite read_ip_addr_absent in E3; inversion E3; subst; clear E3]);
  (destruct (attr3 CTA_IP_V6_DST) as [x4|];
    [match type of E4 with
     | read_ip_addr _ _ ?ip ?v ?w0 = _ =>
       pose proof (read_ip_addr_v6 x4 ip v w0) as P4; rewrite E4 in P4
     end
    |rewrite read_ip_addr_absent in E4; inversion E4; subst; clear E4]);
  try (destruct H4; congruence); try (destruct H6; congruence);
  unfold IPV4, IPV6 in *;
  repeat match goal with
         | H : _ \/ _ |- _ => destruct H
         | H : _ /\ _ |- _ => destruct H
         end;
  subst; cbn [andb]; try reflexivity; try lia; try congruence;
  repeat match goal with
         | |- context [?b && false] => rewrite (andb_false_r b)
         end; try reflexivity; try lia.
Qed.

Lemma mnl_attr_run_entry max cb attrs e r tb e' k :
  cb_shape max cb ->
  mnl_attr_run cb attrs MNL_CB_OK (tb_empty, e) = (r, (tb, e')) ->
  (r <? 0) = false -> k <= max -> has_attr k attrs ->
  exists a, tb k = Some a /\ In a attrs /\ mnl_attr_get_type a = k.
Proof.
  intros Hcb Hrun Hr Hk Hhas.
  pose proof (mnl_attr_run_recorded max cb attrs Hcb _ _ _ _ _ _ k
                Hrun Hr Hk (or_intror Hhas)) as Hne.
  destruct (tb k) as [a|] eqn:Ek; [|congruence].
  exists a. split; [reflexivity|].
  destruct (mnl_attr_run_lookup max cb attrs Hcb _ _ _ _ _ _ k a Hrun Ek)
    as [H|H]; [discriminate H | exact H].
Qed.

Lemma read_addr_tuple_mixed (t : nlattr) (tuple : ip_tuple) (w : world) :
  CTA_TUPLE_IP <= to_u16 CTA_TUPLE_MAX ->
  CTA_IP_V6_DST <= to_u16 CTA_IP_MAX ->
  tuple_mixed t ->
  fst (fst (read_addr_tuple t tuple w)) = false.
Proof.
  intros Hmax2 Hmax3 [Hhas Hall]. unfold read_addr_tuple.
  destruct (mnl_attr_parse_nested t parse_tuple_cb (tb_empty, errno w))
    as [ret [attr2 e]] eqn:Hrun.
  destruct (ret <? 0) eqn:Hret; [reflexivity|].
  unfold mnl_attr_parse_nested in Hrun. fold (nested_attrs t) in Hrun.
  destruct (mnl_attr_run_entry _ _ _ _ _ _ _ CTA_TUPLE_IP
              (cb_form_shape (to_u16 CTA_TUPLE_MAX) check_tuple)
              Hrun Hret Hmax2 Hhas) as (ipb & Eipb & Hin & Hty).
  rewrite Eipb. destruct (Hall ipb Hin Hty) as [Hv4 Hv6].
  destruct (mnl_attr_parse_nested ipb parse_ip_cb
              (tb_empty, errno (set_errno e w)))
    as [ret3 [attr3 e3]] eqn:Hrun3.
  destruct (ret3 <? 0) eqn:Hret3; [reflexivity|].
  unfold mnl_attr_parse_nested in Hrun3. fold (nested_attrs ipb) in Hrun3.
  assert (Hrec : forall k, k <= CTA_IP_V6_DST ->
                   has_attr k (nested_attrs ipb) -> attr3 k <> None).
  { intros k Hk Hk'.
    destruct (mnl_attr_run_entry _ _ _ _ _ _ _ k
                (cb_form_shape (to_u16 CTA_IP_MAX) check_ip)
                Hrun3 Hret3 ltac:(lia) Hk') as (a & Ea & _).
    congruence. }
  assert (H4 : attr3 CTA_IP_V4_SRC <> None \/ attr3 CTA_IP_V4_DST <> None).
  { destruct Hv4 as [H|H]; [left|right]; apply Hrec; auto;
      unfold CTA_IP_V4_SRC, CTA_IP_V4_DST, CTA_IP_V6_DST; lia. }
  assert (H6 : attr3 CTA_IP_V6_SRC <> None \/ attr3 CTA_IP_V6_DST <> None).
  { destruct Hv6 as [H|H]; [left|right]; apply Hrec; auto;
      unfold CTA_IP_V6_SRC, CTA_IP_V6_DST; lia. }
  destruct (read_ip_addr (attr3 CTA_IP_V4_SRC) AF_INET (src tuple)
              (ip_version tuple) (set_errno e3 (set_errno e w)))
    as [[[s1 a1] v1] w1] eqn:E1.
  cbn [ip_version set_ip_version].
  destruct (read_ip_addr (attr3 CTA_IP_V4_DST) AF_INET
              (dst (set_ip_version v1 (set_src a1 tuple))) v1 w1)
    as [[[s2 a2] v2] w2] eqn:E2.
  destruct (read_ip_addr (attr3 CTA_IP_V6_SRC) AF_INET6
              (src (set_ip_version v2
                      (set_dst a2 (set_ip_version v1 (set_src a1 tuple)))))
              v2 w2) as [[[s3 a3] v3] w3] eqn:E3.
  destruct (read_ip_addr (attr3 CTA_IP_V6_DST) AF_INET6
              (dst (set_ip_version v3
                      (set_src a3
                         (set_ip_version v2
                            (set_dst a2
                               (set_ip_version v1 (set_src a1 tuple)))))))
              v3 w3) as [[[s4 a4] v4] w4] eqn:E4.
  rewrite (read_four_mixed attr3 tuple _ H4 H6
             _ _ _ _ _ _ _ _ _ _ _ _ _ _ _ _ E1 E2 E3 E4).
  reflexivity.
Qed.

Lemma nfqueue_parse_ct_mixed (ct : nlattr) (p : nf_packet) (w : world) :
  CTA_TUPLE_REPLY <= to_u16 CTA_MAX ->
  CTA_TUPLE_IP <= to_u16 CTA_TUPLE_MAX ->
  CTA_IP_V6_DST <= to_u16 CTA_IP_MAX ->
  ct_has_mixed_tuple ct ->
  fst (fst (nfqueue_parse_ct ct p w)) = false.
Proof.
  intros Hmax1 Hmax2 Hmax3 (k & Hk & Hhas & Hall). unfold nfqueue_parse_ct.
  destruct (mnl_attr_parse_nested ct parse_cta_attr_cb (tb_empty, errno w))
    as [ret [attr1 e]] eqn:Hrun.
  destruct (ret <? 0) eqn:Hret; [reflexivity|].
  unfold mnl_attr_parse_nested in Hrun. fold (nested_attrs ct) in Hrun.
  assert (Hkmax : k <= to_u16 CTA_MAX)
    by (destruct Hk; subst k; unfold CTA_TUPLE_ORIG, CTA_TUPLE_REPLY in *;
        lia).
  destruct (mnl_attr_run_entry _ _ _ _ _ _ _ k
              (cb_form_shape (to_u16 CTA_MAX) check_cta)
              Hrun Hret Hkmax Hhas) as (t & Et & Hin & Hty).
  pose proof (Hall t Hin Hty) as Hmixed.
  set (pk := match attr1 CTA_MARK with Some _ => _ | None => _ end).
  clearbody pk.
  destruct Hk as [-> | ->].
  - rewrite Et.
    pose proof (read_addr_tuple_mixed t (orig pk) (set_errno e w)
                  Hmax2 Hmax3 Hmixed) as Hf.
    destruct (read_addr_tuple t (orig pk) (set_errno e w)) as [[ok tu] w1].
    cbn [fst] in Hf. subst ok. reflexivity.
  - destruct (attr1 CTA_TUPLE_ORIG) as [t0|].
    + destruct (read_addr_tuple t0 (orig pk) (set_errno e w))
        as [[ok tu] w1].
      destruct ok; cbn [negb]; cbv beta iota; [|reflexivity].
      rewrite Et.
      pose proof (read_addr_tuple_mixed t (reply (set_orig tu pk)) w1
                    Hmax2 Hmax3 Hmixed) as Hf.
      destruct (read_addr_tuple t (reply (set_orig tu pk)) w1)
        as [[ok' tu'] w2].
      cbn [fst] in Hf. subst ok'. reflexivity.
    + cbn [negb]; cbv beta iota. rewrite Et.
      pose proof (read_addr_tuple_mixed t (reply pk) (set_errno e w)
                    Hmax2 Hmax3 Hmixed) as Hf.
      destruct (read_addr_tuple t (reply pk) (set_errno e w))
        as [[ok' tu'] w2].
      cbn [fst] in Hf. subst ok'. reflexivity.
Qed.

(** ** Messages laid out one after the other *)

Lemma skipn_length_app {A} (l1 l2 : list A) :
  skipn (length l1) (l1 ++ l2) = l2.
Proof. induction l1 as [|x l1 IH]; [reflexivity | exact IH]. Qed.

Lemma firstn_length_app {A} (l1 l2 : list A) :
  firstn (length l1) (l1 ++ l2) = l1.
Proof.
  induction l1 as [|x l1 IH]; [reflexivity | cbn; f_equal; exact IH].
Qed.

Lemma slice_app_l off n (m x : list byte) :
  (off + n <= length m)%nat -> slice off n (m ++ x) = slice off n m.
Proof.
  intros H. unfold slice. rewrite skipn_app, firstn_app.
  rewrite length_skipn.
  replace (n - (length m - off))%nat with 0%nat by lia.
  rewrite firstn_O, app_nil_r. reflexivity.
Qed.

Lemma load_app_l n off (m x : list byte) :
  (off + n <= length m)%nat -> load n off (m ++ x) = load n off m.
Proof. intros H. unfold load. rewrite slice_app_l by exact H. reflexivity. Qed.

Lemma nfqueue_parse_attrs_mem mem1 mem2 attr p w :
  load 2 (Z.to_nat MNL_NLMSG_HDRLEN + 2) mem1
  = load 2 (Z.to_nat MNL_NLMSG_HDRLEN + 2) mem2 ->
  nfqueue_parse_attrs mem1 attr p w = nfqueue_parse_attrs mem2 attr p w.
Proof. intros H. unfold nfqueue_parse_attrs. rewrite H. reflexivity. Qed.

Lemma nlmsg_attr_span_app (m x : list byte) :
  (4 <= length m)%nat ->
  Z.of_nat (length m) = MNL_ALIGN (hdr_nlmsg_len m) ->
  Z.of_nat (length m) < 2 ^ 31 ->
  nlmsg_attr_span (m ++ x) sizeof_nfgenmsg = nlmsg_attr_span m sizeof_nfgenmsg
  /\ nlmsg_attr_span m sizeof_nfgenmsg = skipn 20 m.
Proof.
  intros H4 Hlen Hsmall. unfold nlmsg_attr_span, hdr_nlmsg_len.
  rewrite load_app_l by lia. fold (hdr_nlmsg_len m).
  assert (Hl : 0 <= hdr_nlmsg_len m).
  { unfold hdr_nlmsg_len, load, host_decode, be_decode.
    destruct host; apply le_decode_range. }
  pose proof (MNL_ALIGN_bounds (hdr_nlmsg_len m)) as Hb.
  change (2 ^ 31) with 2147483648 in Hsmall.
  rewrite (MNL_ALIGN_w_eq 32)
    by (change (2 ^ 32) with 4294967296; lia).
  rewrite <- Hlen.
  change (Z.to_nat (MNL_NLMSG_HDRLEN + MNL_ALIGN_w 64 sizeof_nfgenmsg))
    with 20%nat.
  change (MNL_NLMSG_HDRLEN + MNL_ALIGN_w 64 sizeof_nfgenmsg) with 20.
  rewrite to_int_small by (change (2 ^ 31) with 2147483648; lia).
  replace (Z.to_nat (Z.of_nat (length m) - 20)) with (length m - 20)%nat
    by lia.
  unfold slice. rewrite skipn_app, firstn_app, length_skipn.
  rewrite Nat.sub_diag, firstn_O, app_nil_r.
  split; [reflexivity|].
  apply firstn_all2. rewrite length_skipn. lia.
Qed.

(** The assembler reads the message it is given and nothing after it. *)
Lemma nfqueue_parse_local (m x : list byte) (w : world) :
  sizeof_nlmsghdr <= hdr_nlmsg_len m ->
  Z.of_nat (length m) = MNL_ALIGN (hdr_nlmsg_len m) ->
  Z.of_nat (length m) < 2 ^ 31 ->
  nfqueue_parse (m ++ x) w = nfqueue_parse m w.
Proof.
  intros H16 Hlen Hsmall.
  pose proof (MNL_ALIGN_bounds (hdr_nlmsg_len m)) as Hb.
  unfold sizeof_nlmsghdr in H16.
  destruct (nlmsg_attr_span_app m x ltac:(lia) Hlen Hsmall) as [Hspan Hsk].
  unfold nfqueue_parse, mnl_attr_parse. rewrite Hspan.
  destruct (Nat.le_gt_cases 20 (length m)) as [H20|H20].
  - destruct (mnl_attr_run parse_nfqa_attr_cb
                (mnl_attr_for_each (nlmsg_attr_span m sizeof_nfgenmsg))
                MNL_CB_OK (tb_empty, errno w)) as [ret [attr e]].
    destruct (ret <? 0); [reflexivity|].
    apply nfqueue_parse_attrs_mem.
    change (Z.to_nat MNL_NLMSG_HDRLEN + 2)%nat with 18%nat.
    apply load_app_l. lia.
  - rewrite Hsk. rewrite skipn_all2 by lia. reflexivity.
Qed.

Lemma hdr_fields_app (m x : list byte) :
  (16 <= length m)%nat ->
  hdr_nlmsg_len (m ++ x) = hdr_nlmsg_len m
  /\ hdr_nlmsg_type (m ++ x) = hdr_nlmsg_type m
  /\ hdr_nlmsg_flags (m ++ x) = hdr_nlmsg_flags m.
Proof.
  intros H. unfold hdr_nlmsg_len, hdr_nlmsg_type, hdr_nlmsg_flags.
  rewrite !load_app_l by lia. auto.
Qed.

Lemma hdr_nlmsg_len_nonneg (m : list byte) : 0 <= hdr_nlmsg_len m.
Proof.
  unfold hdr_nlmsg_len, load, host_decode, be_decode.
  destruct host; apply le_decode_range.
Qed.

Lemma event_msg_length (m : list byte) :
  event_msg m -> (16 <= length m)%nat.
Proof.
  intros (H16 & Hlen & _). unfold sizeof_nlmsghdr in H16.
  pose proof (MNL_ALIGN_bounds (hdr_nlmsg_len m)). lia.
Qed.

(** One call on a buffer whose cursor is at the event message [m], with
    [post] after it in the region and [n] bytes left after it. *)
Lemma nfqueue_next_at_event fuel (pre m post : list byte) (n : nat)
  (packet : nf_packet) (w : world) :
  event_msg m ->
  Z.of_nat (length m + n) < 2 ^ 31 ->
  nfqueue_next (S fuel)
    {| data := Some (pre ++ m ++ post); nlh := Z.of_nat (length pre);
       len := Z.of_nat (length m + n) |} packet w
  = Some (Returns (IO_READY,
                   {| data := Some (pre ++ m ++ post);
                      nlh := Z.of_nat (length (pre ++ m));
                      len := Z.of_nat n |},
                   snd (fst (nfqueue_parse m w)), snd (nfqueue_parse m w))).
Proof.
  intros Hev Hsmall. pose proof (event_msg_length m Hev) as H16.
  destruct Hev as (Hl16 & Hlen & Hintr & Hty & Hok).
  change (2 ^ 31) with 2147483648 in Hsmall.
  set (buf := {| data := Some (pre ++ m ++ post);
                 nlh := Z.of_nat (length pre);
                 len := Z.of_nat (length m + n) |}).
  assert (Hmem : cursor_mem (pre ++ m ++ post) buf = m ++ post).
  { unfold cursor_mem, buf. cbn [nlh]. rewrite Nat2Z.id.
    apply skipn_length_app. }
  destruct (hdr_fields_app m post H16) as (Hflen & Hftype & Hfflags).
  pose proof (MNL_ALIGN_bounds (hdr_nlmsg_len m)) as Hb.
  pose proof (hdr_nlmsg_len_nonneg m) as Hnn.
  assert (Hevent : current_event (pre ++ m ++ post) buf).
  { unfold current_event, current_msg_ok. rewrite Hmem.
    repeat split.
    - unfold mnl_nlmsg_ok. rewrite Hflen. subst buf. cbn [len].
      rewrite !to_int_small
        by (change (2 ^ 31) with 2147483648; unfold sizeof_nlmsghdr; lia).
      unfold sizeof_nlmsghdr in *.
      repeat (apply andb_true_intro; split);
        [apply Z.geb_le | apply Z.geb_le | apply Z.leb_le]; lia.
    - unfold dump_intr in *. rewrite Hfflags. exact Hintr.
    - rewrite Hftype. exact Hty. }
  rewrite (nfqueue_next_event fuel _ buf packet w Hevent).
  rewrite Hmem.
  rewrite (nfqueue_parse_local m post w Hl16 Hlen)
    by (change (2 ^ 31) with 2147483648; lia).
  specialize (Hok w).
  destruct (nfqueue_parse m w) as [[ok p] w'].
  cbn [fst snd] in *. subst ok.
  unfold advance, mnl_nlmsg_next. rewrite Hmem, Hflen. subst buf.
  cbn [nlh len data].
  rewrite (MNL_ALIGN_w_eq 32) by (change (2 ^ 32) with 4294967296; lia).
  rewrite <- Hlen.
  rewrite to_int_small by (change (2 ^ 31) with 2147483648; lia).
  rewrite length_app.
  replace (Z.of_nat (length pre) + Z.of_nat (length m))
    with (Z.of_nat (length pre + length m)) by lia.
  replace (Z.of_nat (length m + n) - Z.of_nat (length m))
    with (Z.of_nat n) by lia.
  reflexivity.
Qed.

(** One call on a buffer with nothing left. *)
Lemma nfqueue_next_exhausted fuel (d : list byte) (cursor : Z)
  (packet : nf_packet) (w : world) :
  nfqueue_next (S fuel) {| data := Some d; nlh := cursor; len := 0 |}
    packet w
  = Some (Returns (IO_NOTREADY,
                   {| data := Some d; nlh := cursor; len := 0 |},
                   packet, w)).
Proof.
  unfold nfqueue_next. cbn [data nfqueue_next_loop len].
  unfold mnl_nlmsg_ok. reflexivity.
Qed.

Lemma nfqueue_next_calls_events fuel (msgs : list (list byte)) :
  Forall event_msg msgs ->
  forall (pre rest : list byte) (packet : nf_packet) (w : world),
    Z.of_nat (length (concat msgs)) < 2 ^ 31 ->
    nfqueue_next_calls (S fuel) (length msgs)
      {| data := Some (pre ++ concat msgs ++ rest);
         nlh := Z.of_nat (length pre);
         len := Z.of_nat (length (concat msgs)) |} packet w
    = Some (map (pair IO_READY) (fst (assembled msgs w)),
            {| data := Some (pre ++ concat msgs ++ rest);
               nlh := Z.of_nat (length (pre ++ concat msgs));
               len := 0 |},
            snd (assembled msgs w)).
Proof.
  induction 1 as [|m r Hm Hr IH]; intros pre rest packet w Hsmall.
  - cbn [concat length nfqueue_next_calls assembled map fst snd].
    rewrite app_nil_r. reflexivity.
  - cbn [concat length nfqueue_next_calls assembled] in *.
    rewrite length_app in Hsmall |- *. rewrite <- app_assoc.
    rewrite (nfqueue_next_at_event fuel pre m (concat r ++ rest)
               (length (concat r)) packet w Hm Hsmall).
    replace (pre ++ m ++ concat r ++ rest)
      with ((pre ++ m) ++ concat r ++ rest) by (rewrite <- app_assoc; auto).
    rewrite IH by lia.
    destruct (nfqueue_parse m w) as [[ok p] w'].
    cbn [fst snd].
    destruct (assembled r w') as [l w''].
    cbn [fst snd map].
    rewrite <- !app_assoc. reflexivity.
Qed.

(** ** The command encoder *)

Lemma host_encode_length n z : length (host_encode n z) = n.
Proof.
  unfold host_encode. destruct host;
    [apply le_encode_length | apply be_encode_length].
Qed.

Lemma host_encode_decode (bs : list byte) :
  host_encode (length bs) (host_decode bs) = bs.
Proof.
  unfold host_encode, host_decode, be_encode, be_decode. destruct host.
  - apply le_encode_decode.
  - rewrite <- (length_rev bs), le_encode_decode. apply rev_involutive.
Qed.

Lemma host_decode_encode n z :
  host_decode (host_encode n z) = z mod 256 ^ Z.of_nat n.
Proof.
  unfold host_encode, host_decode, be_encode, be_decode. destruct host.
  - apply le_decode_encode.
  - rewrite rev_involutive. apply le_decode_encode.
Qed.

(** [htons] and [htonl] stored to memory give the big-endian image. *)
Lemma host_encode_htons x : host_encode 2 (htons x) = be_encode 2 x.
Proof.
  unfold htons. rewrite <- (be_encode_length 2 x) at 1.
  apply host_encode_decode.
Qed.

Lemma host_encode_htonl x : host_encode 4 (htonl x) = be_encode 4 x.
Proof.
  unfold htonl. rewrite <- (be_encode_length 4 x) at 1.
  apply host_encode_decode.
Qed.

Lemma store_end (bs mem : list byte) : store (length mem) bs mem = mem ++ bs.
Proof.
  unfold store. rewrite firstn_all, Nat.sub_diag.
  rewrite skipn_all2 by lia. cbn [repeat app]. rewrite app_nil_r. reflexivity.
Qed.

Lemma store_gap (k : nat) (bs mem : list byte) :
  store (length mem + k) bs mem = mem ++ repeat x00 k ++ bs.
Proof.
  unfold store. rewrite firstn_all2 by lia.
  replace (length mem + k - length mem)%nat with k by lia.
  rewrite skipn_all2 by lia. rewrite app_nil_r. reflexivity.
Qed.

Lemma store_over (a old c bs : list byte) :
  length old = length bs ->
  store (length a) bs (a ++ old ++ c) = a ++ bs ++ c.
Proof.
  intros H. unfold store. rewrite firstn_length_app.
  rewrite length_app.
  replace (length a - (length a + length (old ++ c)))%nat with 0%nat by lia.
  cbn [repeat app]. rewrite skipn_app.
  rewrite skipn_all2 by lia.
  replace (length a + length bs - length a)%nat with (length old) by lia.
  rewrite skipn_length_app. reflexivity.
Qed.

Lemma to_u16_small z : 0 <= z < 2 ^ 16 -> to_u16 z = z.
Proof. intros H. apply Z.mod_small. exact H. Qed.

Lemma to_u32_small z : 0 <= z < 2 ^ 32 -> to_u32 z = z.
Proof. intros H. apply Z.mod_small. exact H. Qed.

Lemma to_size_t_small z : 0 <= z < 2 ^ 64 -> to_size_t z = z.
Proof. intros H. apply Z.mod_small. exact H. Qed.

Lemma body_off_length (m : out_msg) (k : Z) :
  wf_out m -> 0 <= k ->
  body_off (nlmsg_len m + k) = (length (nlmsg_body m) + Z.to_nat k)%nat.
Proof.
  intros [Hlen _] Hk. unfold body_off. rewrite Hlen.
  unfold sizeof_nlmsghdr. lia.
Qed.

Lemma body_off_length0 (m : out_msg) :
  wf_out m -> body_off (nlmsg_len m) = length (nlmsg_body m).
Proof.
  intros [Hlen _]. unfold body_off. rewrite Hlen.
  unfold sizeof_nlmsghdr. lia.
Qed.

(** [mnl_attr_put] on a well laid out message appends the image of the
    attribute. *)
Lemma mnl_attr_put_spec (m : out_msg) (type : Z) (data_ : list byte) :
  wf_out m ->
  nlmsg_len m + MNL_ATTR_HDRLEN + MNL_ALIGN (Z.of_nat (length data_))
    < 2 ^ 32 ->
  MNL_ATTR_HDRLEN + Z.of_nat (length data_) < 2 ^ 16 ->
  mnl_attr_put m type data_
  = set_nlmsg_len
      (nlmsg_len m + MNL_ATTR_HDRLEN + MNL_ALIGN (Z.of_nat (length data_)))
      (set_nlmsg_body (nlmsg_body m ++ nlattr_image (to_u16 type) data_) m)
  /\ wf_out (mnl_attr_put m type data_).
Proof.
  intros Hwf H32 H16. pose proof Hwf as [Hlen Hal].
  set (l := Z.of_nat (length data_)) in *.
  assert (Hl0 : 0 <= l) by (subst l; lia).
  pose proof (MNL_ALIGN_bounds l) as Hb.
  change MNL_ATTR_HDRLEN with 4 in *.
  change (2 ^ 32) with 4294967296 in H32.
  change (2 ^ 16) with 65536 in H16.
  assert (Hlen0 : 0 <= nlmsg_len m) by (rewrite Hlen; unfold sizeof_nlmsghdr; lia).
  assert (Heq : mnl_attr_put m type data_
    = set_nlmsg_len (nlmsg_len m + 4 + MNL_ALIGN l)
        (set_nlmsg_body (nlmsg_body m ++ nlattr_image (to_u16 type) data_)
           m)).
  { unfold mnl_attr_put, mnl_nlmsg_get_payload_tail. fold l.
    change MNL_ATTR_HDRLEN with 4.
    rewrite (MNL_ALIGN_w_eq 32)
      by (change (2 ^ 32) with 4294967296; lia).
    rewrite (MNL_ALIGN_w_eq 64)
      by (change (2 ^ 64) with 18446744073709551616; lia).
    rewrite Hal.
    rewrite (to_u16_small (4 + l)) by (change (2 ^ 16) with 65536; lia).
    rewrite (to_int_small (MNL_ALIGN l - l))
      by (change (2 ^ 31) with 2147483648; lia).
    replace (nlmsg_len m + 4 + l) with (nlmsg_len m + (4 + l)) by lia.
    rewrite (body_off_length m (4 + l) Hwf) by lia.
    rewrite (body_off_length m 2 Hwf) by lia.
    rewrite (body_off_length m 4 Hwf) by lia.
    rewrite (body_off_length0 m Hwf).
    change (Z.to_nat 2) with 2%nat. change (Z.to_nat 4) with 4%nat.
    rewrite store_gap. cbn [repeat].
    rewrite (store_over (nlmsg_body m) [x00; x00]
               (host_encode 2 (to_u16 type)) (host_encode 2 (4 + l)))
      by (rewrite host_encode_length; reflexivity).
    set (b2 := nlmsg_body m ++ host_encode 2 (4 + l)
                 ++ host_encode 2 (to_u16 type)).
    assert (Hb2 : length b2 = (length (nlmsg_body m) + 4)%nat).
    { subst b2. rewrite !length_app, !host_encode_length. lia. }
    rewrite <- Hb2, store_end.
    assert (Hb3 : length (b2 ++ data_)
                  = (length (nlmsg_body m) + Z.to_nat (4 + l))%nat).
    { rewrite length_app, Hb2. subst l. lia. }
    assert (Hal4 : MNL_ALIGN (4 + l) = 4 + MNL_ALIGN l).
    { rewrite !MNL_ALIGN_eq. replace (4 + l + 3) with (l + 3 + 1 * 4) by lia.
      rewrite Z.div_add by lia. lia. }
    rewrite Hal4.
    rewrite to_u32_small by (change (2 ^ 32) with 4294967296; lia).
    replace (nlmsg_len m + (4 + MNL_ALIGN l))
      with (nlmsg_len m + 4 + MNL_ALIGN l) by lia.
    unfold set_nlmsg_len, set_nlmsg_body. cbn [nlmsg_len nlmsg_type
      nlmsg_flags nlmsg_seq nlmsg_pid nlmsg_body].
    f_equal. unfold nlattr_image. fold l. change MNL_ATTR_HDRLEN with 4.
    destruct (Z.ltb_spec 0 (MNL_ALIGN l - l)) as [Hpad|Hpad].
    - rewrite <- Hb3, store_end. subst b2. rewrite <- !app_assoc.
      reflexivity.
    - replace (MNL_ALIGN l - l) with 0 by lia. cbn [Z.to_nat repeat].
      subst b2. rewrite <- !app_assoc, app_nil_r. reflexivity. }
  split; [exact Heq|]. rewrite Heq. unfold wf_out.
  cbn [nlmsg_len nlmsg_body set_nlmsg_len set_nlmsg_body].
  split.
  - rewrite length_app. unfold nlattr_image. fold l.
    rewrite !length_app, !host_encode_length, repeat_length. 
    rewrite Hlen. subst l. lia.
  - rewrite !MNL_ALIGN_eq in *.
    pose proof (Z.div_mod (nlmsg_len m + 3) 4 ltac:(lia)).
    pose proof (Z.mod_pos_bound (nlmsg_len m + 3) 4 ltac:(lia)).
    replace (nlmsg_len m + 4 + 4 * ((l + 3) / 4) + 3)
      with (nlmsg_len m + 3 + (1 + (l + 3) / 4) * 4) by lia.
    rewrite Z.div_add by lia. lia.
Qed.

Lemma nfqueue_put_header_spec (queue_num_ msg_type : Z) :
  nfqueue_put_header queue_num_ msg_type
  = if MNL_NLMSG_HDRLEN + sizeof_nfgenmsg >? to_size_t SEND_BUF_LEN
    then None
    else Some (header_msg queue_num_ msg_type).
Proof.
  unfold nfqueue_put_header.
  change (MNL_ALIGN_w 64 sizeof_nlmsghdr) with 16.
  change (MNL_NLMSG_HDRLEN + sizeof_nfgenmsg) with 20.
  cbn [mnl_nlmsg_put_header nlmsg_len nlmsg_seq nlmsg_pid nlmsg_body].
  change (to_size_t (MNL_ALIGN sizeof_nlmsghdr
                     + MNL_ALIGN_w 64 sizeof_nfgenmsg)) with 20.
  destruct (Z.gtb_spec 16 (to_size_t SEND_BUF_LEN)) as [H16|H16].
  - destruct (Z.gtb_spec 20 (to_size_t SEND_BUF_LEN)); [reflexivity | lia].
  - destruct (Z.gtb_spec 20 (to_size_t SEND_BUF_LEN)); [reflexivity|].
    unfold mnl_nlmsg_put_extra_header, header_msg, nfgenmsg_image.
    cbn [nlmsg_len nlmsg_type nlmsg_flags nlmsg_seq nlmsg_pid nlmsg_body
         set_nlmsg_len set_nlmsg_body].
    change (MNL_ALIGN sizeof_nlmsghdr) with 16.
    change (MNL_ALIGN_w 64 sizeof_nfgenmsg) with 4.
    change (to_u32 (16 + 4)) with 20.
    change (body_off 16) with 0%nat.
    change (body_off (16 + 1)) with 1%nat.
    change (body_off (16 + 2)) with 2%nat.
    change (store 0 (repeat x00 (Z.to_nat 4)) []) with [x00; x00; x00; x00].
    rewrite host_encode_htons.
    change (store 1 [byte_of_Z NFNETLINK_V0]
              (store 0 [byte_of_Z AF_UNSPEC] [x00; x00; x00; x00]))
      with [byte_of_Z AF_UNSPEC; byte_of_Z NFNETLINK_V0; x00; x00].
    pose proof (store_over [byte_of_Z AF_UNSPEC; byte_of_Z NFNETLINK_V0]
                  [x00; x00] [] (be_encode 2 (to_u16 queue_num_))) as Hs.
    rewrite be_encode_length, app_nil_r in Hs. cbn [length app] in Hs.
    rewrite (Hs eq_refl). reflexivity.
Qed.

Lemma header_msg_wf q t : wf_out (header_msg q t).
Proof.
  unfold wf_out, header_msg, nfgenmsg_image. cbn [nlmsg_len nlmsg_body].
  rewrite length_app, be_encode_length. split; reflexivity.
Qed.

(** [mnl_attr_put_check]: the capacity test, then the append. *)
Lemma mnl_attr_put_check_spec (m : out_msg) (buflen type : Z)
  (data_ : list byte) :
  wf_out m ->
  nlmsg_len m + MNL_ATTR_HDRLEN + MNL_ALIGN (Z.of_nat (length data_))
    < 2 ^ 32 ->
  MNL_ATTR_HDRLEN + Z.of_nat (length data_) < 2 ^ 16 ->
  mnl_attr_put_check m buflen type data_
  = if nlmsg_len m + MNL_ATTR_HDRLEN + MNL_ALIGN (Z.of_nat (length data_))
         >? buflen
    then (false, m)
    else (true,
          set_nlmsg_len
            (nlmsg_len m + MNL_ATTR_HDRLEN
             + MNL_ALIGN (Z.of_nat (length data_)))
            (set_nlmsg_body
               (nlmsg_body m ++ nlattr_image (to_u16 type) data_) m)).
Proof.
  intros Hwf H32 H16. unfold mnl_attr_put_check.
  pose proof Hwf as [Hlen _].
  pose proof (MNL_ALIGN_bounds (Z.of_nat (length data_))) as Hb.
  change MNL_ATTR_HDRLEN with 4 in *.
  change (2 ^ 32) with 4294967296 in H32.
  change (2 ^ 16) with 65536 in H16.
  unfold sizeof_nlmsghdr in Hlen.
  rewrite (MNL_ALIGN_w_eq 64)
    by (change (2 ^ 64) with 18446744073709551616; lia).
  rewrite to_size_t_small
    by (change (2 ^ 64) with 18446744073709551616; lia).
  destruct (_ >? buflen); [reflexivity|].
  rewrite (proj1 (mnl_attr_put_spec m type data_ Hwf H32 H16)).
  reflexivity.
Qed.

Lemma MNL_ALIGN_fixed (x : Z) : MNL_ALIGN x = x -> exists k, x = 4 * k.
Proof.
  intros H. rewrite MNL_ALIGN_eq in H. exists ((x + 3) / 4). lia.
Qed.

Lemma out_msg_bytes_whole (m : out_msg) :
  wf_out m ->
  firstn (Z.to_nat (nlmsg_len m)) (out_msg_bytes m) = out_msg_bytes m.
Proof.
  intros [Hlen _]. apply firstn_all2. unfold out_msg_bytes.
  rewrite !length_app, !host_encode_length. rewrite Hlen.
  unfold sizeof_nlmsghdr. lia.
Qed.

Lemma nlattr_image_length (type : Z) (payload_ : list byte) :
  Z.of_nat (length (nlattr_image type payload_))
  = MNL_ATTR_HDRLEN + MNL_ALIGN (Z.of_nat (length payload_)).
Proof.
  unfold nlattr_image.
  rewrite !length_app, !host_encode_length, repeat_length.
  pose proof (MNL_ALIGN_bounds (Z.of_nat (length payload_))).
  change MNL_ATTR_HDRLEN with 4. lia.
Qed.

Lemma mnl_attr_nest_start_spec (m : out_msg) (type : Z) :
  wf_out m -> nlmsg_len m + MNL_ATTR_HDRLEN < 2 ^ 32 ->
  mnl_attr_nest_start m type
  = (set_nlmsg_len (nlmsg_len m + MNL_ATTR_HDRLEN)
       (set_nlmsg_body
          (nlmsg_body m ++ [x00; x00]
             ++ host_encode 2 (to_u16 (Z.lor NLA_F_NESTED type))) m),
     nlmsg_len m).
Proof.
  intros Hwf H32. pose proof Hwf as [Hlen Hal].
  change MNL_ATTR_HDRLEN with 4 in *.
  change (2 ^ 32) with 4294967296 in H32.
  unfold sizeof_nlmsghdr in Hlen.
  unfold mnl_attr_nest_start, mnl_nlmsg_get_payload_tail.
  rewrite (MNL_ALIGN_w_eq 32) by (change (2 ^ 32) with 4294967296; lia).
  rewrite Hal. rewrite (body_off_length m 2 Hwf) by lia.
  change (Z.to_nat 2) with 2%nat. rewrite store_gap.
  change (MNL_ALIGN sizeof_nlattr) with 4.
  rewrite to_u32_small by (change (2 ^ 32) with 4294967296; lia).
  reflexivity.
Qed.

(** Closing a nest whose content [inner] is aligned turns the open header
    into the image of the nested attribute. *)
Lemma mnl_attr_nest_end_spec (m0 m : out_msg) (type : Z)
  (inner : list byte) :
  wf_out m0 ->
  nlmsg_len m
  = nlmsg_len m0 + MNL_ATTR_HDRLEN + Z.of_nat (length inner) ->
  nlmsg_body m
  = nlmsg_body m0 ++ [x00; x00] ++ host_encode 2 type ++ inner ->
  MNL_ALIGN (Z.of_nat (length inner)) = Z.of_nat (length inner) ->
  MNL_ATTR_HDRLEN + Z.of_nat (length inner) < 2 ^ 16 ->
  nlmsg_len m + MNL_ATTR_HDRLEN < 2 ^ 32 ->
  mnl_attr_nest_end m (nlmsg_len m0)
  = set_nlmsg_body (nlmsg_body m0 ++ nlattr_image type inner) m.
Proof.
  intros Hwf Hlen Hbody Hal H16 H32. pose proof Hwf as [Hlen0 Hal0].
  change MNL_ATTR_HDRLEN with 4 in *.
  change (2 ^ 32) with 4294967296 in H32.
  change (2 ^ 16) with 65536 in H16.
  unfold sizeof_nlmsghdr in Hlen0.
  unfold mnl_attr_nest_end, mnl_nlmsg_get_payload_tail.
  rewrite (MNL_ALIGN_w_eq 32) by (change (2 ^ 32) with 4294967296; lia).
  assert (Halm : MNL_ALIGN (nlmsg_len m) = nlmsg_len m).
  { destruct (MNL_ALIGN_fixed _ Hal0) as [a Ha].
    destruct (MNL_ALIGN_fixed _ Hal) as [b Hb].
    rewrite Hlen, Ha, Hb.
    replace (4 * a + 4 + 4 * b) with (4 * (a + 1 + b)) by lia.
    apply MNL_ALIGN_mult4. }
  rewrite Halm, (body_off_length0 m0 Hwf), Hbody.
  rewrite (store_over (nlmsg_body m0) [x00; x00]
             (host_encode 2 type ++ inner))
    by (rewrite host_encode_length; reflexivity).
  f_equal. f_equal. unfold nlattr_image. change MNL_ATTR_HDRLEN with 4.
  rewrite Hal, Z.sub_diag. cbn [Z.to_nat repeat]. rewrite app_nil_r.
  rewrite Hlen.
  replace (nlmsg_len m0 + 4 + Z.of_nat (length inner) - nlmsg_len m0)
    with (4 + Z.of_nat (length inner)) by lia.
  rewrite to_u16_small by (change (2 ^ 16) with 65536; lia).
  reflexivity.
Qed.

Lemma send_end_sent ret w : sent (snd (send_end ret w)) = sent w.
Proof. unfold send_end. destruct (ret =? BUF_TOO_SHORT); reflexivity. Qed.

Lemma mnl_socket_sendto_sent (m : out_msg) (w : world) :
  wf_out m ->
  sent (snd (mnl_socket_sendto m w)) = sent w ++ [out_msg_bytes m].
Proof.
  intros Hwf. unfold mnl_socket_sendto.
  rewrite (out_msg_bytes_whole m Hwf).
  destruct (socket_sendto (out_msg_bytes m) (errno w)). reflexivity.
Qed.

(** What [nfqueue_send_verdict_connmark] hands to the socket when the send
    buffer holds the message. *)
Lemma nfqueue_send_verdict_connmark_sent
  (queue_num_ packet_id_ verdict connmark : Z) (w : world) :
  verdict_size connmark <= to_size_t SEND_BUF_LEN ->
  sent (snd (nfqueue_send_verdict_connmark queue_num_ packet_id_ verdict
               connmark w))
  = sent w
      ++ [verdict_image (to_u16 queue_num_) packet_id_ (to_u32 verdict)
            (if 0 <=? connmark then Some (be_encode 4 (to_u32 connmark))
             else None)].
Proof.
  intros Hcap. unfold verdict_size in Hcap.
  change (MNL_NLMSG_HDRLEN + sizeof_nfgenmsg
          + (MNL_ATTR_HDRLEN + sizeof_nfqnl_msg_verdict_hdr)) with 32 in Hcap.
  change (MNL_ATTR_HDRLEN + (MNL_ATTR_HDRLEN + 4)) with 12 in Hcap.
  unfold nfqueue_send_verdict_connmark.
  rewrite nfqueue_put_header_spec.
  change (MNL_NLMSG_HDRLEN + sizeof_nfgenmsg) with 20.
  destruct (Z.gtb_spec 20 (to_size_t SEND_BUF_LEN));
    [destruct (0 <=? connmark); lia|].
  unfold nfqnl_msg_verdict_hdr_bytes. rewrite !host_encode_htonl.
  set (vh := be_encode 4 (to_u32 verdict) ++ be_encode 4 packet_id_).
  assert (Hvh : Z.of_nat (length vh) = 8).
  { subst vh. rewrite length_app, !be_encode_length. reflexivity. }
  set (m0 := header_msg queue_num_ NFQNL_MSG_VERDICT).
  pose proof (header_msg_wf queue_num_ NFQNL_MSG_VERDICT) as Hwf0.
  fold m0 in Hwf0.
  assert (Hm0 : nlmsg_len m0 = 20) by reflexivity.
  rewrite (mnl_attr_put_check_spec m0 _ NFQA_VERDICT_HDR vh Hwf0)
    by (rewrite ?Hm0, ?Hvh; reflexivity).
  rewrite Hm0, Hvh. change (20 + MNL_ATTR_HDRLEN + MNL_ALIGN 8) with 32.
  destruct (Z.gtb_spec 32 (to_size_t SEND_BUF_LEN));
    [destruct (0 <=? connmark); lia|].
  cbn [negb].
  set (m1 := set_nlmsg_len 32
               (set_nlmsg_body
                  (nlmsg_body m0 ++ nlattr_image (to_u16 NFQA_VERDICT_HDR) vh)
                  m0)).
  assert (Hwf1 : wf_out m1).
  { destruct (mnl_attr_put_spec m0 NFQA_VERDICT_HDR vh Hwf0) as [E W];
      try (rewrite ?Hm0, ?Hvh; reflexivity).
    rewrite E in W. rewrite Hm0, Hvh in W. exact W. }
  assert (Hm1 : nlmsg_len m1 = 32) by reflexivity.
  unfold verdict_image. fold vh.
  destruct (Z.leb_spec 0 connmark) as [Hpos|Hneg].
  - (* the nested mark *)
    unfold mnl_attr_nest_start_check.
    rewrite Hm1. change (to_size_t (32 + MNL_ATTR_HDRLEN)) with 36.
    destruct (Z.gtb_spec 36 (to_size_t SEND_BUF_LEN)); [lia|].
    rewrite (mnl_attr_nest_start_spec m1 NFQA_CT Hwf1)
      by (rewrite Hm1; reflexivity).
    rewrite Hm1. change (32 + MNL_ATTR_HDRLEN) with 36.
    set (ty := to_u16 (Z.lor NLA_F_NESTED NFQA_CT)).
    set (m2 := set_nlmsg_len 36
                 (set_nlmsg_body
                    (nlmsg_body m1 ++ [x00; x00] ++ host_encode 2 ty) m1)).
    assert (Hwf2 : wf_out m2).
    { destruct Hwf1 as [L1 _]. split; [|reflexivity].
      subst m2. cbn [nlmsg_len nlmsg_body set_nlmsg_len set_nlmsg_body].
      rewrite !length_app, host_encode_length. rewrite Hm1 in L1.
      unfold sizeof_nlmsghdr in *. cbn [length]. lia. }
    assert (Hm2 : nlmsg_len m2 = 36) by reflexivity.
    unfold mnl_attr_put_u32_check. rewrite host_encode_htonl.
    set (mk := be_encode 4 (to_u32 connmark)).
    assert (Hmk : Z.of_nat (length mk) = 4)
      by (subst mk; rewrite be_encode_length; reflexivity).
    rewrite (mnl_attr_put_check_spec m2 _ CTA_MARK mk Hwf2)
      by (rewrite ?Hm2, ?Hmk; reflexivity).
    rewrite Hm2, Hmk. change (36 + MNL_ATTR_HDRLEN + MNL_ALIGN 4) with 44.
    destruct (Z.gtb_spec 44 (to_size_t SEND_BUF_LEN)); [lia|].
    cbn [negb].
    set (inner := nlattr_image (to_u16 CTA_MARK) mk).
    assert (Hinner : Z.of_nat (length inner) = 8).
    { subst inner. rewrite nlattr_image_length, Hmk. reflexivity. }
    set (m3 := set_nlmsg_len 44
                 (set_nlmsg_body (nlmsg_body m2 ++ inner) m2)).
    rewrite <- Hm1 at 1.
    rewrite (mnl_attr_nest_end_spec m1 m3 ty inner Hwf1);
      [| cbn [m3 nlmsg_len set_nlmsg_len]; rewrite Hm1, Hinner; reflexivity
       | subst m3 m2;
         cbn [nlmsg_body set_nlmsg_len set_nlmsg_body];
         rewrite <- !app_assoc; reflexivity
       | rewrite Hinner; reflexivity
       | rewrite Hinner; reflexivity
       | reflexivity ].
    set (m4 := set_nlmsg_body (nlmsg_body m1 ++ nlattr_image ty inner) m3).
    assert (Hwf4 : wf_out m4).
    { destruct Hwf1 as [L1 _]. split; [|reflexivity].
      subst m4 m3. cbn [nlmsg_len nlmsg_body set_nlmsg_len set_nlmsg_body].
      rewrite length_app, Nat2Z.inj_add, nlattr_image_length, Hinner.
      rewrite Hm1 in L1. unfold sizeof_nlmsghdr in *.
      change (MNL_ATTR_HDRLEN + MNL_ALIGN 8) with 12. lia. }
    pose proof (mnl_socket_sendto_sent m4 w Hwf4) as Hs.
    destruct (mnl_socket_sendto m4 w) as [r w1]. cbn [snd] in Hs.
    rewrite send_end_sent, Hs. do 2 f_equal.
    unfold out_msg_bytes, nlmsghdr_image.
    subst m4 m3 m2 m1 m0. unfold header_msg.
    cbn [nlmsg_len nlmsg_type nlmsg_flags nlmsg_seq nlmsg_pid nlmsg_body
         set_nlmsg_len set_nlmsg_body].
    rewrite !length_app, !Nat2Z.inj_add, !nlattr_image_length.
    rewrite Hmk, Hvh. subst inner ty.
    change (to_u16 NFQA_VERDICT_HDR) with NFQA_VERDICT_HDR.
    change (to_u16 CTA_MARK) with CTA_MARK.
    change (to_u16 (Z.lor NLA_F_NESTED NFQA_CT))
      with (Z.lor NLA_F_NESTED NFQA_CT).
    change (MNL_NLMSG_HDRLEN + sizeof_nfgenmsg
            + (MNL_ATTR_HDRLEN + MNL_ALIGN 8
               + (MNL_ATTR_HDRLEN
                  + MNL_ALIGN (MNL_ATTR_HDRLEN + MNL_ALIGN 4)))) with 44.
    change (to_u16
              (Z.lor (Z.shiftl NFNL_SUBSYS_QUEUE 8) NFQNL_MSG_VERDICT))
      with (Z.lor (Z.shiftl NFNL_SUBSYS_QUEUE 8) NFQNL_MSG_VERDICT).
    rewrite <- !app_assoc. reflexivity.
  - cbn [negb].
    pose proof (mnl_socket_sendto_sent m1 w Hwf1) as Hs.
    destruct (mnl_socket_sendto m1 w) as [r w1]. cbn [snd] in Hs.
    rewrite send_end_sent, Hs. do 2 f_equal.
    unfold out_msg_bytes, nlmsghdr_image.
    subst m1 m0. unfold header_msg.
    cbn [nlmsg_len nlmsg_type nlmsg_flags nlmsg_seq nlmsg_pid nlmsg_body
         set_nlmsg_len set_nlmsg_body].
    rewrite app_nil_r, nlattr_image_length, Hvh.
    change (MNL_NLMSG_HDRLEN + sizeof_nfgenmsg
            + (MNL_ATTR_HDRLEN + MNL_ALIGN 8)) with 32.
    change (to_u16 NFQA_VERDICT_HDR) with NFQA_VERDICT_HDR.
    change (to_u16
              (Z.lor (Z.shiftl NFNL_SUBSYS_QUEUE 8) NFQNL_MSG_VERDICT))
      with (Z.lor (Z.shiftl NFNL_SUBSYS_QUEUE 8) NFQNL_MSG_VERDICT).
    rewrite <- !app_assoc. reflexivity.
Qed.

(** ** Capacity of the send buffer *)

(** One checked append on a small message: it refuses when the attribute
    does not fit, and otherwise extends the message by the size of the
    attribute. *)
Lemma mnl_attr_put_check_step (m : out_msg) (buflen type : Z)
  (data_ : list byte) :
  wf_out m -> nlmsg_len m < 2 ^ 16 -> Z.of_nat (length data_) < 2 ^ 15 ->
  let size :=
    nlmsg_len m + MNL_ATTR_HDRLEN + MNL_ALIGN (Z.of_nat (length data_)) in
  (fst (mnl_attr_put_check m buflen type data_) = false /\ size > buflen)
  \/ (fst (mnl_attr_put_check m buflen type data_) = true
      /\ wf_out (snd (mnl_attr_put_check m buflen type data_))
      /\ nlmsg_len (snd (mnl_attr_put_check m buflen type data_)) = size
      /\ size <= buflen).
Proof.
  intros Hwf Hm Hd size.
  change (2 ^ 16) with 65536 in Hm. change (2 ^ 15) with 32768 in Hd.
  pose proof (MNL_ALIGN_bounds (Z.of_nat (length data_))) as Hb.
  assert (H32 : nlmsg_len m + MNL_ATTR_HDRLEN
                + MNL_ALIGN (Z.of_nat (length data_)) < 2 ^ 32)
    by (change MNL_ATTR_HDRLEN with 4; change (2 ^ 32) with 4294967296; lia).
  assert (H16 : MNL_ATTR_HDRLEN + Z.of_nat (length data_) < 2 ^ 16)
    by (change MNL_ATTR_HDRLEN with 4; change (2 ^ 16) with 65536; lia).
  rewrite (mnl_attr_put_check_spec m buflen type data_ Hwf H32 H16).
  fold size. destruct (Z.gtb_spec size buflen) as [Hgt|Hle].
  - left. split; [reflexivity | lia].
  - right. cbn [fst snd].
    destruct (mnl_attr_put_spec m type data_ Hwf H32 H16) as [E W].
    rewrite E in W. fold size in W.
    split; [reflexivity|]. split; [exact W|]. split; [reflexivity | lia].
Qed.

Lemma send_end_too_short (w : world) :
  send_end BUF_TOO_SHORT w = (BUF_TOO_SHORT, set_errno ENOBUFS w).
Proof. reflexivity. Qed.

Ltac put_step m cap ty d Hwf :=
  let H := fresh "Hstep" in
  pose proof (mnl_attr_put_check_step m cap ty d Hwf) as H;
  cbv zeta in H;
  destruct (mnl_attr_put_check m cap ty d) as [? ?];
  cbn [fst snd] in H.

Lemma nfqueue_send_command_too_short
  (queue_num_ msg_type attr_type : Z) (data_ : list byte) (w : world) :
  Z.of_nat (length data_) < 2 ^ 63 ->
  command_size data_ > to_size_t SEND_BUF_LEN ->
  let r := nfqueue_send_command queue_num_ msg_type attr_type data_ w in
  fst r = BUF_TOO_SHORT /\ sent (snd r) = sent w
  /\ (MNL_NLMSG_HDRLEN + sizeof_nfgenmsg <= to_size_t SEND_BUF_LEN ->
      errno (snd r) = ENOBUFS).
Proof.
  intros Hl Hsize. unfold command_size in Hsize.
  change (2 ^ 63) with 9223372036854775808 in Hl.
  change (MNL_NLMSG_HDRLEN + sizeof_nfgenmsg) with 20 in *.
  change MNL_ATTR_HDRLEN with 4 in Hsize.
  pose proof (MNL_ALIGN_bounds (Z.of_nat (length data_))) as Hb.
  unfold nfqueue_send_command. rewrite nfqueue_put_header_spec.
  change (MNL_NLMSG_HDRLEN + sizeof_nfgenmsg) with 20.
  destruct (Z.gtb_spec 20 (to_size_t SEND_BUF_LEN)) as [H20|H20].
  - cbn [fst snd]. repeat split. lia.
  - unfold mnl_attr_put_check.
    change (nlmsg_len (header_msg queue_num_ msg_type)) with 20.
    change MNL_ATTR_HDRLEN with 4.
    rewrite (MNL_ALIGN_w_eq 64)
      by (change (2 ^ 64) with 18446744073709551616; lia).
    rewrite to_size_t_small
      by (change (2 ^ 64) with 18446744073709551616; lia).
    destruct (Z.gtb_spec (20 + 4 + MNL_ALIGN (Z.of_nat (length data_)))
                (to_size_t SEND_BUF_LEN)); [|lia].
    cbn [negb]. rewrite send_end_too_short. cbn [fst snd].
    repeat split.
Qed.

Lemma nfqueue_set_params_too_short
  (queue_num_ mode range maxlen flags : Z) (w : world) :
  set_params_size maxlen flags > to_size_t SEND_BUF_LEN ->
  let r := nfqueue_set_params queue_num_ mode range maxlen flags w in
  fst r = BUF_TOO_SHORT /\ sent (snd r) = sent w
  /\ (MNL_NLMSG_HDRLEN + sizeof_nfgenmsg <= to_size_t SEND_BUF_LEN ->
      errno (snd r) = ENOBUFS).
Proof.
  intros Hsize. unfold set_params_size in Hsize.
  change (MNL_NLMSG_HDRLEN + sizeof_nfgenmsg
          + (MNL_ATTR_HDRLEN + MNL_ALIGN sizeof_nfqnl_msg_config_params))
    with 32 in Hsize.
  change (MNL_ATTR_HDRLEN + 4) with 8 in Hsize.
  change (MNL_NLMSG_HDRLEN + sizeof_nfgenmsg) with 20.
  unfold nfqueue_set_params. rewrite nfqueue_put_header_spec.
  change (MNL_NLMSG_HDRLEN + sizeof_nfgenmsg) with 20.
  destruct (Z.gtb_spec 20 (to_size_t SEND_BUF_LEN)) as [H20|H20].
  { cbn [fst snd]. repeat split. lia. }
  set (cap := to_size_t SEND_BUF_LEN) in *.
  set (params := nfqnl_msg_config_params_bytes _ _).
  assert (Hparams : Z.of_nat (length params) = 5).
  { subst params. unfold nfqnl_msg_config_params_bytes.
    rewrite length_app, host_encode_length. reflexivity. }
  pose proof (header_msg_wf queue_num_ NFQNL_MSG_CONFIG) as Hwf0.
  put_step (header_msg queue_num_ NFQNL_MSG_CONFIG) cap NFQA_CFG_PARAMS
    params Hwf0.
  rewrite Hparams in Hstep.
  change (nlmsg_len (header_msg queue_num_ NFQNL_MSG_CONFIG)) with 20
    in Hstep.
  change (20 + MNL_ATTR_HDRLEN + MNL_ALIGN 5) with 32 in Hstep.
  destruct Hstep as [[-> _]|(-> & Hwf1 & Hlen1 & Hcap1)];
    [reflexivity | reflexivity
    | cbn [negb]; rewrite send_end_too_short; repeat split |].
  cbn [negb]. unfold mnl_attr_put_u32_check.
  assert (Hu32 : forall v, Z.of_nat (length (host_encode 4 v)) = 4)
    by (intros v; rewrite host_encode_length; reflexivity).
  destruct (Z.ltb_spec 0 maxlen) as [Hmax|Hmax].
  - put_step o cap NFQA_CFG_QUEUE_MAXLEN (host_encode 4 (htonl maxlen)) Hwf1.
    rewrite Hlen1, Hu32 in Hstep.
    change (32 + MNL_ATTR_HDRLEN + MNL_ALIGN 4) with 40 in Hstep.
    destruct Hstep as [[-> _]|(-> & Hwf2 & Hlen2 & Hcap2)];
      [reflexivity | reflexivity
      | cbn [negb]; rewrite send_end_too_short; repeat split |].
    cbn [negb].
    destruct (Z.eqb_spec flags 0) as [Hfl|Hfl]; cbn [negb]; [lia|].
    put_step o0 cap NFQA_CFG_FLAGS (host_encode 4 (htonl flags)) Hwf2.
    rewrite Hlen2, Hu32 in Hstep.
    change (40 + MNL_ATTR_HDRLEN + MNL_ALIGN 4) with 48 in Hstep.
    destruct Hstep as [[-> _]|(-> & Hwf3 & Hlen3 & Hcap3)];
      [reflexivity | reflexivity
      | cbn [negb]; rewrite send_end_too_short; repeat split |].
    cbn [negb].
    put_step o1 cap NFQA_CFG_MASK (host_encode 4 (htonl flags)) Hwf3.
    rewrite Hlen3, Hu32 in Hstep.
    change (48 + MNL_ATTR_HDRLEN + MNL_ALIGN 4) with 56 in Hstep.
    destruct Hstep as [[-> _]|(-> & Hwf4 & Hlen4 & Hcap4)];
      [reflexivity | reflexivity
      | cbn [negb]; rewrite send_end_too_short; repeat split | lia].
  - cbn [negb].
    destruct (Z.eqb_spec flags 0) as [Hfl|Hfl]; cbn [negb]; [lia|].
    put_step o cap NFQA_CFG_FLAGS (host_encode 4 (htonl flags)) Hwf1.
    rewrite Hlen1, Hu32 in Hstep.
    change (32 + MNL_ATTR_HDRLEN + MNL_ALIGN 4) with 40 in Hstep.
    destruct Hstep as [[-> _]|(-> & Hwf3 & Hlen3 & Hcap3)];
      [reflexivity | reflexivity
      | cbn [negb]; rewrite send_end_too_short; repeat split |].
    cbn [negb].
    put_step o0 cap NFQA_CFG_MASK (host_encode 4 (htonl flags)) Hwf3.
    rewrite Hlen3, Hu32 in Hstep.
    change (40 + MNL_ATTR_HDRLEN + MNL_ALIGN 4) with 48 in Hstep.
    destruct Hstep as [[-> _]|(-> & Hwf4 & Hlen4 & Hcap4)];
      [reflexivity | reflexivity
      | cbn [negb]; rewrite send_end_too_short; repeat split | lia].
Qed.

Lemma nfqueue_send_verdict_connmark_too_short
  (queue_num_ packet_id_ verdict connmark : Z) (w : world) :
  verdict_size connmark > to_size_t SEND_BUF_LEN ->
  let r :=
    nfqueue_send_verdict_connmark queue_num_ packet_id_ verdict connmark w in
  fst r = BUF_TOO_SHORT /\ sent (snd r) = sent w
  /\ (MNL_NLMSG_HDRLEN + sizeof_nfgenmsg <= to_size_t SEND_BUF_LEN ->
      errno (snd r) = ENOBUFS).
Proof.
  intros Hsize. unfold verdict_size in Hsize.
  change (MNL_NLMSG_HDRLEN + sizeof_nfgenmsg
          + (MNL_ATTR_HDRLEN + sizeof_nfqnl_msg_verdict_hdr)) with 32 in Hsize.
  change (MNL_ATTR_HDRLEN + (MNL_ATTR_HDRLEN + 4)) with 12 in Hsize.
  change (MNL_NLMSG_HDRLEN + sizeof_nfgenmsg) with 20.
  unfold nfqueue_send_verdict_connmark. rewrite nfqueue_put_header_spec.
  change (MNL_NLMSG_HDRLEN + sizeof_nfgenmsg) with 20.
  destruct (Z.gtb_spec 20 (to_size_t SEND_BUF_LEN)) as [H20|H20].
  { cbn [fst snd]. repeat split. lia. }
  set (cap := to_size_t SEND_BUF_LEN) in *.
  set (vh := nfqnl_msg_verdict_hdr_bytes _ _).
  assert (Hvh : Z.of_nat (length vh) = 8).
  { subst vh. unfold nfqnl_msg_verdict_hdr_bytes.
    rewrite length_app, !host_encode_length. reflexivity. }
  pose proof (header_msg_wf queue_num_ NFQNL_MSG_VERDICT) as Hwf0.
  put_step (header_msg queue_num_ NFQNL_MSG_VERDICT) cap NFQA_VERDICT_HDR
    vh Hwf0.
  rewrite Hvh in Hstep.
  change (nlmsg_len (header_msg queue_num_ NFQNL_MSG_VERDICT)) with 20
    in Hstep.
  change (20 + MNL_ATTR_HDRLEN + MNL_ALIGN 8) with 32 in Hstep.
  destruct Hstep as [[-> _]|(-> & Hwf1 & Hlen1 & Hcap1)];
    [reflexivity | reflexivity
    | cbn [negb]; rewrite send_end_too_short; repeat split |].
  cbn [negb].
  destruct (Z.leb_spec 0 connmark) as [Hpos|Hneg]; [|lia].
  unfold mnl_attr_nest_start_check. rewrite Hlen1.
  change (to_size_t (32 + MNL_ATTR_HDRLEN)) with 36.
  destruct (Z.gtb_spec 36 cap) as [H36|H36].
  { cbn [negb]. rewrite send_end_too_short. repeat split. }
  rewrite (mnl_attr_nest_start_spec o NFQA_CT Hwf1)
    by (rewrite Hlen1; reflexivity).
  rewrite Hlen1. change (32 + MNL_ATTR_HDRLEN) with 36.
  set (m2 := set_nlmsg_len 36 _).
  assert (Hwf2 : wf_out m2).
  { destruct Hwf1 as [L1 _]. split; [|reflexivity].
    subst m2. cbn [nlmsg_len nlmsg_body set_nlmsg_len set_nlmsg_body].
    rewrite !length_app, host_encode_length. rewrite Hlen1 in L1.
    unfold sizeof_nlmsghdr in *. cbn [length]. lia. }
  unfold mnl_attr_put_u32_check.
  put_step m2 cap CTA_MARK (host_encode 4 (htonl (to_u32 connmark))) Hwf2.
  rewrite host_encode_length in Hstep.
  change (nlmsg_len m2) with 36 in Hstep.
  change (36 + MNL_ATTR_HDRLEN + MNL_ALIGN (Z.of_nat 4)) with 44 in Hstep.
  destruct Hstep as [[-> _]|(-> & Hwf3 & Hlen3 & Hcap3)];
    [reflexivity | reflexivity
    | cbn [negb]; rewrite send_end_too_short; repeat split | lia].
Qed.

(** ** Walking encoded attributes *)

Lemma mnl_attr_ok_inv (rem : list byte) :
  mnl_attr_ok rem (to_int (Z.of_nat (length rem))) = true ->
  4 <= nla_len rem /\ (4 <= length rem)%nat
  /\ 4 <= to_int (Z.of_nat (length rem))
  /\ to_int (nla_len rem) <= to_int (Z.of_nat (length rem)).
Proof.
  unfold mnl_attr_ok. intros H.
  apply andb_prop in H as [H H3]. apply andb_prop in H as [H1 H2].
  apply Z.geb_le in H1, H2. apply Z.leb_le in H3.
  change (to_int sizeof_nlattr) with 4 in H1. unfold sizeof_nlattr in H2.
  pose proof (to_int_le (Z.of_nat (length rem)) ltac:(lia) ltac:(lia)).
  repeat split; lia.
Qed.

Lemma mnl_attr_next_shorter (rem : list byte) :
  4 <= nla_len rem -> (4 <= length rem)%nat ->
  (length (mnl_attr_next rem) < length rem)%nat.
Proof.
  intros H4 Hl. unfold mnl_attr_next. rewrite length_skipn.
  pose proof (MNL_ALIGN_bounds (nla_len rem)). lia.
Qed.

(** [length span] steps are enough: more fuel changes nothing. *)
Lemma mnl_attr_for_each_aux_fuel (f1 f2 : nat) (rem : list byte) :
  (length rem <= f1)%nat -> (length rem <= f2)%nat ->
  mnl_attr_for_each_aux f1 rem = mnl_attr_for_each_aux f2 rem.
Proof.
  revert f2 rem. induction f1 as [|f1 IH]; intros f2 rem H1 H2.
  - destruct f2 as [|f2]; [reflexivity|]. cbn [mnl_attr_for_each_aux].
    destruct (mnl_attr_ok rem _) eqn:E; [|reflexivity].
    apply mnl_attr_ok_inv in E. lia.
  - destruct f2 as [|f2]; cbn [mnl_attr_for_each_aux];
      destruct (mnl_attr_ok rem _) eqn:E; try reflexivity.
    + apply mnl_attr_ok_inv in E. lia.
    + apply mnl_attr_ok_inv in E. destruct E as (E1 & E2 & _).
      pose proof (mnl_attr_next_shorter rem E1 E2).
      f_equal. apply IH; lia.
Qed.

Lemma mnl_attr_for_each_step (rem : list byte) :
  mnl_attr_for_each rem
  = if mnl_attr_ok rem (to_int (Z.of_nat (length rem)))
    then firstn (Z.to_nat (nla_len rem)) rem
           :: mnl_attr_for_each (mnl_attr_next rem)
    else [].
Proof.
  unfold mnl_attr_for_each. destruct rem as [|b rem]; [reflexivity|].
  cbn [length mnl_attr_for_each_aux].
  destruct (mnl_attr_ok (b :: rem) _) eqn:E; [|reflexivity].
  apply mnl_attr_ok_inv in E. destruct E as (E1 & E2 & _).
  pose proof (mnl_attr_next_shorter (b :: rem) E1 E2) as Hs.
  cbn [length] in Hs. f_equal. apply mnl_attr_for_each_aux_fuel; lia.
Qed.

Lemma skipn_app_exact {A} (n : nat) (a b : list A) :
  length a = n -> skipn n (a ++ b) = b.
Proof. intros <-. apply skipn_length_app. Qed.

Lemma firstn_app_exact {A} (n : nat) (a b : list A) :
  length a = n -> firstn n (a ++ b) = a.
Proof. intros <-. apply firstn_length_app. Qed.

Lemma load_host_encode (n : nat) (z : Z) (rest : list byte) :
  0 <= z < 256 ^ Z.of_nat n ->
  load n 0 (host_encode n z ++ rest) = z.
Proof.
  intros H. unfold load, slice. cbn [skipn].
  rewrite firstn_app_exact by apply host_encode_length.
  rewrite host_decode_encode. apply Z.mod_small, H.
Qed.

Lemma nla_len_image (type : Z) (p rest : list byte) :
  MNL_ATTR_HDRLEN + Z.of_nat (length p) < 2 ^ 16 ->
  nla_len (nlattr_image type p ++ rest)
  = MNL_ATTR_HDRLEN + Z.of_nat (length p).
Proof.
  intros H. unfold nla_len, nlattr_image. rewrite <- !app_assoc.
  apply load_host_encode. change MNL_ATTR_HDRLEN with 4 in *.
  change (256 ^ Z.of_nat 2) with (2 ^ 16). lia.
Qed.

(** The walk over the image of an attribute followed by [rest]: the
    attribute, then the walk over [rest]. *)
Lemma mnl_attr_for_each_image (type : Z) (p rest : list byte) :
  MNL_ATTR_HDRLEN + Z.of_nat (length p) < 2 ^ 15 ->
  Z.of_nat (length (nlattr_image type p ++ rest)) < 2 ^ 31 ->
  mnl_attr_for_each (nlattr_image type p ++ rest)
  = nlattr_head type p :: mnl_attr_for_each rest.
Proof.
  intros H15 H31. rewrite mnl_attr_for_each_step.
  change (2 ^ 15) with 32768 in H15. change (2 ^ 31) with 2147483648 in H31.
  change MNL_ATTR_HDRLEN with 4 in H15.
  rewrite length_app in H31.
  pose proof (nlattr_image_length type p) as Hil.
  change MNL_ATTR_HDRLEN with 4 in Hil.
  pose proof (MNL_ALIGN_bounds (Z.of_nat (length p))) as Hb.
  unfold mnl_attr_ok, mnl_attr_next.
  rewrite nla_len_image by (change MNL_ATTR_HDRLEN with 4;
                            change (2 ^ 16) with 65536; lia).
  change MNL_ATTR_HDRLEN with 4. change (to_int sizeof_nlattr) with 4.
  unfold sizeof_nlattr.
  rewrite !to_int_small
    by (change (2 ^ 31) with 2147483648; rewrite ?length_app; lia).
  rewrite length_app.
  destruct (Z.geb_spec (Z.of_nat (length (nlattr_image type p) + length rest))
              4); [|lia].
  destruct (Z.geb_spec (4 + Z.of_nat (length p)) 4); [|lia].
  destruct (Z.leb_spec (4 + Z.of_nat (length p))
              (Z.of_nat (length (nlattr_image type p) + length rest)));
    [|lia].
  cbn [andb]. f_equal.
  - unfold nlattr_image, nlattr_head. change MNL_ATTR_HDRLEN with 4.
    rewrite !app_assoc.
    set (h := (host_encode 2 (4 + Z.of_nat (length p)) ++ host_encode 2 type)
                ++ p).
    assert (Hh : Z.to_nat (4 + Z.of_nat (length p)) = length h).
    { subst h. rewrite !length_app, !host_encode_length. lia. }
    rewrite Hh, <- app_assoc. apply firstn_length_app.
  - assert (Hal : MNL_ALIGN (4 + Z.of_nat (length p))
                  = Z.of_nat (length (nlattr_image type p))).
    { rewrite Hil, !MNL_ALIGN_eq.
      replace (4 + Z.of_nat (length p) + 3)
        with (Z.of_nat (length p) + 3 + 1 * 4) by lia.
      rewrite Z.div_add by lia. lia. }
    rewrite Hal, Nat2Z.id, skipn_length_app. reflexivity.
Qed.

Lemma mnl_attr_for_each_nil : mnl_attr_for_each [] = [].
Proof. reflexivity. Qed.

Lemma nlattr_head_type (type : Z) (p : list byte) :
  0 <= type < 2 ^ 16 ->
  mnl_attr_get_type (nlattr_head type p) = Z.land type NLA_TYPE_MASK.
Proof.
  intros H. unfold mnl_attr_get_type, nla_type, nlattr_head, load, slice.
  rewrite skipn_app_exact by apply host_encode_length.
  rewrite firstn_app_exact by apply host_encode_length.
  rewrite host_decode_encode.
  change (256 ^ Z.of_nat 2) with (2 ^ 16).
  rewrite Z.mod_small by exact H. reflexivity.
Qed.

Lemma nlattr_head_payload (type : Z) (p : list byte) :
  mnl_attr_get_payload (nlattr_head type p) = p.
Proof.
  unfold mnl_attr_get_payload, nlattr_head. change (Z.to_nat MNL_ATTR_HDRLEN)
    with (2 + 2)%nat.
  rewrite app_assoc. apply skipn_app_exact.
  rewrite length_app, !host_encode_length. reflexivity.
Qed.

Lemma nlattr_head_payload_len (type : Z) (p : list byte) :
  MNL_ATTR_HDRLEN + Z.of_nat (length p) < 2 ^ 16 ->
  mnl_attr_get_payload_len (nlattr_head type p) = Z.of_nat (length p).
Proof.
  intros H. unfold mnl_attr_get_payload_len, nla_len, nlattr_head.
  change MNL_ATTR_HDRLEN with 4 in *. change (2 ^ 16) with 65536 in H.
  rewrite load_host_encode
    by (change (256 ^ Z.of_nat 2) with 65536; lia).
  replace (4 + Z.of_nat (length p) - 4) with (Z.of_nat (length p)) by lia.
  apply to_u16_small. change (2 ^ 16) with 65536. lia.
Qed.

(** The attributes nested in an attribute whose payload is the image of one
    attribute. *)
Lemma nested_attrs_single (type type' : Z) (p' : list byte) :
  MNL_ATTR_HDRLEN + Z.of_nat (length p') < 2 ^ 15 - 8 ->
  nested_attrs (nlattr_head type (nlattr_image type' p'))
  = [nlattr_head type' p'].
Proof.
  intros H. change (2 ^ 15) with 32768 in H.
  change MNL_ATTR_HDRLEN with 4 in H.
  pose proof (nlattr_image_length type' p') as Hil.
  change MNL_ATTR_HDRLEN with 4 in Hil.
  pose proof (MNL_ALIGN_bounds (Z.of_nat (length p'))) as Hb.
  unfold nested_attrs.
  rewrite nlattr_head_payload_len
    by (change MNL_ATTR_HDRLEN with 4; change (2 ^ 16) with 65536; lia).
  rewrite nlattr_head_payload, Nat2Z.id, firstn_all.
  rewrite <- (app_nil_r (nlattr_image type' p')).
  rewrite mnl_attr_for_each_image;
    [ reflexivity
    | change MNL_ATTR_HDRLEN with 4; change (2 ^ 15) with 32768; lia
    | rewrite app_nil_r; change (2 ^ 31) with 2147483648; lia ].
Qed.

Lemma msg_attrs_verdict_image (q id verdict : Z) (mark : option (list byte)) :
  (forall mk, mark = Some mk -> length mk = 4%nat) ->
  msg_attrs (verdict_image q id verdict mark)
  = nlattr_head NFQA_VERDICT_HDR (be_encode 4 verdict ++ be_encode 4 id)
      :: match mark with
         | None => []
         | Some mk =>
           [nlattr_head (Z.lor NLA_F_NESTED NFQA_CT)
              (nlattr_image CTA_MARK mk)]
         end.
Proof.
  intros Hmk. unfold msg_attrs, verdict_image.
  set (vh := be_encode 4 verdict ++ be_encode 4 id).
  assert (Hvh : Z.of_nat (length vh) = 8).
  { subst vh. rewrite length_app, !be_encode_length. reflexivity. }
  set (tail_ := match mark with
                | None => []
                | Some mk =>
                  nlattr_image (Z.lor NLA_F_NESTED NFQA_CT)
                    (nlattr_image CTA_MARK mk)
                end).
  assert (Htail : Z.of_nat (length tail_) = 0 \/ Z.of_nat (length tail_) = 12).
  { subst tail_. destruct mark as [mk|]; [right|left; reflexivity].
    rewrite !nlattr_image_length, (Hmk mk eq_refl). reflexivity. }
  set (attrs := nlattr_image NFQA_VERDICT_HDR vh ++ tail_).
  assert (Hattrs : Z.of_nat (length attrs) = 12 + Z.of_nat (length tail_)).
  { subst attrs. rewrite length_app, Nat2Z.inj_add, nlattr_image_length, Hvh.
    reflexivity. }
  set (L := MNL_NLMSG_HDRLEN + sizeof_nfgenmsg + Z.of_nat (length attrs)).
  assert (HL : L = 32 + Z.of_nat (length tail_))
    by (subst L; rewrite Hattrs; change (MNL_NLMSG_HDRLEN + sizeof_nfgenmsg)
          with 20; lia).
  set (mem := nlmsghdr_image L _ _ _ _ ++ nfgenmsg_image q ++ attrs).
  assert (Hlen : Z.of_nat (length mem) = L).
  { subst mem. unfold nlmsghdr_image, nfgenmsg_image.
    rewrite !length_app, !host_encode_length, be_encode_length.
    cbn [length]. lia. }
  assert (Hhdr : hdr_nlmsg_len mem = L).
  { subst mem. unfold hdr_nlmsg_len, nlmsghdr_image. rewrite <- !app_assoc.
    apply load_host_encode. change (256 ^ Z.of_nat 4) with 4294967296. lia. }
  assert (HalL : MNL_ALIGN L = L).
  { destruct Htail as [E|E]; rewrite HL, E; reflexivity. }
  destruct (nlmsg_attr_span_app mem [] ltac:(lia)
              ltac:(rewrite Hhdr, HalL; exact Hlen)
              ltac:(change (2 ^ 31) with 2147483648; lia)) as [_ Hspan].
  rewrite Hspan.
  assert (Hskip : skipn 20 mem = attrs).
  { subst mem. rewrite app_assoc. apply skipn_app_exact.
    unfold nlmsghdr_image, nfgenmsg_image.
    rewrite !length_app, !host_encode_length, be_encode_length.
    reflexivity. }
  rewrite Hskip. subst attrs.
  rewrite mnl_attr_for_each_image;
    [ | rewrite Hvh; reflexivity
      | rewrite length_app, Nat2Z.inj_add, nlattr_image_length, Hvh;
        change (2 ^ 31) with 2147483648;
        change (MNL_ATTR_HDRLEN + MNL_ALIGN 8) with 12; lia ].
  f_equal. subst tail_. destruct mark as [mk|]; [|reflexivity].
  rewrite <- (app_nil_r (nlattr_image (Z.lor NLA_F_NESTED NFQA_CT) _)).
  rewrite mnl_attr_for_each_image;
    [ reflexivity
    | rewrite nlattr_image_length, (Hmk mk eq_refl); reflexivity
    | rewrite app_nil_r, !nlattr_image_length, (Hmk mk eq_refl);
      reflexivity ].
Qed.

Lemma nfqueue_verdict_sent (q : nf_queue) (packet_id_ verdict connmark : Z)
  (w : world) :
  verdict_size connmark <= to_size_t SEND_BUF_LEN ->
  sent (snd (nfqueue_verdict q packet_id_ verdict connmark w))
  = sent w
      ++ [verdict_image (to_u16 (q_queue_num q)) packet_id_ (to_u32 verdict)
            (if 0 <=? connmark then Some (be_encode 4 (to_u32 connmark))
             else None)].
Proof.
  intros Hcap. unfold nfqueue_verdict.
  match goal with
  | |- context [nfqueue_send_verdict_connmark ?a ?b ?c ?d ?w0] =>
    pose proof (nfqueue_send_verdict_connmark_sent a b c d w0 Hcap) as Hs;
    destruct (nfqueue_send_verdict_connmark a b c d w0) as [r w1]
  end.
  cbn [snd] in Hs. destruct (r <? 0); cbn [snd]; exact Hs.
Qed.

Lemma carries_mark_verdict_image (q id verdict : Z) (mk : list byte) :
  length mk = 4%nat ->
  carries_mark (verdict_image q id verdict (Some mk)) mk.
Proof.
  intros Hmk. unfold carries_mark.
  rewrite msg_attrs_verdict_image
    by (intros mk' E; inversion E; subst; exact Hmk).
  exists (nlattr_head (Z.lor NLA_F_NESTED NFQA_CT) (nlattr_image CTA_MARK mk)).
  exists (nlattr_head CTA_MARK mk).
  split; [right; left; reflexivity|].
  split; [rewrite nlattr_head_type;
          [reflexivity | vm_compute; split; [discriminate | reflexivity]]|].
  split; [apply nested_attrs_single; rewrite Hmk; reflexivity|].
  split; [rewrite nlattr_head_type;
          [reflexivity | vm_compute; split; [discriminate | reflexivity]]|].
  apply nlattr_head_payload.
Qed.

Lemma lacks_ct_verdict_image (q id verdict : Z) :
  lacks_attr NFQA_CT (msg_attrs (verdict_image q id verdict None)).
Proof.
  rewrite msg_attrs_verdict_image by discriminate.
  intros a [<-|[]].
  rewrite nlattr_head_type
    by (vm_compute; split; [discriminate | reflexivity]).
  discriminate.
Qed.

(** ** The iteration loop *)

(** C1 (as the code has it): on a complete message with the dump-interrupted
    flag clear and a type below [NLMSG_MIN_TYPE], the loop of [nfqueue_next]
    changes nothing and tests the same message again: no number of
    iterations makes the call return, so the message is not skipped and no
    later message is reached. *)
Theorem nfqueue_next_control_msg_never_returns
  (fuel : nat) (d : list byte) (buf : nf_buffer) (packet : nf_packet)
  (w : world) :
  current_msg_ok d buf ->
  dump_intr (cursor_mem d buf) = false ->
  hdr_nlmsg_type (cursor_mem d buf) < NLMSG_MIN_TYPE ->
  nfqueue_next fuel buf packet w = None.
Proof.
  intros [Hd Hok] Hintr Hty. unfold nfqueue_next. rewrite Hd.
  assert (H : nfqueue_next_loop fuel d buf packet w = None).
  { induction fuel as [|fuel IH]; [reflexivity|].
    cbn [nfqueue_next_loop]. rewrite Hok.
    unfold dump_intr in Hintr. rewrite Hintr.
    destruct (Z.geb_spec (hdr_nlmsg_type (cursor_mem d buf)) NLMSG_MIN_TYPE);
      [lia | exact IH]. }
  rewrite H. reflexivity.
Qed.

(** C7: when the current message has the dump-interrupted flag set,
    [nfqueue_next] returns [IO_ERROR] and leaves the buffer, cursor and
    length included, as it was. *)
Theorem nfqueue_next_dump_intr
  (fuel : nat) (d : list byte) (buf : nf_buffer) (packet : nf_packet)
  (w : world) :
  current_msg_ok d buf ->
  dump_intr (cursor_mem d buf) = true ->
  nfqueue_next (S fuel) buf packet w
  = Some (Returns (IO_ERROR, buf, packet,
                   LOG LOG_ERR "Netlink dump interrupted" w)).
Proof.
  intros [Hd Hok] Hintr. unfold nfqueue_next. rewrite Hd.
  cbn [nfqueue_next_loop]. rewrite Hok.
  unfold dump_intr in Hintr. rewrite Hintr. reflexivity.
Qed.

(** ** Packet assembly *)

(** C8: assembly fails when no packet-metaheader attribute is in the message,
    when no payload attribute is, and when every payload attribute in it has
    length zero, whatever else the message holds. *)
Theorem nfqueue_parse_mandatory_attrs (mem : list byte) (w : world) :
  (lacks_attr NFQA_PACKET_HDR (msg_attrs mem) ->
   fst (fst (nfqueue_parse mem w)) = false)
  /\ (lacks_attr NFQA_PAYLOAD (msg_attrs mem) ->
      fst (fst (nfqueue_parse mem w)) = false)
  /\ ((forall a, In a (msg_attrs mem) ->
                 mnl_attr_get_type a = NFQA_PAYLOAD ->
                 mnl_attr_get_payload_len a = 0) ->
      fst (fst (nfqueue_parse mem w)) = false).
Proof.
  assert (Hlook : forall ret attr e t a,
            mnl_attr_parse mem sizeof_nfgenmsg parse_nfqa_attr_cb
              (tb_empty, errno w) = (ret, (attr, e)) ->
            attr t = Some a ->
            In a (msg_attrs mem) /\ mnl_attr_get_type a = t).
  { intros ret attr e t a Hrun Ht. unfold mnl_attr_parse in Hrun.
    destruct (mnl_attr_run_lookup _ _ _
                (cb_form_shape (to_u16 NFQA_MAX) check_nfqa)
                _ _ _ _ _ _ _ _ Hrun Ht) as [H|H];
      [discriminate H | exact H]. }
  unfold nfqueue_parse.
  destruct (mnl_attr_parse mem sizeof_nfgenmsg parse_nfqa_attr_cb
              (tb_empty, errno w)) as [ret [attr e]] eqn:Hrun.
  specialize (Hlook ret attr e).
  destruct (ret <? 0); [repeat split; reflexivity|].
  unfold nfqueue_parse_attrs.
  destruct (attr NFQA_PACKET_HDR) as [a_hdr|] eqn:Eh.
  - split.
    { intros Hlack. destruct (Hlook _ _ eq_refl Eh) as [Hin Hty].
      exfalso. exact (Hlack _ Hin Hty). }
    destruct (attr NFQA_PAYLOAD) as [a_pl|] eqn:Ep;
      [|split; reflexivity].
    destruct (Hlook _ _ eq_refl Ep) as [Hin Hty].
    split.
    { intros Hlack. exfalso. exact (Hlack _ Hin Hty). }
    intros Hzero. packet_fields. rewrite (Hzero _ Hin Hty). reflexivity.
  - repeat split; reflexivity.
Qed.

(** C4: the two clock readings are stored in the packet in every case; a
    timestamp attribute with [sec = usec = 0] makes the assembler do exactly
    what it does without the attribute; and in both cases the packet says
    [has_timestamp = false] with a zero [timestamp]. *)
Theorem nfqueue_parse_timestamp (mem : list byte) (w : world) :
  (wall_time (snd (fst (nfqueue_parse mem w))) = clock_realtime w
   /\ mono_time (snd (fst (nfqueue_parse mem w))) = clock_monotonic_raw w)
  /\ (forall attr a_ts packet w0,
        attr NFQA_TIMESTAMP = Some a_ts -> zero_timestamp a_ts ->
        nfqueue_parse_attrs mem attr packet w0
        = nfqueue_parse_attrs mem (tb_unset attr NFQA_TIMESTAMP) packet w0)
  /\ (forall ret attr e,
        mnl_attr_parse mem sizeof_nfgenmsg parse_nfqa_attr_cb
          (tb_empty, errno w) = (ret, (attr, e)) ->
        (attr NFQA_TIMESTAMP = None
         \/ exists a_ts, attr NFQA_TIMESTAMP = Some a_ts
                         /\ zero_timestamp a_ts) ->
        has_timestamp (snd (fst (nfqueue_parse mem w))) = false
        /\ timestamp (snd (fst (nfqueue_parse mem w)))
           = {| tv_sec := 0; tv_usec := 0 |}).
Proof.
  split; [|split].
  - unfold nfqueue_parse.
    destruct (mnl_attr_parse mem sizeof_nfgenmsg parse_nfqa_attr_cb
                (tb_empty, errno w)) as [ret [attr e]].
    destruct (ret <? 0); [split; reflexivity|].
    match goal with
    | |- context [nfqueue_parse_attrs mem attr ?p ?w0] =>
      destruct (nfqueue_parse_attrs_clocks mem attr p w0) as [H1 H2]
    end.
    rewrite H1, H2. split; reflexivity.
  - intros attr a_ts packet w0 Hts [Hsec Husec].
    unfold nfqueue_parse_attrs, tb_unset. cbn [Z.eqb NFQA_PACKET_HDR
      NFQA_PAYLOAD NFQA_TIMESTAMP NFQA_CT NFQA_CT_INFO Pos.eqb].
    rewrite Hts, Hsec, Husec. reflexivity.
  - intros ret attr e Hrun Hts. unfold nfqueue_parse. rewrite Hrun.
    destruct (ret <? 0); [split; reflexivity|].
    unfold nfqueue_parse_attrs.
    destruct (attr NFQA_PACKET_HDR) as [a_hdr|]; [|split; reflexivity].
    destruct (attr NFQA_PAYLOAD) as [a_pl|]; [|split; reflexivity].
    packet_fields.
    destruct (mnl_attr_get_payload_len a_pl =? 0); [split; reflexivity|].
    unfold malloc_copy. cbv beta iota.
    assert (Hpk :
      match attr NFQA_TIMESTAMP with
      | Some a_ts =>
        negb (load 8 0 (mnl_attr_get_payload a_ts) =? 0)
        || negb (load 8 8 (mnl_attr_get_payload a_ts) =? 0) = false
      | None => True
      end).
    { destruct Hts as [->|[a_ts [-> [H1 H2]]]]; [exact I|].
      rewrite H1, H2. reflexivity. }
    destruct (attr NFQA_TIMESTAMP) as [a_ts|]; [rewrite Hpk|]; clear Hpk.
    all: packet_fields; cbn [negb]; cbv beta iota.
    all: destruct (attr NFQA_CT) as [ct|];
      [ match goal with
        | |- context [nfqueue_parse_ct ct ?pa ?wa] =>
          pose proof (nfqueue_parse_ct_frame ct pa wa) as Hf;
          destruct (nfqueue_parse_ct ct pa wa) as [[ok pk] wk]
        end;
        cbn [fst snd] in Hf;
        destruct Hf as (_&_&_&_&_&Hhas&Hts'&_);
        packet_fields; cbn in Hhas, Hts';
        destruct ok; cbn [negb]; cbv beta iota;
        [destruct (attr NFQA_CT_INFO)|];
        packet_fields; cbn [fst snd]; packet_fields;
        rewrite ?Hhas, ?Hts'; split; reflexivity
      | cbn [negb]; cbv beta iota;
        destruct (attr NFQA_CT_INFO); split; reflexivity ].
Qed.

(** C10: when the message has both mandatory attributes and a non-empty
    payload and assembly fails all the same (in the conntrack step, the only
    one left), the packet is left pointing at the block allocated for the
    payload, with a non-zero length, the block is still on the heap, and
    [nfqueue_next] answers [IO_ERROR]: no [IO_READY] tells the caller to
    release it. *)
Theorem nfqueue_parse_failure_keeps_payload
  (mem : list byte) (w : world) (ret : Z) (attr : table) (e : Z)
  (a_hdr a_pl : nlattr) :
  mnl_attr_parse mem sizeof_nfgenmsg parse_nfqa_attr_cb (tb_empty, errno w)
  = (ret, (attr, e)) ->
  (ret <? 0) = false ->
  attr NFQA_PACKET_HDR = Some a_hdr ->
  attr NFQA_PAYLOAD = Some a_pl ->
  mnl_attr_get_payload_len a_pl <> 0 ->
  fst (fst (nfqueue_parse mem w)) = false ->
  let p := snd (fst (nfqueue_parse mem w)) in
  let w' := snd (nfqueue_parse mem w) in
  payload p = Z.pos (next_block w) /\ payload p <> 0
  /\ payload_len p = mnl_attr_get_payload_len a_pl /\ payload_len p <> 0
  /\ heap w'
     = (payload p,
        firstn (Z.to_nat (payload_len p)) (mnl_attr_get_payload a_pl))
         :: heap w
  /\ forall fuel d buf packet,
       current_event d buf -> cursor_mem d buf = mem ->
       nfqueue_next (S fuel) buf packet w
       = Some (Returns (IO_ERROR, buf, p, w')).
Proof.
  intros Hrun Hret Hh Hp Hl Hfail p w'.
  assert (Hres : nfqueue_parse mem w = (false, p, w')).
  { subst p w'. destruct (nfqueue_parse mem w) as [[ok p] w'].
    cbn [fst snd] in *. subst ok. reflexivity. }
  assert (Hattrs : nfqueue_parse mem w
                   = nfqueue_parse_attrs mem attr
                       (set_wall_time (clock_realtime w)
                          (set_mono_time (clock_monotonic_raw w)
                             nf_packet_zero))
                       (set_errno e w)).
  { unfold nfqueue_parse. rewrite Hrun, Hret. reflexivity. }
  destruct (nfqueue_parse_attrs_after_copy mem attr
              (set_wall_time (clock_realtime w)
                 (set_mono_time (clock_monotonic_raw w) nf_packet_zero))
              (set_errno e w) a_hdr a_pl Hh Hp Hl) as (H1 & H2 & H3).
  rewrite <- Hattrs in H1, H2, H3. fold p in H1, H2. fold w' in H3.
  cbn [next_block set_errno heap] in H1, H3.
  repeat split.
  - exact H1.
  - rewrite H1. discriminate.
  - exact H2.
  - rewrite H2. exact Hl.
  - rewrite H1, H2. exact H3.
  - intros fuel d buf packet Hev Hmem.
    rewrite (nfqueue_next_event fuel d buf packet w Hev), Hmem, Hres.
    reflexivity.
Qed.

(** C9: when the assembler fails on the current message, [nfqueue_next]
    returns [IO_ERROR] with the buffer unchanged, and every later call on
    that buffer, in whatever state the environment then is, parses the same
    message, fails again and returns [IO_ERROR] with the buffer unchanged. *)
Theorem nfqueue_next_parse_error_repeats
  (fuel : nat) (d : list byte) (buf : nf_buffer) (packet : nf_packet)
  (w : world) :
  current_event d buf ->
  fst (fst (nfqueue_parse (cursor_mem d buf) w)) = false ->
  nfqueue_next (S fuel) buf packet w
  = Some (Returns (IO_ERROR, buf,
                   snd (fst (nfqueue_parse (cursor_mem d buf) w)),
                   snd (nfqueue_parse (cursor_mem d buf) w)))
  /\ forall fuel' packet' w',
       nfqueue_next (S fuel') buf packet' w'
       = Some (Returns (IO_ERROR, buf,
                        snd (fst (nfqueue_parse (cursor_mem d buf) w')),
                        snd (nfqueue_parse (cursor_mem d buf) w'))).
Proof.
  intros Hev Hfail.
  assert (Hany : forall fuel' packet' w',
            nfqueue_next (S fuel') buf packet' w'
            = Some (Returns (IO_ERROR, buf,
                        snd (fst (nfqueue_parse (cursor_mem d buf) w')),
                        snd (nfqueue_parse (cursor_mem d buf) w')))).
  { intros fuel' packet' w'.
    rewrite (nfqueue_next_event fuel' d buf packet' w' Hev).
    pose proof (nfqueue_parse_indep (cursor_mem d buf) w' w) as Hi.
    rewrite Hfail in Hi.
    destruct (nfqueue_parse (cursor_mem d buf) w') as [[ok p] w1].
    cbn [fst snd] in *. subst ok. reflexivity. }
  split; [apply Hany | exact Hany].
Qed.

(** C5: a tuple whose IP sub-block holds an IPv4 attribute together with an
    IPv6 attribute does not parse, whatever the tuple record held before, and
    a message whose tracking context carries such a tuple, as original or as
    reply, is not assembled.  The bounds say that the headers know the
    attribute types the code indexes its arrays with. *)
Theorem mixed_ip_versions_fail :
  NFQA_CT <= to_u16 NFQA_MAX ->
  CTA_TUPLE_REPLY <= to_u16 CTA_MAX ->
  CTA_TUPLE_IP <= to_u16 CTA_TUPLE_MAX ->
  CTA_IP_V6_DST <= to_u16 CTA_IP_MAX ->
  (forall t tuple w,
     tuple_mixed t -> fst (fst (read_addr_tuple t tuple w)) = false)
  /\ (forall mem w,
        msg_has_mixed_tuple mem -> fst (fst (nfqueue_parse mem w)) = false)
  /\ (forall fuel d buf packet w,
        current_event d buf -> msg_has_mixed_tuple (cursor_mem d buf) ->
        exists p w',
          nfqueue_next (S fuel) buf packet w
          = Some (Returns (IO_ERROR, buf, p, w'))).
Proof.
  intros Hmax0 Hmax1 Hmax2 Hmax3.
  assert (Hparse : forall mem w,
            msg_has_mixed_tuple mem ->
            fst (fst (nfqueue_parse mem w)) = false).
  { intros mem w [Hhas Hall]. unfold nfqueue_parse.
    destruct (mnl_attr_parse mem sizeof_nfgenmsg parse_nfqa_attr_cb
                (tb_empty, errno w)) as [ret [attr e]] eqn:Hrun.
    destruct (ret <? 0) eqn:Hret; [reflexivity|].
    unfold mnl_attr_parse in Hrun. fold (msg_attrs mem) in Hrun.
    destruct (mnl_attr_run_entry _ _ _ _ _ _ _ NFQA_CT
                (cb_form_shape (to_u16 NFQA_MAX) check_nfqa)
                Hrun Hret Hmax0 Hhas) as (ct & Ect & Hin & Hty).
    pose proof (Hall ct Hin Hty) as Hmixed.
    unfold nfqueue_parse_attrs.
    destruct (attr NFQA_PACKET_HDR) as [a_hdr|]; [|reflexivity].
    destruct (attr NFQA_PAYLOAD) as [a_pl|]; [|reflexivity].
    packet_fields.
    destruct (mnl_attr_get_payload_len a_pl =? 0); [reflexivity|].
    unfold malloc_copy. cbv beta iota. rewrite Ect.
    match goal with
    | |- context [nfqueue_parse_ct ct ?pa ?wa] =>
      pose proof (nfqueue_parse_ct_mixed ct pa wa Hmax1 Hmax2 Hmax3 Hmixed)
        as Hf;
      destruct (nfqueue_parse_ct ct pa wa) as [[ok pk] wk]
    end.
    cbn [fst] in Hf. subst ok. reflexivity. }
  split; [|split].
  - intros t tuple w Hm. apply read_addr_tuple_mixed; assumption.
  - exact Hparse.
  - intros fuel d buf packet w Hev Hm.
    rewrite (nfqueue_next_event fuel d buf packet w Hev).
    specialize (Hparse _ w Hm).
    destruct (nfqueue_parse (cursor_mem d buf) w) as [[ok p] w'].
    cbn [fst] in Hparse. subst ok. eauto.
Qed.

(** C2: on a buffer that received exactly the event messages [msgs], laid out
    one after the other, the first [length msgs] calls of [nfqueue_next]
    return [IO_READY], the k-th with the packet assembled from the k-th
    message, and every call after them returns [IO_NOTREADY]. *)
Theorem nfqueue_next_yields_each_message
  (fuel : nat) (msgs : list (list byte)) (rest : list byte)
  (packet : nf_packet) (w : world) :
  Forall event_msg msgs ->
  Z.of_nat (length (concat msgs)) < 2 ^ 31 ->
  exists bufN,
    nfqueue_next_calls (S fuel) (length msgs)
      (received (concat msgs ++ rest) (Z.of_nat (length (concat msgs))))
      packet w
    = Some (map (pair IO_READY) (fst (assembled msgs w)), bufN,
            snd (assembled msgs w))
    /\ length (fst (assembled msgs w)) = length msgs
    /\ forall fuel' packet' w',
         nfqueue_next (S fuel') bufN packet' w'
         = Some (Returns (IO_NOTREADY, bufN, packet', w')).
Proof.
  intros Hev Hsmall. eexists. split; [|split].
  - exact (nfqueue_next_calls_events fuel msgs Hev [] rest packet w Hsmall).
  - clear. revert w. induction msgs as [|m r IH]; intros w; [reflexivity|].
    cbn [assembled]. destruct (nfqueue_parse m w) as [[ok p] w'].
    specialize (IH w'). destruct (assembled r w') as [l w''].
    cbn [fst length] in *. rewrite IH. reflexivity.
  - intros fuel' packet' w'. apply nfqueue_next_exhausted.
Qed.

(** ** Verdicts *)

(** C3: with a negative connmark the verdict message handed to the socket
    carries the verdict header and no tracking-context attribute; with
    connmark 0 and with connmark 4294967295 it carries a tracking-context
    attribute nesting one mark attribute, whose four payload bytes are the
    mark in big-endian order.  The same holds through [nfqueue_verdict].
    The send buffer is taken to hold the message. *)
Theorem verdict_connmark_encoding
  (q : nf_queue) (packet_id_ verdict : Z) (w : world) :
  let image := verdict_image (to_u16 (q_queue_num q)) packet_id_
                 (to_u32 verdict) in
  let send_verdict c :=
    sent (snd (nfqueue_send_verdict_connmark (q_queue_num q) packet_id_
                 verdict c w)) in
  let verdict_ c := sent (snd (nfqueue_verdict q packet_id_ verdict c w)) in
  (forall connmark,
     connmark < 0 -> verdict_size connmark <= to_size_t SEND_BUF_LEN ->
     send_verdict connmark = sent w ++ [image None]
     /\ verdict_ connmark = sent w ++ [image None]
     /\ lacks_attr NFQA_CT (msg_attrs (image None)))
  /\ (verdict_size 0 <= to_size_t SEND_BUF_LEN ->
      send_verdict 0 = sent w ++ [image (Some [x00; x00; x00; x00])]
      /\ verdict_ 0 = sent w ++ [image (Some [x00; x00; x00; x00])]
      /\ carries_mark (image (Some [x00; x00; x00; x00]))
           [x00; x00; x00; x00])
  /\ (verdict_size 4294967295 <= to_size_t SEND_BUF_LEN ->
      send_verdict 4294967295
      = sent w ++ [image (Some [xff; xff; xff; xff])]
      /\ verdict_ 4294967295
         = sent w ++ [image (Some [xff; xff; xff; xff])]
      /\ carries_mark (image (Some [xff; xff; xff; xff]))
           [xff; xff; xff; xff]).
Proof.
  intros image send_verdict verdict_. subst send_verdict verdict_.
  cbv beta. split; [|split].
  - intros connmark Hneg Hcap.
    rewrite (nfqueue_send_verdict_connmark_sent _ _ _ _ _ Hcap).
    rewrite (nfqueue_verdict_sent _ _ _ _ _ Hcap).
    destruct (Z.leb_spec 0 connmark); [lia|].
    repeat split. apply lacks_ct_verdict_image.
  - intros Hcap.
    rewrite (nfqueue_send_verdict_connmark_sent _ _ _ _ _ Hcap).
    rewrite (nfqueue_verdict_sent _ _ _ _ _ Hcap).
    repeat split. apply carries_mark_verdict_image. reflexivity.
  - intros Hcap.
    rewrite (nfqueue_send_verdict_connmark_sent _ _ _ _ _ Hcap).
    rewrite (nfqueue_verdict_sent _ _ _ _ _ Hcap).
    repeat split. apply carries_mark_verdict_image. reflexivity.
Qed.

(** C6: when the message a sender has to build does not fit in the send
    buffer, the sender returns [BUF_TOO_SHORT] and hands nothing to the
    socket, and, the send buffer holding the two headers, [errno] is
    [ENOBUFS] on return.  The send buffer of the program has
    [MNL_SOCKET_BUFFER_SIZE] bytes, the page size or 8192, so it always
    holds the twenty bytes of the two headers. *)
Theorem encoding_out_of_space (w : world) :
  let cap := to_size_t SEND_BUF_LEN in
  let too_short (r : Z * world) :=
    fst r = BUF_TOO_SHORT /\ sent (snd r) = sent w
    /\ (MNL_NLMSG_HDRLEN + sizeof_nfgenmsg <= cap ->
        errno (snd r) = ENOBUFS) in
  (forall queue_num_ msg_type attr_type data_,
     Z.of_nat (length data_) < 2 ^ 63 ->
     command_size data_ > cap ->
     too_short (nfqueue_send_command queue_num_ msg_type attr_type data_ w))
  /\ (forall queue_num_ mode range maxlen flags,
        set_params_size maxlen flags > cap ->
        too_short
          (nfqueue_set_params queue_num_ mode range maxlen flags w))
  /\ (forall queue_num_ packet_id_ verdict connmark,
        verdict_size connmark > cap ->
        too_short
          (nfqueue_send_verdict_connmark queue_num_ packet_id_ verdict
             connmark w)).
Proof.
  cbv zeta beta. split; [|split]; intros.
  - apply nfqueue_send_command_too_short; assumption.
  - apply nfqueue_set_params_too_short; assumption.
  - apply nfqueue_send_verdict_connmark_too_short; assumption.
Qed.

(** ** The senders, message by message *)

Lemma header_msg_of (q t : Z) : header_msg q t = msg_of q t [].
Proof.
  unfold header_msg, msg_of. rewrite app_nil_r. reflexivity.
Qed.

Lemma msg_of_wf (q t : Z) (attrs : list byte) (k : Z) :
  Z.of_nat (length attrs) = 4 * k -> wf_out (msg_of q t attrs).
Proof.
  intros Hk. unfold wf_out, msg_of, nfgenmsg_image.
  cbn [nlmsg_len nlmsg_body].
  rewrite !length_app, be_encode_length. cbn [length].
  change (MNL_NLMSG_HDRLEN + sizeof_nfgenmsg) with 20.
  unfold sizeof_nlmsghdr. split; [lia|].
  rewrite Hk. replace (20 + 4 * k) with (4 * (5 + k)) by lia.
  apply MNL_ALIGN_mult4.
Qed.

Lemma nlattr_image_aligned (type : Z) (p : list byte) :
  exists k, Z.of_nat (length (nlattr_image type p)) = 4 * k.
Proof.
  rewrite nlattr_image_length, MNL_ALIGN_eq.
  exists (1 + (Z.of_nat (length p) + 3) / 4).
  change MNL_ATTR_HDRLEN with 4. lia.
Qed.

(** Appending an attribute to a message that holds the attribute images
    [attrs]. *)
Lemma msg_of_put (q t : Z) (attrs : list byte) (k : Z) (buflen type : Z)
  (data_ : list byte) :
  Z.of_nat (length attrs) = 4 * k ->
  Z.of_nat (length attrs) < 2 ^ 16 ->
  Z.of_nat (length data_) < 2 ^ 15 ->
  mnl_attr_put_check (msg_of q t attrs) buflen type data_
  = if MNL_NLMSG_HDRLEN + sizeof_nfgenmsg + Z.of_nat (length attrs)
         + MNL_ATTR_HDRLEN + MNL_ALIGN (Z.of_nat (length data_)) >? buflen
    then (false, msg_of q t attrs)
    else (true, msg_of q t (attrs ++ nlattr_image (to_u16 type) data_)).
Proof.
  intros Hk Ha Hd.
  pose proof (msg_of_wf q t attrs k Hk) as Hwf.
  pose proof (MNL_ALIGN_bounds (Z.of_nat (length data_))) as Hb.
  change (2 ^ 16) with 65536 in Ha. change (2 ^ 15) with 32768 in Hd.
  rewrite (mnl_attr_put_check_spec _ buflen type data_ Hwf);
    [ | cbn [msg_of nlmsg_len];
        change (MNL_NLMSG_HDRLEN + sizeof_nfgenmsg) with 20;
        change MNL_ATTR_HDRLEN with 4; change (2 ^ 32) with 4294967296; lia
      | change MNL_ATTR_HDRLEN with 4; change (2 ^ 16) with 65536; lia ].
  cbn [msg_of nlmsg_len].
  destruct (_ >? buflen); [reflexivity|].
  f_equal. unfold msg_of, set_nlmsg_len, set_nlmsg_body.
  cbn [nlmsg_len nlmsg_type nlmsg_flags nlmsg_seq nlmsg_pid nlmsg_body].
  rewrite <- app_assoc. f_equal.
  rewrite length_app, Nat2Z.inj_add, nlattr_image_length. lia.
Qed.

Lemma msg_of_bytes (q t : Z) (attrs : list byte) :
  out_msg_bytes (msg_of q t attrs) = nfq_msg_image (to_u16 q) t attrs.
Proof.
  unfold out_msg_bytes, nfq_msg_image, nlmsghdr_image, msg_of.
  cbn [nlmsg_len nlmsg_type nlmsg_flags nlmsg_seq nlmsg_pid nlmsg_body].
  rewrite <- !app_assoc. reflexivity.
Qed.

(** Handing a well laid out message to the socket. *)
Lemma msg_of_sendto (q t : Z) (attrs : list byte) (k : Z) (w : world) :
  Z.of_nat (length attrs) = 4 * k ->
  mnl_socket_sendto (msg_of q t attrs) w
  = let img := nfq_msg_image (to_u16 q) t attrs in
    (fst (socket_sendto img (errno w)),
     set_errno (snd (socket_sendto img (errno w))) (push_sent img w)).
Proof.
  intros Hk. unfold mnl_socket_sendto.
  rewrite (out_msg_bytes_whole _ (msg_of_wf q t attrs k Hk)), msg_of_bytes.
  cbv zeta. destruct (socket_sendto _ _). reflexivity.
Qed.

Lemma send_result_sent (img : list byte) (w : world) :
  sent (snd (send_result img w)) = sent w ++ [img].
Proof. unfold send_result. rewrite send_end_sent. reflexivity. Qed.

Lemma send_result_store (img : list byte) (w : world) :
  heap (snd (send_result img w)) = heap w
  /\ next_block (snd (send_result img w)) = next_block w
  /\ log (snd (send_result img w)) = log w.
Proof.
  unfold send_result, send_end.
  destruct (_ =? BUF_TOO_SHORT); repeat split.
Qed.

(** [nfqueue_send_command] when the send buffer holds the command. *)
Lemma nfqueue_send_command_fits (q t a : Z) (data_ : list byte) (w : world) :
  Z.of_nat (length data_) < 2 ^ 15 ->
  command_size data_ <= to_size_t SEND_BUF_LEN ->
  nfqueue_send_command q t a data_ w
  = send_result (nfq_msg_image (to_u16 q) t (nlattr_image (to_u16 a) data_)) w.
Proof.
  intros Hd Hcap. unfold command_size in Hcap.
  pose proof (MNL_ALIGN_bounds (Z.of_nat (length data_))) as Hb.
  change (MNL_NLMSG_HDRLEN + sizeof_nfgenmsg) with 20 in Hcap.
  change MNL_ATTR_HDRLEN with 4 in Hcap.
  unfold nfqueue_send_command. rewrite nfqueue_put_header_spec.
  change (MNL_NLMSG_HDRLEN + sizeof_nfgenmsg) with 20.
  destruct (Z.gtb_spec 20 (to_size_t SEND_BUF_LEN)); [lia|].
  rewrite header_msg_of.
  rewrite (msg_of_put q t [] 0) by (cbn [length]; try reflexivity; assumption).
  cbn [length app].
  change (MNL_NLMSG_HDRLEN + sizeof_nfgenmsg + Z.of_nat 0 + MNL_ATTR_HDRLEN)
    with 24.
  destruct (Z.gtb_spec (24 + MNL_ALIGN (Z.of_nat (length data_)))
              (to_size_t SEND_BUF_LEN)); [lia|].
  cbn [negb].
  destruct (nlattr_image_aligned (to_u16 (to_u16 a)) data_) as [k Hk].
  rewrite (msg_of_sendto q t _ k w Hk). cbv zeta.
  unfold send_result.
  replace (to_u16 (to_u16 a)) with (to_u16 a)
    by (unfold to_u16; rewrite Z.mod_mod; [reflexivity | discriminate]).
  reflexivity.
Qed.

(** [nfqueue_set_params] when the send buffer holds the message. *)
Lemma nfqueue_set_params_fits (q mode range maxlen flags : Z) (w : world) :
  set_params_size maxlen flags <= to_size_t SEND_BUF_LEN ->
  nfqueue_set_params q mode range maxlen flags w
  = send_result
      (nfq_msg_image (to_u16 q) NFQNL_MSG_CONFIG
         (set_params_attrs mode (to_u32 range) maxlen flags)) w.
Proof.
  intros Hcap. unfold set_params_size in Hcap.
  change (MNL_NLMSG_HDRLEN + sizeof_nfgenmsg
          + (MNL_ATTR_HDRLEN + MNL_ALIGN sizeof_nfqnl_msg_config_params))
    with 32 in Hcap.
  change (MNL_ATTR_HDRLEN + 4) with 8 in Hcap.
  assert (H0 : 0 <= (if 0 <? maxlen then 8 else 0))
    by (destruct (0 <? maxlen); lia).
  assert (H1 : 0 <= (if flags =? 0 then 0 else 2 * 8))
    by (destruct (flags =? 0); lia).
  unfold nfqueue_set_params. rewrite nfqueue_put_header_spec.
  change (MNL_NLMSG_HDRLEN + sizeof_nfgenmsg) with 20.
  destruct (Z.gtb_spec 20 (to_size_t SEND_BUF_LEN)); [lia|].
  rewrite header_msg_of.
  unfold nfqnl_msg_config_params_bytes, mnl_attr_put_u32_check.
  rewrite !host_encode_htonl.
  set (cap := to_size_t SEND_BUF_LEN) in *.
  set (params := be_encode 4 (to_u32 range) ++ [byte_of_Z mode]).
  assert (Hp : Z.of_nat (length params) = 5)
    by (subst params; rewrite length_app, be_encode_length; reflexivity).
  set (a1 := nlattr_image NFQA_CFG_PARAMS params).
  assert (Ha1 : Z.of_nat (length a1) = 12)
    by (subst a1; rewrite nlattr_image_length, Hp; reflexivity).
  rewrite (msg_of_put q NFQNL_MSG_CONFIG [] 0)
    by (cbn [length]; rewrite ?Hp; reflexivity).
  cbn [length app]. rewrite Hp.
  change (MNL_NLMSG_HDRLEN + sizeof_nfgenmsg + Z.of_nat 0 + MNL_ATTR_HDRLEN
          + MNL_ALIGN 5) with 32.
  destruct (Z.gtb_spec 32 cap); [lia|]. cbn [negb].
  change (to_u16 NFQA_CFG_PARAMS) with NFQA_CFG_PARAMS. fold a1.
  set (a2 := if 0 <? maxlen
             then nlattr_image NFQA_CFG_QUEUE_MAXLEN (be_encode 4 maxlen)
             else []).
  assert (Ha2 : Z.of_nat (length a2) = if 0 <? maxlen then 8 else 0).
  { subst a2. destruct (0 <? maxlen); [|reflexivity].
    rewrite nlattr_image_length, be_encode_length. reflexivity. }
  assert (E2 : (if 0 <? maxlen
                then mnl_attr_put_check (msg_of q NFQNL_MSG_CONFIG a1) cap
                       NFQA_CFG_QUEUE_MAXLEN (be_encode 4 maxlen)
                else (true, msg_of q NFQNL_MSG_CONFIG a1))
               = (true, msg_of q NFQNL_MSG_CONFIG (a1 ++ a2))).
  { subst a2. destruct (0 <? maxlen).
    - rewrite (msg_of_put q NFQNL_MSG_CONFIG a1 3)
        by (rewrite ?Ha1, ?be_encode_length; reflexivity).
      rewrite Ha1, be_encode_length.
      change (MNL_NLMSG_HDRLEN + sizeof_nfgenmsg + 12 + MNL_ATTR_HDRLEN
              + MNL_ALIGN (Z.of_nat 4)) with 40.
      destruct (Z.gtb_spec 40 cap); [lia | reflexivity].
    - rewrite app_nil_r. reflexivity. }
  rewrite E2. cbn [negb].
  set (a3 := if flags =? 0 then []
             else nlattr_image NFQA_CFG_FLAGS (be_encode 4 flags)
                    ++ nlattr_image NFQA_CFG_MASK (be_encode 4 flags)).
  assert (Ha12 : Z.of_nat (length (a1 ++ a2))
                 = 4 * (if 0 <? maxlen then 5 else 3)).
  { rewrite length_app, Nat2Z.inj_add, Ha1, Ha2.
    destruct (0 <? maxlen); reflexivity. }
  assert (E3 : (if negb (flags =? 0)
                then
                  let '(ok1, m1) :=
                    mnl_attr_put_check (msg_of q NFQNL_MSG_CONFIG (a1 ++ a2))
                      cap NFQA_CFG_FLAGS (be_encode 4 flags) in
                  if negb ok1 then (false, m1)
                  else mnl_attr_put_check m1 cap NFQA_CFG_MASK
                         (be_encode 4 flags)
                else (true, msg_of q NFQNL_MSG_CONFIG (a1 ++ a2)))
               = (true, msg_of q NFQNL_MSG_CONFIG ((a1 ++ a2) ++ a3))).
  { subst a3. destruct (flags =? 0); cbn [negb].
    - rewrite app_nil_r. reflexivity.
    - rewrite (msg_of_put q NFQNL_MSG_CONFIG (a1 ++ a2) _ _ _ _ Ha12)
        by (rewrite ?Ha12, ?be_encode_length; destruct (0 <? maxlen);
            reflexivity).
      rewrite be_encode_length.
      assert (Hsz : MNL_NLMSG_HDRLEN + sizeof_nfgenmsg
                    + Z.of_nat (length (a1 ++ a2)) + MNL_ATTR_HDRLEN
                    + MNL_ALIGN (Z.of_nat 4)
                    = 40 + (if 0 <? maxlen then 8 else 0)).
      { rewrite Ha12. destruct (0 <? maxlen); reflexivity. }
      rewrite Hsz.
      destruct (Z.gtb_spec (40 + (if 0 <? maxlen then 8 else 0)) cap); [lia|].
      cbn [negb].
      set (f := nlattr_image (to_u16 NFQA_CFG_FLAGS) (be_encode 4 flags)).
      assert (Hf : Z.of_nat (length ((a1 ++ a2) ++ f))
                   = 4 * (if 0 <? maxlen then 7 else 5)).
      { rewrite length_app, Nat2Z.inj_add, Ha12. subst f.
        rewrite nlattr_image_length, be_encode_length.
        change (MNL_ATTR_HDRLEN + MNL_ALIGN (Z.of_nat 4)) with 8.
        destruct (0 <? maxlen); reflexivity. }
      rewrite (msg_of_put q NFQNL_MSG_CONFIG ((a1 ++ a2) ++ f) _ _ _ _ Hf)
        by (rewrite ?Hf, ?be_encode_length; destruct (0 <? maxlen);
            reflexivity).
      rewrite be_encode_length.
      assert (Hsz' : MNL_NLMSG_HDRLEN + sizeof_nfgenmsg
                     + Z.of_nat (length ((a1 ++ a2) ++ f)) + MNL_ATTR_HDRLEN
                     + MNL_ALIGN (Z.of_nat 4)
                     = 48 + (if 0 <? maxlen then 8 else 0)).
      { rewrite Hf. destruct (0 <? maxlen); reflexivity. }
      rewrite Hsz'.
      destruct (Z.gtb_spec (48 + (if 0 <? maxlen then 8 else 0)) cap); [lia|].
      rewrite <- !app_assoc. reflexivity. }
  rewrite E3. cbn [negb].
  assert (Hall : exists k, Z.of_nat (length ((a1 ++ a2) ++ a3)) = 4 * k).
  { rewrite length_app, Nat2Z.inj_add, Ha12. subst a3.
    destruct (flags =? 0).
    - exists (if 0 <? maxlen then 5 else 3). cbn [length]. lia.
    - exists ((if 0 <? maxlen then 5 else 3) + 4).
      rewrite length_app, Nat2Z.inj_add, !nlattr_image_length,
        be_encode_length.
      change (MNL_ATTR_HDRLEN + MNL_ALIGN (Z.of_nat 4)) with 8. lia. }
  destruct Hall as [k Hk].
  rewrite (msg_of_sendto q NFQNL_MSG_CONFIG _ k w Hk). cbv zeta.
  unfold send_result, set_params_attrs. fold params a1 a2 a3.
  rewrite <- !app_assoc. reflexivity.
Qed.

(** A datagram laid out as [nfq_msg_image] is a complete request. *)
Lemma nfq_msg_image_complete (q t : Z) (attrs : list byte) (k : Z) :
  Z.of_nat (length attrs) = 4 * k ->
  Z.of_nat (length attrs) < 2 ^ 30 ->
  complete_request t (nfq_msg_image q t attrs).
Proof.
  intros Hk Hs. change (2 ^ 30) with 1073741824 in Hs.
  set (L := MNL_NLMSG_HDRLEN + sizeof_nfgenmsg + Z.of_nat (length attrs)).
  assert (HL : L = 20 + Z.of_nat (length attrs)) by reflexivity.
  assert (Hlen : Z.of_nat (length (nfq_msg_image q t attrs)) = L).
  { unfold nfq_msg_image, nlmsghdr_image, nfgenmsg_image.
    rewrite !length_app, !host_encode_length, be_encode_length.
    cbn [length]. lia. }
  assert (Hh : hdr_nlmsg_len (nfq_msg_image q t attrs) = L).
  { unfold hdr_nlmsg_len, nfq_msg_image, nlmsghdr_image. fold L.
    rewrite <- !app_assoc. apply load_host_encode.
    change (256 ^ Z.of_nat 4) with 4294967296. lia. }
  unfold complete_request. rewrite Hh, Hlen.
  split; [reflexivity|]. split.
  { rewrite HL, Hk. replace (20 + 4 * k) with (4 * (5 + k)) by lia.
    apply MNL_ALIGN_mult4. }
  split.
  { unfold hdr_nlmsg_type, nfq_msg_image, nlmsghdr_image, load, slice.
    fold L. rewrite <- !app_assoc.
    rewrite skipn_app_exact by apply host_encode_length.
    rewrite firstn_app_exact by apply host_encode_length.
    rewrite host_decode_encode. change (256 ^ Z.of_nat 2) with (2 ^ 16).
    unfold to_u16. rewrite Z.mod_mod by discriminate. reflexivity. }
  split.
  { unfold hdr_nlmsg_flags, nfq_msg_image, nlmsghdr_image, load, slice.
    fold L. rewrite !app_assoc. rewrite <- (app_assoc _ (host_encode 2 NLM_F_REQUEST)).
    rewrite <- !app_assoc.
    rewrite (app_assoc (host_encode 4 L)).
    rewrite skipn_app_exact
      by (rewrite length_app, !host_encode_length; reflexivity).
    rewrite firstn_app_exact by apply host_encode_length.
    rewrite host_decode_encode. reflexivity. }
  unfold mnl_nlmsg_ok. rewrite Hh.
  rewrite !to_int_small
    by (change (2 ^ 31) with 2147483648; unfold sizeof_nlmsghdr; lia).
  unfold sizeof_nlmsghdr.
  repeat (apply andb_true_intro; split);
    [apply Z.geb_le | apply Z.geb_le | apply Z.leb_le]; lia.
Qed.

Lemma verdict_image_nfq (q id verdict : Z) (mark : option (list byte)) :
  verdict_image q id verdict mark
  = nfq_msg_image q NFQNL_MSG_VERDICT
      (nlattr_image NFQA_VERDICT_HDR (be_encode 4 verdict ++ be_encode 4 id)
         ++ match mark with
            | None => []
            | Some mk =>
              nlattr_image (Z.lor NLA_F_NESTED NFQA_CT)
                (nlattr_image CTA_MARK mk)
            end).
Proof. reflexivity. Qed.

(** [nfqueue_send_verdict_connmark] when the send buffer holds the
    message. *)
Lemma nfqueue_send_verdict_connmark_fits
  (q id verdict connmark : Z) (w : world) :
  verdict_size connmark <= to_size_t SEND_BUF_LEN ->
  nfqueue_send_verdict_connmark q id verdict connmark w
  = send_result
      (verdict_image (to_u16 q) id (to_u32 verdict)
         (if 0 <=? connmark then Some (be_encode 4 (to_u32 connmark))
          else None)) w.
Proof.
  intros Hcap. unfold verdict_size in Hcap.
  change (MNL_NLMSG_HDRLEN + sizeof_nfgenmsg
          + (MNL_ATTR_HDRLEN + sizeof_nfqnl_msg_verdict_hdr)) with 32 in Hcap.
  change (MNL_ATTR_HDRLEN + (MNL_ATTR_HDRLEN + 4)) with 12 in Hcap.
  assert (H0 : 0 <= (if 0 <=? connmark then 12 else 0))
    by (destruct (0 <=? connmark); lia).
  unfold nfqueue_send_verdict_connmark. rewrite nfqueue_put_header_spec.
  change (MNL_NLMSG_HDRLEN + sizeof_nfgenmsg) with 20.
  destruct (Z.gtb_spec 20 (to_size_t SEND_BUF_LEN)); [lia|].
  rewrite header_msg_of.
  unfold nfqnl_msg_verdict_hdr_bytes, mnl_attr_put_u32_check.
  rewrite !host_encode_htonl.
  set (cap := to_size_t SEND_BUF_LEN) in *.
  set (vh := be_encode 4 (to_u32 verdict) ++ be_encode 4 id).
  assert (Hvh : Z.of_nat (length vh) = 8)
    by (subst vh; rewrite length_app, !be_encode_length; reflexivity).
  set (a1 := nlattr_image NFQA_VERDICT_HDR vh).
  assert (Ha1 : Z.of_nat (length a1) = 12)
    by (subst a1; rewrite nlattr_image_length, Hvh; reflexivity).
  rewrite (msg_of_put q NFQNL_MSG_VERDICT [] 0)
    by (cbn [length]; rewrite ?Hvh; reflexivity).
  cbn [length app]. rewrite Hvh.
  change (MNL_NLMSG_HDRLEN + sizeof_nfgenmsg + Z.of_nat 0 + MNL_ATTR_HDRLEN
          + MNL_ALIGN 8) with 32.
  destruct (Z.gtb_spec 32 cap); [lia|]. cbn [negb].
  change (to_u16 NFQA_VERDICT_HDR) with NFQA_VERDICT_HDR. fold a1.
  rewrite verdict_image_nfq. fold vh a1.
  destruct (Z.leb_spec 0 connmark) as [Hpos|Hneg].
  - set (m1 := msg_of q NFQNL_MSG_VERDICT a1).
    assert (Hwf1 : wf_out m1) by (apply (msg_of_wf _ _ _ 3); exact Ha1).
    assert (Hm1 : nlmsg_len m1 = 32)
      by (subst m1; cbn [msg_of nlmsg_len]; rewrite Ha1; reflexivity).
    unfold mnl_attr_nest_start_check. rewrite Hm1.
    change (to_size_t (32 + MNL_ATTR_HDRLEN)) with 36.
    destruct (Z.gtb_spec 36 cap); [lia|].
    rewrite (mnl_attr_nest_start_spec m1 NFQA_CT Hwf1)
      by (rewrite Hm1; reflexivity).
    rewrite Hm1.
    set (ty := to_u16 (Z.lor NLA_F_NESTED NFQA_CT)).
    set (open_ := [x00; x00] ++ host_encode 2 ty).
    assert (E2 : set_nlmsg_len (32 + MNL_ATTR_HDRLEN)
                   (set_nlmsg_body (nlmsg_body m1 ++ open_) m1)
                 = msg_of q NFQNL_MSG_VERDICT (a1 ++ open_)).
    { subst m1. unfold msg_of, set_nlmsg_len, set_nlmsg_body.
      cbn [nlmsg_len nlmsg_type nlmsg_flags nlmsg_seq nlmsg_pid nlmsg_body].
      rewrite <- app_assoc. f_equal.
      rewrite length_app, Nat2Z.inj_add, Ha1. subst open_.
      rewrite length_app, host_encode_length. reflexivity. }
    rewrite E2.
    assert (Ha2 : Z.of_nat (length (a1 ++ open_)) = 4 * 4).
    { rewrite length_app, Nat2Z.inj_add, Ha1. subst open_.
      rewrite length_app, host_encode_length. reflexivity. }
    set (mk := be_encode 4 (to_u32 connmark)).
    assert (Hmk : Z.of_nat (length mk) = 4)
      by (subst mk; rewrite be_encode_length; reflexivity).
    rewrite (msg_of_put q NFQNL_MSG_VERDICT (a1 ++ open_) _ _ _ _ Ha2)
      by (rewrite ?Ha2, ?Hmk; reflexivity).
    rewrite Ha2, Hmk.
    change (MNL_NLMSG_HDRLEN + sizeof_nfgenmsg + 4 * 4 + MNL_ATTR_HDRLEN
            + MNL_ALIGN 4) with 44.
    destruct (Z.gtb_spec 44 cap); [lia|]. cbn [negb].
    change (to_u16 CTA_MARK) with CTA_MARK.
    set (inner := nlattr_image CTA_MARK mk).
    assert (Hinner : Z.of_nat (length inner) = 8)
      by (subst inner; rewrite nlattr_image_length, Hmk; reflexivity).
    set (m3 := msg_of q NFQNL_MSG_VERDICT ((a1 ++ open_) ++ inner)).
    assert (Hm3 : nlmsg_len m3 = 44).
    { subst m3. cbn [msg_of nlmsg_len].
      rewrite length_app, Nat2Z.inj_add, Ha2, Hinner. reflexivity. }
    rewrite <- Hm1 at 1.
    rewrite (mnl_attr_nest_end_spec m1 m3 ty inner Hwf1);
      [ | rewrite Hm3, Hm1, Hinner; reflexivity
        | subst m3 m1 open_; cbn [msg_of nlmsg_body];
          rewrite <- !app_assoc; reflexivity
        | rewrite Hinner; reflexivity
        | rewrite Hinner; reflexivity
        | rewrite Hm3; reflexivity ].
    assert (E4 : set_nlmsg_body (nlmsg_body m1 ++ nlattr_image ty inner) m3
                 = msg_of q NFQNL_MSG_VERDICT (a1 ++ nlattr_image ty inner)).
    { subst m3 m1. unfold msg_of, set_nlmsg_body.
      cbn [nlmsg_len nlmsg_type nlmsg_flags nlmsg_seq nlmsg_pid nlmsg_body].
      rewrite <- app_assoc. f_equal.
      rewrite !length_app, !Nat2Z.inj_add, Ha1, nlattr_image_length, Hinner.
      subst open_. rewrite length_app, host_encode_length. reflexivity. }
    rewrite E4.
    assert (Hk : Z.of_nat (length (a1 ++ nlattr_image ty inner)) = 4 * 6).
    { rewrite length_app, Nat2Z.inj_add, Ha1, nlattr_image_length, Hinner.
      reflexivity. }
    rewrite (msg_of_sendto q NFQNL_MSG_VERDICT _ _ w Hk). cbv zeta.
    reflexivity.
  - cbn [negb]. rewrite app_nil_r.
    rewrite (msg_of_sendto q NFQNL_MSG_VERDICT a1 3 w Ha1). reflexivity.
Qed.

(** The attributes [mnl_attr_parse] walks in a datagram laid out as
    [nfq_msg_image]. *)
Lemma msg_attrs_nfq_msg_image (q t : Z) (attrs : list byte) (k : Z) :
  Z.of_nat (length attrs) = 4 * k ->
  Z.of_nat (length attrs) < 2 ^ 30 ->
  msg_attrs (nfq_msg_image q t attrs) = mnl_attr_for_each attrs.
Proof.
  intros Hk Hs. change (2 ^ 30) with 1073741824 in Hs.
  destruct (nfq_msg_image_complete q t attrs k Hk Hs) as (Hh & Hal & _).
  set (mem := nfq_msg_image q t attrs) in *.
  assert (Hlen : Z.of_nat (length mem) = 20 + Z.of_nat (length attrs)).
  { subst mem. unfold nfq_msg_image, nlmsghdr_image, nfgenmsg_image.
    rewrite !length_app, !host_encode_length, be_encode_length.
    cbn [length]. lia. }
  unfold msg_attrs.
  destruct (nlmsg_attr_span_app mem [] ltac:(lia)
              ltac:(rewrite Hal; symmetry; exact Hh)
              ltac:(change (2 ^ 31) with 2147483648; lia)) as [_ Hspan].
  rewrite Hspan. f_equal. subst mem. unfold nfq_msg_image.
  rewrite app_assoc. apply skipn_app_exact.
  unfold nlmsghdr_image, nfgenmsg_image.
  rewrite !length_app, !host_encode_length, be_encode_length. reflexivity.
Qed.

(** ** Properties of the senders *)

(** X1 -- [nfqueue_send_command], with [nfqueue_put_header]: when the send
    buffer holds the command, exactly one datagram goes to the socket, the
    header, the [nfgenmsg] naming the queue in network byte order and the one
    attribute with its padding; the call returns the answer of the socket
    read as an [int], and [errno] is the socket's unless that answer is the
    buffer-too-short value, in which case it becomes [ENOBUFS]. *)
Theorem nfqueue_send_command_result
  (q t a : Z) (data_ : list byte) (w : world) :
  Z.of_nat (length data_) < 2 ^ 15 ->
  command_size data_ <= to_size_t SEND_BUF_LEN ->
  let img := nfq_msg_image (to_u16 q) t (nlattr_image (to_u16 a) data_) in
  let answer := socket_sendto img (errno w) in
  let r := nfqueue_send_command q t a data_ w in
  sent (snd r) = sent w ++ [img]
  /\ fst r = to_int (fst answer)
  /\ errno (snd r)
     = (if to_int (fst answer) =? BUF_TOO_SHORT then ENOBUFS else snd answer)
  /\ heap (snd r) = heap w /\ log (snd r) = log w.
Proof.
  intros Hd Hcap. cbv zeta.
  rewrite (nfqueue_send_command_fits q t a data_ w Hd Hcap).
  split; [apply send_result_sent|].
  unfold send_result, send_end.
  destruct (_ =? BUF_TOO_SHORT); repeat split.
Qed.

(** X2 -- [nfqueue_send_verdict] and [nfqueue_send_verdict_connmark]: with a
    negative connmark the second does exactly what the first does, for every
    queue, packet, verdict, send-buffer size and environment. *)
Theorem nfqueue_send_verdict_no_connmark
  (q id verdict connmark : Z) (w : world) :
  connmark < 0 ->
  nfqueue_send_verdict_connmark q id verdict connmark w
  = nfqueue_send_verdict q id verdict w.
Proof.
  intros Hneg.
  unfold nfqueue_send_verdict_connmark, nfqueue_send_verdict,
    nfqueue_send_command.
  destruct (nfqueue_put_header q NFQNL_MSG_VERDICT) as [m|]; [|reflexivity].
  change (to_u16 NFQA_VERDICT_HDR) with NFQA_VERDICT_HDR.
  destruct (mnl_attr_put_check m _ NFQA_VERDICT_HDR _) as [ok m1].
  destruct ok; cbn [negb]; [|reflexivity].
  destruct (Z.leb_spec 0 connmark); [lia|]. cbn [negb]. reflexivity.
Qed.

(** X3 -- [nfqueue_set_params]: the configuration datagram carries the
    parameters attribute (copy range in network byte order, then the copy
    mode), the queue-length attribute exactly when [maxlen > 0], and the
    flags and mask attributes, both holding [flags], exactly when
    [flags <> 0]; [mnl_attr_parse] reads these attributes back from it. *)
Theorem nfqueue_set_params_wire
  (q mode range maxlen flags : Z) (w : world) :
  set_params_size maxlen flags <= to_size_t SEND_BUF_LEN ->
  let img :=
    nfq_msg_image (to_u16 q) NFQNL_MSG_CONFIG
      (set_params_attrs mode (to_u32 range) maxlen flags) in
  sent (snd (nfqueue_set_params q mode range maxlen flags w)) = sent w ++ [img]
  /\ msg_attrs img
     = nlattr_head NFQA_CFG_PARAMS
         (be_encode 4 (to_u32 range) ++ [byte_of_Z mode])
         :: (if 0 <? maxlen
             then [nlattr_head NFQA_CFG_QUEUE_MAXLEN (be_encode 4 maxlen)]
             else [])
         ++ (if flags =? 0 then []
             else [nlattr_head NFQA_CFG_FLAGS (be_encode 4 flags);
                   nlattr_head NFQA_CFG_MASK (be_encode 4 flags)]).
Proof.
  intros Hcap. cbv zeta.
  rewrite (nfqueue_set_params_fits q mode range maxlen flags w Hcap).
  split; [apply send_result_sent|].
  set (params := be_encode 4 (to_u32 range) ++ [byte_of_Z mode]).
  assert (Hp : Z.of_nat (length params) = 5)
    by (subst params; rewrite length_app, be_encode_length; reflexivity).
  assert (Hlen : exists k,
             Z.of_nat (length (set_params_attrs mode (to_u32 range) maxlen
                                 flags)) = 4 * k /\ 0 <= k <= 9).
  { unfold set_params_attrs. fold params.
    rewrite !length_app, !Nat2Z.inj_add, nlattr_image_length, Hp.
    change (MNL_ATTR_HDRLEN + MNL_ALIGN 5) with 12.
    destruct (0 <? maxlen), (flags =? 0);
      rewrite ?length_app, ?Nat2Z.inj_add, ?nlattr_image_length,
        ?be_encode_length;
      change (MNL_ATTR_HDRLEN + MNL_ALIGN (Z.of_nat 4)) with 8;
      cbn [length];
      [exists 5 | exists 9 | exists 3 | exists 7]; lia. }
  destruct Hlen as (k & Hk & Hk9).
  rewrite (msg_attrs_nfq_msg_image _ _ _ k Hk)
    by (rewrite Hk; change (2 ^ 30) with 1073741824; lia).
  unfold set_params_attrs. fold params.
  assert (Hsmall : forall (l : list byte),
             Z.of_nat (length l) <= 36 -> Z.of_nat (length l) < 2 ^ 31)
    by (intros l Hl; change (2 ^ 31) with 2147483648; lia).
  rewrite mnl_attr_for_each_image;
    [ | rewrite Hp; reflexivity
      | apply Hsmall; fold params in Hk;
        unfold set_params_attrs in Hk; fold params in Hk; lia ].
  f_equal.
  destruct (0 <? maxlen), (flags =? 0); cbn [app];
    rewrite ?app_nil_r;
    repeat (rewrite mnl_attr_for_each_image;
            [ | rewrite be_encode_length; reflexivity
              | rewrite ?length_app, ?Nat2Z.inj_add, ?nlattr_image_length,
                  ?be_encode_length; reflexivity ]);
    try reflexivity.
  - rewrite <- (app_nil_r (nlattr_image NFQA_CFG_QUEUE_MAXLEN _)).
    rewrite mnl_attr_for_each_image;
      [ reflexivity
      | rewrite be_encode_length; reflexivity
      | rewrite ?app_nil_r, ?nlattr_image_length, ?be_encode_length;
        reflexivity ].
  - rewrite <- (app_nil_r (nlattr_image NFQA_CFG_MASK _)).
    rewrite mnl_attr_for_each_image;
      [ reflexivity
      | rewrite be_encode_length; reflexivity
      | rewrite ?app_nil_r, ?nlattr_image_length, ?be_encode_length;
        reflexivity ].
  - rewrite <- (app_nil_r (nlattr_image NFQA_CFG_MASK _)).
    rewrite mnl_attr_for_each_image;
      [ reflexivity
      | rewrite be_encode_length; reflexivity
      | rewrite ?app_nil_r, ?nlattr_image_length, ?be_encode_length;
        reflexivity ].
Qed.

(** X4 -- the three senders: whatever the size of the send buffer, a call
    hands the socket nothing or one datagram, and that datagram is a complete
    request: its length field counts its bytes and is a multiple of four, its
    type is the queue subsystem with the message type, its flags are
    [NLM_F_REQUEST], and [mnl_nlmsg_ok] accepts it. *)
Theorem senders_emit_complete_requests (w : world) :
  let emits (t : Z) (r : Z * world) :=
    sent (snd r) = sent w
    \/ exists d, sent (snd r) = sent w ++ [d] /\ complete_request t d in
  (forall q id verdict connmark,
     emits NFQNL_MSG_VERDICT
       (nfqueue_send_verdict_connmark q id verdict connmark w))
  /\ (forall q mode range maxlen flags,
        emits NFQNL_MSG_CONFIG
          (nfqueue_set_params q mode range maxlen flags w))
  /\ (forall q t a data_,
        Z.of_nat (length data_) < 2 ^ 15 ->
        emits t (nfqueue_send_command q t a data_ w)).
Proof.
  cbv zeta. split; [|split].
  - intros q id verdict connmark.
    destruct (Z.le_gt_cases (verdict_size connmark) (to_size_t SEND_BUF_LEN))
      as [Hfit|Hbig].
    + right. rewrite (nfqueue_send_verdict_connmark_fits _ _ _ _ _ Hfit).
      eexists. split; [apply send_result_sent|].
      rewrite verdict_image_nfq.
      destruct (0 <=? connmark).
      * apply (nfq_msg_image_complete _ _ _ 6);
          rewrite ?length_app, ?Nat2Z.inj_add, !nlattr_image_length,
            ?length_app, !be_encode_length; reflexivity.
      * apply (nfq_msg_image_complete _ _ _ 3);
          rewrite ?app_nil_r, !nlattr_image_length, ?length_app,
            !be_encode_length; reflexivity.
    + left.
      apply (nfqueue_send_verdict_connmark_too_short q id verdict connmark w).
      lia.
  - intros q mode range maxlen flags.
    destruct (Z.le_gt_cases (set_params_size maxlen flags)
                (to_size_t SEND_BUF_LEN)) as [Hfit|Hbig].
    + right. rewrite (nfqueue_set_params_fits _ _ _ _ _ _ Hfit).
      eexists. split; [apply send_result_sent|].
      unfold set_params_attrs.
      destruct (0 <? maxlen), (flags =? 0);
        [ apply (nfq_msg_image_complete _ _ _ 5)
        | apply (nfq_msg_image_complete _ _ _ 9)
        | apply (nfq_msg_image_complete _ _ _ 3)
        | apply (nfq_msg_image_complete _ _ _ 7) ];
        rewrite ?app_nil_r, ?length_app, ?Nat2Z.inj_add,
          ?nlattr_image_length, ?length_app, ?be_encode_length;
        reflexivity.
    + left.
      apply (nfqueue_set_params_too_short q mode range maxlen flags w). lia.
  - intros q t a data_ Hd.
    destruct (Z.le_gt_cases (command_size data_) (to_size_t SEND_BUF_LEN))
      as [Hfit|Hbig].
    + right. rewrite (nfqueue_send_command_fits _ _ _ _ _ Hd Hfit).
      eexists. split; [apply send_result_sent|].
      destruct (nlattr_image_aligned (to_u16 a) data_) as [k Hk].
      apply (nfq_msg_image_complete _ _ _ k Hk).
      rewrite nlattr_image_length.
      pose proof (MNL_ALIGN_bounds (Z.of_nat (length data_))).
      change (2 ^ 15) with 32768 in Hd. change (2 ^ 30) with 1073741824.
      change MNL_ATTR_HDRLEN with 4. lia.
    + left. apply (nfqueue_send_command_too_short q t a data_ w);
        [change (2 ^ 15) with 32768 in Hd;
         change (2 ^ 63) with 9223372036854775808; lia | lia].
Qed.

(** X5 -- [nfqueue_put_header] writes the queue number through [htons], so
    only its low sixteen bits reach the wire: two queue numbers that agree
    modulo 65536 give the same header, and every sender does for one what it
    does for the other. *)
Theorem queue_num_modulo_65536 (q n : Z) :
  (forall t, nfqueue_put_header (q + 65536 * n) t = nfqueue_put_header q t)
  /\ (forall t a data_ w,
        nfqueue_send_command (q + 65536 * n) t a data_ w
        = nfqueue_send_command q t a data_ w)
  /\ (forall mode range maxlen flags w,
        nfqueue_set_params (q + 65536 * n) mode range maxlen flags w
        = nfqueue_set_params q mode range maxlen flags w)
  /\ (forall id verdict connmark w,
        nfqueue_send_verdict_connmark (q + 65536 * n) id verdict connmark w
        = nfqueue_send_verdict_connmark q id verdict connmark w).
Proof.
  assert (H : forall t,
             nfqueue_put_header (q + 65536 * n) t = nfqueue_put_header q t).
  { intros t. rewrite !nfqueue_put_header_spec.
    destruct (_ >? _); [reflexivity|].
    assert (E : to_u16 (q + 65536 * n) = to_u16 q).
    { unfold to_u16. change (2 ^ 16) with 65536.
      rewrite (Z.mul_comm 65536 n), Z.mod_add by discriminate. reflexivity. }
    unfold header_msg. rewrite E. reflexivity. }
  split; [exact H|].
  split; [|split]; intros;
    unfold nfqueue_send_command, nfqueue_set_params,
      nfqueue_send_verdict_connmark;
    rewrite H; reflexivity.
Qed.

(** X6 -- [nfqueue_verdict]: when the send buffer holds the message, the call
    returns true exactly when the answer of the socket, read as an [int], is
    not negative -- a short write counts as success -- and in both cases the
    one verdict datagram has gone to the socket. *)
Theorem nfqueue_verdict_result
  (q : nf_queue) (id verdict connmark : Z) (w : world) :
  verdict_size connmark <= to_size_t SEND_BUF_LEN ->
  let img :=
    verdict_image (to_u16 (q_queue_num q)) id (to_u32 verdict)
      (if 0 <=? connmark then Some (be_encode 4 (to_u32 connmark))
       else None) in
  let r := nfqueue_verdict q id verdict connmark w in
  fst r = (0 <=? to_int (fst (socket_sendto img (errno w))))
  /\ sent (snd r) = sent w ++ [img].
Proof.
  intros Hcap. cbv zeta. unfold nfqueue_verdict.
  rewrite (nfqueue_send_verdict_connmark_fits _ _ _ _ _ Hcap).
  set (img := verdict_image _ _ _ _).
  pose proof (send_result_sent img
                (DEBUG "Sending verdict for packet %u: verdict: %d, connmark: %ld" w))
    as Hs.
  unfold send_result, send_end in *.
  cbn [errno DEBUG LOG] in *.
  set (ans := to_int (fst (socket_sendto img (errno w)))) in *.
  destruct (Z.eqb_spec ans BUF_TOO_SHORT) as [E|E].
  - rewrite E. cbn [fst snd] in *. split; [reflexivity | exact Hs].
  - cbn [fst snd] in *.
    destruct (Z.ltb_spec ans 0), (Z.leb_spec 0 ans); try lia;
      cbn [fst snd]; (split; [reflexivity | exact Hs]).
Qed.

(** ** Properties of the iteration *)

Lemma mnl_nlmsg_ok_inv (mem : list byte) (len_ : Z) :
  mnl_nlmsg_ok mem len_ = true ->
  16 <= len_ /\ 16 <= hdr_nlmsg_len mem
  /\ to_int (hdr_nlmsg_len mem) <= len_.
Proof.
  unfold mnl_nlmsg_ok. intros H.
  apply andb_prop in H as [H H3]. apply andb_prop in H as [H1 H2].
  apply Z.geb_le in H1, H2. apply Z.leb_le in H3.
  change (to_int sizeof_nlmsghdr) with 16 in H1.
  unfold sizeof_nlmsghdr in H2. auto.
Qed.

(** The step [mnl_nlmsg_next] makes from a message that [mnl_nlmsg_ok]
    accepted, when the length field is below 2^31. *)
Lemma mnl_nlmsg_next_step (mem : list byte) (cursor len_ : Z) :
  mnl_nlmsg_ok mem len_ = true ->
  len_ < 2 ^ 31 -> hdr_nlmsg_len mem < 2 ^ 31 ->
  let '(c, l) := mnl_nlmsg_next mem cursor len_ in
  c = cursor + MNL_ALIGN (hdr_nlmsg_len mem)
  /\ l = len_ - MNL_ALIGN (hdr_nlmsg_len mem)
  /\ cursor + 16 <= c /\ -3 <= l <= len_ - 16.
Proof.
  intros Hok Hl Hh. apply mnl_nlmsg_ok_inv in Hok as (H1 & H2 & H3).
  change (2 ^ 31) with 2147483648 in *.
  rewrite to_int_small in H3 by (change (2 ^ 31) with 2147483648; lia).
  pose proof (MNL_ALIGN_bounds (hdr_nlmsg_len mem)) as Hb.
  unfold mnl_nlmsg_next.
  rewrite (MNL_ALIGN_w_eq 32) by (change (2 ^ 32) with 4294967296; lia).
  rewrite to_int_small by (change (2 ^ 31) with 2147483648; lia).
  repeat split; lia.
Qed.

Lemma nfqueue_next_loop_cursor (fuel : nat) (d : list byte) (buf : nf_buffer)
  (packet : nf_packet) (w : world) (r : Z) (buf' : nf_buffer)
  (p' : nf_packet) (w' : world) :
  len buf < 2 ^ 31 ->
  hdr_nlmsg_len (cursor_mem d buf) < 2 ^ 31 ->
  nfqueue_next_loop fuel d buf packet w = Some (r, buf', p', w') ->
  (r = IO_ERROR \/ r = IO_NOTREADY \/ r = IO_READY)
  /\ data buf' = data buf
  /\ nlh buf' + len buf' = nlh buf + len buf
  /\ (r = IO_READY ->
      nlh buf' = nlh buf + MNL_ALIGN (hdr_nlmsg_len (cursor_mem d buf))
      /\ nlh buf + 16 <= nlh buf' /\ -3 <= len buf' <= len buf - 16)
  /\ (r <> IO_READY -> buf' = buf).
Proof.
  intros Hl Hh. induction fuel as [|fuel IH]; [discriminate|].
  cbn [nfqueue_next_loop].
  destruct (mnl_nlmsg_ok (cursor_mem d buf) (len buf)) eqn:Hok.
  - destruct (negb (Z.land (hdr_nlmsg_flags (cursor_mem d buf))
                      NLM_F_DUMP_INTR =? 0)).
    + intros E. inversion E; subst.
      repeat split; auto; intros; discriminate.
    + destruct (hdr_nlmsg_type (cursor_mem d buf) >=? NLMSG_MIN_TYPE);
        [|exact IH].
      destruct (nfqueue_parse (cursor_mem d buf) w) as [[ok p] w1].
      destruct ok; cbn [negb].
      * pose proof (mnl_nlmsg_next_step (cursor_mem d buf) (nlh buf)
                      (len buf) Hok Hl Hh) as Hs.
        destruct (mnl_nlmsg_next (cursor_mem d buf) (nlh buf) (len buf))
          as [c l].
        destruct Hs as (Hc & Hl' & Hc16 & Hl3).
        intros E. inversion E; subst. cbn [data nlh len].
        split; [auto|]. split; [reflexivity|]. split; [lia|].
        split; [intros _; repeat split; lia|].
        intros Hne. contradiction Hne. reflexivity.
      * intros E. inversion E; subst.
        repeat split; auto; intros; discriminate.
  - intros E. inversion E; subst.
    repeat split; auto; intros; discriminate.
Qed.

(** X7 -- [nfqueue_next]: a call that returns gives one of the three codes
    and never changes [buf->data]; it moves the cursor only when it returns
    [IO_READY], and then at least 16 bytes forward, with [len] reduced by
    the same amount (never below -3), so that [nlh + len] stays where it
    was; on [IO_ERROR] and [IO_NOTREADY] the buffer is what it was.  ([len]
    and the length field at the cursor are taken below 2^31.) *)
Theorem nfqueue_next_cursor (fuel : nat) (buf : nf_buffer)
  (packet : nf_packet) (w : world) (r : Z) (buf' : nf_buffer)
  (p' : nf_packet) (w' : world) :
  len buf < 2 ^ 31 ->
  (forall d, data buf = Some d -> hdr_nlmsg_len (cursor_mem d buf) < 2 ^ 31) ->
  nfqueue_next fuel buf packet w = Some (Returns (r, buf', p', w')) ->
  (r = IO_ERROR \/ r = IO_NOTREADY \/ r = IO_READY)
  /\ data buf' = data buf
  /\ nlh buf' + len buf' = nlh buf + len buf
  /\ (r = IO_READY -> nlh buf + 16 <= nlh buf' /\ -3 <= len buf' <= len buf - 16)
  /\ (r <> IO_READY -> buf' = buf).
Proof.
  intros Hl Hh. unfold nfqueue_next.
  destruct (data buf) as [d|] eqn:Hd; [|discriminate].
  destruct (nfqueue_next_loop fuel d buf packet w) as [[[[r0 b0] p0] w0]|]
    eqn:Hloop; [|discriminate].
  intros E. inversion E; subst.
  destruct (nfqueue_next_loop_cursor fuel d buf packet w r buf' p' w' Hl
              (Hh d eq_refl) Hloop) as (H1 & H2 & H3 & H4 & H5).
  rewrite Hd in H2. repeat split; auto; apply H4; assumption.
Qed.

(** X8 -- [nfqueue_next] on what [mnl_nlmsg_ok] refuses: when [len] is
    below 16, or the length field of the header at the cursor is below 16,
    or that field read as an [int], as [mnl_nlmsg_ok] compares it (the field
    itself when it is below 2^31, a negative number from 2^31 on), is
    greater than [len], the call returns [IO_NOTREADY] at once; the buffer,
    the packet and the environment stay as they were, with no error code
    and no diagnostic. *)
Theorem nfqueue_next_incomplete (fuel : nat) (d : list byte)
  (buf : nf_buffer) (packet : nf_packet) (w : world) :
  data buf = Some d ->
  len buf < 16 \/ hdr_nlmsg_len (cursor_mem d buf) < 16
  \/ len buf < to_int (hdr_nlmsg_len (cursor_mem d buf)) ->
  nfqueue_next (S fuel) buf packet w
  = Some (Returns (IO_NOTREADY, buf, packet, w)).
Proof.
  intros Hd Hcut. unfold nfqueue_next. rewrite Hd.
  cbn [nfqueue_next_loop].
  destruct (mnl_nlmsg_ok (cursor_mem d buf) (len buf)) eqn:Hok;
    [|reflexivity].
  apply mnl_nlmsg_ok_inv in Hok. lia.
Qed.

(** ** Sockets: opening, closing, receiving *)

Lemma to_int_range (z : Z) : - 2 ^ 31 <= to_int z < 2 ^ 31.
Proof.
  unfold to_int.
  pose proof (Z.mod_pos_bound (z + 2 ^ 31) (2 ^ 32) ltac:(reflexivity)).
  change (2 ^ 32) with (2 * 2 ^ 31) in *. lia.
Qed.

Lemma to_int_mod (z : Z) : to_int (z mod 2 ^ 32) = to_int z.
Proof.
  unfold to_int. rewrite Zplus_mod_idemp_l. reflexivity.
Qed.

(** An [int] stored in a block is read back as it was. *)
Lemma to_int_load_encode (fd : Z) (rest : list byte) :
  - 2 ^ 31 <= fd < 2 ^ 31 ->
  to_int (load 4 0 (host_encode 4 fd ++ rest)) = fd.
Proof.
  intros H. unfold load, slice. cbn [skipn].
  rewrite firstn_app_exact by apply host_encode_length.
  rewrite host_decode_encode. change (256 ^ Z.of_nat 4) with (2 ^ 32).
  rewrite to_int_mod. apply to_int_small. exact H.
Qed.

Lemma heap_find_head (p : Z) (blk : list byte) (h : list (Z * list byte)) :
  heap_find p ((p, blk) :: h) = Some blk.
Proof. cbn [heap_find]. rewrite Z.eqb_refl. reflexivity. Qed.

Lemma heap_write_head (p : Z) (off : nat) (bs blk : list byte)
  (h : list (Z * list byte)) :
  heap_write p off bs ((p, blk) :: h) = (p, store off bs blk) :: h.
Proof. cbn [heap_write]. rewrite Z.eqb_refl. reflexivity. Qed.

Lemma heap_free_head (p : Z) (blk : list byte) (h : list (Z * list byte)) :
  heap_free p ((p, blk) :: h) = h.
Proof. cbn [heap_free]. rewrite Z.eqb_refl. reflexivity. Qed.

Lemma socket_on_top_fd (nl fd : Z) (h : list (Z * list byte)) (w : world) :
  - 2 ^ 31 <= fd < 2 ^ 31 ->
  socket_on_top nl fd h w -> mnl_socket_get_fd nl w = Some fd.
Proof.
  intros Hfd [rest Hh]. unfold mnl_socket_get_fd.
  rewrite Hh, heap_find_head, to_int_load_encode by exact Hfd. reflexivity.
Qed.

(** What [mnl_socket_open2] returns and leaves. *)
Lemma mnl_socket_open2_spec (bus flags : Z) (w : world) :
  let r := mnl_socket_open2 bus flags w in
  sent (snd r) = sent w /\ log (snd r) = log w
  /\ ((fst r = 0 /\ heap (snd r) = heap w)
      \/ (fst r = Z.pos (next_block w)
          /\ exists fd,
               fd <> -1 /\ - 2 ^ 31 <= fd < 2 ^ 31
               /\ heap (snd r)
                  = (fst r, host_encode 4 fd ++ repeat x00 12) :: heap w)).
Proof.
  cbv zeta. unfold mnl_socket_open2.
  destruct (sys_calloc sizeof_mnl_socket (errno w)) as [ok e].
  destruct ok; cbn [negb]; [|repeat split; left; split; reflexivity].
  unfold malloc_copy. cbv beta iota. cbn [errno set_errno].
  destruct (sys_socket AF_NETLINK (Z.lor SOCK_RAW flags) bus e) as [fd e'].
  cbn [heap set_errno set_heap]. rewrite heap_write_head.
  destruct (Z.eqb_spec (to_int fd) (-1)) as [E|E].
  - cbn [fst snd]. unfold free. cbn [heap set_errno set_heap sent log].
    rewrite heap_free_head. repeat split. left. split; reflexivity.
  - cbn [fst snd heap set_errno set_heap sent log]. repeat split. right.
    split; [reflexivity|]. exists (to_int fd).
    split; [exact E|]. split; [apply to_int_range|].
    f_equal. f_equal. unfold store. cbn [firstn Nat.sub repeat app].
    rewrite host_encode_length. reflexivity.
Qed.

(** X9 -- the local [mnl_socket_open2]: when it returns [NULL] -- no memory,
    or [socket()] answered -1 -- the heap is what it was, the object it had
    allocated being released; otherwise it returns a fresh object whose
    descriptor, as [mnl_socket_get_fd] reads it, is the answer of [socket()],
    which is not -1, and whose address part is zero. *)
Theorem mnl_socket_open2_result (bus flags : Z) (w : world) :
  let r := mnl_socket_open2 bus flags w in
  (fst r = 0 -> heap (snd r) = heap w)
  /\ (fst r <> 0 ->
      exists fd,
        fd <> -1
        /\ fd = to_int (fst (sys_socket AF_NETLINK (Z.lor SOCK_RAW flags) bus
                               (snd (sys_calloc sizeof_mnl_socket (errno w)))))
        /\ heap (snd r) = (fst r, host_encode 4 fd ++ repeat x00 12) :: heap w
        /\ mnl_socket_get_fd (fst r) (snd r) = Some fd).
Proof.
  cbv zeta. unfold mnl_socket_open2.
  destruct (sys_calloc sizeof_mnl_socket (errno w)) as [ok e].
  destruct ok; cbn [negb fst snd];
    [|split; [reflexivity | intros H; contradiction H; reflexivity]].
  unfold malloc_copy. cbv beta iota. cbn [errno set_errno].
  destruct (sys_socket AF_NETLINK (Z.lor SOCK_RAW flags) bus e) as [fd e'].
  cbn [heap set_errno set_heap fst snd]. rewrite heap_write_head.
  destruct (Z.eqb_spec (to_int fd) (-1)) as [E|E]; cbn [fst snd].
  - unfold free. cbn [heap set_errno set_heap]. rewrite heap_free_head.
    split; [reflexivity | intros H; contradiction H; reflexivity].
  - split; [intros H; discriminate H|]. intros _.
    exists (to_int fd). split; [exact E|]. split; [reflexivity|].
    assert (Hs : store 0 (host_encode 4 (to_int fd))
                   (repeat x00 (Z.to_nat sizeof_mnl_socket))
                 = host_encode 4 (to_int fd) ++ repeat x00 12).
    { unfold store. cbn [firstn Nat.sub repeat app].
      rewrite host_encode_length. reflexivity. }
    cbn [heap set_errno set_heap]. rewrite Hs. split; [reflexivity|].
    unfold mnl_socket_get_fd. cbn [heap set_errno set_heap].
    rewrite heap_find_head, to_int_load_encode by apply to_int_range.
    reflexivity.
Qed.

(** [mnl_socket_bind] on the object on top of the heap. *)
Lemma mnl_socket_bind_on_top (nl fd groups pid : Z) (h : list (Z * list byte))
  (w : world) :
  - 2 ^ 31 <= fd < 2 ^ 31 ->
  socket_on_top nl fd h w ->
  exists r w',
    mnl_socket_bind nl groups pid w = Some (r, w')
    /\ socket_on_top nl fd h w'
    /\ sent w' = sent w /\ log w' = log w.
Proof.
  intros Hfd Htop. unfold mnl_socket_bind.
  rewrite (socket_on_top_fd nl fd h w Hfd Htop).
  destruct Htop as [rest Hh].
  destruct (socket_bind fd groups pid (errno w)) as [[r e] addr].
  eexists. eexists. split; [reflexivity|].
  split; [|split; reflexivity].
  unfold socket_on_top. cbn [heap set_errno set_heap].
  rewrite Hh, heap_write_head.
  exists (firstn (4 - 4) rest
          ++ repeat x00 (4 - length (host_encode 4 fd ++ rest))
          ++ firstn (Z.to_nat sizeof_sockaddr_nl) addr
          ++ skipn (4 + length (firstn (Z.to_nat sizeof_sockaddr_nl) addr))
               (host_encode 4 fd ++ rest)).
  f_equal. f_equal. unfold store.
  rewrite firstn_app, host_encode_length.
  rewrite firstn_all2 by (rewrite host_encode_length; lia).
  rewrite <- app_assoc. reflexivity.
Qed.

Lemma LOG_fields (p : Z) (f : string) (w : world) :
  heap (LOG p f w) = heap w /\ sent (LOG p f w) = sent w
  /\ errno (LOG p f w) = errno w /\ next_block (LOG p f w) = next_block w.
Proof. repeat split. Qed.

Lemma host_encode_2_0 : host_encode 2 0 = [x00; x00].
Proof. unfold host_encode. destruct host; reflexivity. Qed.

(** The run of [nfqueue_open] from the point where the socket object
    exists. *)
Lemma nfqueue_open_cases (queue_num_ queue_len : Z) (w : world) :
  exists ok q w',
    nfqueue_open queue_num_ queue_len w = Some (ok, q, w')
    /\ q_queue_num q = queue_num_
    /\ ((nl_socket q = 0 /\ ok = false /\ heap w' = heap w
         /\ sent w' = sent w)
        \/ (nl_socket q = Z.pos (next_block w)
            /\ exists fd,
                 - 2 ^ 31 <= fd < 2 ^ 31
                 /\ socket_on_top (nl_socket q) fd (heap w) w'
                 /\ (set_params_size queue_len NFQA_CFG_F_CONNTRACK
                       <= to_size_t SEND_BUF_LEN ->
                     ok = true ->
                     sent w'
                     = sent w ++ [bind_image queue_num_;
                                  config_image queue_num_ queue_len])))
    /\ (ok = false -> exists fmt, last (log w') (0, EmptyString) = (LOG_ERR, fmt)).
Proof.
  unfold nfqueue_open.
  pose proof (mnl_socket_open2_spec NETLINK_NETFILTER SOCK_NONBLOCK
                (DEBUG "Initializing nfqueue %d" w)) as Hopen.
  cbv zeta in Hopen.
  destruct (mnl_socket_open2 NETLINK_NETFILTER SOCK_NONBLOCK
              (DEBUG "Initializing nfqueue %d" w)) as [nl w1].
  cbn [fst snd q_queue_num] in *.
  destruct Hopen as (Hs1 & Hl1 & [[Hnl Hh1]|[Hnl (fd & Hfd1 & Hfd & Hh1)]]).
  - subst nl. cbn [Z.eqb].
    eexists. eexists. eexists. split; [reflexivity|].
    cbn [q_queue_num nl_socket]. split; [reflexivity|].
    split.
    + left. repeat split; assumption.
    + intros _. eexists. unfold LOG_SYSERR, LOG. cbn [log].
      rewrite last_last. reflexivity.
  - assert (Hnz : (nl =? 0) = false) by (rewrite Hnl; reflexivity).
    rewrite Hnz. clear Hnz.
    assert (Htop1 : socket_on_top nl fd (heap w) w1)
      by (exists (repeat x00 12); exact Hh1).
    destruct (mnl_socket_bind_on_top nl fd 0 MNL_SOCKET_AUTOPID (heap w) w1
                Hfd Htop1) as (r & w2 & Hb & Htop2 & Hs2 & Hl2).
    rewrite Hb.
    set (fits := set_params_size queue_len NFQA_CFG_F_CONNTRACK
                 <= to_size_t SEND_BUF_LEN).
    destruct (r <? 0).
    { eexists. eexists. eexists. split; [reflexivity|].
      cbn [q_queue_num nl_socket]. split; [reflexivity|].
      split.
      - right. split; [exact Hnl|]. exists fd. split; [exact Hfd|].
        split; [|intros _ E; discriminate E].
        destruct Htop2 as [rest E]. exists rest. exact E.
      - intros _. eexists. unfold LOG_SYSERR, LOG. cbn [log].
        rewrite last_last. reflexivity. }
    (* the bind command *)
    assert (Ecmd : nfqnl_msg_config_cmd_bytes NFQNL_CFG_CMD_BIND 0
                   = [byte_of_Z NFQNL_CFG_CMD_BIND; x00; x00; x00]).
    { unfold nfqnl_msg_config_cmd_bytes. rewrite host_encode_2_0.
      reflexivity. }
    assert (Hheap3 : heap (snd (nfqueue_bind queue_num_ w2)) = heap w2).
    { unfold nfqueue_bind, nfqueue_send_command.
      destruct (nfqueue_put_header _ _); [|reflexivity].
      destruct (mnl_attr_put_check _ _ _ _) as [ok m]. destruct ok; cbn [negb].
      - unfold mnl_socket_sendto. destruct (socket_sendto _ _).
        unfold send_end. destruct (to_int _ =? BUF_TOO_SHORT); reflexivity.
      - unfold send_end. reflexivity. }
    assert (Hsent3 : fits ->
              sent (snd (nfqueue_bind queue_num_ w2))
              = sent w ++ [bind_image queue_num_]).
    { intros Hf. unfold nfqueue_bind. rewrite Ecmd.
      rewrite nfqueue_send_command_fits.
      - rewrite send_result_sent, Hs2, Hs1. reflexivity.
      - reflexivity.
      - unfold fits, set_params_size in Hf.
        change (command_size [byte_of_Z NFQNL_CFG_CMD_BIND; x00; x00; x00])
          with 28.
        change (MNL_NLMSG_HDRLEN + sizeof_nfgenmsg
                + (MNL_ATTR_HDRLEN + MNL_ALIGN sizeof_nfqnl_msg_config_params))
          with 32 in Hf.
        change (NFQA_CFG_F_CONNTRACK =? 0) with false in Hf.
        change (MNL_ATTR_HDRLEN + 4) with 8 in Hf.
        destruct (0 <? queue_len); lia. }
    destruct (nfqueue_bind queue_num_ w2) as [r3 w3]. cbn [snd] in *.
    destruct (r3 <? 0).
    { eexists. eexists. eexists. split; [reflexivity|].
      cbn [q_queue_num nl_socket]. split; [reflexivity|].
      split.
      - right. split; [exact Hnl|]. exists fd. split; [exact Hfd|].
        split; [|intros _ E; discriminate E].
        destruct Htop2 as [rest E]. exists rest.
        unfold LOG_SYSERR, LOG. cbn [heap]. rewrite Hheap3. exact E.
      - intros _. eexists. unfold LOG_SYSERR, LOG. cbn [log].
        rewrite last_last. reflexivity. }
    (* the configuration *)
    set (w4 := DEBUG "Configuring nfqueue %d (len=%u)" w3).
    assert (Hheap5 : heap (snd (nfqueue_set_params queue_num_ NFQNL_COPY_PACKET
                                  65535 queue_len NFQA_CFG_F_CONNTRACK w4))
                     = heap w3).
    { destruct (Z.le_gt_cases
                  (set_params_size queue_len NFQA_CFG_F_CONNTRACK)
                  (to_size_t SEND_BUF_LEN)) as [Hf|Hbig].
      - rewrite nfqueue_set_params_fits by exact Hf.
        destruct (send_result_store
                    (nfq_msg_image (to_u16 queue_num_) NFQNL_MSG_CONFIG
                       (set_params_attrs NFQNL_COPY_PACKET (to_u32 65535)
                          queue_len NFQA_CFG_F_CONNTRACK)) w4) as [E _].
        exact E.
      - unfold nfqueue_set_params.
        destruct (nfqueue_put_header _ _); [|reflexivity].
        repeat match goal with
               | |- context [mnl_attr_put_check ?m ?c ?t ?d] =>
                 destruct (mnl_attr_put_check m c t d) as [? ?]
               | |- context [mnl_attr_put_u32_check ?m ?c ?t ?d] =>
                 destruct (mnl_attr_put_u32_check m c t d) as [? ?]
               | |- context [mnl_socket_sendto ?m ?w0] =>
                 unfold mnl_socket_sendto; destruct (socket_sendto _ _)
               | |- context [if ?b then _ else _] => destruct b
               | |- _ => progress (cbn [negb fst snd]; unfold send_end)
               end; reflexivity. }
    assert (Hsent5 : fits ->
              sent (snd (nfqueue_set_params queue_num_ NFQNL_COPY_PACKET
                           65535 queue_len NFQA_CFG_F_CONNTRACK w4))
              = sent w ++ [bind_image queue_num_;
                           config_image queue_num_ queue_len]).
    { intros Hf. rewrite nfqueue_set_params_fits by exact Hf.
      rewrite send_result_sent. subst w4. unfold DEBUG, LOG. cbn [sent].
      rewrite (Hsent3 Hf), <- app_assoc. reflexivity. }
    destruct (nfqueue_set_params queue_num_ NFQNL_COPY_PACKET 65535 queue_len
                NFQA_CFG_F_CONNTRACK w4) as [r5 w5].
    cbn [snd] in *.
    destruct (r5 <? 0).
    { eexists. eexists. eexists. split; [reflexivity|].
      cbn [q_queue_num nl_socket]. split; [reflexivity|].
      split.
      - right. split; [exact Hnl|]. exists fd. split; [exact Hfd|].
        split; [|intros _ E; discriminate E].
        destruct Htop2 as [rest E]. exists rest.
        unfold LOG_SYSERR, LOG. cbn [heap]. rewrite Hheap5, Hheap3. exact E.
      - intros _. eexists. unfold LOG_SYSERR, LOG. cbn [log].
        rewrite last_last. reflexivity. }
    eexists. eexists. eexists. split; [reflexivity|].
    cbn [q_queue_num nl_socket]. split; [reflexivity|].
    split; [|intros E; discriminate E].
    right. split; [exact Hnl|]. exists fd. split; [exact Hfd|].
    split.
    + destruct Htop2 as [rest E]. exists rest.
      unfold DEBUG, LOG. cbn [heap]. rewrite Hheap5, Hheap3. exact E.
    + intros Hf _. unfold DEBUG, LOG. cbn [sent]. exact (Hsent5 Hf).
Qed.

(** X10 -- [nfqueue_open] always returns, with [q->queue_num] set.  When the
    socket could not be created, [q->nl_socket] is [NULL], the result is
    false and nothing was allocated or sent.  Otherwise [q->nl_socket] is a
    live socket object -- also when the result is false, for the failure
    paths after the creation do not close it.  A false result comes with a
    diagnostic of priority [LOG_ERR] as the last entry of the log. *)
Theorem nfqueue_open_returns (queue_num_ queue_len : Z) (w : world) :
  exists ok q w',
    nfqueue_open queue_num_ queue_len w = Some (ok, q, w')
    /\ q_queue_num q = queue_num_
    /\ (nl_socket q = 0 ->
        ok = false /\ heap w' = heap w /\ sent w' = sent w)
    /\ (nl_socket q <> 0 ->
        exists fd blk,
          socket_live q fd w' /\ heap w' = (nl_socket q, blk) :: heap w)
    /\ (ok = false ->
        exists fmt, last (log w') (0, EmptyString) = (LOG_ERR, fmt)).
Proof.
  destruct (nfqueue_open_cases queue_num_ queue_len w)
    as (ok & q & w' & Ho & Hq & Hc & Hlog).
  exists ok, q, w'. split; [exact Ho|]. split; [exact Hq|].
  split; [|split; [|exact Hlog]].
  - intros Hz. destruct Hc as [(_ & H1 & H2 & H3)|(Hnl & _)];
      [auto | rewrite Hnl in Hz; discriminate Hz].
  - intros Hnz.
    destruct Hc as [(Hz & _)|(Hnl & fd & Hfd & Htop & _)];
      [contradiction|].
    exists fd. pose proof Htop as [rest Hh].
    exists (host_encode 4 fd ++ rest). split; [|exact Hh].
    split; [exact Hnz|]. apply (socket_on_top_fd _ _ (heap w)); assumption.
Qed.

(** X11 -- [nfqueue_open]: when it returns true, with a send buffer that
    holds the two commands, exactly two datagrams have gone to the socket,
    in this order: the bind command for the queue, then the configuration
    with copy mode [NFQNL_COPY_PACKET], copy range 0xFFFF, the queue length
    when it is not zero, and the conntrack flag as flags and mask. *)
Theorem nfqueue_open_sends (queue_num_ queue_len : Z) (w : world)
  (q : nf_queue) (w' : world) :
  set_params_size queue_len NFQA_CFG_F_CONNTRACK <= to_size_t SEND_BUF_LEN ->
  nfqueue_open queue_num_ queue_len w = Some (true, q, w') ->
  sent w'
  = sent w ++ [bind_image queue_num_; config_image queue_num_ queue_len].
Proof.
  intros Hf Ho.
  destruct (nfqueue_open_cases queue_num_ queue_len w)
    as (ok & q0 & w0 & Ho' & _ & Hc & _).
  rewrite Ho in Ho'. inversion Ho'; subst.
  destruct Hc as [(_ & E & _)|(_ & fd & _ & _ & Hs)];
    [discriminate E | exact (Hs Hf eq_refl)].
Qed.

(** X12 -- [nfqueue_close] after [nfqueue_open], whatever [nfqueue_open]
    returned: when [q->nl_socket] is [NULL] the assertion fails and the
    process ends; otherwise the call returns and the heap is what it was
    before [nfqueue_open], and -- the next block address not being in use --
    [q->nl_socket], which the call leaves as it is, no longer points to a
    live object, so that a second [nfqueue_close] has no defined
    behaviour. *)
Theorem nfqueue_close_after_open (queue_num_ queue_len : Z) (w : world)
  (ok : bool) (q : nf_queue) (w' : world) :
  heap_find (Z.pos (next_block w)) (heap w) = None ->
  nfqueue_open queue_num_ queue_len w = Some (ok, q, w') ->
  (nl_socket q = 0 -> nfqueue_close q w' = Some (Dies (ASSERT_failed w')))
  /\ (nl_socket q <> 0 ->
      exists w'',
        nfqueue_close q w' = Some (Returns w'')
        /\ heap w'' = heap w /\ sent w'' = sent w'
        /\ nfqueue_close q w'' = None).
Proof.
  intros Hfresh Ho.
  destruct (nfqueue_open_cases queue_num_ queue_len w)
    as (ok0 & q0 & w0 & Ho' & _ & Hc & _).
  rewrite Ho in Ho'. inversion Ho'; subst. split.
  - intros Hz. unfold nfqueue_close. rewrite Hz. reflexivity.
  - intros Hnz.
    destruct Hc as [(Hz & _)|(Hnl & fd & Hfd & Htop & _)]; [contradiction|].
    unfold nfqueue_close.
    destruct (Z.eqb_spec (nl_socket q0) 0) as [?|_]; [contradiction|].
    unfold mnl_socket_close.
    assert (Htop' : socket_on_top (nl_socket q0) fd (heap w)
                      (DEBUG "Closing socket for queue %d" w0))
      by exact Htop.
    rewrite (socket_on_top_fd _ _ _ _ Hfd Htop').
    destruct (sys_close fd (errno (DEBUG "Closing socket for queue %d" w0)))
      as [r e].
    eexists. split; [reflexivity|].
    destruct Htop as [rest Hh].
    unfold free. cbn [heap set_errno set_heap sent DEBUG LOG].
    rewrite Hh, heap_free_head. split; [reflexivity|].
    split; [reflexivity|].
    unfold mnl_socket_get_fd. cbn [heap set_errno set_heap DEBUG LOG].
    rewrite Hnl, Hfresh. reflexivity.
Qed.

(** ** Receiving *)

Lemma recv_timeout_fields (fd timeout_ms : Z) (w : world) :
  let w' := snd (recv_timeout fd timeout_ms w) in
  heap w' = heap w /\ sent w' = sent w /\ log w' = log w
  /\ next_block w' = next_block w.
Proof.
  cbv zeta. unfold recv_timeout.
  destruct (sys_pselect _ _ _ _) as [r e].
  destruct (_ && _); repeat split.
Qed.

(** X13 -- [recv_timeout]: a positive timeout in milliseconds reaches
    [pselect] as whole seconds and nanoseconds below one second that add up
    to it exactly; a timeout that is zero or negative reaches it as a null
    pointer, so the call waits without limit.  In both cases the result is
    what [pselect] returned, except that -1 with [errno = EINTR] becomes
    0. *)
Theorem recv_timeout_timespec (fd timeout_ms : Z) (w : world) :
  let result (timeout : option timespec) :=
    let '(r, e) := sys_pselect (fd + 1) [fd] timeout (errno w) in
    if (to_int r =? -1) && (e =? EINTR) then 0 else to_int r in
  (0 < timeout_ms < 2 ^ 63 ->
   let ts := recv_timeout_ts timeout_ms in
   0 <= ts_sec ts /\ 0 <= ts_nsec ts < 1000000000
   /\ ts_sec ts * 1000 + ts_nsec ts / 1000000 = timeout_ms
   /\ ts_nsec ts mod 1000000 = 0
   /\ fst (recv_timeout fd timeout_ms w) = result (Some ts))
  /\ (timeout_ms <= 0 -> fst (recv_timeout fd timeout_ms w) = result None).
Proof.
  cbv zeta. split.
  - intros [Hpos Hbig]. change (2 ^ 63) with 9223372036854775808 in Hbig.
    unfold recv_timeout_ts. cbn [ts_sec ts_nsec].
    pose proof (Z.quot_rem' timeout_ms 1000) as Hqr.
    pose proof (Z.rem_bound_pos timeout_ms 1000 ltac:(lia) ltac:(lia)) as Hr.
    assert (Hq : 0 <= Z.quot timeout_ms 1000)
      by (apply Z.quot_pos; lia).
    assert (Hi : to_i64 (Z.rem timeout_ms 1000 * 1000000)
                 = Z.rem timeout_ms 1000 * 1000000).
    { unfold to_i64. change (2 ^ 63) with 9223372036854775808.
      change (2 ^ 64) with 18446744073709551616.
      rewrite Z.mod_small by lia. lia. }
    rewrite Hi. rewrite Z.div_mul by discriminate.
    rewrite Z.mod_mul by discriminate.
    repeat split; try lia.
    unfold recv_timeout, recv_timeout_ts. rewrite Hi.
    destruct (Z.gtb_spec timeout_ms 0); [|lia].
    destruct (sys_pselect _ _ _ _) as [r e]. cbn [errno set_errno].
    destruct (_ && _); reflexivity.
  - intros Hle. unfold recv_timeout.
    destruct (Z.gtb_spec timeout_ms 0); [lia|].
    destruct (sys_pselect _ _ _ _) as [r e]. cbn [errno set_errno].
    destruct (_ && _); reflexivity.
Qed.

(** X14 -- [nfqueue_receive]: a call that returns gives one of the three
    codes and leaves [buf->data] allocated; it sets the cursor only when it
    returns [IO_READY], and then to the start of the region with a positive
    [len]; on [IO_NOTREADY] and [IO_ERROR] the cursor and [len] are what they
    were, whatever has been written to the region.  It never sends and never
    changes the heap. *)
Theorem nfqueue_receive_buffer (q : nf_queue) (buf : nf_buffer)
  (timeout_ms : Z) (w : world) (r : Z) (buf' : nf_buffer) (w' : world) :
  nfqueue_receive q buf timeout_ms w = Some (Returns (r, buf', w')) ->
  (r = IO_ERROR \/ r = IO_NOTREADY \/ r = IO_READY)
  /\ data buf' <> None
  /\ (r = IO_READY -> nlh buf' = 0 /\ 0 < len buf' < 2 ^ 31)
  /\ (r <> IO_READY -> nlh buf' = nlh buf /\ len buf' = len buf)
  /\ sent w' = sent w /\ heap w' = heap w.
Proof.
  unfold nfqueue_receive.
  destruct (nl_socket q =? 0); [discriminate|].
  destruct (mnl_socket_get_fd (nl_socket q) w) as [fd|]; [|discriminate].
  pose proof (recv_timeout_fields fd timeout_ms w) as Hf. cbv zeta in Hf.
  destruct (recv_timeout fd timeout_ms w) as [retval w1]. cbn [snd] in Hf.
  destruct Hf as (Hh & Hs & _).
  destruct (retval =? 0).
  { intros E. inversion E; subst. cbn [data nlh len].
    repeat split; auto; try discriminate. }
  destruct (retval <? 1).
  { destruct (errno w1 =? EINTR); intros E; inversion E; subst;
      cbn [data nlh len]; repeat split; auto; discriminate. }
  destruct (socket_recvfrom fd (to_size_t RECV_BUF_LEN) (errno w1))
    as [[r0 e] bytes].
  cbn [errno set_errno data nlh len].
  destruct (Z.ltb_spec (to_int r0) 0).
  { destruct (_ || _); intros E; inversion E; subst;
      cbn [data nlh len]; repeat split; auto; discriminate. }
  destruct (Z.eqb_spec (to_int r0) 0).
  { intros E; inversion E; subst;
      cbn [data nlh len]; repeat split; auto; discriminate. }
  intros E; inversion E; subst. cbn [data nlh len].
  pose proof (to_int_range r0).
  split; [auto|]. split; [discriminate|].
  split; [intros _; split; [reflexivity | lia]|].
  split; [intros Hne; contradiction Hne; reflexivity|].
  split; assumption.
Qed.

(** X15 -- [nfqueue_receive] and signals: when [pselect] is interrupted
    (-1 with [errno = EINTR]) the call returns [IO_NOTREADY] through the
    timeout branch, with its debug line and no error logged, nothing
    received into the region; when the descriptor is readable but
    [mnl_socket_recvfrom] fails with [EAGAIN] or [EINTR], the call returns
    [IO_NOTREADY] as well, the cursor and [len] kept. *)
Theorem nfqueue_receive_interrupted (q : nf_queue) (fd : Z)
  (buf : nf_buffer) (timeout_ms : Z) (w : world) :
  socket_live q fd w ->
  (forall r,
     sys_pselect (fd + 1) [fd]
       (if timeout_ms >? 0 then Some (recv_timeout_ts timeout_ms) else None)
       (errno w) = (r, EINTR) ->
     to_int r = -1 ->
     nfqueue_receive q buf timeout_ms w
     = Some (Returns (IO_NOTREADY, with_region buf,
                      DEBUG "Netlink socket timeout" (set_errno EINTR w))))
  /\ (forall w1 retval r e bytes,
        recv_timeout fd timeout_ms w = (retval, w1) -> 1 <= retval ->
        socket_recvfrom fd (to_size_t RECV_BUF_LEN) (errno w1)
        = (r, e, bytes) ->
        to_int r < 0 -> e = EAGAIN \/ e = EINTR ->
        exists d,
          nfqueue_receive q buf timeout_ms w
          = Some (Returns
                    (IO_NOTREADY,
                     {| data := Some d; nlh := nlh buf; len := len buf |},
                     DEBUG "No data from Netlink socket" (set_errno e w1)))).
Proof.
  intros [Hnz Hfd]. split.
  - intros r Hsel Hr. unfold nfqueue_receive.
    destruct (Z.eqb_spec (nl_socket q) 0) as [?|_]; [contradiction|].
    rewrite Hfd. unfold recv_timeout. rewrite Hsel, Hr.
    cbn [errno set_errno]. reflexivity.
  - intros w1 retval r e bytes Hrt Hret Hrecv Hr He. unfold nfqueue_receive.
    destruct (Z.eqb_spec (nl_socket q) 0) as [?|_]; [contradiction|].
    rewrite Hfd, Hrt.
    destruct (Z.eqb_spec retval 0); [lia|].
    destruct (Z.ltb_spec retval 1); [lia|].
    rewrite Hrecv. cbn [errno set_errno data nlh len].
    destruct (Z.ltb_spec (to_int r) 0); [|lia].
    eexists.
    destruct He as [-> | ->]; reflexivity.
Qed.

(** X16 -- [nfqueue_receive], then [nfqueue_next]: when the descriptor is
    readable and the datagram received is a sequence of event messages, the
    call returns [IO_READY], and the calls of [nfqueue_next] that follow on
    the same buffer return [IO_READY] once per message, with the packet
    assembled from each in order, and [IO_NOTREADY] after the last. *)
Theorem nfqueue_receive_then_next (q : nf_queue) (fd : Z)
  (buf : nf_buffer) (timeout_ms : Z) (w w1 : world) (retval e : Z)
  (msgs : list (list byte)) :
  socket_live q fd w ->
  recv_timeout fd timeout_ms w = (retval, w1) -> 1 <= retval ->
  socket_recvfrom fd (to_size_t RECV_BUF_LEN) (errno w1)
  = (Z.of_nat (length (concat msgs)), e, concat msgs) ->
  Forall event_msg msgs -> msgs <> [] ->
  Z.of_nat (length (concat msgs)) < 2 ^ 31 ->
  exists buf1 w2,
    nfqueue_receive q buf timeout_ms w = Some (Returns (IO_READY, buf1, w2))
    /\ forall fuel packet,
         exists bufN,
           nfqueue_next_calls (S fuel) (length msgs) buf1 packet w2
           = Some (map (pair IO_READY) (fst (assembled msgs w2)), bufN,
                   snd (assembled msgs w2))
           /\ forall fuel' packet' w',
                nfqueue_next (S fuel') bufN packet' w'
                = Some (Returns (IO_NOTREADY, bufN, packet', w')).
Proof.
  intros [Hnz Hfd] Hrt Hret Hrecv Hev Hne Hsmall.
  assert (Hpos : 0 < Z.of_nat (length (concat msgs))).
  { destruct msgs as [|m r]; [contradiction Hne; reflexivity|].
    inversion Hev; subst. pose proof (event_msg_length m H1).
    cbn [concat]. rewrite length_app. lia. }
  unfold nfqueue_receive.
  destruct (Z.eqb_spec (nl_socket q) 0) as [?|_]; [contradiction|].
  rewrite Hfd, Hrt.
  destruct (Z.eqb_spec retval 0); [lia|].
  destruct (Z.ltb_spec retval 1); [lia|].
  rewrite Hrecv. cbn [errno set_errno data nlh len].
  rewrite to_int_small by (change (2 ^ 31) with 2147483648 in *; lia).
  destruct (Z.ltb_spec (Z.of_nat (length (concat msgs))) 0); [lia|].
  destruct (Z.eqb_spec (Z.of_nat (length (concat msgs))) 0); [lia|].
  eexists. eexists. split; [reflexivity|].
  intros fuel packet.
  set (d := match data buf with
            | Some d => d
            | None => uninitialised (to_size_t RECV_BUF_LEN)
            end).
  assert (Hd : store 0 (concat msgs) d
               = [] ++ concat msgs ++ skipn (length (concat msgs)) d).
  { unfold store. cbn [firstn Nat.sub repeat app Nat.add]. reflexivity. }
  rewrite Hd.
  eexists. split.
  - exact (nfqueue_next_calls_events fuel msgs Hev [] _ packet _ Hsmall).
  - intros fuel' packet' w'. apply nfqueue_next_exhausted.
Qed.

(** ** More on the attribute walk *)

Lemma host_decode_range (bs : list byte) :
  0 <= host_decode bs < 256 ^ Z.of_nat (length bs).
Proof.
  unfold host_decode, be_decode. destruct host.
  - apply le_decode_range.
  - rewrite <- length_rev. apply le_decode_range.
Qed.

Lemma load_range (n off : nat) (mem : list byte) :
  0 <= load n off mem < 256 ^ Z.of_nat n.
Proof.
  unfold load, slice.
  pose proof (host_decode_range (firstn n (skipn off mem))) as H.
  assert (Hl : (length (firstn n (skipn off mem)) <= n)%nat)
    by apply firstn_le_length.
  assert (256 ^ Z.of_nat (length (firstn n (skipn off mem)))
          <= 256 ^ Z.of_nat n)
    by (apply Z.pow_le_mono_r; lia).
  lia.
Qed.

Lemma nla_len_range (a : list byte) : 0 <= nla_len a < 2 ^ 16.
Proof. unfold nla_len. apply (load_range 2 0 a). Qed.

Lemma load_firstn (n off k : nat) (mem : list byte) :
  (off + n <= k)%nat -> load n off (firstn k mem) = load n off mem.
Proof.
  intros H. unfold load, slice.
  rewrite skipn_firstn_comm, firstn_firstn.
  replace (Nat.min n (k - off)) with n by lia. reflexivity.
Qed.

(** Every attribute the walk visits has its four-byte header and exactly
    [nla_len] bytes. *)
Lemma mnl_attr_for_each_aux_wf (fuel : nat) (rem : list byte) (a : nlattr) :
  In a (mnl_attr_for_each_aux fuel rem) ->
  4 <= nla_len a /\ Z.of_nat (length a) = nla_len a.
Proof.
  revert rem. induction fuel as [|fuel IH]; intros rem Hin; [contradiction|].
  cbn [mnl_attr_for_each_aux] in Hin.
  destruct (mnl_attr_ok rem _) eqn:Hok; [|contradiction].
  destruct Hin as [<-|Hin]; [|exact (IH _ Hin)].
  apply mnl_attr_ok_inv in Hok as (H4 & Hl4 & Hi4 & Hle).
  pose proof (nla_len_range rem) as Hr. change (2 ^ 16) with 65536 in Hr.
  rewrite to_int_small in Hle by (change (2 ^ 31) with 2147483648; lia).
  pose proof (to_int_le (Z.of_nat (length rem)) ltac:(lia) ltac:(lia)) as Hle'.
  assert (Hn : nla_len (firstn (Z.to_nat (nla_len rem)) rem) = nla_len rem)
    by (unfold nla_len in *; apply load_firstn; lia).
  rewrite Hn. split; [exact H4|].
  rewrite length_firstn. lia.
Qed.

Lemma mnl_attr_for_each_wf (span : list byte) (a : nlattr) :
  In a (mnl_attr_for_each span) ->
  4 <= nla_len a /\ Z.of_nat (length a) = nla_len a.
Proof. apply mnl_attr_for_each_aux_wf. Qed.

(** The payload of a visited attribute has the length its header gives. *)
Lemma attr_payload_length (a : nlattr) :
  4 <= nla_len a -> Z.of_nat (length a) = nla_len a ->
  Z.of_nat (length (mnl_attr_get_payload a)) = mnl_attr_get_payload_len a
  /\ mnl_attr_get_payload_len a = nla_len a - 4.
Proof.
  intros H4 Hl. pose proof (nla_len_range a) as Hr.
  change (2 ^ 16) with 65536 in Hr.
  unfold mnl_attr_get_payload, mnl_attr_get_payload_len.
  change MNL_ATTR_HDRLEN with 4. change (Z.to_nat 4) with 4%nat.
  rewrite length_skipn.
  rewrite to_u16_small by (change (2 ^ 16) with 65536; lia). lia.
Qed.

(** An integer read in host order and converted from network order is the
    big-endian value of the bytes. *)
Lemma be_decode_host (n : nat) (off : nat) (mem : list byte) :
  (off + n <= length mem)%nat ->
  be_decode (host_encode n (load n off mem)) = be_decode (slice off n mem).
Proof.
  intros H. unfold load.
  assert (Hl : length (slice off n mem) = n).
  { unfold slice. rewrite length_firstn, length_skipn. lia. }
  rewrite <- Hl at 1. rewrite host_encode_decode. reflexivity.
Qed.

(** An entry of the array after a walk that did not fail is the last
    attribute of its type, or was there before with no attribute of its type
    (in range) met on the way. *)
Lemma mnl_attr_run_last (max : Z) (cb : mnl_attr_cb_t) (attrs : list nlattr) :
  cb_shape max cb ->
  forall ret tb0 e r tb e' k a,
    mnl_attr_run cb attrs ret (tb0, e) = (r, (tb, e')) ->
    (r <? 0) = false ->
    tb k = Some a ->
    (tb0 k = Some a /\ (k <= max -> lacks_attr k attrs))
    \/ last_of_type k a attrs.
Proof.
  intros Hcb. induction attrs as [|x xs IH];
    intros ret tb0 e r tb e' k a Hrun Hr Hk.
  - cbn in Hrun. inversion Hrun; subst. left. split; [exact Hk|].
    intros _ b [].
  - cbn [mnl_attr_run] in Hrun.
    destruct (Hcb x tb0 e) as [[e1 H]|[[Hgt [e1 H]]|[Hle [e1 H]]]];
      rewrite H in Hrun.
    + cbn in Hrun. inversion Hrun; subst. discriminate.
    + cbn in Hrun.
      destruct (IH _ _ _ _ _ _ _ _ Hrun Hr Hk) as [[H0 Hl]|(pre & post & Hl)].
      * left. split; [exact H0|]. intros Hkm b [<-|Hb]; [lia|].
        exact (Hl Hkm b Hb).
      * right. destruct Hl as (E & Ht & Hp).
        exists (x :: pre), post. rewrite E. auto.
    + cbn in Hrun.
      destruct (IH _ _ _ _ _ _ _ _ Hrun Hr Hk) as [[H0 Hl]|(pre & post & Hl)].
      * unfold tb_set in H0.
        destruct (Z.eqb_spec k (mnl_attr_get_type x)) as [->|Hne].
        -- inversion H0; subst. right. exists [], xs.
           split; [reflexivity|]. split; [reflexivity|]. exact (Hl Hle).
        -- left. split; [exact H0|]. intros Hkm b [<-|Hb];
             [congruence | exact (Hl Hkm b Hb)].
      * right. destruct Hl as (E & Ht & Hp).
        exists (x :: pre), post. rewrite E. auto.
Qed.

Lemma last_of_type_unique (k : Z) (a b : nlattr) (attrs : list nlattr) :
  last_of_type k a attrs -> last_of_type k b attrs -> a = b.
Proof.
  intros (pre & post & E & Ht & Hl) (pre' & post' & E' & Ht' & Hl').
  rewrite E in E'. clear E. revert pre' E'.
  induction pre as [|x pre IH]; intros pre' E'.
  - destruct pre' as [|y pre']; cbn in E'.
    + injection E' as Ha _. exact Ha.
    + injection E' as Ha Hp. exfalso.
      apply (Hl b); [rewrite Hp; apply in_elt | exact Ht'].
  - destruct pre' as [|y pre']; cbn in E'.
    + injection E' as Hb Hp. exfalso.
      apply (Hl' a); [rewrite <- Hp; apply in_elt | exact Ht].
    + injection E' as _ Hp. exact (IH _ Hp).
Qed.

(** Conversely, the last attribute of a type in range is the entry of that
    type. *)
Lemma mnl_attr_run_entry_last (max : Z) (cb : mnl_attr_cb_t)
  (attrs : list nlattr) :
  cb_shape max cb ->
  forall e r tb e' k a,
    mnl_attr_run cb attrs MNL_CB_OK (tb_empty, e) = (r, (tb, e')) ->
    (r <? 0) = false -> k <= max ->
    last_of_type k a attrs -> tb k = Some a.
Proof.
  intros Hcb e r tb e' k a Hrun Hr Hk Hlast.
  assert (Hhas : has_attr k attrs).
  { destruct Hlast as (pre & post & E & Ht & _).
    exists a. split; [rewrite E; apply in_elt | exact Ht]. }
  destruct (mnl_attr_run_entry max cb attrs e r tb e' k Hcb Hrun Hr Hk Hhas)
    as (b & Hb & _).
  destruct (mnl_attr_run_last max cb attrs Hcb _ _ _ _ _ _ k b Hrun Hr Hb)
    as [[H0 _]|Hl]; [discriminate H0|].
  rewrite Hb. f_equal. exact (last_of_type_unique k b a attrs Hl Hlast).
Qed.

(** Every entry recorded by a callback of the common form passed its
    check. *)
Lemma mnl_attr_run_checked (max : Z) (check : nlattr -> Z -> Z * Z)
  (attrs : list nlattr) :
  check_indep check ->
  forall ret tb0 e r tb e',
    mnl_attr_run (cb_form max check) attrs ret (tb0, e) = (r, (tb, e')) ->
    (forall k a, tb0 k = Some a -> (fst (check a 0) <? 0) = false) ->
    forall k a, tb k = Some a -> (fst (check a 0) <? 0) = false.
Proof.
  intros Hc. induction attrs as [|x xs IH];
    intros ret tb0 e r tb e' Hrun H0 k a Hk.
  - cbn in Hrun. inversion Hrun; subst. exact (H0 k a Hk).
  - cbn [mnl_attr_run] in Hrun. unfold cb_form at 1 in Hrun.
    unfold mnl_attr_type_valid in Hrun.
    destruct (mnl_attr_get_type x >? max); cbn in Hrun.
    + exact (IH _ _ _ _ _ _ Hrun H0 k a Hk).
    + pose proof (Hc x e 0) as Hi.
      destruct (check x e) as [rc ec]. cbn [fst] in Hi.
      destruct (rc <? 0) eqn:Hrc; cbn in Hrun.
      * inversion Hrun; subst. exact (H0 k a Hk).
      * refine (IH _ _ _ _ _ _ Hrun _ k a Hk).
        intros k' a' Hk'. unfold tb_set in Hk'.
        destruct (k' =? mnl_attr_get_type x).
        -- injection Hk' as <-. rewrite <- Hi. exact Hrc.
        -- exact (H0 k' a' Hk').
Qed.

(** One attribute in range that fails its check makes the walk fail, with
    [errno = ERANGE]. *)
Lemma mnl_attr_run_error (max : Z) (check : nlattr -> Z -> Z * Z)
  (attrs : list nlattr) (a : nlattr) :
  check_indep check -> check_range check ->
  In a attrs -> mnl_attr_get_type a <= max ->
  (fst (check a 0) <? 0) = true ->
  forall ret tb0 e,
    exists tb,
      mnl_attr_run (cb_form max check) attrs ret (tb0, e)
      = (MNL_CB_ERROR, (tb, ERANGE)).
Proof.
  intros Hc Hrg Hin Hmax Hbad. induction attrs as [|x xs IH];
    intros ret tb0 e; [contradiction|].
  cbn [mnl_attr_run]. unfold cb_form at 1. unfold mnl_attr_type_valid.
  destruct (Z.gtb_spec (mnl_attr_get_type x) max) as [Hgt|Hle]; cbn.
  - destruct Hin as [->|Hin]; [lia|]. apply (IH Hin).
  - pose proof (Hc x e 0) as Hi. pose proof (Hrg x e) as Hr.
    destruct (check x e) as [rc ec]. cbn [fst snd] in Hi, Hr.
    destruct (rc <? 0) eqn:Hrc; cbn.
    + rewrite (Hr eq_refl). eexists. reflexivity.
    + destruct Hin as [->|Hin]; [congruence|]. apply (IH Hin).
Qed.

(** ** More on the packet assembler *)

Lemma payload_len_nonneg (a : nlattr) : 0 <= mnl_attr_get_payload_len a.
Proof.
  unfold mnl_attr_get_payload_len, to_u16.
  apply Z.mod_pos_bound. reflexivity.
Qed.

(** [__mnl_attr_validate] for a data type without a rule of its own and a
    positive expected length: the payload must have exactly that length. *)
Lemma __mnl_attr_validate_exact (a : nlattr) (type exp_len e : Z) :
  (type =? MNL_TYPE_FLAG) = false ->
  (type =? MNL_TYPE_NUL_STRING) = false ->
  (type =? MNL_TYPE_STRING) = false ->
  (type =? MNL_TYPE_NESTED) = false ->
  0 < exp_len ->
  __mnl_attr_validate a type exp_len e
  = if mnl_attr_get_payload_len a =? exp_len then (0, e) else (-1, ERANGE).
Proof.
  intros H1 H2 H3 H4 Hpos. unfold __mnl_attr_validate.
  rewrite H1, H2, H3, H4.
  destruct (Z.ltb_spec (mnl_attr_get_payload_len a) exp_len).
  - destruct (Z.eqb_spec (mnl_attr_get_payload_len a) exp_len);
      [lia | reflexivity].
  - destruct (Z.eqb_spec exp_len 0); [lia|]. cbn [negb andb].
    destruct (Z.gtb_spec (mnl_attr_get_payload_len a) exp_len);
      destruct (Z.eqb_spec (mnl_attr_get_payload_len a) exp_len);
      try lia; reflexivity.
Qed.

(** The [switch] of [parse_nfqa_attr_cb], as the payload size it demands. *)
Lemma check_nfqa_size (a : nlattr) (e : Z) :
  check_nfqa a e
  = match nfqa_payload_size (mnl_attr_get_type a) with
    | Some n =>
      if mnl_attr_get_payload_len a =? n then (0, e) else (-1, ERANGE)
    | None => (0, e)
    end.
Proof.
  unfold check_nfqa, nfqa_payload_size.
  destruct (type_in _ _).
  - unfold mnl_attr_validate.
    change (MNL_TYPE_U32 >=? MNL_TYPE_MAX) with false. cbv iota.
    apply __mnl_attr_validate_exact; reflexivity.
  - destruct (_ =? NFQA_TIMESTAMP).
    { unfold mnl_attr_validate2.
      change (MNL_TYPE_UNSPEC >=? MNL_TYPE_MAX) with false. cbv iota.
      apply __mnl_attr_validate_exact; reflexivity. }
    destruct (_ =? NFQA_HWADDR).
    { unfold mnl_attr_validate2.
      change (MNL_TYPE_UNSPEC >=? MNL_TYPE_MAX) with false. cbv iota.
      apply __mnl_attr_validate_exact; reflexivity. }
    destruct (_ =? NFQA_PACKET_HDR); [|reflexivity].
    unfold mnl_attr_validate2.
    change (MNL_TYPE_UNSPEC >=? MNL_TYPE_MAX) with false. cbv iota.
    apply __mnl_attr_validate_exact; reflexivity.
Qed.

Lemma check_nfqa_range : check_range check_nfqa.
Proof.
  intros a e. rewrite check_nfqa_size.
  destruct (nfqa_payload_size _) as [n|]; [|discriminate].
  destruct (_ =? n); [discriminate | reflexivity].
Qed.

Lemma check_nfqa_passed (a : nlattr) (n : Z) :
  (fst (check_nfqa a 0) <? 0) = false ->
  nfqa_payload_size (mnl_attr_get_type a) = Some n ->
  mnl_attr_get_payload_len a = n.
Proof.
  rewrite check_nfqa_size. intros H Hn. rewrite Hn in H.
  destruct (Z.eqb_spec (mnl_attr_get_payload_len a) n);
    [assumption | discriminate].
Qed.

(** What a successful [nfqueue_parse] has been through. *)
Lemma nfqueue_parse_success_inv (mem : list byte) (w : world) :
  fst (fst (nfqueue_parse mem w)) = true ->
  exists ret attr e a_hdr a_pl,
    mnl_attr_parse mem sizeof_nfgenmsg parse_nfqa_attr_cb (tb_empty, errno w)
    = (ret, (attr, e))
    /\ (ret <? 0) = false
    /\ attr NFQA_PACKET_HDR = Some a_hdr
    /\ attr NFQA_PAYLOAD = Some a_pl
    /\ mnl_attr_get_payload_len a_pl <> 0
    /\ nfqueue_parse mem w
       = nfqueue_parse_attrs mem attr (packet_init w) (set_errno e w).
Proof.
  unfold nfqueue_parse. fold (packet_init w).
  destruct (mnl_attr_parse mem sizeof_nfgenmsg parse_nfqa_attr_cb
              (tb_empty, errno w)) as [ret [attr e]].
  destruct (ret <? 0) eqn:Hret; [discriminate|].
  intros Hok. unfold nfqueue_parse_attrs in Hok.
  destruct (attr NFQA_PACKET_HDR) as [a_hdr|] eqn:Hh; [|discriminate].
  destruct (attr NFQA_PAYLOAD) as [a_pl|] eqn:Hp; [|discriminate].
  exists ret, attr, e, a_hdr, a_pl.
  repeat split; try assumption.
  intros Hz. revert Hok. packet_fields. rewrite Hz. discriminate.
Qed.

(** The fields written before the conntrack step keep their values to the
    end of the call. *)
Lemma nfqueue_parse_attrs_header (mem : list byte) (attr : table)
  (p : nf_packet) (w : world) (a_hdr a_pl : nlattr) :
  attr NFQA_PACKET_HDR = Some a_hdr ->
  attr NFQA_PAYLOAD = Some a_pl ->
  mnl_attr_get_payload_len a_pl <> 0 ->
  let r := snd (fst (nfqueue_parse_attrs mem attr p w)) in
  queue_num r = ntohs (load 2 (Z.to_nat MNL_NLMSG_HDRLEN + 2) mem)
  /\ packet_id r = ntohl (load 4 0 (mnl_attr_get_payload a_hdr))
  /\ hw_protocol r = ntohs (load 2 4 (mnl_attr_get_payload a_hdr))
  /\ has_timestamp r
     = match attr NFQA_TIMESTAMP with
       | Some a_ts =>
         negb (load 8 0 (mnl_attr_get_payload a_ts) =? 0)
         || negb (load 8 8 (mnl_attr_get_payload a_ts) =? 0)
       | None => false
       end
  /\ (forall a_ts,
        attr NFQA_TIMESTAMP = Some a_ts -> has_timestamp r = true ->
        timestamp r
        = {| tv_sec :=
               to_i64 (__be64_to_cpu (load 8 0 (mnl_attr_get_payload a_ts)));
             tv_usec :=
               to_i64 (__be64_to_cpu (load 8 8 (mnl_attr_get_payload a_ts)))
          |}).
Proof.
  intros Hh Hp Hl. cbv zeta. unfold nfqueue_parse_attrs. rewrite Hh, Hp.
  packet_fields.
  destruct (Z.eqb_spec (mnl_attr_get_payload_len a_pl) 0) as [?|_];
    [contradiction|].
  unfold malloc_copy. cbv beta iota.
  destruct (attr NFQA_TIMESTAMP) as [a_ts|];
    [destruct (negb (load 8 0 (mnl_attr_get_payload a_ts) =? 0)
               || negb (load 8 8 (mnl_attr_get_payload a_ts) =? 0))|];
    (destruct (attr NFQA_CT) as [ct|];
     [ match goal with
       | |- context [nfqueue_parse_ct ct ?pa ?wa] =>
         pose proof (nfqueue_parse_ct_frame ct pa wa) as Hf;
         destruct (nfqueue_parse_ct ct pa wa) as [[ok pk] wk]
       end;
       cbn [fst snd] in Hf;
       destruct Hf as (F1 & F2 & F3 & _ & _ & F6 & F7 & _);
       revert F1 F2 F3 F6 F7; packet_fields; intros F1 F2 F3 F6 F7;
       destruct ok
     | ]);
    cbn [negb]; cbv beta iota;
    try destruct (attr NFQA_CT_INFO);
    cbn [fst snd]; packet_fields; rewrite ?F1, ?F2, ?F3, ?F6, ?F7;
    repeat split; try reflexivity;
    try (intros a E _; injection E as <-; reflexivity);
    try (intros a _ E; discriminate E);
    try (intros a E; discriminate E).
Qed.

Lemma mnl_attr_parse_run (mem : list byte) (cb : mnl_attr_cb_t)
  (st : table * Z) :
  mnl_attr_parse mem sizeof_nfgenmsg cb st
  = mnl_attr_run cb (msg_attrs mem) MNL_CB_OK st.
Proof. reflexivity. Qed.

Lemma mnl_attr_parse_nested_run (nested : nlattr) (cb : mnl_attr_cb_t)
  (st : table * Z) :
  mnl_attr_parse_nested nested cb st
  = mnl_attr_run cb (nested_attrs nested) MNL_CB_OK st.
Proof. reflexivity. Qed.

Lemma parse_nfqa_attr_cb_shape : cb_shape (to_u16 NFQA_MAX) parse_nfqa_attr_cb.
Proof. rewrite parse_nfqa_attr_cb_form. apply cb_form_shape. Qed.

Lemma last_of_type_in (k : Z) (a : nlattr) (attrs : list nlattr) :
  last_of_type k a attrs -> In a attrs /\ mnl_attr_get_type a = k.
Proof.
  intros (pre & post & E & Ht & _). split; [rewrite E; apply in_elt|exact Ht].
Qed.

(** A message with an attribute has more than the two headers. *)
Lemma msg_attrs_length (mem : list byte) (a : nlattr) :
  In a (msg_attrs mem) -> (20 < length mem)%nat.
Proof.
  intros Hin. destruct (Nat.lt_ge_cases 20 (length mem)) as [?|Hle];
    [assumption|].
  exfalso. unfold msg_attrs, nlmsg_attr_span, slice in Hin.
  change (Z.to_nat (MNL_NLMSG_HDRLEN + MNL_ALIGN_w 64 sizeof_nfgenmsg))
    with 20%nat in Hin.
  rewrite skipn_all2, firstn_nil in Hin by exact Hle. exact Hin.
Qed.

(** What the walk of a successful [nfqueue_parse] recorded for a type. *)
Lemma nfqueue_parse_entry (mem : list byte) (w : world) (ret : Z)
  (attr : table) (e : Z) (k : Z) (a : nlattr) :
  mnl_attr_parse mem sizeof_nfgenmsg parse_nfqa_attr_cb (tb_empty, errno w)
  = (ret, (attr, e)) ->
  (ret <? 0) = false ->
  attr k = Some a ->
  last_of_type k a (msg_attrs mem)
  /\ Z.of_nat (length (mnl_attr_get_payload a)) = mnl_attr_get_payload_len a
  /\ (forall n, nfqa_payload_size k = Some n -> mnl_attr_get_payload_len a = n).
Proof.
  intros Hrun Hret Hk. rewrite mnl_attr_parse_run in Hrun.
  destruct (mnl_attr_run_last _ _ _ parse_nfqa_attr_cb_shape _ _ _ _ _ _ k a
              Hrun Hret Hk) as [[H0 _]|Hlast]; [discriminate H0|].
  split; [exact Hlast|].
  destruct (last_of_type_in _ _ _ Hlast) as [Hin Ht].
  destruct (mnl_attr_for_each_wf _ _ Hin) as [H4 Hl].
  split; [apply (attr_payload_length a H4 Hl)|].
  intros n Hn. rewrite parse_nfqa_attr_cb_form in Hrun.
  apply (check_nfqa_passed a n); [|rewrite Ht; exact Hn].
  apply (mnl_attr_run_checked _ _ _ check_nfqa_indep _ _ _ _ _ _ Hrun)
    with (k := k); [intros k' a' E; discriminate E | exact Hk].
Qed.

(** ** Properties of the packet assembler *)

(** X17 -- [nfqueue_parse], the metaheader: a successful call took the packet
    id and the hardware protocol from the last [NFQA_PACKET_HDR] attribute of
    the message, whose payload has exactly seven bytes, and the queue number
    from the [nfgenmsg]; each is the big-endian value of its bytes, whatever
    the byte order of the host. *)
Theorem nfqueue_parse_header_fields (mem : list byte) (w : world) :
  fst (fst (nfqueue_parse mem w)) = true ->
  let p := snd (fst (nfqueue_parse mem w)) in
  exists a_hdr,
    last_of_type NFQA_PACKET_HDR a_hdr (msg_attrs mem)
    /\ length (mnl_attr_get_payload a_hdr) = 7%nat
    /\ packet_id p = be_decode (slice 0 4 (mnl_attr_get_payload a_hdr))
    /\ hw_protocol p = be_decode (slice 4 2 (mnl_attr_get_payload a_hdr))
    /\ queue_num p = be_decode (slice 18 2 mem).
Proof.
  intros Hok. cbv zeta.
  destruct (nfqueue_parse_success_inv mem w Hok)
    as (ret & attr & e & a_hdr & a_pl & Hrun & Hret & Hh & Hp & Hl & Heq).
  destruct (nfqueue_parse_entry mem w ret attr e _ a_hdr Hrun Hret Hh)
    as (Hlast & Hlen & Hsize).
  specialize (Hsize 7 eq_refl). rewrite Hsize in Hlen.
  destruct (last_of_type_in _ _ _ Hlast) as [Hin _].
  pose proof (msg_attrs_length mem a_hdr Hin) as Hmem.
  rewrite Heq.
  destruct (nfqueue_parse_attrs_header mem attr (packet_init w)
              (set_errno e w) a_hdr a_pl Hh Hp Hl) as (Hq & Hid & Hhw & _).
  exists a_hdr. split; [exact Hlast|]. split; [lia|].
  rewrite Hid, Hhw, Hq. unfold ntohl, ntohs.
  change (Z.to_nat MNL_NLMSG_HDRLEN + 2)%nat with 18%nat.
  rewrite !be_decode_host by lia. auto.
Qed.

(** X18 -- [nfqueue_parse], the payload: a successful call copied the whole
    payload of the last [NFQA_PAYLOAD] attribute of the message into one
    fresh block, [packet->payload] being its address and
    [packet->payload_len], which is positive and below 2^16, its size; the
    heap holds that block and what it held before. *)
Theorem nfqueue_parse_payload_copy (mem : list byte) (w : world) :
  fst (fst (nfqueue_parse mem w)) = true ->
  let p := snd (fst (nfqueue_parse mem w)) in
  let w' := snd (nfqueue_parse mem w) in
  exists a_pl,
    last_of_type NFQA_PAYLOAD a_pl (msg_attrs mem)
    /\ payload_len p = Z.of_nat (length (mnl_attr_get_payload a_pl))
    /\ 0 < payload_len p < 2 ^ 16
    /\ payload p = Z.pos (next_block w)
    /\ heap w' = (payload p, mnl_attr_get_payload a_pl) :: heap w.
Proof.
  intros Hok. cbv zeta.
  destruct (nfqueue_parse_success_inv mem w Hok)
    as (ret & attr & e & a_hdr & a_pl & Hrun & Hret & Hh & Hp & Hl & Heq).
  destruct (nfqueue_parse_entry mem w ret attr e _ a_pl Hrun Hret Hp)
    as (Hlast & Hlen & _).
  rewrite Heq.
  destruct (nfqueue_parse_attrs_after_copy mem attr (packet_init w)
              (set_errno e w) a_hdr a_pl Hh Hp Hl) as (Hpay & Hplen & Hheap).
  exists a_pl. split; [exact Hlast|].
  rewrite Hplen, Hpay, Hheap. cbn [next_block set_errno heap].
  pose proof (payload_len_nonneg a_pl).
  assert (mnl_attr_get_payload_len a_pl < 2 ^ 16)
    by (unfold mnl_attr_get_payload_len, to_u16;
        apply Z.mod_pos_bound; reflexivity).
  split; [lia|]. split; [lia|]. split; [reflexivity|].
  rewrite <- Hlen, Nat2Z.id, firstn_all. reflexivity.
Qed.

(** X19 -- [nfqueue_parse] and [parse_nfqa_attr_cb], a known attribute of
    the wrong size: when some attribute of the message has a type within
    [NFQA_MAX] for which the callback demands a payload size (4 bytes for the
    32-bit attributes, 16 for the timestamp, 12 for the hardware address, 7
    for the metaheader) and its payload has another size, the call returns
    false with [errno = ERANGE], logs [mnl_attr_parse], allocates nothing and
    leaves the packet zero but for the two clock readings. *)
Theorem nfqueue_parse_wrong_size (mem : list byte) (w : world) (a : nlattr)
  (n : Z) :
  In a (msg_attrs mem) ->
  mnl_attr_get_type a <= to_u16 NFQA_MAX ->
  nfqa_payload_size (mnl_attr_get_type a) = Some n ->
  mnl_attr_get_payload_len a <> n ->
  nfqueue_parse mem w
  = (false, packet_init w,
     LOG_SYSERR "mnl_attr_parse" (set_errno ERANGE w)).
Proof.
  intros Hin Hmax Hn Hne.
  assert (Hbad : (fst (check_nfqa a 0) <? 0) = true).
  { rewrite check_nfqa_size, Hn.
    destruct (Z.eqb_spec (mnl_attr_get_payload_len a) n);
      [contradiction | reflexivity]. }
  destruct (mnl_attr_run_error (to_u16 NFQA_MAX) check_nfqa (msg_attrs mem) a
              check_nfqa_indep check_nfqa_range Hin Hmax Hbad MNL_CB_OK
              tb_empty (errno w)) as [tb Hrun].
  unfold nfqueue_parse. rewrite mnl_attr_parse_run, parse_nfqa_attr_cb_form.
  rewrite Hrun. reflexivity.
Qed.

Lemma nfqueue_parse_ct_flag (ct : nlattr) (p : nf_packet) (w : world) :
  has_conntrack (snd (fst (nfqueue_parse_ct ct p w))) = true.
Proof.
  unfold nfqueue_parse_ct.
  destruct (mnl_attr_parse_nested ct parse_cta_attr_cb (tb_empty, errno w))
    as [ret [attr1 e]].
  destruct (ret <? 0); [reflexivity|].
  set (pk := match attr1 CTA_MARK with Some _ => _ | None => _ end).
  assert (Hpk : has_conntrack pk = true).
  { subst pk. destruct (attr1 CTA_MARK), (attr1 CTA_STATUS), (attr1 CTA_ID);
      reflexivity. }
  clearbody pk.
  destruct (attr1 CTA_TUPLE_ORIG) as [t|].
  - destruct (read_addr_tuple t (orig pk) (set_errno e w)) as [[ok tu] w1].
    destruct ok; cbn [negb]; cbv beta iota; [|exact Hpk].
    destruct (attr1 CTA_TUPLE_REPLY) as [t'|]; [|exact Hpk].
    destruct (read_addr_tuple t' (reply (set_orig tu pk)) w1)
      as [[ok' tu'] w2].
    destruct ok'; exact Hpk.
  - cbn [negb]; cbv beta iota.
    destruct (attr1 CTA_TUPLE_REPLY) as [t'|]; [|exact Hpk].
    destruct (read_addr_tuple t' (reply pk) (set_errno e w))
      as [[ok' tu'] w2].
    destruct ok'; exact Hpk.
Qed.

(** The conntrack fields at the end of a call that got through the payload
    step. *)
Lemma nfqueue_parse_attrs_conntrack (mem : list byte) (attr : table)
  (p : nf_packet) (w : world) (a_hdr a_pl : nlattr) :
  attr NFQA_PACKET_HDR = Some a_hdr ->
  attr NFQA_PAYLOAD = Some a_pl ->
  mnl_attr_get_payload_len a_pl <> 0 ->
  let r := snd (fst (nfqueue_parse_attrs mem attr p w)) in
  (attr NFQA_CT = None ->
   has_conntrack r = false /\ has_connmark r = has_connmark p
   /\ conn_id r = conn_id p /\ conn_mark r = conn_mark p
   /\ conn_status r = conn_status p /\ orig r = orig p /\ reply r = reply p)
  /\ (attr NFQA_CT <> None -> has_conntrack r = true)
  /\ (attr NFQA_CT_INFO = None -> conn_state r = conn_state p)
  /\ (forall a, attr NFQA_CT_INFO = Some a ->
                fst (fst (nfqueue_parse_attrs mem attr p w)) = true ->
                conn_state r = ntohl (mnl_attr_get_u32 a)).
Proof.
  intros Hh Hp Hl. cbv zeta. unfold nfqueue_parse_attrs. rewrite Hh, Hp.
  packet_fields.
  destruct (Z.eqb_spec (mnl_attr_get_payload_len a_pl) 0) as [?|_];
    [contradiction|].
  unfold malloc_copy. cbv beta iota.
  destruct (attr NFQA_CT) as [ct|].
  - match goal with
    | |- context [nfqueue_parse_ct ct ?pa ?wa] =>
      pose proof (nfqueue_parse_ct_frame ct pa wa) as Hf;
      pose proof (nfqueue_parse_ct_flag ct pa wa) as Hfl;
      assert (Hcs : conn_state pa = conn_state p)
        by (break_timestamp; reflexivity);
      destruct (nfqueue_parse_ct ct pa wa) as [[ok pk] wk]
    end.
    cbn [fst snd] in Hf, Hfl.
    destruct Hf as (_ & _ & _ & _ & _ & _ & _ & _ & _ & F10).
    rewrite Hcs in F10.
    destruct ok; cbn [negb]; cbv beta iota;
      [destruct (attr NFQA_CT_INFO) as [ai|]|];
      cbn [fst snd]; packet_fields;
      (split; [intros E; discriminate E|]);
      (split; [intros _; exact Hfl|]);
      (split; [intros E; first [discriminate E | exact F10]|]);
      intros a E; try discriminate E.
    + intros _. injection E as <-. reflexivity.
    + intros E'. discriminate E'.
  - cbn [negb]. cbv beta iota.
    destruct (attr NFQA_CT_INFO) as [ai|]; cbn [fst snd];
      break_timestamp; packet_fields;
      (split; [intros _; repeat split; reflexivity|]);
      (split; [intros E; contradiction E; reflexivity|]);
      (split; [intros E; first [discriminate E | reflexivity]|]);
      intros a E; try discriminate E;
      intros _; injection E as <-; reflexivity.
Qed.

(** X20 -- [nfqueue_parse], conntrack presence: after a successful call,
    when the message has no [NFQA_CT] attribute [has_conntrack] and
    [has_connmark] are false and the connection id, mark, status and the two
    tuples are zero; when it has one (within [NFQA_MAX]) [has_conntrack] is
    true; and when it has no [NFQA_CT_INFO] attribute the connection state is
    zero. *)
Theorem nfqueue_parse_conntrack_presence (mem : list byte) (w : world) :
  fst (fst (nfqueue_parse mem w)) = true ->
  let p := snd (fst (nfqueue_parse mem w)) in
  (lacks_attr NFQA_CT (msg_attrs mem) ->
   has_conntrack p = false /\ has_connmark p = false
   /\ conn_id p = 0 /\ conn_mark p = 0 /\ conn_status p = 0
   /\ orig p = ip_tuple_zero /\ reply p = ip_tuple_zero)
  /\ (NFQA_CT <= to_u16 NFQA_MAX -> has_attr NFQA_CT (msg_attrs mem) ->
      has_conntrack p = true)
  /\ (lacks_attr NFQA_CT_INFO (msg_attrs mem) -> conn_state p = 0).
Proof.
  intros Hok. cbv zeta.
  destruct (nfqueue_parse_success_inv mem w Hok)
    as (ret & attr & e & a_hdr & a_pl & Hrun & Hret & Hh & Hp & Hl & Heq).
  rewrite Heq.
  destruct (nfqueue_parse_attrs_conntrack mem attr (packet_init w)
              (set_errno e w) a_hdr a_pl Hh Hp Hl) as (Hno & Hyes & Hst & _).
  rewrite mnl_attr_parse_run in Hrun.
  assert (Hlacks : forall k, lacks_attr k (msg_attrs mem) -> attr k = None).
  { intros k Hk. destruct (attr k) as [a|] eqn:E; [|reflexivity].
    destruct (mnl_attr_run_lookup _ _ _ parse_nfqa_attr_cb_shape _ _ _ _ _ _
                k a Hrun E) as [H0|[Hin Ht]]; [discriminate H0|].
    exfalso. exact (Hk a Hin Ht). }
  split; [|split].
  - intros Hk. exact (Hno (Hlacks _ Hk)).
  - intros Hmax Hhas. apply Hyes.
    apply (mnl_attr_run_recorded _ _ _ parse_nfqa_attr_cb_shape _ _ _ _ _ _
             NFQA_CT Hrun Hret Hmax).
    right. exact Hhas.
  - intros Hk. rewrite (Hst (Hlacks _ Hk)). reflexivity.
Qed.

(** X21 -- [nfqueue_parse], the timestamp: after a successful call, when the
    last [NFQA_TIMESTAMP] attribute of the message (within [NFQA_MAX]) has a
    seconds or a microseconds field that is not zero, [has_timestamp] is true
    and the two fields of [timestamp] are the big-endian values of the first
    and the second eight bytes of its payload, read as signed 64-bit
    integers. *)
Theorem nfqueue_parse_timestamp_value (mem : list byte) (w : world)
  (a_ts : nlattr) :
  NFQA_TIMESTAMP <= to_u16 NFQA_MAX ->
  fst (fst (nfqueue_parse mem w)) = true ->
  last_of_type NFQA_TIMESTAMP a_ts (msg_attrs mem) ->
  ~ zero_timestamp a_ts ->
  let p := snd (fst (nfqueue_parse mem w)) in
  let ts := mnl_attr_get_payload a_ts in
  length ts = 16%nat
  /\ has_timestamp p = true
  /\ tv_sec (timestamp p) = to_i64 (be_decode (slice 0 8 ts))
  /\ tv_usec (timestamp p) = to_i64 (be_decode (slice 8 8 ts)).
Proof.
  intros Hmax Hok Hlast Hnz. cbv zeta.
  destruct (nfqueue_parse_success_inv mem w Hok)
    as (ret & attr & e & a_hdr & a_pl & Hrun & Hret & Hh & Hp & Hl & Heq).
  assert (Hts : attr NFQA_TIMESTAMP = Some a_ts).
  { rewrite mnl_attr_parse_run in Hrun.
    exact (mnl_attr_run_entry_last _ _ _ parse_nfqa_attr_cb_shape _ _ _ _ _ _
             Hrun Hret Hmax Hlast). }
  destruct (nfqueue_parse_entry mem w ret attr e _ a_ts Hrun Hret Hts)
    as (_ & Hlen & Hsize).
  specialize (Hsize 16 eq_refl). rewrite Hsize in Hlen.
  rewrite Heq.
  destruct (nfqueue_parse_attrs_header mem attr (packet_init w)
              (set_errno e w) a_hdr a_pl Hh Hp Hl)
    as (_ & _ & _ & Hhas & Hval).
  rewrite Hts in Hhas.
  assert (Htrue : has_timestamp
                    (snd (fst (nfqueue_parse_attrs mem attr (packet_init w)
                                 (set_errno e w)))) = true).
  { rewrite Hhas. unfold zero_timestamp in Hnz.
    destruct (Z.eqb_spec (load 8 0 (mnl_attr_get_payload a_ts)) 0);
      destruct (Z.eqb_spec (load 8 8 (mnl_attr_get_payload a_ts)) 0);
      try reflexivity.
    exfalso. apply Hnz. split; assumption. }
  split; [lia|]. split; [exact Htrue|].
  rewrite (Hval a_ts Hts Htrue). cbn [tv_sec tv_usec].
  unfold __be64_to_cpu. rewrite !be_decode_host by lia. auto.
Qed.

Lemma be_decode_encode (n : nat) (z : Z) :
  be_decode (be_encode n z) = z mod 256 ^ Z.of_nat n.
Proof.
  unfold be_decode, be_encode. rewrite rev_involutive.
  apply le_decode_encode.
Qed.

(** X22 -- the connmark, there and back: the verdict datagram that
    [nfqueue_send_verdict_connmark] sends for a connmark in the unsigned
    32-bit range carries an [NFQA_CT] attribute from which the conntrack step
    of the assembler, [mnl_attr_parse_nested] with [parse_cta_attr_cb],
    reads that same mark: [has_connmark] is true and [conn_mark] is the
    connmark, on a host of either byte order. *)
Theorem connmark_round_trip (q id verdict connmark : Z) (w : world)
  (p : nf_packet) (w0 : world) :
  CTA_MARK <= to_u16 CTA_MAX ->
  0 <= connmark < 2 ^ 32 ->
  verdict_size connmark <= to_size_t SEND_BUF_LEN ->
  exists d ct,
    sent (snd (nfqueue_send_verdict_connmark q id verdict connmark w))
    = sent w ++ [d]
    /\ In ct (msg_attrs d) /\ mnl_attr_get_type ct = NFQA_CT
    /\ fst (fst (nfqueue_parse_ct ct p w0)) = true
    /\ has_conntrack (snd (fst (nfqueue_parse_ct ct p w0))) = true
    /\ has_connmark (snd (fst (nfqueue_parse_ct ct p w0))) = true
    /\ conn_mark (snd (fst (nfqueue_parse_ct ct p w0))) = connmark.
Proof.
  intros Hmax Hc Hcap.
  rewrite (nfqueue_send_verdict_connmark_fits q id verdict connmark w Hcap).
  rewrite send_result_sent.
  destruct (Z.leb_spec 0 connmark) as [_|?]; [|lia].
  set (mk := be_encode 4 (to_u32 connmark)).
  assert (Hmk : length mk = 4%nat) by apply be_encode_length.
  set (a := nlattr_head CTA_MARK mk).
  set (ct := nlattr_head (Z.lor NLA_F_NESTED NFQA_CT)
               (nlattr_image CTA_MARK mk)).
  eexists. exists ct. split; [reflexivity|].
  split.
  { rewrite msg_attrs_verdict_image
      by (intros mk' E; injection E as <-; exact Hmk).
    right. left. reflexivity. }
  split.
  { subst ct. rewrite nlattr_head_type;
      [reflexivity | vm_compute; split; [discriminate | reflexivity]]. }
  assert (Hty : mnl_attr_get_type a = CTA_MARK).
  { subst a. rewrite nlattr_head_type;
      [reflexivity | vm_compute; split; [discriminate | reflexivity]]. }
  assert (Hcb : forall e,
             parse_cta_attr_cb a (tb_empty, e)
             = (MNL_CB_OK, (tb_set tb_empty CTA_MARK a, e))).
  { intros e. unfold parse_cta_attr_cb, mnl_attr_type_valid. rewrite Hty.
    destruct (Z.gtb_spec CTA_MARK (to_u16 CTA_MAX)); [lia|].
    cbn [Z.ltb Z.compare].
    change (type_in CTA_MARK
              [CTA_TUPLE_ORIG; CTA_TUPLE_REPLY; CTA_COUNTERS_ORIG;
               CTA_COUNTERS_REPLY]) with false.
    change (type_in CTA_MARK
              [CTA_STATUS; CTA_TIMEOUT; CTA_MARK; CTA_SECMARK; CTA_ID])
      with true.
    cbv iota. unfold mnl_attr_validate.
    change (MNL_TYPE_U32 >=? MNL_TYPE_MAX) with false. cbv iota.
    rewrite __mnl_attr_validate_exact by reflexivity.
    subst a. rewrite nlattr_head_payload_len
      by (rewrite Hmk; reflexivity).
    rewrite Hmk. reflexivity. }
  assert (Hrun : mnl_attr_parse_nested ct parse_cta_attr_cb
                   (tb_empty, errno w0)
                 = (MNL_CB_OK, (tb_set tb_empty CTA_MARK a, errno w0))).
  { rewrite mnl_attr_parse_nested_run. subst ct.
    rewrite nested_attrs_single by (rewrite Hmk; reflexivity).
    fold a. cbn [mnl_attr_run]. rewrite Hcb. reflexivity. }
  assert (Hval : ntohl (mnl_attr_get_u32 a) = connmark).
  { unfold ntohl, mnl_attr_get_u32, fixed_attr_get_u32. subst a.
    rewrite nlattr_head_payload.
    rewrite be_decode_host by (rewrite Hmk; lia).
    unfold slice. cbn [skipn]. rewrite <- Hmk, firstn_all. subst mk.
    rewrite be_decode_encode. change (256 ^ Z.of_nat 4) with (2 ^ 32).
    unfold to_u32. rewrite Z.mod_mod by discriminate.
    apply Z.mod_small. exact Hc. }
  unfold nfqueue_parse_ct. rewrite Hrun.
  change (MNL_CB_OK <? 0) with false. cbv iota.
  change (tb_set tb_empty CTA_MARK a CTA_ID) with (@None nlattr).
  change (tb_set tb_empty CTA_MARK a CTA_STATUS) with (@None nlattr).
  change (tb_set tb_empty CTA_MARK a CTA_MARK) with (Some a).
  change (tb_set tb_empty CTA_MARK a CTA_TUPLE_ORIG) with (@None nlattr).
  change (tb_set tb_empty CTA_MARK a CTA_TUPLE_REPLY) with (@None nlattr).
  cbn [negb fst snd]. packet_fields. rewrite Hval. auto.
Qed.

(** ** More on the address tuples *)

Lemma check_ip_size (a : nlattr) (e : Z) :
  check_ip a e
  = match ip_payload_size (mnl_attr_get_type a) with
    | Some n =>
      if mnl_attr_get_payload_len a =? n then (0, e) else (-1, ERANGE)
    | None => (0, e)
    end.
Proof.
  unfold check_ip, ip_payload_size.
  destruct (type_in _ [CTA_IP_V4_SRC; CTA_IP_V4_DST]).
  - unfold mnl_attr_validate.
    change (MNL_TYPE_U32 >=? MNL_TYPE_MAX) with false. cbv iota.
    apply __mnl_attr_validate_exact; reflexivity.
  - destruct (type_in _ _); [|reflexivity].
    unfold mnl_attr_validate2.
    change (MNL_TYPE_BINARY >=? MNL_TYPE_MAX) with false. cbv iota.
    apply __mnl_attr_validate_exact; reflexivity.
Qed.

Lemma check_proto_size (a : nlattr) (e : Z) :
  check_proto a e
  = match proto_payload_size (mnl_attr_get_type a) with
    | Some n =>
      if mnl_attr_get_payload_len a =? n then (0, e) else (-1, ERANGE)
    | None => (0, e)
    end.
Proof.
  unfold check_proto, proto_payload_size.
  destruct (type_in _ [CTA_PROTO_NUM; CTA_PROTO_ICMP_TYPE;
                       CTA_PROTO_ICMP_CODE]).
  - unfold mnl_attr_validate.
    change (MNL_TYPE_U8 >=? MNL_TYPE_MAX) with false. cbv iota.
    apply __mnl_attr_validate_exact; reflexivity.
  - destruct (type_in _ _); [|reflexivity].
    unfold mnl_attr_validate.
    change (MNL_TYPE_U16 >=? MNL_TYPE_MAX) with false. cbv iota.
    apply __mnl_attr_validate_exact; reflexivity.
Qed.

Lemma parse_tuple_cb_shape : cb_shape (to_u16 CTA_TUPLE_MAX) parse_tuple_cb.
Proof. rewrite parse_tuple_cb_form. apply cb_form_shape. Qed.

Lemma parse_ip_cb_shape : cb_shape (to_u16 CTA_IP_MAX) parse_ip_cb.
Proof. rewrite parse_ip_cb_form. apply cb_form_shape. Qed.

Lemma parse_proto_cb_shape : cb_shape (to_u16 CTA_PROTO_MAX) parse_proto_cb.
Proof. rewrite parse_proto_cb_form. apply cb_form_shape. Qed.

(** What a nested walk that did not fail recorded for a type: the last
    attribute of that type, with the payload its header gives. *)
Lemma nested_entry (max : Z) (cb : mnl_attr_cb_t) (nested : nlattr)
  (e : Z) (ret : Z) (tb : table) (e' : Z) (k : Z) (a : nlattr) :
  cb_shape max cb ->
  mnl_attr_parse_nested nested cb (tb_empty, e) = (ret, (tb, e')) ->
  (ret <? 0) = false ->
  tb k = Some a ->
  last_of_type k a (nested_attrs nested)
  /\ Z.of_nat (length (mnl_attr_get_payload a)) = mnl_attr_get_payload_len a.
Proof.
  intros Hcb Hrun Hret Hk. rewrite mnl_attr_parse_nested_run in Hrun.
  destruct (mnl_attr_run_last _ _ _ Hcb _ _ _ _ _ _ k a Hrun Hret Hk)
    as [[H0 _]|Hlast]; [discriminate H0|].
  split; [exact Hlast|].
  destruct (last_of_type_in _ _ _ Hlast) as [Hin _].
  destruct (mnl_attr_for_each_wf _ _ Hin) as [H4 Hl].
  apply (attr_payload_length a H4 Hl).
Qed.

Lemma nested_absent (max : Z) (cb : mnl_attr_cb_t) (nested : nlattr)
  (e : Z) (ret : Z) (tb : table) (e' : Z) (k : Z) :
  cb_shape max cb ->
  mnl_attr_parse_nested nested cb (tb_empty, e) = (ret, (tb, e')) ->
  lacks_attr k (nested_attrs nested) -> tb k = None.
Proof.
  intros Hcb Hrun Hk. rewrite mnl_attr_parse_nested_run in Hrun.
  destruct (tb k) as [a|] eqn:E; [|reflexivity].
  destruct (mnl_attr_run_lookup _ _ _ Hcb _ _ _ _ _ _ k a Hrun E)
    as [H0|[Hin Ht]]; [discriminate H0|].
  exfalso. exact (Hk a Hin Ht).
Qed.

(** A walk over attributes that all pass the check does not fail. *)
Lemma mnl_attr_run_ok (max : Z) (check : nlattr -> Z -> Z * Z)
  (attrs : list nlattr) :
  (forall a e, In a attrs -> mnl_attr_get_type a <= max ->
               (fst (check a e) <? 0) = false) ->
  forall tb0 e,
    fst (mnl_attr_run (cb_form max check) attrs MNL_CB_OK (tb0, e))
    = MNL_CB_OK.
Proof.
  induction attrs as [|x xs IH]; intros Hall tb0 e; [reflexivity|].
  cbn [mnl_attr_run]. unfold cb_form at 1. unfold mnl_attr_type_valid.
  destruct (Z.gtb_spec (mnl_attr_get_type x) max) as [Hgt|Hle]; cbn.
  - apply IH. intros a e0 Hin. apply Hall. right. exact Hin.
  - pose proof (Hall x e (or_introl eq_refl) Hle) as Hx.
    destruct (check x e) as [rc ec]. cbn [fst] in Hx. rewrite Hx. cbn.
    apply IH. intros a e0 Hin. apply Hall. right. exact Hin.
Qed.

(** [read_ip_addr] on an attribute, by the version met before. *)
Lemma read_ip_addr_v4_first (a : nlattr) (ip : ip_address_t) (w : world) :
  read_ip_addr (Some a) AF_INET ip 0 w
  = (true, store 0 (slice 0 4 (mnl_attr_get_payload a)) ip_zero, IPV4, w).
Proof. reflexivity. Qed.

Lemma read_ip_addr_v4_same (a : nlattr) (ip : ip_address_t) (w : world) :
  read_ip_addr (Some a) AF_INET ip IPV4 w
  = (true, store 0 (slice 0 4 (mnl_attr_get_payload a)) ip_zero, IPV4, w).
Proof. reflexivity. Qed.

Lemma read_ip_addr_v6_first (a : nlattr) (ip : ip_address_t) (w : world) :
  read_ip_addr (Some a) AF_INET6 ip 0 w
  = (true, store 0 (slice 0 16 (mnl_attr_get_payload a)) ip, IPV6, w).
Proof. reflexivity. Qed.

Lemma read_ip_addr_v6_same (a : nlattr) (ip : ip_address_t) (w : world) :
  read_ip_addr (Some a) AF_INET6 ip IPV6 w
  = (true, store 0 (slice 0 16 (mnl_attr_get_payload a)) ip, IPV6, w).
Proof. reflexivity. Qed.

Lemma read_ip_addr_v6_after_v4 (a : nlattr) (ip : ip_address_t) (w : world) :
  fst (fst (fst (read_ip_addr (Some a) AF_INET6 ip IPV4 w))) = false.
Proof. reflexivity. Qed.

Lemma store_whole (bs old : list byte) :
  length old = length bs -> store 0 bs old = bs.
Proof.
  intros H. unfold store. cbn [firstn Nat.sub repeat app Nat.add].
  rewrite skipn_all2 by lia. apply app_nil_r.
Qed.

Lemma store_v4 (addr : list byte) :
  length addr = 4%nat ->
  store 0 (slice 0 4 addr) ip_zero = addr ++ repeat x00 12.
Proof.
  intros H. unfold slice. cbn [skipn]. rewrite <- H, firstn_all.
  unfold store. cbn [firstn Nat.sub repeat app Nat.add]. rewrite H.
  reflexivity.
Qed.

Lemma store_v6 (addr ip : list byte) :
  length addr = 16%nat -> length ip = 16%nat ->
  store 0 (slice 0 16 addr) ip = addr.
Proof.
  intros H Hip. unfold slice. cbn [skipn]. rewrite <- H, firstn_all.
  apply store_whole. congruence.
Qed.

Lemma read_ip_addr_v6_mismatch (a : nlattr) (ip : ip_address_t) (w : world) :
  read_ip_addr (Some a) AF_INET6 ip IPV4 w
  = (false, store 0 (slice 0 16 (mnl_attr_get_payload a)) ip, IPV4,
     LOG LOG_ERR "Packet with mismatched IP versions" w).
Proof. reflexivity. Qed.

Ltac tuple_fields :=
  cbn [ip_version src dst src_port dst_port set_ip_version set_src set_dst
       set_src_port set_dst_port fst snd].

Ltac step_ip H :=
  first [ rewrite read_ip_addr_absent in H
        | rewrite read_ip_addr_v4_first in H
        | rewrite read_ip_addr_v4_same in H
        | rewrite read_ip_addr_v6_first in H
        | rewrite read_ip_addr_v6_same in H
        | rewrite read_ip_addr_v6_mismatch in H ];
  cbv beta iota zeta in H;
  cbn [ip_version src dst set_ip_version set_src set_dst] in H.

(** ** Properties of the address tuples *)

(** X23 -- [read_addr_tuple] with [read_ip_addr], the addresses: after a
    successful call on a tuple object whose version was not set, with the
    last [CTA_TUPLE_IP] block of the tuple attribute, an IPv4 source or
    destination attribute of the block gives version 4 and an address made
    of its four payload bytes followed by twelve zero bytes; an IPv6 one
    gives version 6 and its sixteen payload bytes; each address comes from
    the last attribute of its type. *)
Theorem read_addr_tuple_addresses (t : nlattr) (tuple : ip_tuple)
  (w : world) (ipb : nlattr) :
  CTA_TUPLE_IP <= to_u16 CTA_TUPLE_MAX ->
  CTA_IP_V6_DST <= to_u16 CTA_IP_MAX ->
  ip_version tuple = 0 ->
  length (src tuple) = 16%nat -> length (dst tuple) = 16%nat ->
  fst (fst (read_addr_tuple t tuple w)) = true ->
  last_of_type CTA_TUPLE_IP ipb (nested_attrs t) ->
  let tu := snd (fst (read_addr_tuple t tuple w)) in
  (forall a, last_of_type CTA_IP_V4_SRC a (nested_attrs ipb) ->
             ip_version tu = IPV4
             /\ src tu = mnl_attr_get_payload a ++ repeat x00 12
             /\ length (mnl_attr_get_payload a) = 4%nat)
  /\ (forall a, last_of_type CTA_IP_V4_DST a (nested_attrs ipb) ->
                ip_version tu = IPV4
                /\ dst tu = mnl_attr_get_payload a ++ repeat x00 12
                /\ length (mnl_attr_get_payload a) = 4%nat)
  /\ (forall a, last_of_type CTA_IP_V6_SRC a (nested_attrs ipb) ->
                ip_version tu = IPV6 /\ src tu = mnl_attr_get_payload a
                /\ length (mnl_attr_get_payload a) = 16%nat)
  /\ (forall a, last_of_type CTA_IP_V6_DST a (nested_attrs ipb) ->
                ip_version tu = IPV6 /\ dst tu = mnl_attr_get_payload a
                /\ length (mnl_attr_get_payload a) = 16%nat).
Proof.
  intros Hm2 Hm3 Hver Hls Hld Hok Hipb. cbv zeta.
  remember (read_addr_tuple t tuple w) as R eqn:HR.
  unfold read_addr_tuple in HR.
  destruct (mnl_attr_parse_nested t parse_tuple_cb (tb_empty, errno w))
    as [ret [attr2 e]] eqn:Hrun2.
  destruct (ret <? 0) eqn:Hret2; [subst R; discriminate Hok|].
  assert (HIP : attr2 CTA_TUPLE_IP = Some ipb).
  { rewrite mnl_attr_parse_nested_run in Hrun2.
    exact (mnl_attr_run_entry_last _ _ _ parse_tuple_cb_shape _ _ _ _ _ _
             Hrun2 Hret2 Hm2 Hipb). }
  rewrite HIP in HR.
  destruct (mnl_attr_parse_nested ipb parse_ip_cb
              (tb_empty, errno (set_errno e w)))
    as [ret3 [attr3 e3]] eqn:Hrun3.
  destruct (ret3 <? 0) eqn:Hret3; [subst R; discriminate Hok|].
  assert (Hsz : forall k a n,
             attr3 k = Some a -> ip_payload_size k = Some n ->
             length (mnl_attr_get_payload a) = Z.to_nat n).
  { intros k a n Hk Hn.
    destruct (nested_entry _ _ _ _ _ _ _ k a parse_ip_cb_shape Hrun3 Hret3 Hk)
      as [Hl Hlen].
    destruct (last_of_type_in _ _ _ Hl) as [_ Ht].
    rewrite mnl_attr_parse_nested_run, parse_ip_cb_form in Hrun3.
    assert (Hc : (fst (check_ip a 0) <? 0) = false).
    { apply (mnl_attr_run_checked _ _ _ check_ip_indep _ _ _ _ _ _ Hrun3)
        with (k := k); [intros k' a' E; discriminate E | exact Hk]. }
    rewrite check_ip_size, Ht, Hn in Hc.
    destruct (Z.eqb_spec (mnl_attr_get_payload_len a) n);
      [|discriminate Hc].
    lia. }
  assert (Hlast : forall k a,
             k <= CTA_IP_V6_DST -> last_of_type k a (nested_attrs ipb) ->
             attr3 k = Some a).
  { intros k a Hk Hl. rewrite mnl_attr_parse_nested_run in Hrun3.
    apply (mnl_attr_run_entry_last _ _ _ parse_ip_cb_shape _ _ _ _ _ _
             Hrun3 Hret3); [lia | exact Hl]. }
  pose proof (fun a => Hlast CTA_IP_V4_SRC a ltac:(discriminate)) as L1.
  pose proof (fun a => Hlast CTA_IP_V4_DST a ltac:(discriminate)) as L2.
  pose proof (fun a => Hlast CTA_IP_V6_SRC a ltac:(discriminate)) as L3.
  pose proof (fun a => Hlast CTA_IP_V6_DST a ltac:(discriminate)) as L4.
  pose proof (fun a H => Hsz CTA_IP_V4_SRC a 4 H eq_refl) as S1.
  pose proof (fun a H => Hsz CTA_IP_V4_DST a 4 H eq_refl) as S2.
  pose proof (fun a H => Hsz CTA_IP_V6_SRC a 16 H eq_refl) as S3.
  pose proof (fun a H => Hsz CTA_IP_V6_DST a 16 H eq_refl) as S4.
  clear Hsz Hlast Hrun2 Hrun3.
  rewrite Hver in HR.
  destruct (attr3 CTA_IP_V4_SRC) as [a1|];
    destruct (attr3 CTA_IP_V4_DST) as [a2|];
    destruct (attr3 CTA_IP_V6_SRC) as [a3|];
    destruct (attr3 CTA_IP_V6_DST) as [a4|];
    do 4 step_ip HR;
    cbn [andb negb] in HR; cbv beta iota zeta in HR;
    try (subst R; discriminate Hok);
    (destruct (attr2 CTA_TUPLE_PROTO) as [prb|];
     [ destruct (mnl_attr_parse_nested prb parse_proto_cb _)
         as [ret4 [attr4 e4]];
       destruct (ret4 <? 0); [subst R; discriminate Hok|];
       destruct (attr4 CTA_PROTO_SRC_PORT);
       destruct (attr4 CTA_PROTO_DST_PORT)
     | ]);
    subst R; tuple_fields;
    (split; [|split; [|split]]);
    intros a Hl;
    first [ apply L1 in Hl | apply L2 in Hl | apply L3 in Hl
          | apply L4 in Hl ];
    try discriminate Hl;
    injection Hl as <-;
    (split; [reflexivity|]);
    first [ pose proof (S1 _ eq_refl) as Hs;
            split; [apply store_v4; exact Hs | exact Hs]
          | pose proof (S2 _ eq_refl) as Hs;
            split; [apply store_v4; exact Hs | exact Hs]
          | pose proof (S3 _ eq_refl) as Hs;
            split; [apply store_v6; [exact Hs | assumption] | exact Hs]
          | pose proof (S4 _ eq_refl) as Hs;
            split; [apply store_v6; [exact Hs | assumption] | exact Hs] ].
Qed.

Lemma ntohs_get_u16 (a : nlattr) :
  length (mnl_attr_get_payload a) = 2%nat ->
  ntohs (mnl_attr_get_u16 a) = be_decode (mnl_attr_get_payload a).
Proof.
  intros H. unfold ntohs, mnl_attr_get_u16, fixed_attr_get_u16.
  rewrite be_decode_host by lia.
  unfold slice. cbn [skipn]. rewrite <- H, firstn_all. reflexivity.
Qed.

(** X24 -- [read_addr_tuple], the ports: after a successful call, with the
    last [CTA_TUPLE_PROTO] block of the tuple attribute, a port attribute of
    the block has a payload of two bytes and the port of the tuple is their
    big-endian value, taken from the last attribute of its type; a port the
    block does not carry keeps the value the tuple object had. *)
Theorem read_addr_tuple_ports (t : nlattr) (tuple : ip_tuple)
  (w : world) (prb : nlattr) :
  CTA_TUPLE_PROTO <= to_u16 CTA_TUPLE_MAX ->
  CTA_PROTO_DST_PORT <= to_u16 CTA_PROTO_MAX ->
  fst (fst (read_addr_tuple t tuple w)) = true ->
  last_of_type CTA_TUPLE_PROTO prb (nested_attrs t) ->
  let tu := snd (fst (read_addr_tuple t tuple w)) in
  (forall a, last_of_type CTA_PROTO_SRC_PORT a (nested_attrs prb) ->
             src_port tu = be_decode (mnl_attr_get_payload a)
             /\ length (mnl_attr_get_payload a) = 2%nat)
  /\ (forall a, last_of_type CTA_PROTO_DST_PORT a (nested_attrs prb) ->
                dst_port tu = be_decode (mnl_attr_get_payload a)
                /\ length (mnl_attr_get_payload a) = 2%nat)
  /\ (lacks_attr CTA_PROTO_SRC_PORT (nested_attrs prb) ->
      src_port tu = src_port tuple)
  /\ (lacks_attr CTA_PROTO_DST_PORT (nested_attrs prb) ->
      dst_port tu = dst_port tuple).
Proof.
  intros Hm2 Hm3 Hok Hprb. cbv zeta.
  remember (read_addr_tuple t tuple w) as R eqn:HR.
  unfold read_addr_tuple in HR.
  destruct (mnl_attr_parse_nested t parse_tuple_cb (tb_empty, errno w))
    as [ret [attr2 e]] eqn:Hrun2.
  destruct (ret <? 0) eqn:Hret2; [subst R; discriminate Hok|].
  assert (HPR : attr2 CTA_TUPLE_PROTO = Some prb).
  { rewrite mnl_attr_parse_nested_run in Hrun2.
    exact (mnl_attr_run_entry_last _ _ _ parse_tuple_cb_shape _ _ _ _ _ _
             Hrun2 Hret2 Hm2 Hprb). }
  rewrite HPR in HR. clear Hrun2 HPR.
  assert (Hports :
    forall (tu1 : ip_tuple) (w1 : world) (R1 : bool * ip_tuple * world),
      R1 = (let '(ret, (attr3, e)) :=
              mnl_attr_parse_nested prb parse_proto_cb (tb_empty, errno w1) in
            let w := set_errno e w1 in
            if ret <? 0 then (false, tu1, w)
            else
              let tuple :=
                match attr3 CTA_PROTO_SRC_PORT with
                | Some a => set_src_port (ntohs (mnl_attr_get_u16 a)) tu1
                | None => tu1
                end in
              let tuple :=
                match attr3 CTA_PROTO_DST_PORT with
                | Some a => set_dst_port (ntohs (mnl_attr_get_u16 a)) tuple
                | None => tuple
                end in
              (true, tuple, w)) ->
      fst (fst R1) = true ->
      (forall a, last_of_type CTA_PROTO_SRC_PORT a (nested_attrs prb) ->
                 src_port (snd (fst R1)) = be_decode (mnl_attr_get_payload a)
                 /\ length (mnl_attr_get_payload a) = 2%nat)
      /\ (forall a, last_of_type CTA_PROTO_DST_PORT a (nested_attrs prb) ->
                    dst_port (snd (fst R1))
                    = be_decode (mnl_attr_get_payload a)
                    /\ length (mnl_attr_get_payload a) = 2%nat)
      /\ (lacks_attr CTA_PROTO_SRC_PORT (nested_attrs prb) ->
          src_port (snd (fst R1)) = src_port tu1)
      /\ (lacks_attr CTA_PROTO_DST_PORT (nested_attrs prb) ->
          dst_port (snd (fst R1)) = dst_port tu1)).
  { intros tu1 w1 R1 HR1 Hok1.
    destruct (mnl_attr_parse_nested prb parse_proto_cb (tb_empty, errno w1))
      as [ret4 [attr4 e4]] eqn:Hrun4.
    destruct (ret4 <? 0) eqn:Hret4; [subst R1; discriminate Hok1|].
    assert (Hsz : forall k a,
               attr4 k = Some a -> proto_payload_size k = Some 2 ->
               length (mnl_attr_get_payload a) = 2%nat).
    { intros k a Hk Hn.
      destruct (nested_entry _ _ _ _ _ _ _ k a parse_proto_cb_shape
                  Hrun4 Hret4 Hk) as [Hl Hlen].
      destruct (last_of_type_in _ _ _ Hl) as [_ Ht].
      pose proof Hrun4 as Hrun.
      rewrite mnl_attr_parse_nested_run, parse_proto_cb_form in Hrun.
      assert (Hc : (fst (check_proto a 0) <? 0) = false).
      { apply (mnl_attr_run_checked _ _ _ check_proto_indep _ _ _ _ _ _ Hrun)
          with (k := k); [intros k' a' E; discriminate E | exact Hk]. }
      rewrite check_proto_size, Ht, Hn in Hc.
      destruct (Z.eqb_spec (mnl_attr_get_payload_len a) 2);
        [|discriminate Hc].
      lia. }
    assert (Hlast : forall k a,
               k <= CTA_PROTO_DST_PORT ->
               last_of_type k a (nested_attrs prb) -> attr4 k = Some a).
    { intros k a Hk Hl. pose proof Hrun4 as Hrun.
      rewrite mnl_attr_parse_nested_run in Hrun.
      apply (mnl_attr_run_entry_last _ _ _ parse_proto_cb_shape _ _ _ _ _ _
               Hrun Hret4); [lia | exact Hl]. }
    pose proof (nested_absent _ _ _ _ _ _ _ CTA_PROTO_SRC_PORT
                  parse_proto_cb_shape Hrun4) as N1.
    pose proof (nested_absent _ _ _ _ _ _ _ CTA_PROTO_DST_PORT
                  parse_proto_cb_shape Hrun4) as N2.
    pose proof (fun a => Hlast CTA_PROTO_SRC_PORT a ltac:(discriminate)) as L1.
    pose proof (fun a => Hlast CTA_PROTO_DST_PORT a ltac:(discriminate)) as L2.
    pose proof (fun a H => Hsz CTA_PROTO_SRC_PORT a H eq_refl) as S1.
    pose proof (fun a H => Hsz CTA_PROTO_DST_PORT a H eq_refl) as S2.
    clear Hsz Hlast Hrun4.
    destruct (attr4 CTA_PROTO_SRC_PORT) as [a1|];
      destruct (attr4 CTA_PROTO_DST_PORT) as [a2|];
      subst R1; tuple_fields;
      (split; [|split; [|split]]);
      try (intros a Hl;
           first [ apply L1 in Hl | apply L2 in Hl ];
           try discriminate Hl;
           injection Hl as <-;
           first [ split; [apply ntohs_get_u16, S1; reflexivity
                          | apply S1; reflexivity]
                 | split; [apply ntohs_get_u16, S2; reflexivity
                          | apply S2; reflexivity] ]);
      intros Hl;
      first [ apply N1 in Hl | apply N2 in Hl ];
      first [ discriminate Hl | reflexivity ]. }
  destruct (attr2 CTA_TUPLE_IP) as [ipb|].
  - destruct (mnl_attr_parse_nested ipb parse_ip_cb _) as [ret3 [attr3 e3]].
    destruct (ret3 <? 0); [subst R; discriminate Hok|].
    destruct (read_ip_addr (attr3 CTA_IP_V4_SRC) _ _ _ _) as [[[s1 i1] v1] w1].
    destruct (read_ip_addr (attr3 CTA_IP_V4_DST) _ _ _ _) as [[[s2 i2] v2] w2].
    destruct (read_ip_addr (attr3 CTA_IP_V6_SRC) _ _ _ _) as [[[s3 i3] v3] w3].
    destruct (read_ip_addr (attr3 CTA_IP_V6_DST) _ _ _ _) as [[[s4 i4] v4] w4].
    cbv zeta in HR.
    destruct (negb (true && s1 && s2 && s3 && s4));
      [subst R; discriminate Hok|].
    cbn [negb] in HR. cbv iota in HR.
    exact (Hports _ _ R HR Hok).
  - cbn [negb] in HR. cbv iota in HR.
    exact (Hports _ _ R HR Hok).
Qed.

End Nfqueue.

(** * The code on the sample messages

    A little-endian host, the attribute ranges of a current kernel
    ([NFQA_MAX = 22], [CTA_MAX = 27], [CTA_TUPLE_MAX = 3], [CTA_IP_MAX = 4],
    [CTA_PROTO_MAX = 9]) and a send buffer of 8192 bytes. *)

Ltac in_cases H :=
  vm_compute in H;
  repeat match type of H with
         | _ \/ _ => destruct H as [H|H]
         end;
  try contradiction H; subst.

(** An error message followed by a packet event: the call never returns, so
    the packet event is never delivered. *)
Lemma nfqueue_next_control_msg_never_returns_witness :
  current_msg_ok LittleEndian (msg_error ++ msg_event) buf_error_event
  /\ dump_intr LittleEndian
       (cursor_mem (msg_error ++ msg_event) buf_error_event) = false
  /\ hdr_nlmsg_type LittleEndian
       (cursor_mem (msg_error ++ msg_event) buf_error_event)
     < NLMSG_MIN_TYPE
  /\ nfqueue_next LittleEndian 22 27 3 4 9 1000 buf_error_event
       nf_packet_zero world0 = None.
Proof.
  assert (H1 : current_msg_ok LittleEndian (msg_error ++ msg_event)
                 buf_error_event) by (split; reflexivity).
  assert (H2 : dump_intr LittleEndian
                 (cursor_mem (msg_error ++ msg_event) buf_error_event)
               = false) by reflexivity.
  assert (H3 : hdr_nlmsg_type LittleEndian
                 (cursor_mem (msg_error ++ msg_event) buf_error_event)
               < NLMSG_MIN_TYPE) by reflexivity.
  exact (conj H1 (conj H2 (conj H3
           (nfqueue_next_control_msg_never_returns LittleEndian 22 27 3 4 9
              1000 _ _ nf_packet_zero world0 H1 H2 H3)))).
Defined.

Lemma nfqueue_next_dump_intr_witness :
  current_msg_ok LittleEndian msg_dump_intr buf_dump_intr
  /\ dump_intr LittleEndian (cursor_mem msg_dump_intr buf_dump_intr) = true
  /\ nfqueue_next LittleEndian 22 27 3 4 9 1 buf_dump_intr nf_packet_zero
       world0
     = Some (Returns (IO_ERROR, buf_dump_intr, nf_packet_zero,
                      LOG LOG_ERR "Netlink dump interrupted" world0)).
Proof.
  assert (H1 : current_msg_ok LittleEndian msg_dump_intr buf_dump_intr)
    by (split; reflexivity).
  assert (H2 : dump_intr LittleEndian
                 (cursor_mem msg_dump_intr buf_dump_intr) = true)
    by reflexivity.
  exact (conj H1 (conj H2
           (nfqueue_next_dump_intr LittleEndian 22 27 3 4 9 0 _ _
              nf_packet_zero world0 H1 H2))).
Defined.

Lemma nfqueue_parse_mandatory_attrs_witness :
  lacks_attr LittleEndian NFQA_PACKET_HDR (msg_attrs LittleEndian msg_no_hdr)
  /\ fst (fst (nfqueue_parse LittleEndian 22 27 3 4 9 msg_no_hdr world0))
     = false.
Proof.
  assert (H1 : lacks_attr LittleEndian NFQA_PACKET_HDR
                 (msg_attrs LittleEndian msg_no_hdr)).
  { intros a Hin. in_cases Hin. vm_compute. discriminate. }
  exact (conj H1
           (proj1 (nfqueue_parse_mandatory_attrs LittleEndian 22 27 3 4 9
                     msg_no_hdr world0) H1)).
Defined.

Lemma nfqueue_next_parse_error_repeats_witness :
  current_event LittleEndian msg_no_hdr buf_no_hdr
  /\ fst (fst (nfqueue_parse LittleEndian 22 27 3 4 9
                 (cursor_mem msg_no_hdr buf_no_hdr) world0)) = false
  /\ nfqueue_next LittleEndian 22 27 3 4 9 1 buf_no_hdr nf_packet_zero world0
     = Some (Returns
               (IO_ERROR, buf_no_hdr,
                snd (fst (nfqueue_parse LittleEndian 22 27 3 4 9
                            (cursor_mem msg_no_hdr buf_no_hdr) world0)),
                snd (nfqueue_parse LittleEndian 22 27 3 4 9
                       (cursor_mem msg_no_hdr buf_no_hdr) world0)))
  /\ forall fuel' packet' w',
       nfqueue_next LittleEndian 22 27 3 4 9 (S fuel') buf_no_hdr packet' w'
       = Some (Returns
                 (IO_ERROR, buf_no_hdr,
                  snd (fst (nfqueue_parse LittleEndian 22 27 3 4 9
                              (cursor_mem msg_no_hdr buf_no_hdr) w')),
                  snd (nfqueue_parse LittleEndian 22 27 3 4 9
                         (cursor_mem msg_no_hdr buf_no_hdr) w'))).
Proof.
  assert (H1 : current_event LittleEndian msg_no_hdr buf_no_hdr)
    by (repeat split; vm_compute; congruence).
  assert (H2 : fst (fst (nfqueue_parse LittleEndian 22 27 3 4 9
                           (cursor_mem msg_no_hdr buf_no_hdr) world0))
               = false) by reflexivity.
  exact (conj H1 (conj H2
           (nfqueue_next_parse_error_repeats LittleEndian 22 27 3 4 9 0 _ _
              nf_packet_zero world0 H1 H2))).
Defined.

(** [msg_mixed] has both mandatory attributes and four bytes of payload, and
    fails in the conntrack step: the packet keeps the block. *)
Lemma nfqueue_parse_failure_keeps_payload_witness :
  (fst (mnl_attr_parse LittleEndian msg_mixed sizeof_nfgenmsg
          (parse_nfqa_attr_cb LittleEndian 22) (tb_empty, errno world0)) <? 0)
  = false
  /\ fst (snd (mnl_attr_parse LittleEndian msg_mixed sizeof_nfgenmsg
                 (parse_nfqa_attr_cb LittleEndian 22)
                 (tb_empty, errno world0))) NFQA_PACKET_HDR
     = Some [x0b; x00; x01; x00; x00; x00; x00; x2c; x08; x00; x01]
  /\ fst (snd (mnl_attr_parse LittleEndian msg_mixed sizeof_nfgenmsg
                 (parse_nfqa_attr_cb LittleEndian 22)
                 (tb_empty, errno world0))) NFQA_PAYLOAD
     = Some [x08; x00; x0a; x00; x45; x00; x00; x14]
  /\ mnl_attr_get_payload_len LittleEndian
       [x08; x00; x0a; x00; x45; x00; x00; x14] <> 0
  /\ fst (fst (nfqueue_parse LittleEndian 22 27 3 4 9 msg_mixed world0))
     = false
  /\ payload (snd (fst (nfqueue_parse LittleEndian 22 27 3 4 9 msg_mixed
                          world0))) = 1
  /\ payload_len (snd (fst (nfqueue_parse LittleEndian 22 27 3 4 9 msg_mixed
                              world0))) = 4
  /\ heap (snd (nfqueue_parse LittleEndian 22 27 3 4 9 msg_mixed world0))
     = [(1, [x45; x00; x00; x14])]
  /\ nfqueue_next LittleEndian 22 27 3 4 9 1 buf_mixed nf_packet_zero world0
     = Some (Returns
               (IO_ERROR, buf_mixed,
                snd (fst (nfqueue_parse LittleEndian 22 27 3 4 9 msg_mixed
                            world0)),
                snd (nfqueue_parse LittleEndian 22 27 3 4 9 msg_mixed
                       world0))).
Proof.
  pose (R := mnl_attr_parse LittleEndian msg_mixed sizeof_nfgenmsg
               (parse_nfqa_attr_cb LittleEndian 22) (tb_empty, errno world0)).
  assert (H0 : R = (fst R, (fst (snd R), snd (snd R))))
    by (destruct R as [r [t e]]; reflexivity).
  assert (H1 : (fst R <? 0) = false) by (vm_compute; reflexivity).
  assert (H2 : fst (snd R) NFQA_PACKET_HDR
               = Some [x0b; x00; x01; x00; x00; x00; x00; x2c; x08; x00; x01])
    by (vm_compute; reflexivity).
  assert (H3 : fst (snd R) NFQA_PAYLOAD
               = Some [x08; x00; x0a; x00; x45; x00; x00; x14])
    by (vm_compute; reflexivity).
  assert (H4 : mnl_attr_get_payload_len LittleEndian
                 [x08; x00; x0a; x00; x45; x00; x00; x14] <> 0)
    by (vm_compute; discriminate).
  assert (H5 : fst (fst (nfqueue_parse LittleEndian 22 27 3 4 9 msg_mixed
                           world0)) = false) by (vm_compute; reflexivity).
  assert (H6 : current_event LittleEndian msg_mixed buf_mixed)
    by (repeat split; vm_compute; congruence).
  destruct (nfqueue_parse_failure_keeps_payload LittleEndian 22 27 3 4 9
              msg_mixed world0 _ _ _ _ _ H0 H1 H2 H3 H4 H5)
    as (P1 & _ & P3 & _ & P5 & P6).
  assert (E1 : Z.pos (next_block world0) = 1) by reflexivity.
  assert (E2 : mnl_attr_get_payload_len LittleEndian
                 [x08; x00; x0a; x00; x45; x00; x00; x14] = 4)
    by (vm_compute; reflexivity).
  rewrite E1 in P1. rewrite E2 in P3. rewrite P1, P3 in P5.
  exact (conj H1 (conj H2 (conj H3 (conj H4 (conj H5 (conj P1 (conj P3
           (conj P5
              (P6 0%nat msg_mixed buf_mixed nf_packet_zero H6
                 eq_refl))))))))).
Defined.

(** [msg_event] carries a timestamp attribute that is all zero. *)
Lemma nfqueue_parse_timestamp_witness :
  (exists a_ts,
     fst (snd (mnl_attr_parse LittleEndian msg_event sizeof_nfgenmsg
                 (parse_nfqa_attr_cb LittleEndian 22)
                 (tb_empty, errno world0))) NFQA_TIMESTAMP = Some a_ts
     /\ zero_timestamp LittleEndian a_ts)
  /\ has_timestamp
       (snd (fst (nfqueue_parse LittleEndian 22 27 3 4 9 msg_event world0)))
     = false
  /\ timestamp
       (snd (fst (nfqueue_parse LittleEndian 22 27 3 4 9 msg_event world0)))
     = {| tv_sec := 0; tv_usec := 0 |}
  /\ wall_time
       (snd (fst (nfqueue_parse LittleEndian 22 27 3 4 9 msg_event world0)))
     = clock_realtime world0
  /\ mono_time
       (snd (fst (nfqueue_parse LittleEndian 22 27 3 4 9 msg_event world0)))
     = clock_monotonic_raw world0.
Proof.
  pose (R := mnl_attr_parse LittleEndian msg_event sizeof_nfgenmsg
               (parse_nfqa_attr_cb LittleEndian 22) (tb_empty, errno world0)).
  assert (H0 : R = (fst R, (fst (snd R), snd (snd R))))
    by (destruct R as [r [t e]]; reflexivity).
  assert (H1 : exists a_ts,
             fst (snd R) NFQA_TIMESTAMP = Some a_ts
             /\ zero_timestamp LittleEndian a_ts).
  { eexists. split; [vm_compute; reflexivity | split; vm_compute; reflexivity]. }
  destruct (nfqueue_parse_timestamp LittleEndian 22 27 3 4 9 msg_event world0)
    as ([C1 C2] & _ & Hz).
  destruct (Hz _ _ _ H0 (or_intror H1)) as [Z1 Z2].
  exact (conj H1 (conj Z1 (conj Z2 (conj C1 C2)))).
Defined.

(** The original tuple of [msg_mixed] has an IPv4 source and an IPv6
    destination. *)
Lemma mixed_ip_versions_fail_witness :
  NFQA_CT <= to_u16 22 /\ CTA_TUPLE_REPLY <= to_u16 27
  /\ CTA_TUPLE_IP <= to_u16 3 /\ CTA_IP_V6_DST <= to_u16 4
  /\ tuple_mixed LittleEndian attr_tuple_mixed
  /\ msg_has_mixed_tuple LittleEndian msg_mixed
  /\ fst (fst (read_addr_tuple LittleEndian 3 4 9 attr_tuple_mixed
                 ip_tuple_zero world0)) = false
  /\ fst (fst (nfqueue_parse LittleEndian 22 27 3 4 9 msg_mixed world0))
     = false.
Proof.
  assert (B0 : NFQA_CT <= to_u16 22) by (vm_compute; discriminate).
  assert (B1 : CTA_TUPLE_REPLY <= to_u16 27) by (vm_compute; discriminate).
  assert (B2 : CTA_TUPLE_IP <= to_u16 3) by (vm_compute; discriminate).
  assert (B3 : CTA_IP_V6_DST <= to_u16 4) by (vm_compute; discriminate).
  assert (Hip : forall ipb,
            In ipb (nested_attrs LittleEndian attr_tuple_mixed) ->
            mnl_attr_get_type LittleEndian ipb = CTA_TUPLE_IP ->
            ip_block_mixed LittleEndian ipb).
  { intros ipb Hin _. in_cases Hin. split; [left|right]; eexists.
    - split; [vm_compute; left; reflexivity | vm_compute; reflexivity].
    - split; [vm_compute; right; left; reflexivity
             | vm_compute; reflexivity]. }
  assert (Ht : tuple_mixed LittleEndian attr_tuple_mixed).
  { split; [|exact Hip]. eexists.
    split; [vm_compute; left; reflexivity | vm_compute; reflexivity]. }
  assert (Hct : forall ct,
            In ct (msg_attrs LittleEndian msg_mixed) ->
            mnl_attr_get_type LittleEndian ct = NFQA_CT ->
            ct_has_mixed_tuple LittleEndian ct).
  { intros ct Hin Hty. in_cases Hin; try (vm_compute in Hty; discriminate).
    exists CTA_TUPLE_ORIG. split; [left; reflexivity|]. split.
    - eexists.
      split; [vm_compute; left; reflexivity | vm_compute; reflexivity].
    - intros t Hin' _. in_cases Hin'. exact Ht. }
  assert (Hm : msg_has_mixed_tuple LittleEndian msg_mixed).
  { split; [|exact Hct]. eexists.
    split; [vm_compute; right; right; left; reflexivity
           | vm_compute; reflexivity]. }
  destruct (mixed_ip_versions_fail LittleEndian 22 27 3 4 9 B0 B1 B2 B3)
    as (T1 & T2 & _).
  exact (conj B0 (conj B1 (conj B2 (conj B3 (conj Ht (conj Hm
           (conj (T1 _ ip_tuple_zero world0 Ht) (T2 _ world0 Hm)))))))).
Defined.

(** Two packet events in one buffer, with two stale bytes after them. *)
Lemma nfqueue_next_yields_each_message_witness :
  Forall (event_msg LittleEndian 22 27 3 4 9) [msg_event; msg_event2]
  /\ Z.of_nat (length (concat [msg_event; msg_event2])) < 2 ^ 31
  /\ exists bufN,
       nfqueue_next_calls LittleEndian 22 27 3 4 9 1 2
         (received (concat [msg_event; msg_event2] ++ [xde; xad])
            (Z.of_nat (length (concat [msg_event; msg_event2]))))
         nf_packet_zero world0
       = Some (map (pair IO_READY)
                 (fst (assembled LittleEndian 22 27 3 4 9
                         [msg_event; msg_event2] world0)),
               bufN,
               snd (assembled LittleEndian 22 27 3 4 9
                      [msg_event; msg_event2] world0))
       /\ length (fst (assembled LittleEndian 22 27 3 4 9
                         [msg_event; msg_event2] world0)) = 2%nat
       /\ forall fuel' packet' w',
            nfqueue_next LittleEndian 22 27 3 4 9 (S fuel') bufN packet' w'
            = Some (Returns (IO_NOTREADY, bufN, packet', w')).
Proof.
  assert (Hev : forall m,
            In m [msg_event; msg_event2] ->
            event_msg LittleEndian 22 27 3 4 9 m).
  { intros m [<-|[<-|[]]]; repeat split; try (vm_compute; congruence);
      intros w;
      rewrite (nfqueue_parse_indep LittleEndian 22 27 3 4 9 _ w world0);
      vm_compute; reflexivity. }
  assert (H1 : Forall (event_msg LittleEndian 22 27 3 4 9)
                 [msg_event; msg_event2]).
  { constructor; [apply Hev; left; reflexivity|].
    constructor; [apply Hev; right; left; reflexivity | constructor]. }
  assert (H2 : Z.of_nat (length (concat [msg_event; msg_event2])) < 2 ^ 31)
    by (vm_compute; reflexivity).
  exact (conj H1 (conj H2
           (nfqueue_next_yields_each_message LittleEndian 22 27 3 4 9 0
              [msg_event; msg_event2] [xde; xad] nf_packet_zero world0
              H1 H2))).
Defined.

(** Verdicts for packet 42 on queue 5 with connmark -1, 0 and 4294967295. *)
Lemma verdict_connmark_encoding_witness :
  (-1 < 0 /\ verdict_size (-1) <= to_size_t (SEND_BUF_LEN 8192)
   /\ verdict_size 0 <= to_size_t (SEND_BUF_LEN 8192)
   /\ verdict_size 4294967295 <= to_size_t (SEND_BUF_LEN 8192))
  /\ (sent (snd (nfqueue_verdict LittleEndian 8192 sendto_all queue5 42
                   NF_ACCEPT (-1) world0))
      = [verdict_image LittleEndian 5 42 NF_ACCEPT None]
      /\ lacks_attr LittleEndian NFQA_CT
           (msg_attrs LittleEndian
              (verdict_image LittleEndian 5 42 NF_ACCEPT None)))
  /\ (sent (snd (nfqueue_verdict LittleEndian 8192 sendto_all queue5 42
                   NF_ACCEPT 0 world0))
      = [verdict_image LittleEndian 5 42 NF_ACCEPT
           (Some [x00; x00; x00; x00])]
      /\ carries_mark LittleEndian
           (verdict_image LittleEndian 5 42 NF_ACCEPT
              (Some [x00; x00; x00; x00])) [x00; x00; x00; x00])
  /\ (sent (snd (nfqueue_verdict LittleEndian 8192 sendto_all queue5 42
                   NF_ACCEPT 4294967295 world0))
      = [verdict_image LittleEndian 5 42 NF_ACCEPT
           (Some [xff; xff; xff; xff])]
      /\ carries_mark LittleEndian
           (verdict_image LittleEndian 5 42 NF_ACCEPT
              (Some [xff; xff; xff; xff])) [xff; xff; xff; xff]).
Proof.
  assert (H0 : -1 < 0) by reflexivity.
  assert (H1 : verdict_size (-1) <= to_size_t (SEND_BUF_LEN 8192))
    by (vm_compute; discriminate).
  assert (H2 : verdict_size 0 <= to_size_t (SEND_BUF_LEN 8192))
    by (vm_compute; discriminate).
  assert (H3 : verdict_size 4294967295 <= to_size_t (SEND_BUF_LEN 8192))
    by (vm_compute; discriminate).
  destruct (verdict_connmark_encoding LittleEndian 8192 sendto_all queue5 42
              NF_ACCEPT world0) as (Tneg & T0 & Tff).
  destruct (Tneg (-1) H0 H1) as (_ & N2 & N3).
  destruct (T0 H2) as (_ & Z2 & Z3).
  destruct (Tff H3) as (_ & F2 & F3).
  exact (conj (conj H0 (conj H1 (conj H2 H3)))
           (conj (conj N2 N3) (conj (conj Z2 Z3) (conj F2 F3)))).
Defined.

(** A command with 8192 bytes of attribute data and a send buffer of 8192
    bytes, the value of [MNL_SOCKET_BUFFER_SIZE] on a system with pages of
    8192 bytes or more: the headers fit, the attribute does not. *)
Lemma encoding_out_of_space_witness :
  (command_size (repeat x00 (Z.to_nat 8192)) > to_size_t (SEND_BUF_LEN 8192)
   /\ Z.of_nat (length (repeat x00 (Z.to_nat 8192))) < 2 ^ 63
   /\ MNL_NLMSG_HDRLEN + sizeof_nfgenmsg <= to_size_t (SEND_BUF_LEN 8192))
  /\ fst (nfqueue_send_command LittleEndian 8192 sendto_all 5
            NFQNL_MSG_CONFIG NFQA_CFG_CMD (repeat x00 (Z.to_nat 8192)) world0)
     = BUF_TOO_SHORT
  /\ sent (snd (nfqueue_send_command LittleEndian 8192 sendto_all 5
                  NFQNL_MSG_CONFIG NFQA_CFG_CMD
                  (repeat x00 (Z.to_nat 8192)) world0))
     = sent world0
  /\ errno (snd (nfqueue_send_command LittleEndian 8192 sendto_all 5
                   NFQNL_MSG_CONFIG NFQA_CFG_CMD
                   (repeat x00 (Z.to_nat 8192)) world0))
     = ENOBUFS.
Proof.
  assert (H1 : command_size (repeat x00 (Z.to_nat 8192))
               > to_size_t (SEND_BUF_LEN 8192))
    by (vm_compute; reflexivity).
  assert (H2 : Z.of_nat (length (repeat x00 (Z.to_nat 8192))) < 2 ^ 63)
    by (vm_compute; reflexivity).
  assert (H3 : MNL_NLMSG_HDRLEN + sizeof_nfgenmsg
               <= to_size_t (SEND_BUF_LEN 8192))
    by (vm_compute; discriminate).
  destruct (proj1 (encoding_out_of_space LittleEndian 8192 sendto_all world0)
              5 NFQNL_MSG_CONFIG NFQA_CFG_CMD _ H2 H1) as (R1 & R2 & R3).
  exact (conj (conj H1 (conj H2 H3)) (conj R1 (conj R2 (R3 H3)))).
Defined.

(** ** Traces *)

(** The verdict with connmark 4294967295 as a little-endian host sends it:
    header, sub-header, verdict header, and the nested mark, ff ff ff ff. *)
Example verdict_bytes_little_endian :
  sent (snd (nfqueue_verdict LittleEndian 8192 sendto_all queue5 42 NF_ACCEPT
               4294967295 world0))
  = [[x2c; x00; x00; x00; x01; x03; x01; x00; x00; x00; x00; x00; x00; x00;
      x00; x00; x00; x00; x00; x05; x0c; x00; x02; x00; x00; x00; x00; x01;
      x00; x00; x00; x2a; x0c; x00; x0b; x80; x08; x00; x08; x00; xff; xff;
      xff; xff]].
Proof. vm_compute. reflexivity. Qed.

(** The same verdict with connmark 305419896 on a big-endian host: the host
    fields change sides, the protocol fields do not. *)
Example verdict_bytes_big_endian :
  sent (snd (nfqueue_verdict BigEndian 8192 sendto_all queue5 42 NF_ACCEPT
               305419896 world0))
  = [[x00; x00; x00; x2c; x03; x01; x00; x01; x00; x00; x00; x00; x00; x00;
      x00; x00; x00; x00; x00; x05; x00; x0c; x00; x02; x00; x00; x00; x01;
      x00; x00; x00; x2a; x00; x0c; x80; x0b; x00; x08; x00; x08; x12; x34;
      x56; x78]].
Proof. vm_compute. reflexivity. Qed.

(** Three calls on the buffer with the two packet events: READY with packet
    42, READY with packet 43, NOT-READY. *)
Example nfqueue_next_two_events :
  match
    nfqueue_next_calls LittleEndian 22 27 3 4 9 1 3
      (received (msg_event ++ msg_event2 ++ [xde; xad]) 132) nf_packet_zero
      world0
  with
  | Some (l, b, _) => (map (fun r => (fst r, packet_id (snd r))) l, len b)
  | None => ([], -1)
  end
  = ([(IO_READY, 42); (IO_READY, 43); (IO_NOTREADY, 43)], 0).
Proof. vm_compute. reflexivity. Qed.

(** The configure command of [nfqueue_open] with a queue length of ten. *)
Example set_params_bytes :
  sent (snd (nfqueue_set_params LittleEndian 8192 sendto_all 5
               NFQNL_COPY_PACKET 0xFFFF 10 NFQA_CFG_F_CONNTRACK world0))
  = [[x38; x00; x00; x00; x02; x03; x01; x00; x00; x00; x00; x00; x00; x00;
      x00; x00; x00; x00; x00; x05; x09; x00; x02; x00; x00; x00; xff; xff;
      x02; x00; x00; x00; x08; x00; x03; x00; x00; x00; x00; x0a; x08; x00;
      x05; x00; x00; x00; x00; x02; x08; x00; x04; x00; x00; x00; x00;
      x02]].
Proof. vm_compute. reflexivity. Qed.

(** The packet assembled from [msg_event2]. *)
Example nfqueue_parse_event2 :
  let '(ok, p, w) := nfqueue_parse LittleEndian 22 27 3 4 9 msg_event2 world0 in
  (ok, queue_num p, packet_id p, hw_protocol p, payload_len p, payload p,
   has_timestamp p, timestamp p, has_conntrack p, conn_state p, heap w)
  = (true, 5, 43, 0x0800, 3, 1, true, {| tv_sec := 1; tv_usec := 2 |}, false,
     2, [(1, [x60; x01; x02])]).
Proof. vm_compute. reflexivity. Qed.

(** An empty payload attribute: the assembler refuses the message and says
    why. *)
Example nfqueue_parse_empty_payload :
  let '(ok, p, w) :=
    nfqueue_parse LittleEndian 22 27 3 4 9 msg_empty_payload world0 in
  (ok, payload p, log w)
  = (false, 0, [(LOG_ERR, "Packet payload has zero length"%string)]).
Proof. vm_compute. reflexivity. Qed.

(** [msg_mixed]: the mismatch is logged, the tuple parse fails, and the
    block with the copy of the payload stays on the heap. *)
Example nfqueue_parse_mixed :
  let '(ok, p, w) := nfqueue_parse LittleEndian 22 27 3 4 9 msg_mixed world0 in
  (ok, payload p, payload_len p, ip_version (orig p), heap w,
   map snd (log w))
  = (false, 1, 4, 4, [(1, [x45; x00; x00; x14])],
     ["Kernel does not support packet timestamps"%string;
      "Packet timestamp not set"%string;
      "Packet with mismatched IP versions"%string;
      "read_addr_tuple(orig): %s"%string]).
Proof. vm_compute. reflexivity. Qed.

(** * More runs on the samples *)

(** The bind command for queue 5. *)
Lemma nfqueue_send_command_result_witness :
  Z.of_nat (length [x01; x00; x00; x00]) < 2 ^ 15
  /\ command_size [x01; x00; x00; x00] <= to_size_t (SEND_BUF_LEN 8192)
  /\ (let img :=
        nfq_msg_image LittleEndian (to_u16 5) NFQNL_MSG_CONFIG
          (nlattr_image LittleEndian (to_u16 NFQA_CFG_CMD)
             [x01; x00; x00; x00]) in
      let answer := sendto_all img (errno world0) in
      let r :=
        nfqueue_send_command LittleEndian 8192 sendto_all 5 NFQNL_MSG_CONFIG
          NFQA_CFG_CMD [x01; x00; x00; x00] world0 in
      sent (snd r) = sent world0 ++ [img]
      /\ fst r = to_int (fst answer)
      /\ errno (snd r)
         = (if to_int (fst answer) =? BUF_TOO_SHORT then ENOBUFS
            else snd answer)
      /\ heap (snd r) = heap world0 /\ log (snd r) = log world0).
Proof.
  assert (H1 : Z.of_nat (length [x01; x00; x00; x00]) < 2 ^ 15)
    by (vm_compute; reflexivity).
  assert (H2 : command_size [x01; x00; x00; x00]
               <= to_size_t (SEND_BUF_LEN 8192))
    by (vm_compute; discriminate).
  exact (conj H1 (conj H2
           (nfqueue_send_command_result LittleEndian 8192 sendto_all 5
              NFQNL_MSG_CONFIG NFQA_CFG_CMD [x01; x00; x00; x00] world0
              H1 H2))).
Defined.

(** A verdict for packet 42 with connmark -1. *)
Lemma nfqueue_send_verdict_no_connmark_witness :
  -1 < 0
  /\ nfqueue_send_verdict_connmark LittleEndian 8192 sendto_all 5 42
       NF_ACCEPT (-1) world0
     = nfqueue_send_verdict LittleEndian 8192 sendto_all 5 42 NF_ACCEPT
         world0.
Proof.
  assert (H1 : -1 < 0) by reflexivity.
  exact (conj H1
           (nfqueue_send_verdict_no_connmark LittleEndian 8192 sendto_all 5
              42 NF_ACCEPT (-1) world0 H1)).
Defined.

(** The configuration of queue 5 as [nfqueue_open] asks for it, with a queue
    length of 1024. *)
Lemma nfqueue_set_params_wire_witness :
  set_params_size 1024 NFQA_CFG_F_CONNTRACK <= to_size_t (SEND_BUF_LEN 8192)
  /\ (let img :=
        nfq_msg_image LittleEndian (to_u16 5) NFQNL_MSG_CONFIG
          (set_params_attrs LittleEndian NFQNL_COPY_PACKET (to_u32 65535)
             1024 NFQA_CFG_F_CONNTRACK) in
      sent (snd (nfqueue_set_params LittleEndian 8192 sendto_all 5
                   NFQNL_COPY_PACKET 65535 1024 NFQA_CFG_F_CONNTRACK world0))
      = sent world0 ++ [img]
      /\ msg_attrs LittleEndian img
         = nlattr_head LittleEndian NFQA_CFG_PARAMS
             (be_encode 4 (to_u32 65535) ++ [byte_of_Z NFQNL_COPY_PACKET])
           :: (if 0 <? 1024
               then [nlattr_head LittleEndian NFQA_CFG_QUEUE_MAXLEN
                       (be_encode 4 1024)]
               else [])
              ++ (if NFQA_CFG_F_CONNTRACK =? 0 then []
                  else [nlattr_head LittleEndian NFQA_CFG_FLAGS
                          (be_encode 4 NFQA_CFG_F_CONNTRACK);
                        nlattr_head LittleEndian NFQA_CFG_MASK
                          (be_encode 4 NFQA_CFG_F_CONNTRACK)])).
Proof.
  assert (H1 : set_params_size 1024 NFQA_CFG_F_CONNTRACK
               <= to_size_t (SEND_BUF_LEN 8192))
    by (vm_compute; discriminate).
  exact (conj H1
           (nfqueue_set_params_wire LittleEndian 8192 sendto_all 5
              NFQNL_COPY_PACKET 65535 1024 NFQA_CFG_F_CONNTRACK world0 H1)).
Defined.

(** A verdict for packet 42 on queue 5 that sets connmark 7. *)
Lemma nfqueue_verdict_result_witness :
  verdict_size 7 <= to_size_t (SEND_BUF_LEN 8192)
  /\ (let img :=
        verdict_image LittleEndian (to_u16 (q_queue_num queue5)) 42
          (to_u32 NF_ACCEPT)
          (if 0 <=? 7 then Some (be_encode 4 (to_u32 7)) else None) in
      let r :=
        nfqueue_verdict LittleEndian 8192 sendto_all queue5 42 NF_ACCEPT 7
          world0 in
      fst r = (0 <=? to_int (fst (sendto_all img (errno world0))))
      /\ sent (snd r) = sent world0 ++ [img]).
Proof.
  assert (H1 : verdict_size 7 <= to_size_t (SEND_BUF_LEN 8192))
    by (vm_compute; discriminate).
  exact (conj H1
           (nfqueue_verdict_result LittleEndian 8192 sendto_all queue5 42
              NF_ACCEPT 7 world0 H1)).
Defined.

(** [nfqueue_next] on a buffer that holds [msg_event] and [msg_event2]: the
    call yields the first and leaves the cursor on the second. *)
Lemma nfqueue_next_cursor_witness :
  exists r buf' p' w',
    len (received (msg_event ++ msg_event2) 132) < 2 ^ 31
    /\ (forall d,
          data (received (msg_event ++ msg_event2) 132) = Some d ->
          hdr_nlmsg_len LittleEndian
            (cursor_mem d (received (msg_event ++ msg_event2) 132))
          < 2 ^ 31)
    /\ nfqueue_next LittleEndian 22 27 3 4 9 1
         (received (msg_event ++ msg_event2) 132) nf_packet_zero world0
       = Some (Returns (r, buf', p', w'))
    /\ (r = IO_READY /\ nlh buf' = 64 /\ len buf' = 68)
    /\ (r = IO_ERROR \/ r = IO_NOTREADY \/ r = IO_READY)
    /\ data buf' = data (received (msg_event ++ msg_event2) 132)
    /\ nlh buf' + len buf'
       = nlh (received (msg_event ++ msg_event2) 132)
         + len (received (msg_event ++ msg_event2) 132)
    /\ (r = IO_READY ->
        nlh (received (msg_event ++ msg_event2) 132) + 16 <= nlh buf'
        /\ -3 <= len buf'
           <= len (received (msg_event ++ msg_event2) 132) - 16)
    /\ (r <> IO_READY -> buf' = received (msg_event ++ msg_event2) 132).
Proof.
  assert (H1 : len (received (msg_event ++ msg_event2) 132) < 2 ^ 31)
    by (vm_compute; reflexivity).
  assert (H2 : forall d,
            data (received (msg_event ++ msg_event2) 132) = Some d ->
            hdr_nlmsg_len LittleEndian
              (cursor_mem d (received (msg_event ++ msg_event2) 132))
            < 2 ^ 31).
  { intros d E. injection E as <-. vm_compute. reflexivity. }
  assert (E : exists r buf' p' w',
            nfqueue_next LittleEndian 22 27 3 4 9 1
              (received (msg_event ++ msg_event2) 132) nf_packet_zero world0
            = Some (Returns (r, buf', p', w'))
            /\ r = IO_READY /\ nlh buf' = 64 /\ len buf' = 68).
  { do 4 eexists. split; [vm_compute; reflexivity|].
    split; [|split]; vm_compute; reflexivity. }
  destruct E as (r & buf' & p' & w' & E & Hr).
  exists r, buf', p', w'.
  exact (conj H1 (conj H2 (conj E (conj Hr
           (nfqueue_next_cursor LittleEndian 22 27 3 4 9 1 _ nf_packet_zero
              world0 r buf' p' w' H1 H2 E))))).
Defined.

(** [nfqueue_next] on the first twenty bytes of [msg_event]: the header says
    64 bytes. *)
Lemma nfqueue_next_incomplete_witness :
  data (received (firstn 20 msg_event) 20) = Some (firstn 20 msg_event)
  /\ (len (received (firstn 20 msg_event) 20) < 16
      \/ hdr_nlmsg_len LittleEndian
           (cursor_mem (firstn 20 msg_event)
              (received (firstn 20 msg_event) 20)) < 16
      \/ len (received (firstn 20 msg_event) 20)
         < to_int (hdr_nlmsg_len LittleEndian
                     (cursor_mem (firstn 20 msg_event)
                        (received (firstn 20 msg_event) 20))))
  /\ nfqueue_next LittleEndian 22 27 3 4 9 1
       (received (firstn 20 msg_event) 20) nf_packet_zero world0
     = Some (Returns (IO_NOTREADY, received (firstn 20 msg_event) 20,
                      nf_packet_zero, world0)).
Proof.
  assert (H1 : data (received (firstn 20 msg_event) 20)
               = Some (firstn 20 msg_event)) by reflexivity.
  assert (H2 : len (received (firstn 20 msg_event) 20) < 16
               \/ hdr_nlmsg_len LittleEndian
                    (cursor_mem (firstn 20 msg_event)
                       (received (firstn 20 msg_event) 20)) < 16
               \/ len (received (firstn 20 msg_event) 20)
                  < to_int (hdr_nlmsg_len LittleEndian
                              (cursor_mem (firstn 20 msg_event)
                                 (received (firstn 20 msg_event) 20)))).
  { right. right. vm_compute. reflexivity. }
  exact (conj H1 (conj H2
           (nfqueue_next_incomplete LittleEndian 22 27 3 4 9 0 _ _
              nf_packet_zero world0 H1 H2))).
Defined.

(** [nfqueue_open] for queue 5 with a queue length of 1024, on a system where
    every call succeeds. *)
Lemma nfqueue_open_sends_witness :
  exists q w',
    set_params_size 1024 NFQA_CFG_F_CONNTRACK
    <= to_size_t (SEND_BUF_LEN 8192)
    /\ nfqueue_open LittleEndian 8192 sendto_all calloc_ok socket_fd3 bind_ok
         5 1024 world0
       = Some (true, q, w')
    /\ sent w'
       = sent world0
         ++ [bind_image LittleEndian 5; config_image LittleEndian 5 1024].
Proof.
  assert (H1 : set_params_size 1024 NFQA_CFG_F_CONNTRACK
               <= to_size_t (SEND_BUF_LEN 8192))
    by (vm_compute; discriminate).
  assert (E : exists q w',
            nfqueue_open LittleEndian 8192 sendto_all calloc_ok socket_fd3
              bind_ok 5 1024 world0
            = Some (true, q, w')).
  { do 2 eexists. vm_compute. reflexivity. }
  destruct E as (q & w' & E).
  exists q, w'.
  exact (conj H1 (conj E
           (nfqueue_open_sends LittleEndian 8192 sendto_all calloc_ok
              socket_fd3 bind_ok 5 1024 world0 q w' H1 E))).
Defined.

(** The same [nfqueue_open], then [nfqueue_close]. *)
Lemma nfqueue_close_after_open_witness :
  exists ok q w',
    heap_find (Z.pos (next_block world0)) (heap world0) = None
    /\ nfqueue_open LittleEndian 8192 sendto_all calloc_ok socket_fd3 bind_ok
         5 1024 world0
       = Some (ok, q, w')
    /\ nl_socket q <> 0
    /\ (nl_socket q = 0 ->
        nfqueue_close LittleEndian close_ok q w'
        = Some (Dies (ASSERT_failed w')))
    /\ (nl_socket q <> 0 ->
        exists w'',
          nfqueue_close LittleEndian close_ok q w' = Some (Returns w'')
          /\ heap w'' = heap world0 /\ sent w'' = sent w'
          /\ nfqueue_close LittleEndian close_ok q w'' = None).
Proof.
  assert (H1 : heap_find (Z.pos (next_block world0)) (heap world0) = None)
    by reflexivity.
  assert (E : exists ok q w',
            nfqueue_open LittleEndian 8192 sendto_all calloc_ok socket_fd3
              bind_ok 5 1024 world0
            = Some (ok, q, w')
            /\ nl_socket q <> 0).
  { do 3 eexists. split; [vm_compute; reflexivity | vm_compute; discriminate]. }
  destruct E as (ok & q & w' & E & Hq).
  exists ok, q, w'.
  exact (conj H1 (conj E (conj Hq
           (nfqueue_close_after_open LittleEndian 8192 sendto_all calloc_ok
              socket_fd3 bind_ok close_ok 5 1024 world0 ok q w' H1 E)))).
Defined.

(** [nfqueue_receive] with a buffer whose region is there already, on a
    socket that delivers two packet events. *)
Lemma nfqueue_receive_buffer_witness :
  exists r buf' w',
    nfqueue_receive LittleEndian 8192 pselect_ready recvfrom_events
      malloc_zero queue5 (received (repeat x00 256) 0) 100
      world_socket
    = Some (Returns (r, buf', w'))
    /\ r = IO_READY
    /\ (r = IO_ERROR \/ r = IO_NOTREADY \/ r = IO_READY)
    /\ data buf' <> None
    /\ (r = IO_READY -> nlh buf' = 0 /\ 0 < len buf' < 2 ^ 31)
    /\ (r <> IO_READY ->
        nlh buf' = nlh (received (repeat x00 256) 0)
        /\ len buf' = len (received (repeat x00 256) 0))
    /\ sent w' = sent world_socket /\ heap w' = heap world_socket.
Proof.
  assert (E : exists r buf' w',
            nfqueue_receive LittleEndian 8192 pselect_ready recvfrom_events
              malloc_zero queue5 (received (repeat x00 256) 0) 100
              world_socket
            = Some (Returns (r, buf', w'))
            /\ r = IO_READY).
  { do 3 eexists. split; vm_compute; reflexivity. }
  destruct E as (r & buf' & w' & E & Hr).
  exists r, buf', w'.
  exact (conj E (conj Hr
           (nfqueue_receive_buffer LittleEndian 8192 pselect_ready
              recvfrom_events malloc_zero queue5 _ 100 world_socket r buf' w'
              E))).
Defined.

(** [nfqueue_receive] on a live socket whose [pselect] is interrupted. *)
Lemma nfqueue_receive_interrupted_witness :
  socket_live LittleEndian queue5 3 world_socket
  /\ (forall r,
        pselect_signal (3 + 1) [3]
          (if 100 >? 0 then Some (recv_timeout_ts 100) else None)
          (errno world_socket)
        = (r, EINTR) ->
        to_int r = -1 ->
        nfqueue_receive LittleEndian 8192 pselect_signal recvfrom_events
          malloc_zero queue5 (received msg_event 0) 100 world_socket
        = Some (Returns
                  (IO_NOTREADY,
                   with_region 8192 malloc_zero (received msg_event 0),
                   DEBUG "Netlink socket timeout"
                     (set_errno EINTR world_socket))))
  /\ (forall w1 retval r e bytes,
        recv_timeout pselect_signal 3 100 world_socket = (retval, w1) ->
        1 <= retval ->
        recvfrom_events 3 (to_size_t (RECV_BUF_LEN 8192)) (errno w1)
        = (r, e, bytes) ->
        to_int r < 0 ->
        e = EAGAIN \/ e = EINTR ->
        exists d,
          nfqueue_receive LittleEndian 8192 pselect_signal recvfrom_events
            malloc_zero queue5 (received msg_event 0) 100 world_socket
          = Some (Returns
                    (IO_NOTREADY,
                     {| data := Some d; nlh := nlh (received msg_event 0);
                        len := len (received msg_event 0) |},
                     DEBUG "No data from Netlink socket" (set_errno e w1)))).
Proof.
  assert (H1 : socket_live LittleEndian queue5 3 world_socket).
  { split; [vm_compute; discriminate | vm_compute; reflexivity]. }
  exact (conj H1
           (nfqueue_receive_interrupted LittleEndian 8192 pselect_signal
              recvfrom_events malloc_zero queue5 3 (received msg_event 0) 100
              world_socket H1)).
Defined.

(** [nfqueue_receive] on a socket that delivers [msg_event] and
    [msg_event2] in one datagram, then [nfqueue_next] until the buffer is
    used up. *)
Lemma nfqueue_receive_then_next_witness :
  socket_live LittleEndian queue5 3 world_socket
  /\ recv_timeout pselect_ready 3 100 world_socket = (1, world_socket)
  /\ 1 <= 1
  /\ recvfrom_events 3 (to_size_t (RECV_BUF_LEN 8192)) (errno world_socket)
     = (Z.of_nat (length (concat [msg_event; msg_event2])), 0,
        concat [msg_event; msg_event2])
  /\ Forall (event_msg LittleEndian 22 27 3 4 9) [msg_event; msg_event2]
  /\ [msg_event; msg_event2] <> []
  /\ Z.of_nat (length (concat [msg_event; msg_event2])) < 2 ^ 31
  /\ exists buf1 w2,
       nfqueue_receive LittleEndian 8192 pselect_ready recvfrom_events
         malloc_zero queue5 {| data := None; nlh := 0; len := 0 |} 100
         world_socket
       = Some (Returns (IO_READY, buf1, w2))
       /\ forall fuel packet,
            exists bufN,
              nfqueue_next_calls LittleEndian 22 27 3 4 9 (S fuel)
                (length [msg_event; msg_event2]) buf1 packet w2
              = Some (map (pair IO_READY)
                        (fst (assembled LittleEndian 22 27 3 4 9
                                [msg_event; msg_event2] w2)),
                      bufN,
                      snd (assembled LittleEndian 22 27 3 4 9
                             [msg_event; msg_event2] w2))
              /\ forall fuel' packet' w',
                   nfqueue_next LittleEndian 22 27 3 4 9 (S fuel') bufN
                     packet' w'
                   = Some (Returns (IO_NOTREADY, bufN, packet', w')).
Proof.
  assert (H1 : socket_live LittleEndian queue5 3 world_socket).
  { split; [vm_compute; discriminate | vm_compute; reflexivity]. }
  assert (H2 : recv_timeout pselect_ready 3 100 world_socket
               = (1, world_socket)) by (vm_compute; reflexivity).
  assert (H3 : 1 <= 1) by (vm_compute; discriminate).
  assert (H4 : recvfrom_events 3 (to_size_t (RECV_BUF_LEN 8192))
                 (errno world_socket)
               = (Z.of_nat (length (concat [msg_event; msg_event2])), 0,
                  concat [msg_event; msg_event2]))
    by (vm_compute; reflexivity).
  assert (Hev : forall m,
            In m [msg_event; msg_event2] ->
            event_msg LittleEndian 22 27 3 4 9 m).
  { intros m [<-|[<-|[]]]; repeat split; try (vm_compute; congruence);
      intros w;
      rewrite (nfqueue_parse_indep LittleEndian 22 27 3 4 9 _ w world0);
      vm_compute; reflexivity. }
  assert (H5 : Forall (event_msg LittleEndian 22 27 3 4 9)
                 [msg_event; msg_event2]).
  { constructor; [apply Hev; left; reflexivity|].
    constructor; [apply Hev; right; left; reflexivity | constructor]. }
  assert (H6 : [msg_event; msg_event2] <> []) by discriminate.
  assert (H7 : Z.of_nat (length (concat [msg_event; msg_event2])) < 2 ^ 31)
    by (vm_compute; reflexivity).
  exact (conj H1 (conj H2 (conj H3 (conj H4 (conj H5 (conj H6 (conj H7
           (nfqueue_receive_then_next LittleEndian 8192 22 27 3 4 9
              pselect_ready recvfrom_events malloc_zero queue5 3
              {| data := None; nlh := 0; len := 0 |} 100 world_socket
              world_socket 1 0 [msg_event; msg_event2]
              H1 H2 H3 H4 H5 H6 H7)))))))).
Defined.

Ltac last_at n l :=
  exists (firstn n l), (skipn (S n) l);
  split; [vm_compute; reflexivity|];
  split; [vm_compute; reflexivity|];
  intros b Hin; in_cases Hin; vm_compute; discriminate.

(** [msg_event]: packet 42 of queue 5. *)
Lemma nfqueue_parse_header_fields_witness :
  fst (fst (nfqueue_parse LittleEndian 22 27 3 4 9 msg_event world0)) = true
  /\ (let p :=
        snd (fst (nfqueue_parse LittleEndian 22 27 3 4 9 msg_event world0)) in
      exists a_hdr,
        last_of_type LittleEndian NFQA_PACKET_HDR a_hdr
          (msg_attrs LittleEndian msg_event)
        /\ length (mnl_attr_get_payload a_hdr) = 7%nat
        /\ packet_id p = be_decode (slice 0 4 (mnl_attr_get_payload a_hdr))
        /\ hw_protocol p = be_decode (slice 4 2 (mnl_attr_get_payload a_hdr))
        /\ queue_num p = be_decode (slice 18 2 msg_event)).
Proof.
  assert (H1 : fst (fst (nfqueue_parse LittleEndian 22 27 3 4 9 msg_event
                           world0)) = true) by (vm_compute; reflexivity).
  exact (conj H1
           (nfqueue_parse_header_fields LittleEndian 22 27 3 4 9 msg_event
              world0 H1)).
Defined.

(** [msg_event]: five bytes of payload. *)
Lemma nfqueue_parse_payload_copy_witness :
  fst (fst (nfqueue_parse LittleEndian 22 27 3 4 9 msg_event world0)) = true
  /\ (let p :=
        snd (fst (nfqueue_parse LittleEndian 22 27 3 4 9 msg_event world0)) in
      let w' := snd (nfqueue_parse LittleEndian 22 27 3 4 9 msg_event world0) in
      exists a_pl,
        last_of_type LittleEndian NFQA_PAYLOAD a_pl
          (msg_attrs LittleEndian msg_event)
        /\ payload_len p = Z.of_nat (length (mnl_attr_get_payload a_pl))
        /\ 0 < payload_len p < 2 ^ 16
        /\ payload p = Z.pos (next_block world0)
        /\ heap w' = (payload p, mnl_attr_get_payload a_pl) :: heap world0).
Proof.
  assert (H1 : fst (fst (nfqueue_parse LittleEndian 22 27 3 4 9 msg_event
                           world0)) = true) by (vm_compute; reflexivity).
  exact (conj H1
           (nfqueue_parse_payload_copy LittleEndian 22 27 3 4 9 msg_event
              world0 H1)).
Defined.

(** [msg_short_hdr]: the packet metaheader has four bytes. *)
Lemma nfqueue_parse_wrong_size_witness :
  In attr_short_hdr (msg_attrs LittleEndian msg_short_hdr)
  /\ mnl_attr_get_type LittleEndian attr_short_hdr <= to_u16 22
  /\ nfqa_payload_size (mnl_attr_get_type LittleEndian attr_short_hdr)
     = Some 7
  /\ mnl_attr_get_payload_len LittleEndian attr_short_hdr <> 7
  /\ nfqueue_parse LittleEndian 22 27 3 4 9 msg_short_hdr world0
     = (false, packet_init world0,
        LOG_SYSERR "mnl_attr_parse" (set_errno ERANGE world0)).
Proof.
  assert (H1 : In attr_short_hdr (msg_attrs LittleEndian msg_short_hdr))
    by (vm_compute; left; reflexivity).
  assert (H2 : mnl_attr_get_type LittleEndian attr_short_hdr <= to_u16 22)
    by (vm_compute; discriminate).
  assert (H3 : nfqa_payload_size
                 (mnl_attr_get_type LittleEndian attr_short_hdr) = Some 7)
    by (vm_compute; reflexivity).
  assert (H4 : mnl_attr_get_payload_len LittleEndian attr_short_hdr <> 7)
    by (vm_compute; discriminate).
  exact (conj H1 (conj H2 (conj H3 (conj H4
           (nfqueue_parse_wrong_size LittleEndian 22 27 3 4 9 msg_short_hdr
              world0 attr_short_hdr 7 H1 H2 H3 H4))))).
Defined.

(** [msg_event2]: a conntrack state and no tracking context. *)
Lemma nfqueue_parse_conntrack_presence_witness :
  fst (fst (nfqueue_parse LittleEndian 22 27 3 4 9 msg_event2 world0)) = true
  /\ (let p :=
        snd (fst (nfqueue_parse LittleEndian 22 27 3 4 9 msg_event2 world0))
      in
      (lacks_attr LittleEndian NFQA_CT (msg_attrs LittleEndian msg_event2) ->
       has_conntrack p = false /\ has_connmark p = false /\ conn_id p = 0
       /\ conn_mark p = 0 /\ conn_status p = 0 /\ orig p = ip_tuple_zero
       /\ reply p = ip_tuple_zero)
      /\ (NFQA_CT <= to_u16 22 ->
          has_attr LittleEndian NFQA_CT (msg_attrs LittleEndian msg_event2) ->
          has_conntrack p = true)
      /\ (lacks_attr LittleEndian NFQA_CT_INFO
            (msg_attrs LittleEndian msg_event2) ->
          conn_state p = 0)).
Proof.
  assert (H1 : fst (fst (nfqueue_parse LittleEndian 22 27 3 4 9 msg_event2
                           world0)) = true) by (vm_compute; reflexivity).
  exact (conj H1
           (nfqueue_parse_conntrack_presence LittleEndian 22 27 3 4 9
              msg_event2 world0 H1)).
Defined.

(** [msg_event2]: a timestamp of 1 s 2 us. *)
Lemma nfqueue_parse_timestamp_value_witness :
  NFQA_TIMESTAMP <= to_u16 22
  /\ fst (fst (nfqueue_parse LittleEndian 22 27 3 4 9 msg_event2 world0))
     = true
  /\ last_of_type LittleEndian NFQA_TIMESTAMP attr_timestamp2
       (msg_attrs LittleEndian msg_event2)
  /\ (load LittleEndian 8 0 (mnl_attr_get_payload attr_timestamp2) <> 0
      \/ load LittleEndian 8 8 (mnl_attr_get_payload attr_timestamp2) <> 0)
  /\ (let p :=
        snd (fst (nfqueue_parse LittleEndian 22 27 3 4 9 msg_event2 world0))
      in
      let ts := mnl_attr_get_payload attr_timestamp2 in
      length ts = 16%nat
      /\ has_timestamp p = true
      /\ tv_sec (timestamp p) = to_i64 (be_decode (slice 0 8 ts))
      /\ tv_usec (timestamp p) = to_i64 (be_decode (slice 8 8 ts))).
Proof.
  assert (H1 : NFQA_TIMESTAMP <= to_u16 22) by (vm_compute; discriminate).
  assert (H2 : fst (fst (nfqueue_parse LittleEndian 22 27 3 4 9 msg_event2
                           world0)) = true) by (vm_compute; reflexivity).
  assert (H3 : last_of_type LittleEndian NFQA_TIMESTAMP attr_timestamp2
                 (msg_attrs LittleEndian msg_event2)).
  { unfold last_of_type. last_at 1%nat (msg_attrs LittleEndian msg_event2). }
  assert (H4 : load LittleEndian 8 0 (mnl_attr_get_payload attr_timestamp2)
               <> 0
               \/ load LittleEndian 8 8
                    (mnl_attr_get_payload attr_timestamp2) <> 0).
  { left. vm_compute. discriminate. }
  assert (H5 : ~ zero_timestamp LittleEndian attr_timestamp2).
  { intros [Z1 Z2]. destruct H4 as [N|N]; [exact (N Z1) | exact (N Z2)]. }
  exact (conj H1 (conj H2 (conj H3 (conj H4
           (nfqueue_parse_timestamp_value LittleEndian 22 27 3 4 9
              msg_event2 world0 attr_timestamp2 H1 H2 H3 H5))))).
Defined.

(** Connmark 7 on a verdict for packet 42 of queue 5. *)
Lemma connmark_round_trip_witness :
  CTA_MARK <= to_u16 27
  /\ 0 <= 7 < 2 ^ 32
  /\ verdict_size 7 <= to_size_t (SEND_BUF_LEN 8192)
  /\ exists d ct,
       sent (snd (nfqueue_send_verdict_connmark LittleEndian 8192 sendto_all
                    5 42 NF_ACCEPT 7 world0))
       = sent world0 ++ [d]
       /\ In ct (msg_attrs LittleEndian d)
       /\ mnl_attr_get_type LittleEndian ct = NFQA_CT
       /\ fst (fst (nfqueue_parse_ct LittleEndian 27 3 4 9 ct nf_packet_zero
                      world0)) = true
       /\ has_conntrack
            (snd (fst (nfqueue_parse_ct LittleEndian 27 3 4 9 ct
                         nf_packet_zero world0))) = true
       /\ has_connmark
            (snd (fst (nfqueue_parse_ct LittleEndian 27 3 4 9 ct
                         nf_packet_zero world0))) = true
       /\ conn_mark
            (snd (fst (nfqueue_parse_ct LittleEndian 27 3 4 9 ct
                         nf_packet_zero world0))) = 7.
Proof.
  assert (H1 : CTA_MARK <= to_u16 27) by (vm_compute; discriminate).
  assert (H2 : 0 <= 7 < 2 ^ 32)
    by (split; [vm_compute; discriminate | vm_compute; reflexivity]).
  assert (H3 : verdict_size 7 <= to_size_t (SEND_BUF_LEN 8192))
    by (vm_compute; discriminate).
  exact (conj H1 (conj H2 (conj H3
           (connmark_round_trip LittleEndian 8192 27 3 4 9 sendto_all 5 42
              NF_ACCEPT 7 world0 nf_packet_zero world0 H1 H2 H3)))).
Defined.

(** [attr_tuple_v4]: 192.168.0.1 to 192.168.0.2. *)
Lemma read_addr_tuple_addresses_witness :
  CTA_TUPLE_IP <= to_u16 3
  /\ CTA_IP_V6_DST <= to_u16 4
  /\ ip_version ip_tuple_zero = 0
  /\ length (src ip_tuple_zero) = 16%nat
  /\ length (dst ip_tuple_zero) = 16%nat
  /\ fst (fst (read_addr_tuple LittleEndian 3 4 9 attr_tuple_v4 ip_tuple_zero
                 world0)) = true
  /\ last_of_type LittleEndian CTA_TUPLE_IP attr_ip_v4
       (nested_attrs LittleEndian attr_tuple_v4)
  /\ (let tu :=
        snd (fst (read_addr_tuple LittleEndian 3 4 9 attr_tuple_v4
                    ip_tuple_zero world0)) in
      (forall a,
         last_of_type LittleEndian CTA_IP_V4_SRC a
           (nested_attrs LittleEndian attr_ip_v4) ->
         ip_version tu = IPV4
         /\ src tu = mnl_attr_get_payload a ++ repeat x00 12
         /\ length (mnl_attr_get_payload a) = 4%nat)
      /\ (forall a,
            last_of_type LittleEndian CTA_IP_V4_DST a
              (nested_attrs LittleEndian attr_ip_v4) ->
            ip_version tu = IPV4
            /\ dst tu = mnl_attr_get_payload a ++ repeat x00 12
            /\ length (mnl_attr_get_payload a) = 4%nat)
      /\ (forall a,
            last_of_type LittleEndian CTA_IP_V6_SRC a
              (nested_attrs LittleEndian attr_ip_v4) ->
            ip_version tu = IPV6 /\ src tu = mnl_attr_get_payload a
            /\ length (mnl_attr_get_payload a) = 16%nat)
      /\ (forall a,
            last_of_type LittleEndian CTA_IP_V6_DST a
              (nested_attrs LittleEndian attr_ip_v4) ->
            ip_version tu = IPV6 /\ dst tu = mnl_attr_get_payload a
            /\ length (mnl_attr_get_payload a) = 16%nat)).
Proof.
  assert (H1 : CTA_TUPLE_IP <= to_u16 3) by (vm_compute; discriminate).
  assert (H2 : CTA_IP_V6_DST <= to_u16 4) by (vm_compute; discriminate).
  assert (H3 : ip_version ip_tuple_zero = 0) by reflexivity.
  assert (H4 : length (src ip_tuple_zero) = 16%nat) by reflexivity.
  assert (H5 : length (dst ip_tuple_zero) = 16%nat) by reflexivity.
  assert (H6 : fst (fst (read_addr_tuple LittleEndian 3 4 9 attr_tuple_v4
                           ip_tuple_zero world0)) = true)
    by (vm_compute; reflexivity).
  assert (H7 : last_of_type LittleEndian CTA_TUPLE_IP attr_ip_v4
                 (nested_attrs LittleEndian attr_tuple_v4)).
  { unfold last_of_type.
    last_at 0%nat (nested_attrs LittleEndian attr_tuple_v4). }
  exact (conj H1 (conj H2 (conj H3 (conj H4 (conj H5 (conj H6 (conj H7
           (read_addr_tuple_addresses LittleEndian 3 4 9 attr_tuple_v4
              ip_tuple_zero world0 attr_ip_v4
              H1 H2 H3 H4 H5 H6 H7)))))))).
Defined.

(** [attr_tuple_v4]: port 8080 to port 80. *)
Lemma read_addr_tuple_ports_witness :
  CTA_TUPLE_PROTO <= to_u16 3
  /\ CTA_PROTO_DST_PORT <= to_u16 9
  /\ fst (fst (read_addr_tuple LittleEndian 3 4 9 attr_tuple_v4 ip_tuple_zero
                 world0)) = true
  /\ last_of_type LittleEndian CTA_TUPLE_PROTO attr_proto_ports
       (nested_attrs LittleEndian attr_tuple_v4)
  /\ (let tu :=
        snd (fst (read_addr_tuple LittleEndian 3 4 9 attr_tuple_v4
                    ip_tuple_zero world0)) in
      (forall a,
         last_of_type LittleEndian CTA_PROTO_SRC_PORT a
           (nested_attrs LittleEndian attr_proto_ports) ->
         src_port tu = be_decode (mnl_attr_get_payload a)
         /\ length (mnl_attr_get_payload a) = 2%nat)
      /\ (forall a,
            last_of_type LittleEndian CTA_PROTO_DST_PORT a
              (nested_attrs LittleEndian attr_proto_ports) ->
            dst_port tu = be_decode (mnl_attr_get_payload a)
            /\ length (mnl_attr_get_payload a) = 2%nat)
      /\ (lacks_attr LittleEndian CTA_PROTO_SRC_PORT
            (nested_attrs LittleEndian attr_proto_ports) ->
          src_port tu = src_port ip_tuple_zero)
      /\ (lacks_attr LittleEndian CTA_PROTO_DST_PORT
            (nested_attrs LittleEndian attr_proto_ports) ->
          dst_port tu = dst_port ip_tuple_zero)).
Proof.
  assert (H1 : CTA_TUPLE_PROTO <= to_u16 3) by (vm_compute; discriminate).
  assert (H2 : CTA_PROTO_DST_PORT <= to_u16 9) by (vm_compute; discriminate).
  assert (H3 : fst (fst (read_addr_tuple LittleEndian 3 4 9 attr_tuple_v4
                           ip_tuple_zero world0)) = true)
    by (vm_compute; reflexivity).
  assert (H4 : last_of_type LittleEndian CTA_TUPLE_PROTO attr_proto_ports
                 (nested_attrs LittleEndian attr_tuple_v4)).
  { unfold last_of_type.
    last_at 1%nat (nested_attrs LittleEndian attr_tuple_v4). }
  exact (conj H1 (conj H2 (conj H3 (conj H4
           (read_addr_tuple_ports LittleEndian 3 4 9 attr_tuple_v4
              ip_tuple_zero world0 attr_proto_ports H1 H2 H3 H4))))).
Defined.
